(** * StateManager11: the D3D11 render-state cache of ANGLE

    A shallow embedding of
    [gfx/angle/checkout/src/libANGLE/renderer/d3d/d3d11/StateManager11.cpp]
    and the properties its design document states about it.

    Conventions of the embedding.
    - Unsigned 32-bit quantities ([UINT], [GLuint], [unsigned int]) are [Z]
      with the wrap-around written out ([u32]); [int]/[GLint] are [Z].
    - Slot numbers and container sizes ([size_t] used as an index) are [nat];
      the code never lets them wrap.
    - Raw pointers are [Z] addresses, [0] being [nullptr]; a pointer that is
      known not to be null carries a [positive] address.
    - [float] is IEEE-754 binary32, taken from the Standard Library's
      [SpecFloat].
    - [ID3D11DeviceContext] is write-only from the point of view of this
      file: every call on it is recorded, in order, in a list of [Call]s.
    - [ASSERT], [UNREACHABLE] and [UNIMPLEMENTED] are release-build no-ops;
      where a property needs an asserted condition it is a hypothesis. *)

From stdpp Require Import base numbers list option.
From Stdlib Require Import ZArith Lia SpecFloat.

Set Default Proof Using "Type".

(* ================================================================== *)
(** * Machine integers and floats                                       *)
(* ================================================================== *)

Module Import Prim.
Local Open Scope Z_scope.

  (** [static_cast<unsigned int>]: reduction modulo 2^32. *)
Definition u32 (z : Z) : Z := z mod 2 ^ 32.

  (** [static_cast<int>] of a 32-bit pattern. *)
Definition s32 (z : Z) : Z :=
    let r := z mod 2 ^ 32 in if r <? 2 ^ 31 then r else r - 2 ^ 32.

Definition INT_MAX : Z := 2 ^ 31 - 1.
  (** [std::numeric_limits<UINT>::max()] *)
Definition UINT_MAX : Z := 2 ^ 32 - 1.

  (** binary32 *)
Definition GLfloat : Type := spec_float.
Definition f32_prec : Z := 24.
Definition f32_emax : Z := 128.
Definition fadd : GLfloat -> GLfloat -> GLfloat := SFadd f32_prec f32_emax.
Definition fsub : GLfloat -> GLfloat -> GLfloat := SFsub f32_prec f32_emax.
Definition fmul : GLfloat -> GLfloat -> GLfloat := SFmul f32_prec f32_emax.
Definition fdiv : GLfloat -> GLfloat -> GLfloat := SFdiv f32_prec f32_emax.
Definition feqb : GLfloat -> GLfloat -> bool := SFeqb.
Definition fltb : GLfloat -> GLfloat -> bool := SFltb.
  (** [static_cast<float>(int)] *)
Definition float_of_int (z : Z) : GLfloat :=
    binary_normalize f32_prec f32_emax z 0 false.
Definition f0 : GLfloat := S754_zero false.
Definition f1 : GLfloat := float_of_int 1.
Definition fm1 : GLfloat := float_of_int (-1).
  (** [0.5f] *)
Definition fhalf : GLfloat := S754_finite false 8388608 (-24).
End Prim.

(* ================================================================== *)
(** * common/mathutil.h, common/Optional.h                              *)
(* ================================================================== *)

(** Modelled from the spec: [gl::Range<T>] of common/mathutil.h, which is
    not among the sources.  The design document describes the ranges as
    half-open, [[rangeStart, highestUsed)]; [low] is included and [high] is
    not, a range whose [high] does not exceed its [low] is empty, and
    iterating a range visits [low, low+1, ..., high-1]. *)
Module Range.
Record t (T : Type) := make { low : T; high : T }.
Arguments make {T} _ _.
Arguments low {T} _.
Arguments high {T} _.

Definition empty (r : t nat) : bool := (high r <=? low r)%nat.
Definition length (r : t nat) : nat :=
    if empty r then 0%nat else (high r - low r)%nat.
  (** the indices a range-based [for] visits *)
Definition indices (r : t nat) : list nat := seq (low r) (length r).
Definition extend (r : t nat) (value : nat) : t nat :=
    make (if (value <? low r)%nat then value else low r)
         (if (high r <=? value)%nat then S value else high r).

Local Open Scope Z_scope.
  (** [RangeUI::intersects] on unsigned 32-bit bounds *)
Definition intersectsUI (r other : t Z) : bool :=
    if low r <=? low other then low other <? high r
    else low r <? high other.
End Range.

(** Modelled from the spec: [gl::clamp] of common/mathutil.h, which is not
    among the sources: the value limited to [[lo, hi]]. *)
Definition clampZ (x lo hi : Z) : Z :=
  if (x <? lo)%Z then lo else if (hi <? x)%Z then hi else x.

Definition clampF (x lo hi : GLfloat) : GLfloat :=
  if fltb x lo then lo else if fltb hi x then hi else x.

Definition clamp01 (x : GLfloat) : GLfloat := clampF x f0 f1.

(** [angle::Optional<T>]: [value()] of an invalid optional is what the
    asserting callers never read; it is the value-initialised [T]. *)
Definition Optional (T : Type) : Type := option T.
Definition valid {T} (o : Optional T) : bool :=
  match o with Some _ => true | None => false end.
Definition value_or {T} (d : T) (o : Optional T) : T :=
  match o with Some v => v | None => d end.

(* ================================================================== *)
(** * Shader stages and the D3D11 view descriptions                      *)
(* ================================================================== *)

(** [gl::ShaderType] *)
Inductive ShaderType := Vertex | Fragment | Geometry | Compute.

Definition ShaderType_eqb (a b : ShaderType) : bool :=
  match a, b with
  | Vertex, Vertex | Fragment, Fragment
  | Geometry, Geometry | Compute, Compute => true
  | _, _ => false
  end.

(** [gl::TextureType] *)
Inductive TextureType :=
  | TT_2D | TT_2DArray | TT_2DMultisample | TT_3D
  | TT_External | TT_Rectangle | TT_CubeMap.

Definition TextureType_eqb (a b : TextureType) : bool :=
  match a, b with
  | TT_2D, TT_2D | TT_2DArray, TT_2DArray
  | TT_2DMultisample, TT_2DMultisample | TT_3D, TT_3D
  | TT_External, TT_External | TT_Rectangle, TT_Rectangle
  | TT_CubeMap, TT_CubeMap => true
  | _, _ => false
  end.

(** [gl::ImageIndex]: the fields this file reads *)
Record ImageIndex := {
  ii_type : TextureType;
  mipIndex : Z;     (* GLint *)
  layerIndex : Z    (* GLint *)
}.

(** [D3D11_SRV_DIMENSION] *)
Inductive D3D11_SRV_DIMENSION :=
  | D3D11_SRV_DIMENSION_UNKNOWN
  | D3D11_SRV_DIMENSION_BUFFER
  | D3D11_SRV_DIMENSION_TEXTURE1D
  | D3D11_SRV_DIMENSION_TEXTURE1DARRAY
  | D3D11_SRV_DIMENSION_TEXTURE2D
  | D3D11_SRV_DIMENSION_TEXTURE2DARRAY
  | D3D11_SRV_DIMENSION_TEXTURE2DMS
  | D3D11_SRV_DIMENSION_TEXTURE2DMSARRAY
  | D3D11_SRV_DIMENSION_TEXTURE3D
  | D3D11_SRV_DIMENSION_TEXTURECUBE
  | D3D11_SRV_DIMENSION_TEXTURECUBEARRAY
  | D3D11_SRV_DIMENSION_BUFFEREX.

(** [D3D11_SHADER_RESOURCE_VIEW_DESC].  The members of its union that this
    file reads ([Texture2D], [Texture2DArray], [TextureCube], [Texture3D])
    start with the same two [UINT]s, and [Texture2DArray] continues with
    two more; the record lists the four words once. *)
Record D3D11_SHADER_RESOURCE_VIEW_DESC := {
  Format : Z;
  ViewDimension : D3D11_SRV_DIMENSION;
  MostDetailedMip : Z;
  MipLevels : Z;
  FirstArraySlice : Z;
  ArraySize : Z
}.

(** what [memset(.., 0, ..)] leaves in a description *)
Definition zero_SRV_DESC : D3D11_SHADER_RESOURCE_VIEW_DESC :=
  {| Format := 0; ViewDimension := D3D11_SRV_DIMENSION_UNKNOWN;
     MostDetailedMip := 0; MipLevels := 0;
     FirstArraySlice := 0; ArraySize := 0 |}.

(** [D3D11_UNORDERED_ACCESS_VIEW_DESC]; never inspected by this file *)
Record D3D11_UNORDERED_ACCESS_VIEW_DESC := {
  uav_Format : Z;
  uav_ViewDimension : Z;
  uav_words : list Z
}.

Definition zero_UAV_DESC : D3D11_UNORDERED_ACCESS_VIEW_DESC :=
  {| uav_Format := 0; uav_ViewDimension := 0; uav_words := [] |}.

(** A live [ID3D11View]: its address, what [GetResource] reports and what
    [GetDesc] fills in. *)
Record ID3D11View (DescType : Type) := {
  view_addr : positive;
  view_GetResource : Z;
  view_GetDesc : DescType
}.
Arguments view_addr {DescType} _.
Arguments view_GetResource {DescType} _.
Arguments view_GetDesc {DescType} _.

(** [reinterpret_cast<uintptr_t>] of a possibly null view pointer *)
Definition view_uintptr {DescType} (view : option (ID3D11View DescType)) : Z :=
  match view with
  | Some v => Zpos (view_addr v)
  | None => 0%Z
  end.

(** Does *not* increment the resource ref count!! *)
Definition GetViewResource {DescType} (view : ID3D11View DescType) : Z :=
  view_GetResource view.

(* ------------------------------------------------------------------ *)
(** ** ImageIndexConflictsWithSRV                                       *)
(* ------------------------------------------------------------------ *)

Section ImageIndexConflicts.
Local Open Scope Z_scope.

  (** [maxSrvMip] as each case of the switch computes it *)
Definition maxSrvMip_of (desc : D3D11_SHADER_RESOURCE_VIEW_DESC) : Z :=
    let allLevels := MipLevels desc =? UINT_MAX in
    let maxSrvMip := u32 (MipLevels desc + MostDetailedMip desc) in
    if allLevels then INT_MAX else maxSrvMip.

Definition ImageIndexConflictsWithSRV
      (index : ImageIndex) (desc : D3D11_SHADER_RESOURCE_VIEW_DESC) : bool :=
    let mipLevel := u32 (mipIndex index) in
    let textureType := ii_type index in
    match ViewDimension desc with
    | D3D11_SRV_DIMENSION_TEXTURE2D =>
        let maxSrvMip := maxSrvMip_of desc in
        let mipMin := u32 (mipIndex index) in
        let mipMax := INT_MAX in
        TextureType_eqb textureType TT_2D &&
        Range.intersectsUI (Range.make mipMin mipMax)
                           (Range.make (MostDetailedMip desc) maxSrvMip)
    | D3D11_SRV_DIMENSION_TEXTURE2DARRAY =>
        let layer := u32 (layerIndex index) in
        let maxSrvMip := maxSrvMip_of desc in
        let maxSlice := u32 (FirstArraySlice desc + ArraySize desc) in
        (TextureType_eqb textureType TT_2DArray ||
         TextureType_eqb textureType TT_CubeMap) &&
        (MostDetailedMip desc <=? mipLevel) && (mipLevel <? maxSrvMip) &&
        (FirstArraySlice desc <=? layer) && (layer <? maxSlice)
    | D3D11_SRV_DIMENSION_TEXTURECUBE =>
        let maxSrvMip := maxSrvMip_of desc in
        TextureType_eqb textureType TT_CubeMap &&
        (MostDetailedMip desc <=? mipLevel) && (mipLevel <? maxSrvMip)
    | D3D11_SRV_DIMENSION_TEXTURE3D =>
        let maxSrvMip := maxSrvMip_of desc in
        TextureType_eqb textureType TT_3D &&
        (MostDetailedMip desc <=? mipLevel) && (mipLevel <? maxSrvMip)
    | _ =>
        (* We only handle the cases corresponding to valid image indexes *)
        false
    end.
End ImageIndexConflicts.

(* ================================================================== *)
(** * StateManager11::ViewCache                                          *)
(* ================================================================== *)

Module ViewCache.
Section WithDesc.
Context {DescType : Type}.

    (** [ViewRecord<DescType>] *)
Record ViewRecord := {
      view : Z;        (* uintptr_t *)
      resource : Z;    (* uintptr_t *)
      desc : DescType
    }.

Record t := {
      mCurrentViews : list ViewRecord;
      mHighestUsedView : nat
    }.

Definition size (c : t) : nat := length (mCurrentViews c).
Definition highestUsed (c : t) : nat := mHighestUsedView c.

    (** [operator[]]; reading past the end is outside the C++ contract, the
        model reads an empty record there. *)
Definition at_ (zero : DescType) (c : t) (i : nat) : ViewRecord :=
      default {| view := 0; resource := 0; desc := zero |}
              (mCurrentViews c !! i).

    (** [initialize(size)]: [size] value-initialised records *)
Definition initialize (zero : DescType) (n : nat) : t :=
      {| mCurrentViews := replicate n {| view := 0; resource := 0; desc := zero |};
         mHighestUsedView := 0 |}.

    (** The [do { --mHighestUsedView; } while (mHighestUsedView > 0 &&
        mCurrentViews[mHighestUsedView].view == 0)] loop.  The argument is
        the counter before the decrement, which the caller knows to be
        positive; [views] already has the cleared slot. *)
Fixpoint scanDown (views : list ViewRecord) (h : nat) : nat :=
      match h with
      | O => O
      | S h' =>
          if (0 <? h')%nat
             && match views !! h' with
                | Some r => (view r =? 0)%Z
                | None => false
                end
          then scanDown views h'
          else h'
      end.

Definition update (c : t) (resourceIndex : nat)
        (v : option (ID3D11View DescType)) : t :=
      match mCurrentViews c !! resourceIndex with
      | None => c  (* ASSERT(resourceIndex < mCurrentViews.size()) *)
      | Some record =>
          match v with
          | Some live =>
              let record' := {| view := view_uintptr v;
                                resource := GetViewResource live;
                                desc := view_GetDesc live |} in
              {| mCurrentViews := <[resourceIndex := record']> (mCurrentViews c);
                 mHighestUsedView :=
                   Nat.max (resourceIndex + 1) (mHighestUsedView c) |}
          | None =>
              let record' := {| view := view_uintptr v;
                                resource := 0;
                                desc := desc record |} in
              let views' := <[resourceIndex := record']> (mCurrentViews c) in
              {| mCurrentViews := views';
                 mHighestUsedView :=
                   if (resourceIndex + 1 =? mHighestUsedView c)%nat
                   then scanDown views' (mHighestUsedView c)
                   else mHighestUsedView c |}
          end
      end.

Definition clear (zero : DescType) (c : t) : t :=
      match mCurrentViews c with
      | [] => c
      | _ =>
          {| mCurrentViews :=
               replicate (length (mCurrentViews c))
                         {| view := 0; resource := 0; desc := zero |};
             mHighestUsedView := 0 |}
      end.

    (** a slot holds a view *)
Definition occupied (c : t) (i : nat) : Prop :=
      exists r, mCurrentViews c !! i = Some r /\ view r <> 0%Z.

    (** the operations a client can apply to a cache *)
Inductive op :=
      | OpUpdate (slot : nat) (v : option (ID3D11View DescType))
      | OpClear.

Definition apply (zero : DescType) (c : t) (o : op) : t :=
      match o with
      | OpUpdate slot v => update c slot v
      | OpClear => clear zero c
      end.

Definition run (zero : DescType) (c : t) (ops : list op) : t :=
      fold_left (apply zero) ops c.
End WithDesc.
Arguments ViewRecord : clear implicits.
Arguments t : clear implicits.
Arguments op : clear implicits.
End ViewCache.

(* ================================================================== *)
(** * OpenGL ES and Direct3D 11 constants                                *)
(* ================================================================== *)

Module Import GLenum.
Local Open Scope Z_scope.
Definition GL_ZERO : Z := 0.
Definition GL_ONE : Z := 1.
Definition GL_NONE : Z := 0.
Definition GL_POINTS : Z := 0.
Definition GL_LINES : Z := 1.
Definition GL_LINE_LOOP : Z := 2.
Definition GL_LINE_STRIP : Z := 3.
Definition GL_TRIANGLES : Z := 4.
Definition GL_TRIANGLE_STRIP : Z := 5.
Definition GL_TRIANGLE_FAN : Z := 6.
Definition GL_LESS : Z := 0x0201.
Definition GL_ALWAYS : Z := 0x0207.
Definition GL_CW : Z := 0x0900.
Definition GL_CCW : Z := 0x0901.
Definition GL_UNSIGNED_INT : Z := 0x1405.
Definition GL_TEXTURE : Z := 0x1702.
Definition GL_KEEP : Z := 0x1E00.
Definition GL_REPEAT : Z := 0x2901.
Definition GL_CONSTANT_COLOR : Z := 0x8001.
Definition GL_ONE_MINUS_CONSTANT_COLOR : Z := 0x8002.
Definition GL_CONSTANT_ALPHA : Z := 0x8003.
Definition GL_ONE_MINUS_CONSTANT_ALPHA : Z := 0x8004.
Definition GL_FUNC_ADD : Z := 0x8006.
Definition GL_CLAMP_TO_EDGE : Z := 0x812F.
Definition GL_FRAMEBUFFER_DEFAULT : Z := 0x8218.
Definition GL_MIRRORED_REPEAT : Z := 0x8370.
Definition GL_RENDERBUFFER : Z := 0x8D41.
Definition GL_INVALID_INDEX : Z := 0xFFFFFFFF.
  (* sized integer formats *)
Definition GL_R8I : Z := 0x8231.
Definition GL_R8UI : Z := 0x8232.
Definition GL_R16I : Z := 0x8233.
Definition GL_R16UI : Z := 0x8234.
Definition GL_R32I : Z := 0x8235.
Definition GL_R32UI : Z := 0x8236.
Definition GL_RG8I : Z := 0x8237.
Definition GL_RG8UI : Z := 0x8238.
Definition GL_RG16I : Z := 0x8239.
Definition GL_RG16UI : Z := 0x823A.
Definition GL_RG32I : Z := 0x823B.
Definition GL_RG32UI : Z := 0x823C.
Definition GL_RGBA32UI : Z := 0x8D70.
Definition GL_RGB32UI : Z := 0x8D71.
Definition GL_RGBA16UI : Z := 0x8D76.
Definition GL_RGB16UI : Z := 0x8D77.
Definition GL_RGBA8UI : Z := 0x8D7C.
Definition GL_RGB8UI : Z := 0x8D7D.
Definition GL_RGBA32I : Z := 0x8D82.
Definition GL_RGB32I : Z := 0x8D83.
Definition GL_RGBA16I : Z := 0x8D88.
Definition GL_RGB16I : Z := 0x8D89.
Definition GL_RGBA8I : Z := 0x8D8E.
Definition GL_RGB8I : Z := 0x8D8F.
Definition GL_RGB10_A2UI : Z := 0x906F.
End GLenum.

Module Import D3Denum.
Local Open Scope Z_scope.
Definition DXGI_FORMAT_UNKNOWN : Z := 0.
Definition DXGI_FORMAT_R32_UINT : Z := 42.
Definition DXGI_FORMAT_R16_UINT : Z := 57.
Definition D3D_PRIMITIVE_TOPOLOGY_UNDEFINED : Z := 0.
Definition D3D_PRIMITIVE_TOPOLOGY_POINTLIST : Z := 1.
Definition D3D_PRIMITIVE_TOPOLOGY_LINELIST : Z := 2.
Definition D3D_PRIMITIVE_TOPOLOGY_LINESTRIP : Z := 3.
Definition D3D_PRIMITIVE_TOPOLOGY_TRIANGLELIST : Z := 4.
Definition D3D_PRIMITIVE_TOPOLOGY_TRIANGLESTRIP : Z := 5.
  (** [std::numeric_limits<GLsizei>::max()] *)
Definition GLsizei_max : Z := 2 ^ 31 - 1.
End D3Denum.

(* ================================================================== *)
(** * The logical (OpenGL ES) state this file reads                      *)
(* ================================================================== *)

Module Rectangle.
Record t := make { x : Z; y : Z; width : Z; height : Z }.
Definition eqb (a b : t) : bool :=
    ((x a =? x b) && (y a =? y b) && (width a =? width b)
     && (height a =? height b))%Z.
End Rectangle.

Module Extents.
Record t := make { width : Z; height : Z; depth : Z }.
End Extents.

Module Offset.
Record t := make { x : Z; y : Z; z : Z }.
Definition eqb (a b : t) : bool :=
    ((x a =? x b) && (y a =? y b) && (z a =? z b))%Z.
End Offset.

Module ColorF.
Record t := make { red : GLfloat; green : GLfloat; blue : GLfloat; alpha : GLfloat }.
  (** [operator==], member by member on floats *)
Definition eqb (a b : t) : bool :=
    feqb (red a) (red b) && feqb (green a) (green b)
    && feqb (blue a) (blue b) && feqb (alpha a) (alpha b).
End ColorF.

(** [gl::BlendState] *)
Record BlendState := {
  blend : bool;
  sourceBlendRGB : Z;
  destBlendRGB : Z;
  sourceBlendAlpha : Z;
  destBlendAlpha : Z;
  blendEquationRGB : Z;
  blendEquationAlpha : Z;
  colorMaskRed : bool;
  colorMaskGreen : bool;
  colorMaskBlue : bool;
  colorMaskAlpha : bool;
  sampleAlphaToCoverage : bool;
  dither : bool
}.

(** [gl::DepthStencilState] *)
Record DepthStencilState := {
  depthTest : bool;
  depthFunc : Z;
  depthMask : bool;
  stencilTest : bool;
  stencilFunc : Z;
  stencilMask : Z;
  stencilFail : Z;
  stencilPassDepthFail : Z;
  stencilPassDepthPass : Z;
  stencilWritemask : Z;
  stencilBackFunc : Z;
  stencilBackMask : Z;
  stencilBackFail : Z;
  stencilBackPassDepthFail : Z;
  stencilBackPassDepthPass : Z;
  stencilBackWritemask : Z
}.

(** [gl::CullFaceMode] *)
Inductive CullFaceMode := CullBack | CullFront | CullFrontAndBack.

Definition CullFaceMode_eqb (a b : CullFaceMode) : bool :=
  match a, b with
  | CullBack, CullBack | CullFront, CullFront
  | CullFrontAndBack, CullFrontAndBack => true
  | _, _ => false
  end.

(** [gl::RasterizerState] *)
Record RasterizerState := {
  cullFace : bool;
  cullMode : CullFaceMode;
  frontFace : Z;
  polygonOffsetFill : bool;
  polygonOffsetFactor : GLfloat;
  polygonOffsetUnits : GLfloat;
  pointDrawMode : bool;
  multiSample : bool;
  rasterizerDiscard : bool
}.

(** [gl::SamplerState]; the cache compares it with [memcmp], so the model
    keeps its object representation. *)
Definition SamplerState : Type := list Z.

(** [gl::FramebufferAttachment] *)
Record FramebufferAttachment := {
  att_type : Z;                    (* GLenum type() *)
  att_getSize : Extents.t;
  att_getTextureImageIndex : ImageIndex
}.

(** [RenderTarget11] *)
Record RenderTarget11 := {
  getRenderTargetView : Z;         (* ID3D11RenderTargetView* *)
  getDepthStencilView : Z;         (* ID3D11DepthStencilView* *)
  rt_getTexture : Z;               (* ID3D11Resource* *)
  rt_getSamples : Z
}.

(** the multiview layouts [handleMultiviewDrawFramebufferChange] tells apart *)
Inductive MultiviewLayout :=
  | GL_FRAMEBUFFER_MULTIVIEW_SIDE_BY_SIDE_ANGLE
  | GL_FRAMEBUFFER_MULTIVIEW_LAYERED_ANGLE
  | MultiviewLayoutNone.

(** [gl::Framebuffer] together with its [Framebuffer11] *)
Record Framebuffer := {
  fb_id : Z;
  getFirstColorbuffer : option FramebufferAttachment;
  getFirstNonNullAttachment : option FramebufferAttachment;
  getColorbuffer : nat -> option FramebufferAttachment;
  getDepthOrStencilbuffer : option FramebufferAttachment;
  hasDepth : bool;
  hasStencil : bool;
  getCachedSamples : Z;
  getDefaultWidth : Z;
  getDefaultHeight : Z;
  getDrawBufferStates : list Z;
  getViewportOffsets : option (list Offset.t);
  getMultiviewLayout : MultiviewLayout;
  (* Framebuffer11 *)
  getCachedColorRenderTargets : list (option RenderTarget11);
  getCachedDepthStencilRenderTarget : option RenderTarget11;
  getFirstRenderTarget : option RenderTarget11;
  markAttachmentsDirty : option Z  (* [Some e]: fails with error [e] *)
}.

(** [gl::FramebufferAttachment::GetDefaultViewportOffsetVector()] *)
Definition GetDefaultViewportOffsetVector : list Offset.t :=
  [Offset.make 0 0 0].

(** [gl::DrawCallParams] *)
Record DrawCallParams := {
  dc_mode : Z;
  dc_firstVertex : Z;
  dc_isDrawElements : bool;
  dc_type : Z;
  dc_indexCount : Z;
  dc_indices : Z
}.

(* ================================================================== *)
(** * gl::Error and angle::BitSet                                        *)
(* ================================================================== *)

(** [gl::Error] / [gl::ErrorOrResult<T>]: either [gl::NoError()] with a
    value, or an error with its code. *)
Inductive Result (A : Type) :=
  | NoError (a : A)
  | Error (code : Z).
Arguments NoError {A} _.
Arguments Error {A} _.

(** [angle::BitSet<N>]: the bits are the binary digits of a [Z]. *)
Module BitSet.
Local Open Scope Z_scope.
Definition t : Type := Z.
Definition none : t := 0.
  (** [set()] of an N-bit set *)
Definition all (N : nat) : t := Z.ones (Z.of_nat N).
Definition set (b : nat) (m : t) : t := Z.setbit m (Z.of_nat b).
Definition reset (b : nat) (m : t) : t := Z.clearbit m (Z.of_nat b).
Definition assign (b : nat) (v : bool) (m : t) : t :=
    if v then set b m else reset b m.
Definition test (m : t) (b : nat) : bool := Z.testbit m (Z.of_nat b).
Definition any (m : t) : bool := negb (m =? 0).
  (** [a & b], [a & ~b] *)
Definition and (a b : t) : t := Z.land a b.
Definition andnot (a b : t) : t := Z.ldiff a b.
  (** the set bits of an N-bit set, in the order the iterator yields them *)
Definition bits (N : nat) (m : t) : list nat :=
    filter (fun b => test m b = true) (seq 0 N).
End BitSet.

(* ================================================================== *)
(** * Collaborators: textures, buffers, programs, vertex arrays          *)
(* ================================================================== *)

(** [d3d11::Buffer] and the other [d3d11::Resource11] wrappers: the COM
    pointer ([get()], null when [!valid()]) and the serial. *)
Record Resource11 := {
  res_get : Z;
  res_getSerial : Z       (* ResourceSerial; 0 is the empty serial *)
}.
Definition res_valid (r : Resource11) : bool := negb (res_get r =? 0)%Z.
Definition res_null : Resource11 := {| res_get := 0; res_getSerial := 0 |}.

(** [d3d11::SharedSRV] / [d3d11::ShaderResourceView]: the wrapper object
    (whose own address callers pass around) and the view it holds. *)
Record SRVWrapper := {
  srv_this : positive;
  srv_get : option (ID3D11View D3D11_SHADER_RESOURCE_VIEW_DESC)
}.

(** [TextureStorage11] *)
Record TextureStorage11 := {
  getSRVForSampler : Result SRVWrapper;
  storage_generateSwizzles : Result unit
}.

(** [gl::Texture] with its [TextureD3D] *)
Record Texture := {
  tex_getType : TextureType;
  tex_getSamplerState : SamplerState;
  getEffectiveBaseLevel : Z;
  sizedInternalFormat : Z;
  getWrapS : Z;
  getWrapT : Z;
  getWrapR : Z;
  swizzleRequired : bool;
  getNativeTexture : Result (option TextureStorage11)
}.

(** [Buffer11] *)
Record Buffer11 := {
  b11_this : Z;
  getBuffer_VERTEX_OR_TRANSFORM_FEEDBACK : Result Z;
  getBuffer_INDEX : Result Z;
  getEmulatedIndexedBuffer : Z -> Result Z;   (* by first vertex *)
  (* offset, size -> constant buffer, firstConstant, numConstants *)
  getConstantBufferRange : Z -> Z -> Result (Resource11 * Z * Z)
}.

(** [gl::VertexAttribute] *)
Record VertexAttribute := {
  va_enabled : bool;
  va_bindingIndex : nat
}.

(** [TranslatedAttribute] *)
Record TranslatedAttribute := {
  ta_attribute : option VertexAttribute;
  ta_currentValueType : Z;
  ta_binding : option nat;
  ta_storage : option Buffer11;
  ta_vertexBuffer : Z;          (* the VertexBuffer11's ID3D11Buffer* *)
  ta_stride : Z;
  ta_divisor : Z;
  ta_computeOffset : Z -> Result Z
}.

Definition empty_TranslatedAttribute : TranslatedAttribute :=
  {| ta_attribute := None; ta_currentValueType := 0; ta_binding := None;
     ta_storage := None; ta_vertexBuffer := 0; ta_stride := 0;
     ta_divisor := 0; ta_computeOffset := fun _ => NoError 0%Z |}.

(** [TranslatedIndexData] *)
Record TranslatedIndexData := {
  tid_indexType : Z;
  tid_startOffset : Z;
  tid_storage : option Buffer11;
  tid_indexBuffer : Z;          (* the IndexBuffer11's ID3D11Buffer* *)
  tid_srcBuffer : option (Result Z);   (* srcIndexData.srcBuffer, getData *)
  tid_srcIndicesChanged : bool
}.

(** [ShaderExecutable11] *)
Record ShaderExecutable11 := {
  getVertexShader : Resource11;
  getPixelShader : Resource11;
  getGeometryShader : Resource11;
  getStreamOutShader : Resource11
}.

(** [UniformStorage11] *)
Record UniformStorage11 := {
  us_size : Z;
  us_getConstantBuffer : Result Resource11;
  us_getDataPointer : list Z
}.

(** [gl::Program] with its [ProgramD3D]; the queries this file makes.
    The dirty flags of the program are in [World]. *)
Record Program := {
  getActiveOutputVariables : nat -> bool;
  getActiveAttribLocationsMask : BitSet.t;
  getAttribLocationToD3DSemantics : nat -> Z;
  getUsedSamplerRange : ShaderType -> Z;
  getSamplerMapping : ShaderType -> nat -> Z;
  getSamplerTextureType : ShaderType -> nat -> TextureType;
  usesPointSize : bool;
  usesInstancedPointSpriteEmulation : bool;
  usesMultiview : bool;
  getNumViews : Z;
  getVertexUniformStorage : UniformStorage11;
  getFragmentUniformStorage : UniformStorage11;
  getVertexUniformBufferCache : list Z;
  getFragmentUniformBufferCache : list Z;
  getVertexExecutableForCachedInputLayout : Result (option ShaderExecutable11);
  getPixelExecutableForCachedOutputLayout : Result (option ShaderExecutable11);
  getGeometryExecutableForPrimitiveType : Z -> Result (option ShaderExecutable11)
}.

(** [gl::VertexArray] with its [VertexArray11] *)
Record VertexArray := {
  getTranslatedAttribs : list TranslatedAttribute;
  getVertexAttributes : list VertexAttribute;
  syncStateForDraw : DrawCallParams -> Result unit;
  getCachedDestinationIndexType : Z;
  getElementArrayBuffer : Z
}.

(** [TransformFeedback11]; its dirty flag is in [World]. *)
Record TransformFeedback11 := {
  tf_getSerial : Z;
  getSOBuffers : Result (list Z);
  getSOBufferOffsets : list Z;
  getNumSOBuffers : Z
}.

(** [gl::OffsetBindingPointer<gl::Buffer>] *)
Record OffsetBindingPointer := {
  obp_get : option Buffer11;
  obp_getOffset : Z;
  obp_getSize : Z
}.

(** [gl::VertexAttribCurrentValueData] *)
Record VertexAttribCurrentValueData := {
  cv_Type : Z;
  cv_Values : list Z
}.

(** [gl::State] *)
Record GLState := {
  getBlendState : BlendState;
  getBlendColor : ColorF.t;
  getDepthStencilState : DepthStencilState;
  getStencilRef : Z;
  getStencilBackRef : Z;
  getRasterizerState : RasterizerState;
  getScissor : Rectangle.t;
  isScissorTestEnabled : bool;
  getNearPlane : GLfloat;
  getFarPlane : GLfloat;
  getViewport : Rectangle.t;
  getDrawFramebuffer : Framebuffer;
  getProgram : Program;
  getVertexArray : VertexArray;
  getCompleteTextureCache : Z -> option Texture;
  getSampler : Z -> option SamplerState;
  getSamplerTexture : Z -> TextureType -> option Texture;
  isTransformFeedbackActiveUnpaused : bool;
  getCurrentTransformFeedback : TransformFeedback11;
  getIndexedUniformBuffer : Z -> OffsetBindingPointer;
  getVertexAttribCurrentValue : nat -> VertexAttribCurrentValueData
}.

(** [gl::Caps] *)
Record Caps := {
  maxVertexTextureImageUnits : nat;
  maxTextureImageUnits : nat;
  maxComputeTextureImageUnits : nat;
  maxImageUnits : nat;
  maxVertexAttributes : nat;
  maxDrawBuffers : nat;
  maxViewportWidth : Z;
  maxViewportHeight : Z
}.

(** [gl::Context], with the [Context11] behind it *)
Record Context := {
  getGLState : GLState;
  getCaps : Caps;
  triggerDrawCallProgramRecompilation : Z -> Result unit
}.

(** [Renderer11], apart from its device context: capabilities,
    workarounds, and the caches and allocators that answer this file's
    requests. *)
Record Renderer11 := {
  presentPathFastEnabled : bool;
  UsePresentPathFast : option FramebufferAttachment -> bool;
  featureLevel_le_9_3 : bool;
  isES3Capable : bool;
  mrtPerfWorkaround : bool;
  useInstancedPointSpriteEmulation : bool;
  getNativeCaps : Caps;
  getReservedVertexUniformBuffers : nat;
  getReservedFragmentUniformBuffers : nat;
  generateSerial : Z;
  GetBlendSampleMask : GLState -> Z -> Z;
  Renderer11_getBlendState : Framebuffer -> BlendState -> Result Z;
  Renderer11_getDepthStencilState : DepthStencilState -> Result Z;
  Renderer11_getRasterizerState : RasterizerState -> bool -> Result Z;
  Renderer11_getSamplerState : SamplerState -> Result Z;
  getIncompleteTexture : TextureType -> Result Texture;
  allocateResource : Z -> Result Resource11;    (* by tag of the request *)
  mapResource : Z -> Result unit;
  storeCurrentValue : VertexAttribCurrentValueData -> nat -> Result unit;
  prepareIndexData : DrawCallParams -> Z -> Z -> Result TranslatedIndexData;
  getInputLayout :
    list (option TranslatedAttribute) -> list Z -> DrawCallParams -> Result (option Resource11)
}.

(** The state of the collaborators that this file changes through their
    interfaces.
    - [ProgramD3D::updateSamplerMapping] reports [WasDirty] exactly when
      [mDirtySamplerMapping] is set and leaves it clear;
    - [ProgramD3D::areShaderUniformsDirty], [anyShaderUniformsDirty] read
      and [markUniformsClean] clears the per-stage flags;
    - [TransformFeedback11::isDirty] reads and [onApply] clears [tfDirty];
    - [VertexArray11::updateCachedIndexInfo] stores [cachedIndexInfo];
    - [gl::State::getAndResetDirtyCurrentValues] reads and clears
      [dirtyCurrentValues]. *)
Record World := {
  mDirtySamplerMapping : bool;
  uniformsDirtyVertex : bool;
  uniformsDirtyFragment : bool;
  uniformsDirtyCompute : bool;
  tfDirty : bool;
  cachedIndexInfo : option TranslatedIndexData;
  dirtyCurrentValues : BitSet.t
}.

Definition set_mDirtySamplerMapping (v : bool) (s : World) : World :=
  {| mDirtySamplerMapping := v; uniformsDirtyVertex := uniformsDirtyVertex s;
     uniformsDirtyFragment := uniformsDirtyFragment s;
     uniformsDirtyCompute := uniformsDirtyCompute s; tfDirty := tfDirty s;
     cachedIndexInfo := cachedIndexInfo s;
     dirtyCurrentValues := dirtyCurrentValues s |}.
Definition set_uniformsDirtyVertex (v : bool) (s : World) : World :=
  {| mDirtySamplerMapping := mDirtySamplerMapping s;
     uniformsDirtyVertex := v;
     uniformsDirtyFragment := uniformsDirtyFragment s;
     uniformsDirtyCompute := uniformsDirtyCompute s; tfDirty := tfDirty s;
     cachedIndexInfo := cachedIndexInfo s;
     dirtyCurrentValues := dirtyCurrentValues s |}.
Definition set_uniformsDirtyFragment (v : bool) (s : World) : World :=
  {| mDirtySamplerMapping := mDirtySamplerMapping s;
     uniformsDirtyVertex := uniformsDirtyVertex s;
     uniformsDirtyFragment := v;
     uniformsDirtyCompute := uniformsDirtyCompute s; tfDirty := tfDirty s;
     cachedIndexInfo := cachedIndexInfo s;
     dirtyCurrentValues := dirtyCurrentValues s |}.
Definition set_uniformsDirtyCompute (v : bool) (s : World) : World :=
  {| mDirtySamplerMapping := mDirtySamplerMapping s;
     uniformsDirtyVertex := uniformsDirtyVertex s;
     uniformsDirtyFragment := uniformsDirtyFragment s;
     uniformsDirtyCompute := v; tfDirty := tfDirty s;
     cachedIndexInfo := cachedIndexInfo s;
     dirtyCurrentValues := dirtyCurrentValues s |}.
Definition set_tfDirty (v : bool) (s : World) : World :=
  {| mDirtySamplerMapping := mDirtySamplerMapping s;
     uniformsDirtyVertex := uniformsDirtyVertex s;
     uniformsDirtyFragment := uniformsDirtyFragment s;
     uniformsDirtyCompute := uniformsDirtyCompute s; tfDirty := v;
     cachedIndexInfo := cachedIndexInfo s;
     dirtyCurrentValues := dirtyCurrentValues s |}.
Definition set_cachedIndexInfo (v : option TranslatedIndexData) (s : World) : World :=
  {| mDirtySamplerMapping := mDirtySamplerMapping s;
     uniformsDirtyVertex := uniformsDirtyVertex s;
     uniformsDirtyFragment := uniformsDirtyFragment s;
     uniformsDirtyCompute := uniformsDirtyCompute s; tfDirty := tfDirty s;
     cachedIndexInfo := v; dirtyCurrentValues := dirtyCurrentValues s |}.
Definition set_dirtyCurrentValues (v : BitSet.t) (s : World) : World :=
  {| mDirtySamplerMapping := mDirtySamplerMapping s;
     uniformsDirtyVertex := uniformsDirtyVertex s;
     uniformsDirtyFragment := uniformsDirtyFragment s;
     uniformsDirtyCompute := uniformsDirtyCompute s; tfDirty := tfDirty s;
     cachedIndexInfo := cachedIndexInfo s; dirtyCurrentValues := v |}.

(* ================================================================== *)
(** * Calls on the renderer and its device context                       *)
(* ================================================================== *)

Record D3D11_RECT := { left : Z; top : Z; right : Z; bottom : Z }.

Record D3D11_VIEWPORT := {
  TopLeftX : GLfloat; TopLeftY : GLfloat;
  Width : GLfloat; Height : GLfloat;
  MinDepth : GLfloat; MaxDepth : GLfloat
}.

(** [ShaderConstants11::SamplerMetadata] *)
Record SamplerMetadata := {
  baseLevel : Z;
  internalFormatBits : Z;
  wrapModes : Z
}.

(** [ShaderConstants11::Vertex], [Pixel] and [Compute] *)
Record VertexConstants := {
  v_depthRange : list GLfloat;
  v_viewAdjust : list GLfloat;
  v_viewCoords : list GLfloat;
  v_viewScale : list GLfloat;
  v_multiviewWriteToViewportIndex : GLfloat
}.

Record PixelConstants := {
  p_depthRange : list GLfloat;
  p_viewCoords : list GLfloat;
  p_depthFront : list GLfloat;
  p_viewScale : list GLfloat;
  p_multiviewWriteToViewportIndex : GLfloat
}.

Record ComputeConstants := {
  numWorkGroups : list Z
}.

(** the fixed header that opens a driver constant buffer *)
Inductive ConstantsHeader :=
  | HeaderVertex (v : VertexConstants)
  | HeaderPixel (p : PixelConstants)
  | HeaderCompute (c : ComputeConstants).

(** Every call this file makes on [ID3D11DeviceContext], and the requests
    it sends to the renderer's state-object caches and allocators.  The
    [VS]/[PS]/[GS]/[CS] variants of a call are one constructor with the
    stage as its first argument. *)
Inductive Call :=
  (* ID3D11DeviceContext *)
  | XSSetShaderResources (stage : ShaderType) (StartSlot NumViews : Z) (views : list Z)
  | CSSetUnorderedAccessViews (StartSlot NumUAVs : Z) (uavs : list Z)
  | XSSetSamplers (stage : ShaderType) (StartSlot NumSamplers : Z) (samplers : list Z)
  | XSSetShader (stage : ShaderType) (shader : Z)
  | XSSetConstantBuffers (stage : ShaderType) (StartSlot NumBuffers : Z) (buffers : list Z)
  | XSSetConstantBuffers1 (stage : ShaderType) (StartSlot NumBuffers : Z)
                          (buffers : list Z) (firstConstant numConstants : Z)
  | OMSetRenderTargets (NumViews : Z) (rtvs : list Z) (dsv : Z)
  | OMSetBlendState (state : Z) (BlendFactor : option (list GLfloat)) (SampleMask : Z)
  | OMSetDepthStencilState (state : Z) (StencilRef : Z)
  | RSSetState (state : Z)
  | RSSetScissorRects (NumRects : Z) (rects : list D3D11_RECT)
  | RSSetViewports (NumViewports : Z) (viewports : list D3D11_VIEWPORT)
  | IASetInputLayout (layout : Z)
  | IASetVertexBuffers (StartSlot NumBuffers : Z) (buffers strides offsets : list Z)
  | IASetIndexBuffer (buffer format offset : Z)
  | IASetPrimitiveTopology (topology : Z)
  | SOSetTargets (NumBuffers : Z) (buffers offsets : list Z)
  | UpdateSubresource (buffer : Z) (data : list Z)
  | Unmap (buffer : Z)
  (* the two [memcpy]s into a mapped driver constant buffer *)
  | WriteMapped (buffer : Z) (header : ConstantsHeader) (samplers : list SamplerMetadata)
  (* Renderer11 *)
  | MapWriteDiscard (buffer : Z)
  | GetBlendStateRequest (framebuffer : Z) (key : BlendState)
  | GetDepthStencilStateRequest (key : DepthStencilState)
  | GetRasterizerStateRequest (key : RasterizerState) (scissorEnabled : bool)
  | GetSamplerStateRequest (key : SamplerState)
  | AllocateResourceRequest (tag : Z).

(** the calls that bind something on the device context *)
Definition isDeviceBindingCall (c : Call) : bool :=
  match c with
  | XSSetShaderResources _ _ _ _ | CSSetUnorderedAccessViews _ _ _
  | XSSetSamplers _ _ _ _ | XSSetShader _ _
  | XSSetConstantBuffers _ _ _ _ | XSSetConstantBuffers1 _ _ _ _ _ _
  | OMSetRenderTargets _ _ _ | OMSetBlendState _ _ _
  | OMSetDepthStencilState _ _ | RSSetState _
  | RSSetScissorRects _ _ | RSSetViewports _ _
  | IASetInputLayout _ | IASetVertexBuffers _ _ _ _ _
  | IASetIndexBuffer _ _ _ | IASetPrimitiveTopology _
  | SOSetTargets _ _ _ => true
  | _ => false
  end.

(* ================================================================== *)
(** * State, error and call-log monad                                    *)
(* ================================================================== *)

(** A method of an object with state [S]: it returns a [gl::Error] (or a
    value), leaves the object in some state whether or not it failed, and
    has made some calls on the way. *)
Definition M (S A : Type) : Type := S -> Result A * S * list Call.

Definition ret {S A} (a : A) : M S A := fun s => (NoError a, s, []).

Definition bind {S A B} (m : M S A) (k : A -> M S B) : M S B :=
  fun s =>
    match m s with
    | (NoError a, s1, c1) =>
        match k a s1 with
        | (r, s2, c2) => (r, s2, c1 ++ c2)
        end
    | (Error e, s1, c1) => (Error e, s1, c1)
    end.

Global Instance M_ret {S} : MRet (M S) := fun A a => ret a.
Global Instance M_bind {S} : MBind (M S) := fun A B k m => bind m k.
Global Typeclasses Opaque M.

Definition gets {S A} (f : S -> A) : M S A := fun s => (NoError (f s), s, []).
Definition modify {S} (f : S -> S) : M S unit := fun s => (NoError tt, f s, []).
Definition emit {S} (c : Call) : M S unit := fun s => (NoError tt, s, [c]).
(** [ANGLE_TRY] / [ANGLE_TRY_RESULT] on what a collaborator answered *)
Definition try {S A} (r : Result A) : M S A := fun s => (r, s, []).
Definition when {S} (b : bool) (m : M S unit) : M S unit :=
  if b then m else ret tt.

(** a [for] loop whose body may return an error *)
Fixpoint forM_ {S X} (l : list X) (body : X -> M S unit) : M S unit :=
  match l with
  | [] => ret tt
  | x :: l' => body x;; forM_ l' body
  end.

(** run a method of a member object *)
Definition zoom {S T A} (get : S -> T) (set : T -> S -> S) (m : M T A) : M S A :=
  fun s =>
    match m (get s) with
    | (r, t', c) => (r, set t' s, c)
    end.

Definition result {S A} (o : Result A * S * list Call) : Result A := o.1.1.
Definition state {S A} (o : Result A * S * list Call) : S := o.1.2.
Definition calls {S A} (o : Result A * S * list Call) : list Call := o.2.

Definition succeeded {A} (r : Result A) : bool :=
  match r with NoError _ => true | Error _ => false end.

(* ================================================================== *)
(** * ShaderConstants11                                                  *)
(* ================================================================== *)

(** [ShaderConstants11] *)
Record ShaderConstants11 := {
  mVertex : VertexConstants;
  mPixel : PixelConstants;
  mCompute : ComputeConstants;
  mShaderConstantsDirty : BitSet.t;
  mSamplerMetadataVS : list SamplerMetadata;
  mSamplerMetadataPS : list SamplerMetadata;
  mSamplerMetadataCS : list SamplerMetadata;
  mNumActiveVSSamplers : Z;
  mNumActivePSSamplers : Z;
  mNumActiveCSSamplers : Z
}.

Definition set_mVertex (v : VertexConstants) (s : ShaderConstants11) : ShaderConstants11 :=
  {| mVertex := v; mPixel := mPixel s; mCompute := mCompute s;
     mShaderConstantsDirty := mShaderConstantsDirty s;
     mSamplerMetadataVS := mSamplerMetadataVS s;
     mSamplerMetadataPS := mSamplerMetadataPS s;
     mSamplerMetadataCS := mSamplerMetadataCS s;
     mNumActiveVSSamplers := mNumActiveVSSamplers s;
     mNumActivePSSamplers := mNumActivePSSamplers s;
     mNumActiveCSSamplers := mNumActiveCSSamplers s |}.
Definition set_mPixel (v : PixelConstants) (s : ShaderConstants11) : ShaderConstants11 :=
  {| mVertex := mVertex s; mPixel := v; mCompute := mCompute s;
     mShaderConstantsDirty := mShaderConstantsDirty s;
     mSamplerMetadataVS := mSamplerMetadataVS s;
     mSamplerMetadataPS := mSamplerMetadataPS s;
     mSamplerMetadataCS := mSamplerMetadataCS s;
     mNumActiveVSSamplers := mNumActiveVSSamplers s;
     mNumActivePSSamplers := mNumActivePSSamplers s;
     mNumActiveCSSamplers := mNumActiveCSSamplers s |}.
Definition set_mCompute (v : ComputeConstants) (s : ShaderConstants11) : ShaderConstants11 :=
  {| mVertex := mVertex s; mPixel := mPixel s; mCompute := v;
     mShaderConstantsDirty := mShaderConstantsDirty s;
     mSamplerMetadataVS := mSamplerMetadataVS s;
     mSamplerMetadataPS := mSamplerMetadataPS s;
     mSamplerMetadataCS := mSamplerMetadataCS s;
     mNumActiveVSSamplers := mNumActiveVSSamplers s;
     mNumActivePSSamplers := mNumActivePSSamplers s;
     mNumActiveCSSamplers := mNumActiveCSSamplers s |}.
Definition set_mShaderConstantsDirty (v : BitSet.t) (s : ShaderConstants11) : ShaderConstants11 :=
  {| mVertex := mVertex s; mPixel := mPixel s; mCompute := mCompute s;
     mShaderConstantsDirty := v; mSamplerMetadataVS := mSamplerMetadataVS s;
     mSamplerMetadataPS := mSamplerMetadataPS s;
     mSamplerMetadataCS := mSamplerMetadataCS s;
     mNumActiveVSSamplers := mNumActiveVSSamplers s;
     mNumActivePSSamplers := mNumActivePSSamplers s;
     mNumActiveCSSamplers := mNumActiveCSSamplers s |}.
Definition set_mSamplerMetadataVS (v : list SamplerMetadata) (s : ShaderConstants11) : ShaderConstants11 :=
  {| mVertex := mVertex s; mPixel := mPixel s; mCompute := mCompute s;
     mShaderConstantsDirty := mShaderConstantsDirty s;
     mSamplerMetadataVS := v; mSamplerMetadataPS := mSamplerMetadataPS s;
     mSamplerMetadataCS := mSamplerMetadataCS s;
     mNumActiveVSSamplers := mNumActiveVSSamplers s;
     mNumActivePSSamplers := mNumActivePSSamplers s;
     mNumActiveCSSamplers := mNumActiveCSSamplers s |}.
Definition set_mSamplerMetadataPS (v : list SamplerMetadata) (s : ShaderConstants11) : ShaderConstants11 :=
  {| mVertex := mVertex s; mPixel := mPixel s; mCompute := mCompute s;
     mShaderConstantsDirty := mShaderConstantsDirty s;
     mSamplerMetadataVS := mSamplerMetadataVS s; mSamplerMetadataPS := v;
     mSamplerMetadataCS := mSamplerMetadataCS s;
     mNumActiveVSSamplers := mNumActiveVSSamplers s;
     mNumActivePSSamplers := mNumActivePSSamplers s;
     mNumActiveCSSamplers := mNumActiveCSSamplers s |}.
Definition set_mSamplerMetadataCS (v : list SamplerMetadata) (s : ShaderConstants11) : ShaderConstants11 :=
  {| mVertex := mVertex s; mPixel := mPixel s; mCompute := mCompute s;
     mShaderConstantsDirty := mShaderConstantsDirty s;
     mSamplerMetadataVS := mSamplerMetadataVS s;
     mSamplerMetadataPS := mSamplerMetadataPS s; mSamplerMetadataCS := v;
     mNumActiveVSSamplers := mNumActiveVSSamplers s;
     mNumActivePSSamplers := mNumActivePSSamplers s;
     mNumActiveCSSamplers := mNumActiveCSSamplers s |}.
Definition set_mNumActiveVSSamplers (v : Z) (s : ShaderConstants11) : ShaderConstants11 :=
  {| mVertex := mVertex s; mPixel := mPixel s; mCompute := mCompute s;
     mShaderConstantsDirty := mShaderConstantsDirty s;
     mSamplerMetadataVS := mSamplerMetadataVS s;
     mSamplerMetadataPS := mSamplerMetadataPS s;
     mSamplerMetadataCS := mSamplerMetadataCS s; mNumActiveVSSamplers := v;
     mNumActivePSSamplers := mNumActivePSSamplers s;
     mNumActiveCSSamplers := mNumActiveCSSamplers s |}.
Definition set_mNumActivePSSamplers (v : Z) (s : ShaderConstants11) : ShaderConstants11 :=
  {| mVertex := mVertex s; mPixel := mPixel s; mCompute := mCompute s;
     mShaderConstantsDirty := mShaderConstantsDirty s;
     mSamplerMetadataVS := mSamplerMetadataVS s;
     mSamplerMetadataPS := mSamplerMetadataPS s;
     mSamplerMetadataCS := mSamplerMetadataCS s;
     mNumActiveVSSamplers := mNumActiveVSSamplers s;
     mNumActivePSSamplers := v;
     mNumActiveCSSamplers := mNumActiveCSSamplers s |}.
Definition set_mNumActiveCSSamplers (v : Z) (s : ShaderConstants11) : ShaderConstants11 :=
  {| mVertex := mVertex s; mPixel := mPixel s; mCompute := mCompute s;
     mShaderConstantsDirty := mShaderConstantsDirty s;
     mSamplerMetadataVS := mSamplerMetadataVS s;
     mSamplerMetadataPS := mSamplerMetadataPS s;
     mSamplerMetadataCS := mSamplerMetadataCS s;
     mNumActiveVSSamplers := mNumActiveVSSamplers s;
     mNumActivePSSamplers := mNumActivePSSamplers s;
     mNumActiveCSSamplers := v |}.


(** position of a stage in [gl::ShaderBitSet] *)
Definition shaderIndex (t : ShaderType) : nat :=
  match t with
  | Vertex => 0 | Fragment => 1 | Geometry => 2 | Compute => 3
  end.

Definition zero_SamplerMetadata : SamplerMetadata :=
  {| baseLevel := 0; internalFormatBits := 0; wrapModes := 0 |}.

Module ShaderConstants.
Local Open Scope Z_scope.

  (** [ShaderConstants11::ShaderConstants11()] *)
Definition new : ShaderConstants11 :=
    {| mVertex := {| v_depthRange := replicate 4 f0; v_viewAdjust := replicate 4 f0;
                     v_viewCoords := replicate 4 f0; v_viewScale := replicate 2 f0;
                     v_multiviewWriteToViewportIndex := f0 |};
       mPixel := {| p_depthRange := replicate 4 f0; p_viewCoords := replicate 4 f0;
                    p_depthFront := replicate 4 f0; p_viewScale := replicate 2 f0;
                    p_multiviewWriteToViewportIndex := f0 |};
       mCompute := {| numWorkGroups := replicate 3 0 |};
       mShaderConstantsDirty := BitSet.all 4;
       mSamplerMetadataVS := []; mSamplerMetadataPS := []; mSamplerMetadataCS := [];
       mNumActiveVSSamplers := 0; mNumActivePSSamplers := 0;
       mNumActiveCSSamplers := 0 |}.

  (** [std::vector::resize]: truncate, or pad with value-initialised
      elements *)
Definition resize {A} (zero : A) (n : nat) (l : list A) : list A :=
    take n l ++ replicate (n - length l) zero.

Definition init (caps : Caps) (s : ShaderConstants11) : ShaderConstants11 :=
    set_mSamplerMetadataCS
      (resize zero_SamplerMetadata (maxComputeTextureImageUnits caps) (mSamplerMetadataCS s))
      (set_mSamplerMetadataPS
         (resize zero_SamplerMetadata (maxTextureImageUnits caps) (mSamplerMetadataPS s))
         (set_mSamplerMetadataVS
            (resize zero_SamplerMetadata (maxVertexTextureImageUnits caps) (mSamplerMetadataVS s))
            s)).

Definition markDirty (s : ShaderConstants11) : ShaderConstants11 :=
    set_mNumActiveCSSamplers 0
      (set_mNumActivePSSamplers 0
         (set_mNumActiveVSSamplers 0
            (set_mShaderConstantsDirty (BitSet.all 4) s))).

Definition GetWrapBits (wrap : Z) : Z :=
    if wrap =? GL_CLAMP_TO_EDGE then 0x1
    else if wrap =? GL_REPEAT then 0x2
    else if wrap =? GL_MIRRORED_REPEAT then 0x3
    else 0.

Definition isOneOf (x : Z) (l : list Z) : bool := existsb (Z.eqb x) l.

  (** returns the updated metadata and whether anything changed *)
Definition updateSamplerMetadata (data : SamplerMetadata) (texture : Texture)
      : SamplerMetadata * bool :=
    let baseLevel_ := u32 (getEffectiveBaseLevel texture) in
    let sizedFormat := sizedInternalFormat texture in
    let '(data, dirty) :=
      if negb (baseLevel data =? s32 baseLevel_)
      then ({| baseLevel := s32 baseLevel_;
               internalFormatBits := internalFormatBits data;
               wrapModes := wrapModes data |}, true)
      else (data, false) in
    let '(needIntegerTextureMetadata, internalFormatBits_) :=
      if isOneOf sizedFormat
           [GL_RGBA32I; GL_RGBA32UI; GL_RGB32I; GL_RGB32UI;
            GL_RG32I; GL_RG32UI; GL_R32I; GL_R32UI]
      then (true, 0)
      else if isOneOf sizedFormat
           [GL_RGBA16I; GL_RGBA16UI; GL_RGB16I; GL_RGB16UI;
            GL_RG16I; GL_RG16UI; GL_R16I; GL_R16UI]
      then (true, 16)
      else if isOneOf sizedFormat
           [GL_RGBA8I; GL_RGBA8UI; GL_RGB8I; GL_RGB8UI;
            GL_RG8I; GL_RG8UI; GL_R8I; GL_R8UI]
      then (true, 8)
      else if isOneOf sizedFormat [GL_RGB10_A2UI]
      then (true, 10)
      else (false, 0) in
    if needIntegerTextureMetadata then
      let '(data, dirty) :=
        if negb (internalFormatBits data =? internalFormatBits_)
        then ({| baseLevel := baseLevel data;
                 internalFormatBits := internalFormatBits_;
                 wrapModes := wrapModes data |}, true)
        else (data, dirty) in
      let wrapModes_ :=
        Z.lor (GetWrapBits (getWrapS texture))
          (Z.lor (Z.shiftl (GetWrapBits (getWrapT texture)) 2)
                 (Z.shiftl (GetWrapBits (getWrapR texture)) 4)) in
      if negb (wrapModes data =? wrapModes_)
      then ({| baseLevel := baseLevel data;
               internalFormatBits := internalFormatBits data;
               wrapModes := wrapModes_ |}, true)
      else (data, dirty)
    else (data, dirty).

Definition setComputeWorkGroups (numGroupsX numGroupsY numGroupsZ : Z)
      (s : ShaderConstants11) : ShaderConstants11 :=
    set_mShaderConstantsDirty
      (BitSet.set (shaderIndex Compute) (mShaderConstantsDirty s))
      (set_mCompute {| numWorkGroups := [numGroupsX; numGroupsY; numGroupsZ] |} s).

Definition setMultiviewWriteToViewportIndex (index : GLfloat)
      (s : ShaderConstants11) : ShaderConstants11 :=
    let v := mVertex s in
    let p := mPixel s in
    set_mShaderConstantsDirty
      (BitSet.set (shaderIndex Fragment)
         (BitSet.set (shaderIndex Vertex) (mShaderConstantsDirty s)))
      (set_mPixel
         {| p_depthRange := p_depthRange p; p_viewCoords := p_viewCoords p;
            p_depthFront := p_depthFront p; p_viewScale := p_viewScale p;
            p_multiviewWriteToViewportIndex := index |}
         (set_mVertex
            {| v_depthRange := v_depthRange v; v_viewAdjust := v_viewAdjust v;
               v_viewCoords := v_viewCoords v; v_viewScale := v_viewScale v;
               v_multiviewWriteToViewportIndex := index |}
            s)).

Definition onViewportChange (glViewport : Rectangle.t) (dxViewport : D3D11_VIEWPORT)
      (is9_3 presentPathFast : bool) (s : ShaderConstants11) : ShaderConstants11 :=
    let fi := float_of_int in
    let v := mVertex s in
    let p := mPixel s in
    (* On Feature Level 9_*, we must emulate large and/or negative viewports
       in the shaders using viewAdjust (like the D3D9 renderer). *)
    let viewAdjust :=
      if is9_3 then
        [ fdiv (fadd (fsub (fi (Rectangle.width glViewport)) (Width dxViewport))
                     (fmul (fi 2) (fsub (fi (Rectangle.x glViewport)) (TopLeftX dxViewport))))
               (Width dxViewport);
          fdiv (fadd (fsub (fi (Rectangle.height glViewport)) (Height dxViewport))
                     (fmul (fi 2) (fsub (fi (Rectangle.y glViewport)) (TopLeftY dxViewport))))
               (Height dxViewport);
          fdiv (fi (Rectangle.width glViewport)) (Width dxViewport);
          fdiv (fi (Rectangle.height glViewport)) (Height dxViewport) ]
      else v_viewAdjust v in
    let viewCoords :=
      [ fmul (fi (Rectangle.width glViewport)) fhalf;
        fmul (fi (Rectangle.height glViewport)) fhalf;
        fadd (fi (Rectangle.x glViewport)) (fmul (fi (Rectangle.width glViewport)) fhalf);
        fadd (fi (Rectangle.y glViewport)) (fmul (fi (Rectangle.height glViewport)) fhalf) ] in
    let zNear := MinDepth dxViewport in
    let zFar := MaxDepth dxViewport in
    let depthFront :=
      <[1%nat := fmul (fadd zNear zFar) fhalf]>
        (<[0%nat := fmul (fsub zFar zNear) fhalf]> (p_depthFront p)) in
    let depthRangeOf (old : list GLfloat) :=
      <[2%nat := fsub zFar zNear]> (<[1%nat := zFar]> (<[0%nat := zNear]> old)) in
    let viewScale := [ f1; if presentPathFast then f1 else fm1 ] in
    set_mShaderConstantsDirty
      (BitSet.set (shaderIndex Fragment)
         (BitSet.set (shaderIndex Vertex) (mShaderConstantsDirty s)))
      (set_mPixel
         {| p_depthRange := depthRangeOf (p_depthRange p);
            p_viewCoords := viewCoords;
            p_depthFront := depthFront;
            p_viewScale := viewScale;
            p_multiviewWriteToViewportIndex := p_multiviewWriteToViewportIndex p |}
         (set_mVertex
            {| v_depthRange := depthRangeOf (v_depthRange v);
               v_viewAdjust := viewAdjust;
               v_viewCoords := viewCoords;
               v_viewScale := viewScale;
               v_multiviewWriteToViewportIndex := v_multiviewWriteToViewportIndex v |}
            s)).

Definition onSamplerChange (shaderType : ShaderType) (samplerIndex : nat)
      (texture : Texture) (s : ShaderConstants11) : ShaderConstants11 :=
    let step (l : list SamplerMetadata) :=
      updateSamplerMetadata (default zero_SamplerMetadata (l !! samplerIndex)) texture in
    match shaderType with
    | Vertex =>
        let '(d, dirty) := step (mSamplerMetadataVS s) in
        let s := set_mSamplerMetadataVS (<[samplerIndex := d]> (mSamplerMetadataVS s)) s in
        if dirty then set_mNumActiveVSSamplers 0 s else s
    | Fragment =>
        let '(d, dirty) := step (mSamplerMetadataPS s) in
        let s := set_mSamplerMetadataPS (<[samplerIndex := d]> (mSamplerMetadataPS s)) s in
        if dirty then set_mNumActivePSSamplers 0 s else s
    | Compute =>
        let '(d, dirty) := step (mSamplerMetadataCS s) in
        let s := set_mSamplerMetadataCS (<[samplerIndex := d]> (mSamplerMetadataCS s)) s in
        if dirty then set_mNumActiveCSSamplers 0 s else s
    | Geometry => s
    end.

  (** [updateBuffer(renderer, shaderType, programD3D, driverConstantBuffer)] *)
Definition updateBuffer (renderer : Renderer11) (shaderType : ShaderType)
      (programD3D : Program) (driverConstantBuffer : Resource11)
      : M ShaderConstants11 unit :=
    (* Re-upload the sampler meta-data if the current program uses more
       samplers than we previously uploaded. *)
    let numSamplers := s32 (getUsedSamplerRange programD3D shaderType) in
    s ← gets id;
    '(dirty, header, samplerData) ←
      match shaderType with
      | Vertex =>
          modify (fun s => set_mNumActiveVSSamplers numSamplers
                    (set_mShaderConstantsDirty
                       (BitSet.assign (shaderIndex Vertex) false (mShaderConstantsDirty s)) s));;
          ret (BitSet.test (mShaderConstantsDirty s) (shaderIndex Vertex)
                  || (mNumActiveVSSamplers s <? numSamplers),
                Some (HeaderVertex (mVertex s)), mSamplerMetadataVS s)
      | Fragment =>
          modify (fun s => set_mNumActivePSSamplers numSamplers
                    (set_mShaderConstantsDirty
                       (BitSet.assign (shaderIndex Fragment) false (mShaderConstantsDirty s)) s));;
          ret (BitSet.test (mShaderConstantsDirty s) (shaderIndex Fragment)
                  || (mNumActivePSSamplers s <? numSamplers),
                Some (HeaderPixel (mPixel s)), mSamplerMetadataPS s)
      | Compute =>
          modify (fun s => set_mNumActiveCSSamplers numSamplers
                    (set_mShaderConstantsDirty
                       (BitSet.assign (shaderIndex Compute) false (mShaderConstantsDirty s)) s));;
          ret (BitSet.test (mShaderConstantsDirty s) (shaderIndex Compute)
                  || (mNumActiveCSSamplers s <? numSamplers),
                Some (HeaderCompute (mCompute s)), mSamplerMetadataCS s)
      | Geometry => ret (false, None, [])
      end;
    if negb dirty then ret tt
    else
      (* Previous buffer contents are discarded, so we need to refresh the
         whole buffer. *)
      emit (MapWriteDiscard (res_get driverConstantBuffer));;
      try (mapResource renderer (res_get driverConstantBuffer));;
      match header with
      | Some h =>
          emit (WriteMapped (res_get driverConstantBuffer) h
                  (take (Z.to_nat numSamplers) samplerData))
      | None => ret tt
      end;;
      emit (Unmap (res_get driverConstantBuffer)).
End ShaderConstants.

(* ================================================================== *)
(** * StateManager11: data                                               *)
(* ================================================================== *)

Definition SRVCache : Type := ViewCache.t D3D11_SHADER_RESOURCE_VIEW_DESC.
Definition UAVCache : Type := ViewCache.t D3D11_UNORDERED_ACCESS_VIEW_DESC.

(** Modelled from the spec: [StateManager11::DirtyBitType], declared in
    StateManager11.h, which is not among the sources.  The design document
    lists the state groups in the order of the enumeration, which is the
    order in which a pass drains them: render target, viewport, scissor,
    rasterizer, blend, depth-stencil, textures/samplers, program uniforms,
    driver uniforms, uniform buffers, shaders, current-value attributes,
    transform feedback, vertex buffers and input layout, primitive
    topology. *)
Inductive DirtyBitType :=
  | DIRTY_BIT_RENDER_TARGET
  | DIRTY_BIT_VIEWPORT_STATE
  | DIRTY_BIT_SCISSOR_STATE
  | DIRTY_BIT_RASTERIZER_STATE
  | DIRTY_BIT_BLEND_STATE
  | DIRTY_BIT_DEPTH_STENCIL_STATE
  | DIRTY_BIT_TEXTURE_AND_SAMPLER_STATE
  | DIRTY_BIT_PROGRAM_UNIFORMS
  | DIRTY_BIT_DRIVER_UNIFORMS
  | DIRTY_BIT_PROGRAM_UNIFORM_BUFFERS
  | DIRTY_BIT_SHADERS
  | DIRTY_BIT_CURRENT_VALUE_ATTRIBS
  | DIRTY_BIT_TRANSFORM_FEEDBACK
  | DIRTY_BIT_VERTEX_BUFFERS_AND_INPUT_LAYOUT
  | DIRTY_BIT_PRIMITIVE_TOPOLOGY.

Definition DIRTY_BIT_MAX : nat := 15.

Definition dirtyBitIndex (b : DirtyBitType) : nat :=
  match b with
  | DIRTY_BIT_RENDER_TARGET => 0
  | DIRTY_BIT_VIEWPORT_STATE => 1
  | DIRTY_BIT_SCISSOR_STATE => 2
  | DIRTY_BIT_RASTERIZER_STATE => 3
  | DIRTY_BIT_BLEND_STATE => 4
  | DIRTY_BIT_DEPTH_STENCIL_STATE => 5
  | DIRTY_BIT_TEXTURE_AND_SAMPLER_STATE => 6
  | DIRTY_BIT_PROGRAM_UNIFORMS => 7
  | DIRTY_BIT_DRIVER_UNIFORMS => 8
  | DIRTY_BIT_PROGRAM_UNIFORM_BUFFERS => 9
  | DIRTY_BIT_SHADERS => 10
  | DIRTY_BIT_CURRENT_VALUE_ATTRIBS => 11
  | DIRTY_BIT_TRANSFORM_FEEDBACK => 12
  | DIRTY_BIT_VERTEX_BUFFERS_AND_INPUT_LAYOUT => 13
  | DIRTY_BIT_PRIMITIVE_TOPOLOGY => 14
  end.

(** the enumeration, in order *)
Definition allDirtyBits : list DirtyBitType :=
  [ DIRTY_BIT_RENDER_TARGET; DIRTY_BIT_VIEWPORT_STATE; DIRTY_BIT_SCISSOR_STATE;
    DIRTY_BIT_RASTERIZER_STATE; DIRTY_BIT_BLEND_STATE;
    DIRTY_BIT_DEPTH_STENCIL_STATE; DIRTY_BIT_TEXTURE_AND_SAMPLER_STATE;
    DIRTY_BIT_PROGRAM_UNIFORMS; DIRTY_BIT_DRIVER_UNIFORMS;
    DIRTY_BIT_PROGRAM_UNIFORM_BUFFERS; DIRTY_BIT_SHADERS;
    DIRTY_BIT_CURRENT_VALUE_ATTRIBS; DIRTY_BIT_TRANSFORM_FEEDBACK;
    DIRTY_BIT_VERTEX_BUFFERS_AND_INPUT_LAYOUT; DIRTY_BIT_PRIMITIVE_TOPOLOGY ].

(** the dirty bits of a set, in the order [for (auto dirtyBit : bits)]
    visits them *)
Definition dirtyBitsOf (m : BitSet.t) : list DirtyBitType :=
  filter (fun b => BitSet.test m (dirtyBitIndex b) = true) allDirtyBits.

(** The members of [StateManager11] are grouped by what they cache, so
    that a setter names only the members of its group; the C++ class is
    flat. *)

(** the blend state last applied *)
Record BlendCache := {
  mCurBlendState : BlendState;
  mCurBlendColor : ColorF.t;
  mCurSampleMask : Z
}.

Definition set_mCurBlendState (v : BlendState) (s : BlendCache) : BlendCache :=
  {| mCurBlendState := v; mCurBlendColor := mCurBlendColor s;
     mCurSampleMask := mCurSampleMask s |}.
Definition set_mCurBlendColor (v : ColorF.t) (s : BlendCache) : BlendCache :=
  {| mCurBlendState := mCurBlendState s; mCurBlendColor := v;
     mCurSampleMask := mCurSampleMask s |}.
Definition set_mCurSampleMask (v : Z) (s : BlendCache) : BlendCache :=
  {| mCurBlendState := mCurBlendState s; mCurBlendColor := mCurBlendColor s;
     mCurSampleMask := v |}.

(** the depth-stencil state last applied *)
Record DepthStencilCache := {
  mCurDepthStencilState : DepthStencilState;
  mCurStencilRef : Z;
  mCurStencilBackRef : Z;
  mCurStencilSize : Z;
  mCurDisableDepth : Optional bool;
  mCurDisableStencil : Optional bool
}.

Definition set_mCurDepthStencilState (v : DepthStencilState) (s : DepthStencilCache) : DepthStencilCache :=
  {| mCurDepthStencilState := v; mCurStencilRef := mCurStencilRef s;
     mCurStencilBackRef := mCurStencilBackRef s;
     mCurStencilSize := mCurStencilSize s;
     mCurDisableDepth := mCurDisableDepth s;
     mCurDisableStencil := mCurDisableStencil s |}.
Definition set_mCurStencilRef (v : Z) (s : DepthStencilCache) : DepthStencilCache :=
  {| mCurDepthStencilState := mCurDepthStencilState s; mCurStencilRef := v;
     mCurStencilBackRef := mCurStencilBackRef s;
     mCurStencilSize := mCurStencilSize s;
     mCurDisableDepth := mCurDisableDepth s;
     mCurDisableStencil := mCurDisableStencil s |}.
Definition set_mCurStencilBackRef (v : Z) (s : DepthStencilCache) : DepthStencilCache :=
  {| mCurDepthStencilState := mCurDepthStencilState s;
     mCurStencilRef := mCurStencilRef s; mCurStencilBackRef := v;
     mCurStencilSize := mCurStencilSize s;
     mCurDisableDepth := mCurDisableDepth s;
     mCurDisableStencil := mCurDisableStencil s |}.
Definition set_mCurStencilSize (v : Z) (s : DepthStencilCache) : DepthStencilCache :=
  {| mCurDepthStencilState := mCurDepthStencilState s;
     mCurStencilRef := mCurStencilRef s;
     mCurStencilBackRef := mCurStencilBackRef s; mCurStencilSize := v;
     mCurDisableDepth := mCurDisableDepth s;
     mCurDisableStencil := mCurDisableStencil s |}.
Definition set_mCurDisableDepth (v : Optional bool) (s : DepthStencilCache) : DepthStencilCache :=
  {| mCurDepthStencilState := mCurDepthStencilState s;
     mCurStencilRef := mCurStencilRef s;
     mCurStencilBackRef := mCurStencilBackRef s;
     mCurStencilSize := mCurStencilSize s; mCurDisableDepth := v;
     mCurDisableStencil := mCurDisableStencil s |}.
Definition set_mCurDisableStencil (v : Optional bool) (s : DepthStencilCache) : DepthStencilCache :=
  {| mCurDepthStencilState := mCurDepthStencilState s;
     mCurStencilRef := mCurStencilRef s;
     mCurStencilBackRef := mCurStencilBackRef s;
     mCurStencilSize := mCurStencilSize s;
     mCurDisableDepth := mCurDisableDepth s; mCurDisableStencil := v |}.

(** rasterizer, scissor and present path *)
Record RasterCache := {
  mCurRasterState : RasterizerState;
  mCurScissorEnabled : bool;
  mCurScissorRect : Rectangle.t;
  mCurPresentPathFastEnabled : bool;
  mCurPresentPathFastColorBufferHeight : Z
}.

Definition set_mCurRasterState (v : RasterizerState) (s : RasterCache) : RasterCache :=
  {| mCurRasterState := v; mCurScissorEnabled := mCurScissorEnabled s;
     mCurScissorRect := mCurScissorRect s;
     mCurPresentPathFastEnabled := mCurPresentPathFastEnabled s;
     mCurPresentPathFastColorBufferHeight := mCurPresentPathFastColorBufferHeight s |}.
Definition set_mCurScissorEnabled (v : bool) (s : RasterCache) : RasterCache :=
  {| mCurRasterState := mCurRasterState s; mCurScissorEnabled := v;
     mCurScissorRect := mCurScissorRect s;
     mCurPresentPathFastEnabled := mCurPresentPathFastEnabled s;
     mCurPresentPathFastColorBufferHeight := mCurPresentPathFastColorBufferHeight s |}.
Definition set_mCurScissorRect (v : Rectangle.t) (s : RasterCache) : RasterCache :=
  {| mCurRasterState := mCurRasterState s;
     mCurScissorEnabled := mCurScissorEnabled s; mCurScissorRect := v;
     mCurPresentPathFastEnabled := mCurPresentPathFastEnabled s;
     mCurPresentPathFastColorBufferHeight := mCurPresentPathFastColorBufferHeight s |}.
Definition set_mCurPresentPathFastEnabled (v : bool) (s : RasterCache) : RasterCache :=
  {| mCurRasterState := mCurRasterState s;
     mCurScissorEnabled := mCurScissorEnabled s;
     mCurScissorRect := mCurScissorRect s; mCurPresentPathFastEnabled := v;
     mCurPresentPathFastColorBufferHeight := mCurPresentPathFastColorBufferHeight s |}.
Definition set_mCurPresentPathFastColorBufferHeight (v : Z) (s : RasterCache) : RasterCache :=
  {| mCurRasterState := mCurRasterState s;
     mCurScissorEnabled := mCurScissorEnabled s;
     mCurScissorRect := mCurScissorRect s;
     mCurPresentPathFastEnabled := mCurPresentPathFastEnabled s;
     mCurPresentPathFastColorBufferHeight := v |}.

(** viewport *)
Record ViewportCache := {
  mCurViewport : Rectangle.t;
  mCurNear : GLfloat;
  mCurFar : GLfloat;
  mViewportBounds : Extents.t;
  mViewportOffsets : list Offset.t
}.

Definition set_mCurViewport (v : Rectangle.t) (s : ViewportCache) : ViewportCache :=
  {| mCurViewport := v; mCurNear := mCurNear s; mCurFar := mCurFar s;
     mViewportBounds := mViewportBounds s;
     mViewportOffsets := mViewportOffsets s |}.
Definition set_mCurNear (v : GLfloat) (s : ViewportCache) : ViewportCache :=
  {| mCurViewport := mCurViewport s; mCurNear := v; mCurFar := mCurFar s;
     mViewportBounds := mViewportBounds s;
     mViewportOffsets := mViewportOffsets s |}.
Definition set_mCurFar (v : GLfloat) (s : ViewportCache) : ViewportCache :=
  {| mCurViewport := mCurViewport s; mCurNear := mCurNear s; mCurFar := v;
     mViewportBounds := mViewportBounds s;
     mViewportOffsets := mViewportOffsets s |}.
Definition set_mViewportBounds (v : Extents.t) (s : ViewportCache) : ViewportCache :=
  {| mCurViewport := mCurViewport s; mCurNear := mCurNear s;
     mCurFar := mCurFar s; mViewportBounds := v;
     mViewportOffsets := mViewportOffsets s |}.
Definition set_mViewportOffsets (v : list Offset.t) (s : ViewportCache) : ViewportCache :=
  {| mCurViewport := mCurViewport s; mCurNear := mCurNear s;
     mCurFar := mCurFar s; mViewportBounds := mViewportBounds s;
     mViewportOffsets := v |}.

(** the view caches *)
Record ViewCaches := {
  mCurVertexSRVs : SRVCache;
  mCurPixelSRVs : SRVCache;
  mCurComputeSRVs : SRVCache;
  mCurComputeUAVs : UAVCache;
  mNullSRVs : list Z;
  mNullUAVs : list Z
}.

Definition set_mCurVertexSRVs (v : SRVCache) (s : ViewCaches) : ViewCaches :=
  {| mCurVertexSRVs := v; mCurPixelSRVs := mCurPixelSRVs s;
     mCurComputeSRVs := mCurComputeSRVs s;
     mCurComputeUAVs := mCurComputeUAVs s; mNullSRVs := mNullSRVs s;
     mNullUAVs := mNullUAVs s |}.
Definition set_mCurPixelSRVs (v : SRVCache) (s : ViewCaches) : ViewCaches :=
  {| mCurVertexSRVs := mCurVertexSRVs s; mCurPixelSRVs := v;
     mCurComputeSRVs := mCurComputeSRVs s;
     mCurComputeUAVs := mCurComputeUAVs s; mNullSRVs := mNullSRVs s;
     mNullUAVs := mNullUAVs s |}.
Definition set_mCurComputeSRVs (v : SRVCache) (s : ViewCaches) : ViewCaches :=
  {| mCurVertexSRVs := mCurVertexSRVs s; mCurPixelSRVs := mCurPixelSRVs s;
     mCurComputeSRVs := v; mCurComputeUAVs := mCurComputeUAVs s;
     mNullSRVs := mNullSRVs s; mNullUAVs := mNullUAVs s |}.
Definition set_mCurComputeUAVs (v : UAVCache) (s : ViewCaches) : ViewCaches :=
  {| mCurVertexSRVs := mCurVertexSRVs s; mCurPixelSRVs := mCurPixelSRVs s;
     mCurComputeSRVs := mCurComputeSRVs s; mCurComputeUAVs := v;
     mNullSRVs := mNullSRVs s; mNullUAVs := mNullUAVs s |}.
Definition set_mNullSRVs (v : list Z) (s : ViewCaches) : ViewCaches :=
  {| mCurVertexSRVs := mCurVertexSRVs s; mCurPixelSRVs := mCurPixelSRVs s;
     mCurComputeSRVs := mCurComputeSRVs s;
     mCurComputeUAVs := mCurComputeUAVs s; mNullSRVs := v;
     mNullUAVs := mNullUAVs s |}.
Definition set_mNullUAVs (v : list Z) (s : ViewCaches) : ViewCaches :=
  {| mCurVertexSRVs := mCurVertexSRVs s; mCurPixelSRVs := mCurPixelSRVs s;
     mCurComputeSRVs := mCurComputeSRVs s;
     mCurComputeUAVs := mCurComputeUAVs s; mNullSRVs := mNullSRVs s;
     mNullUAVs := v |}.

(** sampler states *)
Record SamplerCaches := {
  mForceSetVertexSamplerStates : list bool;
  mForceSetPixelSamplerStates : list bool;
  mForceSetComputeSamplerStates : list bool;
  mCurVertexSamplerStates : list SamplerState;
  mCurPixelSamplerStates : list SamplerState;
  mCurComputeSamplerStates : list SamplerState
}.

Definition set_mForceSetVertexSamplerStates (v : list bool) (s : SamplerCaches) : SamplerCaches :=
  {| mForceSetVertexSamplerStates := v;
     mForceSetPixelSamplerStates := mForceSetPixelSamplerStates s;
     mForceSetComputeSamplerStates := mForceSetComputeSamplerStates s;
     mCurVertexSamplerStates := mCurVertexSamplerStates s;
     mCurPixelSamplerStates := mCurPixelSamplerStates s;
     mCurComputeSamplerStates := mCurComputeSamplerStates s |}.
Definition set_mForceSetPixelSamplerStates (v : list bool) (s : SamplerCaches) : SamplerCaches :=
  {| mForceSetVertexSamplerStates := mForceSetVertexSamplerStates s;
     mForceSetPixelSamplerStates := v;
     mForceSetComputeSamplerStates := mForceSetComputeSamplerStates s;
     mCurVertexSamplerStates := mCurVertexSamplerStates s;
     mCurPixelSamplerStates := mCurPixelSamplerStates s;
     mCurComputeSamplerStates := mCurComputeSamplerStates s |}.
Definition set_mForceSetComputeSamplerStates (v : list bool) (s : SamplerCaches) : SamplerCaches :=
  {| mForceSetVertexSamplerStates := mForceSetVertexSamplerStates s;
     mForceSetPixelSamplerStates := mForceSetPixelSamplerStates s;
     mForceSetComputeSamplerStates := v;
     mCurVertexSamplerStates := mCurVertexSamplerStates s;
     mCurPixelSamplerStates := mCurPixelSamplerStates s;
     mCurComputeSamplerStates := mCurComputeSamplerStates s |}.
Definition set_mCurVertexSamplerStates (v : list SamplerState) (s : SamplerCaches) : SamplerCaches :=
  {| mForceSetVertexSamplerStates := mForceSetVertexSamplerStates s;
     mForceSetPixelSamplerStates := mForceSetPixelSamplerStates s;
     mForceSetComputeSamplerStates := mForceSetComputeSamplerStates s;
     mCurVertexSamplerStates := v;
     mCurPixelSamplerStates := mCurPixelSamplerStates s;
     mCurComputeSamplerStates := mCurComputeSamplerStates s |}.
Definition set_mCurPixelSamplerStates (v : list SamplerState) (s : SamplerCaches) : SamplerCaches :=
  {| mForceSetVertexSamplerStates := mForceSetVertexSamplerStates s;
     mForceSetPixelSamplerStates := mForceSetPixelSamplerStates s;
     mForceSetComputeSamplerStates := mForceSetComputeSamplerStates s;
     mCurVertexSamplerStates := mCurVertexSamplerStates s;
     mCurPixelSamplerStates := v;
     mCurComputeSamplerStates := mCurComputeSamplerStates s |}.
Definition set_mCurComputeSamplerStates (v : list SamplerState) (s : SamplerCaches) : SamplerCaches :=
  {| mForceSetVertexSamplerStates := mForceSetVertexSamplerStates s;
     mForceSetPixelSamplerStates := mForceSetPixelSamplerStates s;
     mForceSetComputeSamplerStates := mForceSetComputeSamplerStates s;
     mCurVertexSamplerStates := mCurVertexSamplerStates s;
     mCurPixelSamplerStates := mCurPixelSamplerStates s;
     mCurComputeSamplerStates := v |}.

(** vertex buffers, input layout, current values *)
Record VertexCache := {
  mDirtyCurrentValueAttribs : BitSet.t;
  mCurrentValueAttribs : list TranslatedAttribute;
  mCurrentInputLayout : Z;
  mDirtyVertexBufferRange : Range.t nat;
  mCurrentVertexBuffers : list Z;
  mCurrentVertexStrides : list Z;
  mCurrentVertexOffsets : list Z;
  mCurrentAttributes : list (option TranslatedAttribute);
  mLastFirstVertex : Optional Z
}.

Definition set_mDirtyCurrentValueAttribs (v : BitSet.t) (s : VertexCache) : VertexCache :=
  {| mDirtyCurrentValueAttribs := v;
     mCurrentValueAttribs := mCurrentValueAttribs s;
     mCurrentInputLayout := mCurrentInputLayout s;
     mDirtyVertexBufferRange := mDirtyVertexBufferRange s;
     mCurrentVertexBuffers := mCurrentVertexBuffers s;
     mCurrentVertexStrides := mCurrentVertexStrides s;
     mCurrentVertexOffsets := mCurrentVertexOffsets s;
     mCurrentAttributes := mCurrentAttributes s;
     mLastFirstVertex := mLastFirstVertex s |}.
Definition set_mCurrentValueAttribs (v : list TranslatedAttribute) (s : VertexCache) : VertexCache :=
  {| mDirtyCurrentValueAttribs := mDirtyCurrentValueAttribs s;
     mCurrentValueAttribs := v; mCurrentInputLayout := mCurrentInputLayout s;
     mDirtyVertexBufferRange := mDirtyVertexBufferRange s;
     mCurrentVertexBuffers := mCurrentVertexBuffers s;
     mCurrentVertexStrides := mCurrentVertexStrides s;
     mCurrentVertexOffsets := mCurrentVertexOffsets s;
     mCurrentAttributes := mCurrentAttributes s;
     mLastFirstVertex := mLastFirstVertex s |}.
Definition set_mCurrentInputLayout (v : Z) (s : VertexCache) : VertexCache :=
  {| mDirtyCurrentValueAttribs := mDirtyCurrentValueAttribs s;
     mCurrentValueAttribs := mCurrentValueAttribs s;
     mCurrentInputLayout := v;
     mDirtyVertexBufferRange := mDirtyVertexBufferRange s;
     mCurrentVertexBuffers := mCurrentVertexBuffers s;
     mCurrentVertexStrides := mCurrentVertexStrides s;
     mCurrentVertexOffsets := mCurrentVertexOffsets s;
     mCurrentAttributes := mCurrentAttributes s;
     mLastFirstVertex := mLastFirstVertex s |}.
Definition set_mDirtyVertexBufferRange (v : Range.t nat) (s : VertexCache) : VertexCache :=
  {| mDirtyCurrentValueAttribs := mDirtyCurrentValueAttribs s;
     mCurrentValueAttribs := mCurrentValueAttribs s;
     mCurrentInputLayout := mCurrentInputLayout s;
     mDirtyVertexBufferRange := v;
     mCurrentVertexBuffers := mCurrentVertexBuffers s;
     mCurrentVertexStrides := mCurrentVertexStrides s;
     mCurrentVertexOffsets := mCurrentVertexOffsets s;
     mCurrentAttributes := mCurrentAttributes s;
     mLastFirstVertex := mLastFirstVertex s |}.
Definition set_mCurrentVertexBuffers (v : list Z) (s : VertexCache) : VertexCache :=
  {| mDirtyCurrentValueAttribs := mDirtyCurrentValueAttribs s;
     mCurrentValueAttribs := mCurrentValueAttribs s;
     mCurrentInputLayout := mCurrentInputLayout s;
     mDirtyVertexBufferRange := mDirtyVertexBufferRange s;
     mCurrentVertexBuffers := v;
     mCurrentVertexStrides := mCurrentVertexStrides s;
     mCurrentVertexOffsets := mCurrentVertexOffsets s;
     mCurrentAttributes := mCurrentAttributes s;
     mLastFirstVertex := mLastFirstVertex s |}.
Definition set_mCurrentVertexStrides (v : list Z) (s : VertexCache) : VertexCache :=
  {| mDirtyCurrentValueAttribs := mDirtyCurrentValueAttribs s;
     mCurrentValueAttribs := mCurrentValueAttribs s;
     mCurrentInputLayout := mCurrentInputLayout s;
     mDirtyVertexBufferRange := mDirtyVertexBufferRange s;
     mCurrentVertexBuffers := mCurrentVertexBuffers s;
     mCurrentVertexStrides := v;
     mCurrentVertexOffsets := mCurrentVertexOffsets s;
     mCurrentAttributes := mCurrentAttributes s;
     mLastFirstVertex := mLastFirstVertex s |}.
Definition set_mCurrentVertexOffsets (v : list Z) (s : VertexCache) : VertexCache :=
  {| mDirtyCurrentValueAttribs := mDirtyCurrentValueAttribs s;
     mCurrentValueAttribs := mCurrentValueAttribs s;
     mCurrentInputLayout := mCurrentInputLayout s;
     mDirtyVertexBufferRange := mDirtyVertexBufferRange s;
     mCurrentVertexBuffers := mCurrentVertexBuffers s;
     mCurrentVertexStrides := mCurrentVertexStrides s;
     mCurrentVertexOffsets := v; mCurrentAttributes := mCurrentAttributes s;
     mLastFirstVertex := mLastFirstVertex s |}.
Definition set_mCurrentAttributes (v : list (option TranslatedAttribute)) (s : VertexCache) : VertexCache :=
  {| mDirtyCurrentValueAttribs := mDirtyCurrentValueAttribs s;
     mCurrentValueAttribs := mCurrentValueAttribs s;
     mCurrentInputLayout := mCurrentInputLayout s;
     mDirtyVertexBufferRange := mDirtyVertexBufferRange s;
     mCurrentVertexBuffers := mCurrentVertexBuffers s;
     mCurrentVertexStrides := mCurrentVertexStrides s;
     mCurrentVertexOffsets := mCurrentVertexOffsets s;
     mCurrentAttributes := v; mLastFirstVertex := mLastFirstVertex s |}.
Definition set_mLastFirstVertex (v : Optional Z) (s : VertexCache) : VertexCache :=
  {| mDirtyCurrentValueAttribs := mDirtyCurrentValueAttribs s;
     mCurrentValueAttribs := mCurrentValueAttribs s;
     mCurrentInputLayout := mCurrentInputLayout s;
     mDirtyVertexBufferRange := mDirtyVertexBufferRange s;
     mCurrentVertexBuffers := mCurrentVertexBuffers s;
     mCurrentVertexStrides := mCurrentVertexStrides s;
     mCurrentVertexOffsets := mCurrentVertexOffsets s;
     mCurrentAttributes := mCurrentAttributes s; mLastFirstVertex := v |}.

(** index buffer and the point-sprite buffers *)
Record IndexCache := {
  mAppliedIB : Z;
  mAppliedIBFormat : Z;
  mAppliedIBOffset : Z;
  mIndexBufferIsDirty : bool;
  mPointSpriteVertexBuffer : Resource11;
  mPointSpriteIndexBuffer : Resource11
}.

Definition set_mAppliedIB (v : Z) (s : IndexCache) : IndexCache :=
  {| mAppliedIB := v; mAppliedIBFormat := mAppliedIBFormat s;
     mAppliedIBOffset := mAppliedIBOffset s;
     mIndexBufferIsDirty := mIndexBufferIsDirty s;
     mPointSpriteVertexBuffer := mPointSpriteVertexBuffer s;
     mPointSpriteIndexBuffer := mPointSpriteIndexBuffer s |}.
Definition set_mAppliedIBFormat (v : Z) (s : IndexCache) : IndexCache :=
  {| mAppliedIB := mAppliedIB s; mAppliedIBFormat := v;
     mAppliedIBOffset := mAppliedIBOffset s;
     mIndexBufferIsDirty := mIndexBufferIsDirty s;
     mPointSpriteVertexBuffer := mPointSpriteVertexBuffer s;
     mPointSpriteIndexBuffer := mPointSpriteIndexBuffer s |}.
Definition set_mAppliedIBOffset (v : Z) (s : IndexCache) : IndexCache :=
  {| mAppliedIB := mAppliedIB s; mAppliedIBFormat := mAppliedIBFormat s;
     mAppliedIBOffset := v; mIndexBufferIsDirty := mIndexBufferIsDirty s;
     mPointSpriteVertexBuffer := mPointSpriteVertexBuffer s;
     mPointSpriteIndexBuffer := mPointSpriteIndexBuffer s |}.
Definition set_mIndexBufferIsDirty (v : bool) (s : IndexCache) : IndexCache :=
  {| mAppliedIB := mAppliedIB s; mAppliedIBFormat := mAppliedIBFormat s;
     mAppliedIBOffset := mAppliedIBOffset s; mIndexBufferIsDirty := v;
     mPointSpriteVertexBuffer := mPointSpriteVertexBuffer s;
     mPointSpriteIndexBuffer := mPointSpriteIndexBuffer s |}.
Definition set_mPointSpriteVertexBuffer (v : Resource11) (s : IndexCache) : IndexCache :=
  {| mAppliedIB := mAppliedIB s; mAppliedIBFormat := mAppliedIBFormat s;
     mAppliedIBOffset := mAppliedIBOffset s;
     mIndexBufferIsDirty := mIndexBufferIsDirty s;
     mPointSpriteVertexBuffer := v;
     mPointSpriteIndexBuffer := mPointSpriteIndexBuffer s |}.
Definition set_mPointSpriteIndexBuffer (v : Resource11) (s : IndexCache) : IndexCache :=
  {| mAppliedIB := mAppliedIB s; mAppliedIBFormat := mAppliedIBFormat s;
     mAppliedIBOffset := mAppliedIBOffset s;
     mIndexBufferIsDirty := mIndexBufferIsDirty s;
     mPointSpriteVertexBuffer := mPointSpriteVertexBuffer s;
     mPointSpriteIndexBuffer := v |}.

(** shaders and primitive topology *)
Record ShaderCache := {
  mAppliedVertexShader : Z;
  mAppliedGeometryShader : Z;
  mAppliedPixelShader : Z;
  mAppliedComputeShader : Z;
  mCurrentPrimitiveTopology : Z;
  mLastAppliedDrawMode : Z;
  mCurrentMinimumDrawCount : Z
}.

Definition set_mAppliedVertexShader (v : Z) (s : ShaderCache) : ShaderCache :=
  {| mAppliedVertexShader := v;
     mAppliedGeometryShader := mAppliedGeometryShader s;
     mAppliedPixelShader := mAppliedPixelShader s;
     mAppliedComputeShader := mAppliedComputeShader s;
     mCurrentPrimitiveTopology := mCurrentPrimitiveTopology s;
     mLastAppliedDrawMode := mLastAppliedDrawMode s;
     mCurrentMinimumDrawCount := mCurrentMinimumDrawCount s |}.
Definition set_mAppliedGeometryShader (v : Z) (s : ShaderCache) : ShaderCache :=
  {| mAppliedVertexShader := mAppliedVertexShader s;
     mAppliedGeometryShader := v;
     mAppliedPixelShader := mAppliedPixelShader s;
     mAppliedComputeShader := mAppliedComputeShader s;
     mCurrentPrimitiveTopology := mCurrentPrimitiveTopology s;
     mLastAppliedDrawMode := mLastAppliedDrawMode s;
     mCurrentMinimumDrawCount := mCurrentMinimumDrawCount s |}.
Definition set_mAppliedPixelShader (v : Z) (s : ShaderCache) : ShaderCache :=
  {| mAppliedVertexShader := mAppliedVertexShader s;
     mAppliedGeometryShader := mAppliedGeometryShader s;
     mAppliedPixelShader := v;
     mAppliedComputeShader := mAppliedComputeShader s;
     mCurrentPrimitiveTopology := mCurrentPrimitiveTopology s;
     mLastAppliedDrawMode := mLastAppliedDrawMode s;
     mCurrentMinimumDrawCount := mCurrentMinimumDrawCount s |}.
Definition set_mAppliedComputeShader (v : Z) (s : ShaderCache) : ShaderCache :=
  {| mAppliedVertexShader := mAppliedVertexShader s;
     mAppliedGeometryShader := mAppliedGeometryShader s;
     mAppliedPixelShader := mAppliedPixelShader s;
     mAppliedComputeShader := v;
     mCurrentPrimitiveTopology := mCurrentPrimitiveTopology s;
     mLastAppliedDrawMode := mLastAppliedDrawMode s;
     mCurrentMinimumDrawCount := mCurrentMinimumDrawCount s |}.
Definition set_mCurrentPrimitiveTopology (v : Z) (s : ShaderCache) : ShaderCache :=
  {| mAppliedVertexShader := mAppliedVertexShader s;
     mAppliedGeometryShader := mAppliedGeometryShader s;
     mAppliedPixelShader := mAppliedPixelShader s;
     mAppliedComputeShader := mAppliedComputeShader s;
     mCurrentPrimitiveTopology := v;
     mLastAppliedDrawMode := mLastAppliedDrawMode s;
     mCurrentMinimumDrawCount := mCurrentMinimumDrawCount s |}.
Definition set_mLastAppliedDrawMode (v : Z) (s : ShaderCache) : ShaderCache :=
  {| mAppliedVertexShader := mAppliedVertexShader s;
     mAppliedGeometryShader := mAppliedGeometryShader s;
     mAppliedPixelShader := mAppliedPixelShader s;
     mAppliedComputeShader := mAppliedComputeShader s;
     mCurrentPrimitiveTopology := mCurrentPrimitiveTopology s;
     mLastAppliedDrawMode := v;
     mCurrentMinimumDrawCount := mCurrentMinimumDrawCount s |}.
Definition set_mCurrentMinimumDrawCount (v : Z) (s : ShaderCache) : ShaderCache :=
  {| mAppliedVertexShader := mAppliedVertexShader s;
     mAppliedGeometryShader := mAppliedGeometryShader s;
     mAppliedPixelShader := mAppliedPixelShader s;
     mAppliedComputeShader := mAppliedComputeShader s;
     mCurrentPrimitiveTopology := mCurrentPrimitiveTopology s;
     mLastAppliedDrawMode := mLastAppliedDrawMode s;
     mCurrentMinimumDrawCount := v |}.

(** constant buffers per slot *)
Record ConstantBufferCache := {
  mCurrentConstantBufferVS : list Z;
  mCurrentConstantBufferVSOffset : list Z;
  mCurrentConstantBufferVSSize : list Z;
  mCurrentConstantBufferPS : list Z;
  mCurrentConstantBufferPSOffset : list Z;
  mCurrentConstantBufferPSSize : list Z
}.

Definition set_mCurrentConstantBufferVS (v : list Z) (s : ConstantBufferCache) : ConstantBufferCache :=
  {| mCurrentConstantBufferVS := v;
     mCurrentConstantBufferVSOffset := mCurrentConstantBufferVSOffset s;
     mCurrentConstantBufferVSSize := mCurrentConstantBufferVSSize s;
     mCurrentConstantBufferPS := mCurrentConstantBufferPS s;
     mCurrentConstantBufferPSOffset := mCurrentConstantBufferPSOffset s;
     mCurrentConstantBufferPSSize := mCurrentConstantBufferPSSize s |}.
Definition set_mCurrentConstantBufferVSOffset (v : list Z) (s : ConstantBufferCache) : ConstantBufferCache :=
  {| mCurrentConstantBufferVS := mCurrentConstantBufferVS s;
     mCurrentConstantBufferVSOffset := v;
     mCurrentConstantBufferVSSize := mCurrentConstantBufferVSSize s;
     mCurrentConstantBufferPS := mCurrentConstantBufferPS s;
     mCurrentConstantBufferPSOffset := mCurrentConstantBufferPSOffset s;
     mCurrentConstantBufferPSSize := mCurrentConstantBufferPSSize s |}.
Definition set_mCurrentConstantBufferVSSize (v : list Z) (s : ConstantBufferCache) : ConstantBufferCache :=
  {| mCurrentConstantBufferVS := mCurrentConstantBufferVS s;
     mCurrentConstantBufferVSOffset := mCurrentConstantBufferVSOffset s;
     mCurrentConstantBufferVSSize := v;
     mCurrentConstantBufferPS := mCurrentConstantBufferPS s;
     mCurrentConstantBufferPSOffset := mCurrentConstantBufferPSOffset s;
     mCurrentConstantBufferPSSize := mCurrentConstantBufferPSSize s |}.
Definition set_mCurrentConstantBufferPS (v : list Z) (s : ConstantBufferCache) : ConstantBufferCache :=
  {| mCurrentConstantBufferVS := mCurrentConstantBufferVS s;
     mCurrentConstantBufferVSOffset := mCurrentConstantBufferVSOffset s;
     mCurrentConstantBufferVSSize := mCurrentConstantBufferVSSize s;
     mCurrentConstantBufferPS := v;
     mCurrentConstantBufferPSOffset := mCurrentConstantBufferPSOffset s;
     mCurrentConstantBufferPSSize := mCurrentConstantBufferPSSize s |}.
Definition set_mCurrentConstantBufferPSOffset (v : list Z) (s : ConstantBufferCache) : ConstantBufferCache :=
  {| mCurrentConstantBufferVS := mCurrentConstantBufferVS s;
     mCurrentConstantBufferVSOffset := mCurrentConstantBufferVSOffset s;
     mCurrentConstantBufferVSSize := mCurrentConstantBufferVSSize s;
     mCurrentConstantBufferPS := mCurrentConstantBufferPS s;
     mCurrentConstantBufferPSOffset := v;
     mCurrentConstantBufferPSSize := mCurrentConstantBufferPSSize s |}.
Definition set_mCurrentConstantBufferPSSize (v : list Z) (s : ConstantBufferCache) : ConstantBufferCache :=
  {| mCurrentConstantBufferVS := mCurrentConstantBufferVS s;
     mCurrentConstantBufferVSOffset := mCurrentConstantBufferVSOffset s;
     mCurrentConstantBufferVSSize := mCurrentConstantBufferVSSize s;
     mCurrentConstantBufferPS := mCurrentConstantBufferPS s;
     mCurrentConstantBufferPSOffset := mCurrentConstantBufferPSOffset s;
     mCurrentConstantBufferPSSize := v |}.

(** driver constant buffers and the buffer observer *)
Record DriverBuffers := {
  mCurrentGeometryConstantBuffer : Z;
  mCurrentComputeConstantBuffer : Z;
  mDriverConstantBufferVS : Resource11;
  mDriverConstantBufferPS : Resource11;
  mDriverConstantBufferCS : Resource11;
  mBindingsVS : list (option Z);
  mBindingsPS : list (option Z)
}.

Definition set_mCurrentGeometryConstantBuffer (v : Z) (s : DriverBuffers) : DriverBuffers :=
  {| mCurrentGeometryConstantBuffer := v;
     mCurrentComputeConstantBuffer := mCurrentComputeConstantBuffer s;
     mDriverConstantBufferVS := mDriverConstantBufferVS s;
     mDriverConstantBufferPS := mDriverConstantBufferPS s;
     mDriverConstantBufferCS := mDriverConstantBufferCS s;
     mBindingsVS := mBindingsVS s; mBindingsPS := mBindingsPS s |}.
Definition set_mCurrentComputeConstantBuffer (v : Z) (s : DriverBuffers) : DriverBuffers :=
  {| mCurrentGeometryConstantBuffer := mCurrentGeometryConstantBuffer s;
     mCurrentComputeConstantBuffer := v;
     mDriverConstantBufferVS := mDriverConstantBufferVS s;
     mDriverConstantBufferPS := mDriverConstantBufferPS s;
     mDriverConstantBufferCS := mDriverConstantBufferCS s;
     mBindingsVS := mBindingsVS s; mBindingsPS := mBindingsPS s |}.
Definition set_mDriverConstantBufferVS (v : Resource11) (s : DriverBuffers) : DriverBuffers :=
  {| mCurrentGeometryConstantBuffer := mCurrentGeometryConstantBuffer s;
     mCurrentComputeConstantBuffer := mCurrentComputeConstantBuffer s;
     mDriverConstantBufferVS := v;
     mDriverConstantBufferPS := mDriverConstantBufferPS s;
     mDriverConstantBufferCS := mDriverConstantBufferCS s;
     mBindingsVS := mBindingsVS s; mBindingsPS := mBindingsPS s |}.
Definition set_mDriverConstantBufferPS (v : Resource11) (s : DriverBuffers) : DriverBuffers :=
  {| mCurrentGeometryConstantBuffer := mCurrentGeometryConstantBuffer s;
     mCurrentComputeConstantBuffer := mCurrentComputeConstantBuffer s;
     mDriverConstantBufferVS := mDriverConstantBufferVS s;
     mDriverConstantBufferPS := v;
     mDriverConstantBufferCS := mDriverConstantBufferCS s;
     mBindingsVS := mBindingsVS s; mBindingsPS := mBindingsPS s |}.
Definition set_mDriverConstantBufferCS (v : Resource11) (s : DriverBuffers) : DriverBuffers :=
  {| mCurrentGeometryConstantBuffer := mCurrentGeometryConstantBuffer s;
     mCurrentComputeConstantBuffer := mCurrentComputeConstantBuffer s;
     mDriverConstantBufferVS := mDriverConstantBufferVS s;
     mDriverConstantBufferPS := mDriverConstantBufferPS s;
     mDriverConstantBufferCS := v; mBindingsVS := mBindingsVS s;
     mBindingsPS := mBindingsPS s |}.
Definition set_mBindingsVS (v : list (option Z)) (s : DriverBuffers) : DriverBuffers :=
  {| mCurrentGeometryConstantBuffer := mCurrentGeometryConstantBuffer s;
     mCurrentComputeConstantBuffer := mCurrentComputeConstantBuffer s;
     mDriverConstantBufferVS := mDriverConstantBufferVS s;
     mDriverConstantBufferPS := mDriverConstantBufferPS s;
     mDriverConstantBufferCS := mDriverConstantBufferCS s; mBindingsVS := v;
     mBindingsPS := mBindingsPS s |}.
Definition set_mBindingsPS (v : list (option Z)) (s : DriverBuffers) : DriverBuffers :=
  {| mCurrentGeometryConstantBuffer := mCurrentGeometryConstantBuffer s;
     mCurrentComputeConstantBuffer := mCurrentComputeConstantBuffer s;
     mDriverConstantBufferVS := mDriverConstantBufferVS s;
     mDriverConstantBufferPS := mDriverConstantBufferPS s;
     mDriverConstantBufferCS := mDriverConstantBufferCS s;
     mBindingsVS := mBindingsVS s; mBindingsPS := v |}.

(** pending work and applied serials *)
Record Flags := {
  mRenderTargetIsDirty : bool;
  mDirtySwizzles : bool;
  mIsMultiviewEnabled : bool;
  mAppliedTFSerial : Z;
  mEmptySerial : Z
}.

Definition set_mRenderTargetIsDirty (v : bool) (s : Flags) : Flags :=
  {| mRenderTargetIsDirty := v; mDirtySwizzles := mDirtySwizzles s;
     mIsMultiviewEnabled := mIsMultiviewEnabled s;
     mAppliedTFSerial := mAppliedTFSerial s;
     mEmptySerial := mEmptySerial s |}.
Definition set_mDirtySwizzles (v : bool) (s : Flags) : Flags :=
  {| mRenderTargetIsDirty := mRenderTargetIsDirty s; mDirtySwizzles := v;
     mIsMultiviewEnabled := mIsMultiviewEnabled s;
     mAppliedTFSerial := mAppliedTFSerial s;
     mEmptySerial := mEmptySerial s |}.
Definition set_mIsMultiviewEnabled (v : bool) (s : Flags) : Flags :=
  {| mRenderTargetIsDirty := mRenderTargetIsDirty s;
     mDirtySwizzles := mDirtySwizzles s; mIsMultiviewEnabled := v;
     mAppliedTFSerial := mAppliedTFSerial s;
     mEmptySerial := mEmptySerial s |}.
Definition set_mAppliedTFSerial (v : Z) (s : Flags) : Flags :=
  {| mRenderTargetIsDirty := mRenderTargetIsDirty s;
     mDirtySwizzles := mDirtySwizzles s;
     mIsMultiviewEnabled := mIsMultiviewEnabled s; mAppliedTFSerial := v;
     mEmptySerial := mEmptySerial s |}.
Definition set_mEmptySerial (v : Z) (s : Flags) : Flags :=
  {| mRenderTargetIsDirty := mRenderTargetIsDirty s;
     mDirtySwizzles := mDirtySwizzles s;
     mIsMultiviewEnabled := mIsMultiviewEnabled s;
     mAppliedTFSerial := mAppliedTFSerial s; mEmptySerial := v |}.

(** [StateManager11] *)
Record StateManager11 := {
  mInternalDirtyBits : BitSet.t;
  mShaderConstants : ShaderConstants11;
  blendCache : BlendCache;
  depthStencilCache : DepthStencilCache;
  rasterCache : RasterCache;
  viewportCache : ViewportCache;
  viewCaches : ViewCaches;
  samplerCaches : SamplerCaches;
  vertexCache : VertexCache;
  indexCache : IndexCache;
  shaderCache : ShaderCache;
  constantBufferCache : ConstantBufferCache;
  driverBuffers : DriverBuffers;
  flags : Flags
}.

Definition upd_mInternalDirtyBits (f : BitSet.t -> BitSet.t) (s : StateManager11) : StateManager11 :=
  {| mInternalDirtyBits := f (mInternalDirtyBits s);
     mShaderConstants := mShaderConstants s; blendCache := blendCache s;
     depthStencilCache := depthStencilCache s; rasterCache := rasterCache s;
     viewportCache := viewportCache s; viewCaches := viewCaches s;
     samplerCaches := samplerCaches s; vertexCache := vertexCache s;
     indexCache := indexCache s; shaderCache := shaderCache s;
     constantBufferCache := constantBufferCache s;
     driverBuffers := driverBuffers s; flags := flags s |}.
Definition upd_mShaderConstants (f : ShaderConstants11 -> ShaderConstants11) (s : StateManager11) : StateManager11 :=
  {| mInternalDirtyBits := mInternalDirtyBits s;
     mShaderConstants := f (mShaderConstants s); blendCache := blendCache s;
     depthStencilCache := depthStencilCache s; rasterCache := rasterCache s;
     viewportCache := viewportCache s; viewCaches := viewCaches s;
     samplerCaches := samplerCaches s; vertexCache := vertexCache s;
     indexCache := indexCache s; shaderCache := shaderCache s;
     constantBufferCache := constantBufferCache s;
     driverBuffers := driverBuffers s; flags := flags s |}.
Definition upd_blendCache (f : BlendCache -> BlendCache) (s : StateManager11) : StateManager11 :=
  {| mInternalDirtyBits := mInternalDirtyBits s;
     mShaderConstants := mShaderConstants s; blendCache := f (blendCache s);
     depthStencilCache := depthStencilCache s; rasterCache := rasterCache s;
     viewportCache := viewportCache s; viewCaches := viewCaches s;
     samplerCaches := samplerCaches s; vertexCache := vertexCache s;
     indexCache := indexCache s; shaderCache := shaderCache s;
     constantBufferCache := constantBufferCache s;
     driverBuffers := driverBuffers s; flags := flags s |}.
Definition upd_depthStencilCache (f : DepthStencilCache -> DepthStencilCache) (s : StateManager11) : StateManager11 :=
  {| mInternalDirtyBits := mInternalDirtyBits s;
     mShaderConstants := mShaderConstants s; blendCache := blendCache s;
     depthStencilCache := f (depthStencilCache s);
     rasterCache := rasterCache s; viewportCache := viewportCache s;
     viewCaches := viewCaches s; samplerCaches := samplerCaches s;
     vertexCache := vertexCache s; indexCache := indexCache s;
     shaderCache := shaderCache s;
     constantBufferCache := constantBufferCache s;
     driverBuffers := driverBuffers s; flags := flags s |}.
Definition upd_rasterCache (f : RasterCache -> RasterCache) (s : StateManager11) : StateManager11 :=
  {| mInternalDirtyBits := mInternalDirtyBits s;
     mShaderConstants := mShaderConstants s; blendCache := blendCache s;
     depthStencilCache := depthStencilCache s;
     rasterCache := f (rasterCache s); viewportCache := viewportCache s;
     viewCaches := viewCaches s; samplerCaches := samplerCaches s;
     vertexCache := vertexCache s; indexCache := indexCache s;
     shaderCache := shaderCache s;
     constantBufferCache := constantBufferCache s;
     driverBuffers := driverBuffers s; flags := flags s |}.
Definition upd_viewportCache (f : ViewportCache -> ViewportCache) (s : StateManager11) : StateManager11 :=
  {| mInternalDirtyBits := mInternalDirtyBits s;
     mShaderConstants := mShaderConstants s; blendCache := blendCache s;
     depthStencilCache := depthStencilCache s; rasterCache := rasterCache s;
     viewportCache := f (viewportCache s); viewCaches := viewCaches s;
     samplerCaches := samplerCaches s; vertexCache := vertexCache s;
     indexCache := indexCache s; shaderCache := shaderCache s;
     constantBufferCache := constantBufferCache s;
     driverBuffers := driverBuffers s; flags := flags s |}.
Definition upd_viewCaches (f : ViewCaches -> ViewCaches) (s : StateManager11) : StateManager11 :=
  {| mInternalDirtyBits := mInternalDirtyBits s;
     mShaderConstants := mShaderConstants s; blendCache := blendCache s;
     depthStencilCache := depthStencilCache s; rasterCache := rasterCache s;
     viewportCache := viewportCache s; viewCaches := f (viewCaches s);
     samplerCaches := samplerCaches s; vertexCache := vertexCache s;
     indexCache := indexCache s; shaderCache := shaderCache s;
     constantBufferCache := constantBufferCache s;
     driverBuffers := driverBuffers s; flags := flags s |}.
Definition upd_samplerCaches (f : SamplerCaches -> SamplerCaches) (s : StateManager11) : StateManager11 :=
  {| mInternalDirtyBits := mInternalDirtyBits s;
     mShaderConstants := mShaderConstants s; blendCache := blendCache s;
     depthStencilCache := depthStencilCache s; rasterCache := rasterCache s;
     viewportCache := viewportCache s; viewCaches := viewCaches s;
     samplerCaches := f (samplerCaches s); vertexCache := vertexCache s;
     indexCache := indexCache s; shaderCache := shaderCache s;
     constantBufferCache := constantBufferCache s;
     driverBuffers := driverBuffers s; flags := flags s |}.
Definition upd_vertexCache (f : VertexCache -> VertexCache) (s : StateManager11) : StateManager11 :=
  {| mInternalDirtyBits := mInternalDirtyBits s;
     mShaderConstants := mShaderConstants s; blendCache := blendCache s;
     depthStencilCache := depthStencilCache s; rasterCache := rasterCache s;
     viewportCache := viewportCache s; viewCaches := viewCaches s;
     samplerCaches := samplerCaches s; vertexCache := f (vertexCache s);
     indexCache := indexCache s; shaderCache := shaderCache s;
     constantBufferCache := constantBufferCache s;
     driverBuffers := driverBuffers s; flags := flags s |}.
Definition upd_indexCache (f : IndexCache -> IndexCache) (s : StateManager11) : StateManager11 :=
  {| mInternalDirtyBits := mInternalDirtyBits s;
     mShaderConstants := mShaderConstants s; blendCache := blendCache s;
     depthStencilCache := depthStencilCache s; rasterCache := rasterCache s;
     viewportCache := viewportCache s; viewCaches := viewCaches s;
     samplerCaches := samplerCaches s; vertexCache := vertexCache s;
     indexCache := f (indexCache s); shaderCache := shaderCache s;
     constantBufferCache := constantBufferCache s;
     driverBuffers := driverBuffers s; flags := flags s |}.
Definition upd_shaderCache (f : ShaderCache -> ShaderCache) (s : StateManager11) : StateManager11 :=
  {| mInternalDirtyBits := mInternalDirtyBits s;
     mShaderConstants := mShaderConstants s; blendCache := blendCache s;
     depthStencilCache := depthStencilCache s; rasterCache := rasterCache s;
     viewportCache := viewportCache s; viewCaches := viewCaches s;
     samplerCaches := samplerCaches s; vertexCache := vertexCache s;
     indexCache := indexCache s; shaderCache := f (shaderCache s);
     constantBufferCache := constantBufferCache s;
     driverBuffers := driverBuffers s; flags := flags s |}.
Definition upd_constantBufferCache (f : ConstantBufferCache -> ConstantBufferCache) (s : StateManager11) : StateManager11 :=
  {| mInternalDirtyBits := mInternalDirtyBits s;
     mShaderConstants := mShaderConstants s; blendCache := blendCache s;
     depthStencilCache := depthStencilCache s; rasterCache := rasterCache s;
     viewportCache := viewportCache s; viewCaches := viewCaches s;
     samplerCaches := samplerCaches s; vertexCache := vertexCache s;
     indexCache := indexCache s; shaderCache := shaderCache s;
     constantBufferCache := f (constantBufferCache s);
     driverBuffers := driverBuffers s; flags := flags s |}.
Definition upd_driverBuffers (f : DriverBuffers -> DriverBuffers) (s : StateManager11) : StateManager11 :=
  {| mInternalDirtyBits := mInternalDirtyBits s;
     mShaderConstants := mShaderConstants s; blendCache := blendCache s;
     depthStencilCache := depthStencilCache s; rasterCache := rasterCache s;
     viewportCache := viewportCache s; viewCaches := viewCaches s;
     samplerCaches := samplerCaches s; vertexCache := vertexCache s;
     indexCache := indexCache s; shaderCache := shaderCache s;
     constantBufferCache := constantBufferCache s;
     driverBuffers := f (driverBuffers s); flags := flags s |}.
Definition upd_flags (f : Flags -> Flags) (s : StateManager11) : StateManager11 :=
  {| mInternalDirtyBits := mInternalDirtyBits s;
     mShaderConstants := mShaderConstants s; blendCache := blendCache s;
     depthStencilCache := depthStencilCache s; rasterCache := rasterCache s;
     viewportCache := viewportCache s; viewCaches := viewCaches s;
     samplerCaches := samplerCaches s; vertexCache := vertexCache s;
     indexCache := indexCache s; shaderCache := shaderCache s;
     constantBufferCache := constantBufferCache s;
     driverBuffers := driverBuffers s; flags := f (flags s) |}.

(** What a [StateManager11] method works on: the manager itself and the
    collaborators' state it reaches. *)
Record St := { sm : StateManager11; world : World }.

Definition modSM (f : StateManager11 -> StateManager11) : M St unit :=
  modify (fun s => {| sm := f (sm s); world := world s |}).
Definition modWorld (f : World -> World) : M St unit :=
  modify (fun s => {| sm := sm s; world := f (world s) |}).
Definition getSM {A} (f : StateManager11 -> A) : M St A := gets (fun s => f (sm s)).
Definition getWorld {A} (f : World -> A) : M St A := gets (fun s => f (world s)).

(** [gl::State::DirtyBits]: the notifications [syncState] tells apart; the
    others fall into the [default] of its switch. *)
Module State.
Inductive DirtyBit :=
    | DIRTY_BIT_BLEND_EQUATIONS
    | DIRTY_BIT_BLEND_FUNCS
    | DIRTY_BIT_BLEND_ENABLED
    | DIRTY_BIT_SAMPLE_ALPHA_TO_COVERAGE_ENABLED
    | DIRTY_BIT_DITHER_ENABLED
    | DIRTY_BIT_COLOR_MASK
    | DIRTY_BIT_BLEND_COLOR
    | DIRTY_BIT_DEPTH_MASK
    | DIRTY_BIT_DEPTH_TEST_ENABLED
    | DIRTY_BIT_DEPTH_FUNC
    | DIRTY_BIT_STENCIL_TEST_ENABLED
    | DIRTY_BIT_STENCIL_FUNCS_FRONT
    | DIRTY_BIT_STENCIL_FUNCS_BACK
    | DIRTY_BIT_STENCIL_WRITEMASK_FRONT
    | DIRTY_BIT_STENCIL_WRITEMASK_BACK
    | DIRTY_BIT_STENCIL_OPS_FRONT
    | DIRTY_BIT_STENCIL_OPS_BACK
    | DIRTY_BIT_CULL_FACE_ENABLED
    | DIRTY_BIT_CULL_FACE
    | DIRTY_BIT_FRONT_FACE
    | DIRTY_BIT_POLYGON_OFFSET_FILL_ENABLED
    | DIRTY_BIT_POLYGON_OFFSET
    | DIRTY_BIT_RASTERIZER_DISCARD_ENABLED
    | DIRTY_BIT_SCISSOR
    | DIRTY_BIT_SCISSOR_TEST_ENABLED
    | DIRTY_BIT_DEPTH_RANGE
    | DIRTY_BIT_VIEWPORT
    | DIRTY_BIT_DRAW_FRAMEBUFFER_BINDING
    | DIRTY_BIT_VERTEX_ARRAY_BINDING
    | DIRTY_BIT_UNIFORM_BUFFER_BINDINGS
    | DIRTY_BIT_TEXTURE_BINDINGS
    | DIRTY_BIT_SAMPLER_BINDINGS
    | DIRTY_BIT_TRANSFORM_FEEDBACK_BINDING
    | DIRTY_BIT_PROGRAM_EXECUTABLE
    | DIRTY_BIT_CURRENT_VALUES
    | DIRTY_BIT_OTHER (bit : nat).
End State.

Definition neZ (a b : Z) : bool := negb (a =? b)%Z.
Definition neB (a b : bool) : bool := negb (Bool.eqb a b).
Definition neF (a b : GLfloat) : bool := negb (feqb a b).

(** [std::vector::operator!=] on viewport offsets *)
Fixpoint offsets_eqb (a b : list Offset.t) : bool :=
  match a, b with
  | [], [] => true
  | x :: a', y :: b' => Offset.eqb x y && offsets_eqb a' b'
  | _, _ => false
  end.

(* ================================================================== *)
(** * StateManager11: methods                                            *)
(* ================================================================== *)

Section StateManager.
  (** constants of headers that are not among the sources *)
Variable MAX_VERTEX_ATTRIBS : nat.                 (* gl::MAX_VERTEX_ATTRIBS *)
Variable RESERVED_CONSTANT_BUFFER_SLOT_DRIVER : nat.
Variable RESERVED_CONSTANT_BUFFER_SLOT_DEFAULT_UNIFORM_BLOCK : nat.
Variable IMPLEMENTATION_MAX_VERTEX_SHADER_UNIFORM_BUFFERS : nat.
Variable IMPLEMENTATION_MAX_FRAGMENT_SHADER_UNIFORM_BUFFERS : nat.
  (** [mRenderer] *)
Variable mRenderer : Renderer11.

Local Open Scope Z_scope.

Definition setDirty (b : DirtyBitType) (s : StateManager11) : StateManager11 :=
    upd_mInternalDirtyBits (BitSet.set (dirtyBitIndex b)) s.

  (** [StateManager11::StateManager11(Renderer11 *renderer)] *)
Definition new : StateManager11 :=
    {| mInternalDirtyBits := BitSet.all DIRTY_BIT_MAX;
       mShaderConstants := ShaderConstants.new;
       blendCache :=
         {| mCurBlendState :=
              {| blend := false; sourceBlendRGB := GL_ONE; destBlendRGB := GL_ZERO;
                 sourceBlendAlpha := GL_ONE; destBlendAlpha := GL_ZERO;
                 blendEquationRGB := GL_FUNC_ADD; blendEquationAlpha := GL_FUNC_ADD;
                 colorMaskRed := true; colorMaskGreen := true; colorMaskBlue := true;
                 colorMaskAlpha := true; sampleAlphaToCoverage := false;
                 dither := false |};
            mCurBlendColor := ColorF.make f0 f0 f0 f0;
            mCurSampleMask := 0 |};
       depthStencilCache :=
         {| mCurDepthStencilState :=
              {| depthTest := false; depthFunc := GL_LESS; depthMask := true;
                 stencilTest := false;
                 stencilFunc := 0;  (* not assigned by the constructor *)
                 stencilMask := 1;  (* [= true] *)
                 stencilFail := GL_KEEP; stencilPassDepthFail := GL_KEEP;
                 stencilPassDepthPass := GL_KEEP; stencilWritemask := UINT_MAX;
                 stencilBackFunc := GL_ALWAYS; stencilBackMask := UINT_MAX;
                 stencilBackFail := GL_KEEP; stencilBackPassDepthFail := GL_KEEP;
                 stencilBackPassDepthPass := GL_KEEP;
                 stencilBackWritemask := UINT_MAX |};
            mCurStencilRef := 0; mCurStencilBackRef := 0; mCurStencilSize := 0;
            mCurDisableDepth := None; mCurDisableStencil := None |};
       rasterCache :=
         {| mCurRasterState :=
              {| cullFace := false; cullMode := CullBack; frontFace := GL_CCW;
                 polygonOffsetFill := false; polygonOffsetFactor := f0;
                 polygonOffsetUnits := f0; pointDrawMode := false;
                 multiSample := false; rasterizerDiscard := false |};
            mCurScissorEnabled := false;
            mCurScissorRect := Rectangle.make 0 0 0 0;
            mCurPresentPathFastEnabled := false;
            mCurPresentPathFastColorBufferHeight := 0 |};
       viewportCache :=
         {| mCurViewport := Rectangle.make 0 0 0 0; mCurNear := f0; mCurFar := f0;
            mViewportBounds := Extents.make 0 0 0; mViewportOffsets := [] |};
       viewCaches :=
         {| mCurVertexSRVs := ViewCache.initialize zero_SRV_DESC 0;
            mCurPixelSRVs := ViewCache.initialize zero_SRV_DESC 0;
            mCurComputeSRVs := ViewCache.initialize zero_SRV_DESC 0;
            mCurComputeUAVs := ViewCache.initialize zero_UAV_DESC 0;
            mNullSRVs := []; mNullUAVs := [] |};
       samplerCaches :=
         {| mForceSetVertexSamplerStates := []; mForceSetPixelSamplerStates := [];
            mForceSetComputeSamplerStates := []; mCurVertexSamplerStates := [];
            mCurPixelSamplerStates := []; mCurComputeSamplerStates := [] |};
       vertexCache :=
         {| (* Initially all current value attributes must be updated on first use. *)
            mDirtyCurrentValueAttribs := BitSet.all MAX_VERTEX_ATTRIBS;
            mCurrentValueAttribs := [];
            mCurrentInputLayout := 0;
            mDirtyVertexBufferRange := Range.make MAX_VERTEX_ATTRIBS 0%nat;
            mCurrentVertexBuffers := replicate MAX_VERTEX_ATTRIBS 0;
            mCurrentVertexStrides := replicate MAX_VERTEX_ATTRIBS UINT_MAX;
            mCurrentVertexOffsets := replicate MAX_VERTEX_ATTRIBS UINT_MAX;
            mCurrentAttributes := [];
            mLastFirstVertex := None |};
       indexCache :=
         {| mAppliedIB := 0; mAppliedIBFormat := DXGI_FORMAT_UNKNOWN;
            mAppliedIBOffset := 0; mIndexBufferIsDirty := false;
            mPointSpriteVertexBuffer := res_null;
            mPointSpriteIndexBuffer := res_null |};
       shaderCache :=
         {| mAppliedVertexShader := 0; mAppliedGeometryShader := 0;
            mAppliedPixelShader := 0; mAppliedComputeShader := 0;
            mCurrentPrimitiveTopology := D3D_PRIMITIVE_TOPOLOGY_UNDEFINED;
            mLastAppliedDrawMode := GL_INVALID_INDEX;
            mCurrentMinimumDrawCount := 0 |};
       constantBufferCache :=
         {| mCurrentConstantBufferVS :=
              replicate IMPLEMENTATION_MAX_VERTEX_SHADER_UNIFORM_BUFFERS 0;
            mCurrentConstantBufferVSOffset :=
              replicate IMPLEMENTATION_MAX_VERTEX_SHADER_UNIFORM_BUFFERS 0;
            mCurrentConstantBufferVSSize :=
              replicate IMPLEMENTATION_MAX_VERTEX_SHADER_UNIFORM_BUFFERS 0;
            mCurrentConstantBufferPS :=
              replicate IMPLEMENTATION_MAX_FRAGMENT_SHADER_UNIFORM_BUFFERS 0;
            mCurrentConstantBufferPSOffset :=
              replicate IMPLEMENTATION_MAX_FRAGMENT_SHADER_UNIFORM_BUFFERS 0;
            mCurrentConstantBufferPSSize :=
              replicate IMPLEMENTATION_MAX_FRAGMENT_SHADER_UNIFORM_BUFFERS 0 |};
       driverBuffers :=
         {| mCurrentGeometryConstantBuffer := 0; mCurrentComputeConstantBuffer := 0;
            mDriverConstantBufferVS := res_null; mDriverConstantBufferPS := res_null;
            mDriverConstantBufferCS := res_null;
            mBindingsVS := replicate IMPLEMENTATION_MAX_VERTEX_SHADER_UNIFORM_BUFFERS None;
            mBindingsPS := replicate IMPLEMENTATION_MAX_FRAGMENT_SHADER_UNIFORM_BUFFERS None |};
       flags :=
         {| mRenderTargetIsDirty := true; mDirtySwizzles := false;
            mIsMultiviewEnabled := false; mAppliedTFSerial := 0;
            mEmptySerial := generateSerial mRenderer |} |}.

  (** [getSRVCache], as the place it designates: how to read it and how to
      write it back *)
Definition getSRVCache (shaderType : ShaderType) (v : ViewCaches) : SRVCache :=
    match shaderType with
    | Vertex => mCurVertexSRVs v
    | Fragment => mCurPixelSRVs v
    | Compute => mCurComputeSRVs v
    | Geometry => mCurVertexSRVs v     (* UNREACHABLE(); return &mCurVertexSRVs; *)
    end.

Definition putSRVCache (shaderType : ShaderType) (c : SRVCache) (v : ViewCaches)
      : ViewCaches :=
    match shaderType with
    | Vertex => set_mCurVertexSRVs c v
    | Fragment => set_mCurPixelSRVs c v
    | Compute => set_mCurComputeSRVs c v
    | Geometry => set_mCurVertexSRVs c v
    end.

  (** the stage-specific [*SSetShaderResources]; no call in the
      [UNREACHABLE] default of the switch *)
Definition emitSetShaderResources (shaderType : ShaderType)
      (StartSlot NumViews : Z) (views : list Z) : M St unit :=
    match shaderType with
    | Vertex | Fragment | Compute =>
        emit (XSSetShaderResources shaderType StartSlot NumViews views)
    | Geometry => ret tt
    end.

Definition setShaderResourceInternal (shaderType : ShaderType)
      (resourceSlot : nat) (srv : option SRVWrapper) : M St unit :=
    currentSRVs ← getSM (fun s => getSRVCache shaderType (viewCaches s));
    let record := ViewCache.at_ zero_SRV_DESC currentSRVs resourceSlot in
    let srvAddr := match srv with Some w => Zpos (srv_this w) | None => 0 end in
    if neZ (ViewCache.view record) srvAddr then
      let srvPtr := match srv with Some w => srv_get w | None => None end in
      emitSetShaderResources shaderType (Z.of_nat resourceSlot) 1 [view_uintptr srvPtr];;
      modSM (upd_viewCaches (fun v =>
        putSRVCache shaderType
          (ViewCache.update (getSRVCache shaderType v) resourceSlot srvPtr) v))
    else ret tt.

Definition updateStencilSizeIfChanged (depthStencilInitialized : bool)
      (stencilSize : Z) (s : StateManager11) : StateManager11 :=
    if negb depthStencilInitialized
       || neZ stencilSize (mCurStencilSize (depthStencilCache s))
    then setDirty DIRTY_BIT_DEPTH_STENCIL_STATE
           (upd_depthStencilCache (set_mCurStencilSize stencilSize) s)
    else s.

Definition invalidateRenderTarget (s : StateManager11) : StateManager11 :=
    upd_flags (set_mRenderTargetIsDirty true) s.

Definition invalidateShaders (s : StateManager11) : StateManager11 :=
    setDirty DIRTY_BIT_SHADERS s.

Definition invalidateInputLayout (s : StateManager11) : StateManager11 :=
    setDirty DIRTY_BIT_VERTEX_BUFFERS_AND_INPUT_LAYOUT s.

Definition invalidateIndexBuffer (s : StateManager11) : StateManager11 :=
    upd_indexCache (set_mIndexBufferIsDirty true) s.

Definition invalidateDriverUniforms (s : StateManager11) : StateManager11 :=
    setDirty DIRTY_BIT_DRIVER_UNIFORMS s.

Definition invalidateProgramUniforms (s : StateManager11) : StateManager11 :=
    setDirty DIRTY_BIT_PROGRAM_UNIFORMS s.

Definition invalidateProgramUniformBuffers (s : StateManager11) : StateManager11 :=
    setDirty DIRTY_BIT_PROGRAM_UNIFORM_BUFFERS s.

Definition invalidateSwizzles (s : StateManager11) : StateManager11 :=
    upd_flags (set_mDirtySwizzles true) s.

Definition invalidateVertexBuffer (s : StateManager11) : StateManager11 :=
    let limit := Nat.min (maxVertexAttributes (getNativeCaps mRenderer)) MAX_VERTEX_ATTRIBS in
    let s := upd_vertexCache (set_mDirtyVertexBufferRange (Range.make 0%nat limit)) s in
    let s := invalidateInputLayout s in
    let s := invalidateShaders s in
    setDirty DIRTY_BIT_CURRENT_VALUE_ATTRIBS s.

Definition invalidateViewport (context : Context) (s : StateManager11)
      : StateManager11 :=
    let s := setDirty DIRTY_BIT_VIEWPORT_STATE s in
    (* Viewport affects the driver constants. *)
    invalidateDriverUniforms s.

Definition invalidateTexturesAndSamplers (s : StateManager11) : StateManager11 :=
    let s := setDirty DIRTY_BIT_TEXTURE_AND_SAMPLER_STATE s in
    let s := invalidateSwizzles s in
    (* Texture state affects the driver uniforms (base level, etc). *)
    invalidateDriverUniforms s.

Definition invalidateConstantBuffer (slot : nat) (s : StateManager11)
      : StateManager11 :=
    if (slot =? RESERVED_CONSTANT_BUFFER_SLOT_DRIVER)%nat
    then invalidateDriverUniforms s
    else if (slot =? RESERVED_CONSTANT_BUFFER_SLOT_DEFAULT_UNIFORM_BLOCK)%nat
    then invalidateProgramUniforms s
    else invalidateProgramUniformBuffers s.

Definition invalidateTransformFeedback (s : StateManager11) : StateManager11 :=
    (* Transform feedback affects the stream-out geometry shader. *)
    let s := invalidateShaders s in
    let s := setDirty DIRTY_BIT_TRANSFORM_FEEDBACK s in
    (* syncPrimitiveTopology checks the transform feedback state. *)
    setDirty DIRTY_BIT_PRIMITIVE_TOPOLOGY s.

Definition invalidateCurrentValueAttrib (attribIndex : nat) (s : StateManager11)
      : StateManager11 :=
    let s := upd_vertexCache (fun v =>
               set_mDirtyCurrentValueAttribs
                 (BitSet.set attribIndex (mDirtyCurrentValueAttribs v)) v) s in
    let s := setDirty DIRTY_BIT_CURRENT_VALUE_ATTRIBS s in
    let s := invalidateInputLayout s in
    invalidateShaders s.

Definition invalidateBoundViews (s : StateManager11) : StateManager11 :=
    let s := upd_viewCaches (fun v =>
               set_mCurPixelSRVs (ViewCache.clear zero_SRV_DESC (mCurPixelSRVs v))
                 (set_mCurVertexSRVs (ViewCache.clear zero_SRV_DESC (mCurVertexSRVs v)) v)) s in
    invalidateRenderTarget s.

Definition checkPresentPath (context : Context) (s : StateManager11)
      : StateManager11 :=
    if negb (presentPathFastEnabled mRenderer) then s
    else
      let framebuffer := getDrawFramebuffer (getGLState context) in
      let firstColorAttachment := getFirstColorbuffer framebuffer in
      let presentPathFastActive := UsePresentPathFast mRenderer firstColorAttachment in
      let colorBufferHeight :=
        match firstColorAttachment with
        | Some a => Extents.height (att_getSize a)
        | None => 0
        end in
      if neB (mCurPresentPathFastEnabled (rasterCache s)) presentPathFastActive
         || (presentPathFastActive
             && neZ colorBufferHeight
                    (mCurPresentPathFastColorBufferHeight (rasterCache s)))
      then
        let s := upd_rasterCache (fun r =>
                   set_mCurPresentPathFastColorBufferHeight colorBufferHeight
                     (set_mCurPresentPathFastEnabled presentPathFastActive r)) s in
        (* Scissor rect may need to be vertically inverted *)
        let s := setDirty DIRTY_BIT_SCISSOR_STATE s in
        (* Cull Mode may need to be inverted *)
        let s := setDirty DIRTY_BIT_RASTERIZER_STATE s in
        (* Viewport may need to be vertically inverted *)
        invalidateViewport context s
      else s.

Definition handleMultiviewDrawFramebufferChange (context : Context)
      (s : StateManager11) : StateManager11 :=
    let drawFramebuffer := getDrawFramebuffer (getGLState context) in
    (* Update viewport offsets. *)
    let viewportOffsets :=
      match getViewportOffsets drawFramebuffer with
      | Some l => l
      | None => GetDefaultViewportOffsetVector
      end in
    let s :=
      if negb (offsets_eqb (mViewportOffsets (viewportCache s)) viewportOffsets)
      then
        let s := upd_viewportCache (set_mViewportOffsets viewportOffsets) s in
        (* Because new viewport offsets are to be applied, we have to mark
           the internal viewport and scissor state as dirty. *)
        let s := invalidateViewport context s in
        setDirty DIRTY_BIT_SCISSOR_STATE s
      else s in
    match getMultiviewLayout drawFramebuffer with
    | GL_FRAMEBUFFER_MULTIVIEW_SIDE_BY_SIDE_ANGLE =>
        upd_mShaderConstants (ShaderConstants.setMultiviewWriteToViewportIndex f1) s
    | GL_FRAMEBUFFER_MULTIVIEW_LAYERED_ANGLE =>
        upd_mShaderConstants (ShaderConstants.setMultiviewWriteToViewportIndex f0) s
    | MultiviewLayoutNone => s
    end.

  (** one iteration of the loop of [syncState] *)
Definition syncStateBit (context : Context) (st : St) (dirtyBit : State.DirtyBit)
      : St :=
    let state := getGLState context in
    let s := sm st in
    let blendState := getBlendState state in
    let cur := mCurBlendState (blendCache s) in
    let depthStencil := getDepthStencilState state in
    let curDS := mCurDepthStencilState (depthStencilCache s) in
    let rasterState := getRasterizerState state in
    let curRS := mCurRasterState (rasterCache s) in
    let keep (s' : StateManager11) := {| sm := s'; world := world st |} in
    let dirtyIf (c : bool) (b : DirtyBitType) := keep (if c then setDirty b s else s) in
    match dirtyBit with
    | State.DIRTY_BIT_BLEND_EQUATIONS =>
        dirtyIf (neZ (blendEquationRGB blendState) (blendEquationRGB cur)
                 || neZ (blendEquationAlpha blendState) (blendEquationAlpha cur))
                DIRTY_BIT_BLEND_STATE
    | State.DIRTY_BIT_BLEND_FUNCS =>
        dirtyIf (neZ (sourceBlendRGB blendState) (sourceBlendRGB cur)
                 || neZ (destBlendRGB blendState) (destBlendRGB cur)
                 || neZ (sourceBlendAlpha blendState) (sourceBlendAlpha cur)
                 || neZ (destBlendAlpha blendState) (destBlendAlpha cur))
                DIRTY_BIT_BLEND_STATE
    | State.DIRTY_BIT_BLEND_ENABLED =>
        dirtyIf (neB (blend blendState) (blend cur)) DIRTY_BIT_BLEND_STATE
    | State.DIRTY_BIT_SAMPLE_ALPHA_TO_COVERAGE_ENABLED =>
        dirtyIf (neB (sampleAlphaToCoverage blendState) (sampleAlphaToCoverage cur))
                DIRTY_BIT_BLEND_STATE
    | State.DIRTY_BIT_DITHER_ENABLED =>
        dirtyIf (neB (dither blendState) (dither cur)) DIRTY_BIT_BLEND_STATE
    | State.DIRTY_BIT_COLOR_MASK =>
        dirtyIf (neB (colorMaskRed blendState) (colorMaskRed cur)
                 || neB (colorMaskGreen blendState) (colorMaskGreen cur)
                 || neB (colorMaskBlue blendState) (colorMaskBlue cur)
                 || neB (colorMaskAlpha blendState) (colorMaskAlpha cur))
                DIRTY_BIT_BLEND_STATE
    | State.DIRTY_BIT_BLEND_COLOR =>
        dirtyIf (negb (ColorF.eqb (getBlendColor state) (mCurBlendColor (blendCache s))))
                DIRTY_BIT_BLEND_STATE
    | State.DIRTY_BIT_DEPTH_MASK =>
        dirtyIf (neB (depthMask depthStencil) (depthMask curDS))
                DIRTY_BIT_DEPTH_STENCIL_STATE
    | State.DIRTY_BIT_DEPTH_TEST_ENABLED =>
        dirtyIf (neB (depthTest depthStencil) (depthTest curDS))
                DIRTY_BIT_DEPTH_STENCIL_STATE
    | State.DIRTY_BIT_DEPTH_FUNC =>
        dirtyIf (neZ (depthFunc depthStencil) (depthFunc curDS))
                DIRTY_BIT_DEPTH_STENCIL_STATE
    | State.DIRTY_BIT_STENCIL_TEST_ENABLED =>
        dirtyIf (neB (stencilTest depthStencil) (stencilTest curDS))
                DIRTY_BIT_DEPTH_STENCIL_STATE
    | State.DIRTY_BIT_STENCIL_FUNCS_FRONT =>
        dirtyIf (neZ (stencilFunc depthStencil) (stencilFunc curDS)
                 || neZ (stencilMask depthStencil) (stencilMask curDS)
                 || neZ (getStencilRef state) (mCurStencilRef (depthStencilCache s)))
                DIRTY_BIT_DEPTH_STENCIL_STATE
    | State.DIRTY_BIT_STENCIL_FUNCS_BACK =>
        dirtyIf (neZ (stencilBackFunc depthStencil) (stencilBackFunc curDS)
                 || neZ (stencilBackMask depthStencil) (stencilBackMask curDS)
                 || neZ (getStencilBackRef state)
                        (mCurStencilBackRef (depthStencilCache s)))
                DIRTY_BIT_DEPTH_STENCIL_STATE
    | State.DIRTY_BIT_STENCIL_WRITEMASK_FRONT =>
        dirtyIf (neZ (stencilWritemask depthStencil) (stencilWritemask curDS))
                DIRTY_BIT_DEPTH_STENCIL_STATE
    | State.DIRTY_BIT_STENCIL_WRITEMASK_BACK =>
        dirtyIf (neZ (stencilBackWritemask depthStencil) (stencilBackWritemask curDS))
                DIRTY_BIT_DEPTH_STENCIL_STATE
    | State.DIRTY_BIT_STENCIL_OPS_FRONT =>
        dirtyIf (neZ (stencilFail depthStencil) (stencilFail curDS)
                 || neZ (stencilPassDepthFail depthStencil) (stencilPassDepthFail curDS)
                 || neZ (stencilPassDepthPass depthStencil) (stencilPassDepthPass curDS))
                DIRTY_BIT_DEPTH_STENCIL_STATE
    | State.DIRTY_BIT_STENCIL_OPS_BACK =>
        dirtyIf (neZ (stencilBackFail depthStencil) (stencilBackFail curDS)
                 || neZ (stencilBackPassDepthFail depthStencil)
                        (stencilBackPassDepthFail curDS)
                 || neZ (stencilBackPassDepthPass depthStencil)
                        (stencilBackPassDepthPass curDS))
                DIRTY_BIT_DEPTH_STENCIL_STATE
    | State.DIRTY_BIT_CULL_FACE_ENABLED =>
        keep (if neB (cullFace rasterState) (cullFace curRS)
              then setDirty DIRTY_BIT_PRIMITIVE_TOPOLOGY
                     (setDirty DIRTY_BIT_RASTERIZER_STATE s)
              else s)
    | State.DIRTY_BIT_CULL_FACE =>
        keep (if negb (CullFaceMode_eqb (cullMode rasterState) (cullMode curRS))
              then setDirty DIRTY_BIT_PRIMITIVE_TOPOLOGY
                     (setDirty DIRTY_BIT_RASTERIZER_STATE s)
              else s)
    | State.DIRTY_BIT_FRONT_FACE =>
        keep (if neZ (frontFace rasterState) (frontFace curRS)
              then setDirty DIRTY_BIT_PRIMITIVE_TOPOLOGY
                     (setDirty DIRTY_BIT_RASTERIZER_STATE s)
              else s)
    | State.DIRTY_BIT_POLYGON_OFFSET_FILL_ENABLED =>
        dirtyIf (neB (polygonOffsetFill rasterState) (polygonOffsetFill curRS))
                DIRTY_BIT_RASTERIZER_STATE
    | State.DIRTY_BIT_POLYGON_OFFSET =>
        dirtyIf (neF (polygonOffsetFactor rasterState) (polygonOffsetFactor curRS)
                 || neF (polygonOffsetUnits rasterState) (polygonOffsetUnits curRS))
                DIRTY_BIT_RASTERIZER_STATE
    | State.DIRTY_BIT_RASTERIZER_DISCARD_ENABLED =>
        keep (if neB (rasterizerDiscard rasterState) (rasterizerDiscard curRS)
              then
                let s := setDirty DIRTY_BIT_RASTERIZER_STATE s in
                (* Enabling/disabling rasterizer discard affects the pixel shader. *)
                invalidateShaders s
              else s)
    | State.DIRTY_BIT_SCISSOR =>
        dirtyIf (negb (Rectangle.eqb (getScissor state) (mCurScissorRect (rasterCache s))))
                DIRTY_BIT_SCISSOR_STATE
    | State.DIRTY_BIT_SCISSOR_TEST_ENABLED =>
        keep (if neB (isScissorTestEnabled state) (mCurScissorEnabled (rasterCache s))
              then
                let s := setDirty DIRTY_BIT_SCISSOR_STATE s in
                (* Rasterizer state update needs mCurScissorsEnabled and updates
                   when it changes *)
                setDirty DIRTY_BIT_RASTERIZER_STATE s
              else s)
    | State.DIRTY_BIT_DEPTH_RANGE =>
        keep (if neF (getNearPlane state) (mCurNear (viewportCache s))
                 || neF (getFarPlane state) (mCurFar (viewportCache s))
              then invalidateViewport context s
              else s)
    | State.DIRTY_BIT_VIEWPORT =>
        keep (if negb (Rectangle.eqb (getViewport state) (mCurViewport (viewportCache s)))
              then invalidateViewport context s
              else s)
    | State.DIRTY_BIT_DRAW_FRAMEBUFFER_BINDING =>
        let s := invalidateRenderTarget s in
        keep (if mIsMultiviewEnabled (flags s)
              then handleMultiviewDrawFramebufferChange context s
              else s)
    | State.DIRTY_BIT_VERTEX_ARRAY_BINDING =>
        let s := invalidateVertexBuffer s in
        (* Force invalidate the current value attributes, since the
           VertexArray11 keeps an internal cache of TranslatedAttributes, and
           they CurrentValue attributes are owned by the
           StateManager11/Context. *)
        let s := upd_vertexCache
                   (set_mDirtyCurrentValueAttribs (BitSet.all MAX_VERTEX_ATTRIBS)) s in
        (* Invalidate the cached index buffer. *)
        keep (invalidateIndexBuffer s)
    | State.DIRTY_BIT_UNIFORM_BUFFER_BINDINGS =>
        keep (invalidateProgramUniformBuffers s)
    | State.DIRTY_BIT_TEXTURE_BINDINGS =>
        keep (invalidateTexturesAndSamplers s)
    | State.DIRTY_BIT_SAMPLER_BINDINGS =>
        keep (invalidateTexturesAndSamplers s)
    | State.DIRTY_BIT_TRANSFORM_FEEDBACK_BINDING =>
        keep (invalidateTransformFeedback s)
    | State.DIRTY_BIT_PROGRAM_EXECUTABLE =>
        let s := setDirty DIRTY_BIT_PRIMITIVE_TOPOLOGY s in
        let s := invalidateShaders s in
        let s := invalidateVertexBuffer s in
        let s := invalidateRenderTarget s in
        let s := invalidateTexturesAndSamplers s in
        let s := invalidateProgramUniforms s in
        let s := invalidateProgramUniformBuffers s in
        let s := invalidateDriverUniforms s in
        (* with ANGLE_multiview the vertex array is told to adjust its
           attribute divisors; nothing of that is kept here *)
        keep s
    | State.DIRTY_BIT_CURRENT_VALUES =>
        {| sm := fold_left (fun s attribIndex => invalidateCurrentValueAttrib attribIndex s)
                   (BitSet.bits MAX_VERTEX_ATTRIBS (dirtyCurrentValues (world st))) s;
           world := set_dirtyCurrentValues BitSet.none (world st) |}
    | State.DIRTY_BIT_OTHER _ => st
    end.

  (** [syncState(context, dirtyBits)]; [dirtyBits] lists the set bits in
      the order the loop visits them *)
Definition syncState (context : Context) (dirtyBits : list State.DirtyBit)
      (st : St) : St :=
    fold_left (syncStateBit context) dirtyBits st.

  (** does a GL blend factor read the constant alpha? *)
Definition isConstantAlphaFactor (factor : Z) : bool :=
    (factor =? GL_CONSTANT_ALPHA) || (factor =? GL_ONE_MINUS_CONSTANT_ALPHA).

Definition syncBlendState (context : Context) (framebuffer : Framebuffer)
      (blendState : BlendState) (blendColor : ColorF.t) (sampleMask : Z)
      : M St unit :=
    emit (GetBlendStateRequest (fb_id framebuffer) blendState);;
    dxBlendState ← try (Renderer11_getBlendState mRenderer framebuffer blendState);
    let blendColors :=
      if neZ (sourceBlendRGB blendState) GL_CONSTANT_ALPHA
         && neZ (sourceBlendRGB blendState) GL_ONE_MINUS_CONSTANT_ALPHA
         && neZ (destBlendRGB blendState) GL_CONSTANT_ALPHA
         && neZ (destBlendRGB blendState) GL_ONE_MINUS_CONSTANT_ALPHA
      then [ ColorF.red blendColor; ColorF.green blendColor;
             ColorF.blue blendColor; ColorF.alpha blendColor ]
      else [ ColorF.alpha blendColor; ColorF.alpha blendColor;
             ColorF.alpha blendColor; ColorF.alpha blendColor ] in
    emit (OMSetBlendState dxBlendState (Some blendColors) sampleMask);;
    modSM (upd_blendCache (fun _ =>
      {| mCurBlendState := blendState; mCurBlendColor := blendColor;
         mCurSampleMask := sampleMask |})).

  (** [maxStencil] of [syncDepthStencilState] *)
Definition maxStencilOf (stencilTest_ : bool) (stencilSize : Z) : Z :=
    if stencilTest_ && (0 <? stencilSize) then u32 (Z.shiftl 1 stencilSize - 1) else 0.

  (** the conditions [syncDepthStencilState] asserts on entry *)
Definition syncDepthStencilState_asserts (glState : GLState) (s : StateManager11)
      : bool :=
    let ds := getDepthStencilState glState in
    let maxStencil := maxStencilOf (stencilTest ds) (mCurStencilSize (depthStencilCache s)) in
    (Z.land (stencilWritemask ds) maxStencil =? Z.land (stencilBackWritemask ds) maxStencil)
    && (clampZ (getStencilRef glState) 0 (s32 maxStencil)
        =? clampZ (getStencilBackRef glState) 0 (s32 maxStencil))
    && (Z.land (stencilMask ds) maxStencil =? Z.land (stencilBackMask ds) maxStencil)
    && valid (mCurDisableDepth (depthStencilCache s))
    && valid (mCurDisableStencil (depthStencilCache s)).

Definition syncDepthStencilState (glState : GLState) : M St unit :=
    modSM (upd_depthStencilCache (fun d =>
      set_mCurStencilBackRef (getStencilBackRef glState)
        (set_mCurStencilRef (getStencilRef glState)
           (set_mCurDepthStencilState (getDepthStencilState glState) d))));;
    d ← getSM depthStencilCache;
    let g := getDepthStencilState glState in
    let disableDepth := value_or false (mCurDisableDepth d) in
    let disableStencil := value_or false (mCurDisableStencil d) in
    let depthTest' := if disableDepth then false else depthTest g in
    let depthMask' := if disableDepth then false else depthMask g in
    let stencilTest' := if disableStencil then false else stencilTest g in
    let modifiedGLState :=
      {| depthTest := depthTest'; depthFunc := depthFunc g; depthMask := depthMask';
         stencilTest := stencilTest';
         stencilFunc := stencilFunc g; stencilMask := stencilMask g;
         stencilFail := stencilFail g;
         stencilPassDepthFail := stencilPassDepthFail g;
         stencilPassDepthPass := stencilPassDepthPass g;
         stencilWritemask := if negb stencilTest' then 0 else stencilWritemask g;
         stencilBackFunc := stencilBackFunc g; stencilBackMask := stencilBackMask g;
         stencilBackFail := stencilBackFail g;
         stencilBackPassDepthFail := stencilBackPassDepthFail g;
         stencilBackPassDepthPass := stencilBackPassDepthPass g;
         stencilBackWritemask := if negb stencilTest' then 0 else stencilBackWritemask g |} in
    emit (GetDepthStencilStateRequest modifiedGLState);;
    d3dState ← try (Renderer11_getDepthStencilState mRenderer modifiedGLState);
    (* Max D3D11 stencil reference value is 0xFF, corresponding to the max 8
       bits in a stencil buffer.  GL specifies we should clamp the ref value
       to the nearest bit depth when doing stencil ops *)
    let dxStencilRef := u32 (clampZ (mCurStencilRef d) 0 0xFF) in
    emit (OMSetDepthStencilState d3dState dxStencilRef).

Definition with_frontFace (v : Z) (r : RasterizerState) : RasterizerState :=
    {| cullFace := cullFace r; cullMode := cullMode r; frontFace := v;
       polygonOffsetFill := polygonOffsetFill r;
       polygonOffsetFactor := polygonOffsetFactor r;
       polygonOffsetUnits := polygonOffsetUnits r;
       pointDrawMode := pointDrawMode r; multiSample := multiSample r;
       rasterizerDiscard := rasterizerDiscard r |}.

Definition with_drawModes (points multi : bool) (r : RasterizerState)
      : RasterizerState :=
    {| cullFace := cullFace r; cullMode := cullMode r; frontFace := frontFace r;
       polygonOffsetFill := polygonOffsetFill r;
       polygonOffsetFactor := polygonOffsetFactor r;
       polygonOffsetUnits := polygonOffsetUnits r;
       pointDrawMode := points; multiSample := multi;
       rasterizerDiscard := rasterizerDiscard r |}.

Definition syncRasterizerState (context : Context) (drawCallParams : DrawCallParams)
      : M St unit :=
    r ← getSM rasterCache;
    let rasterState :=
      with_drawModes (dc_mode drawCallParams =? GL_POINTS)
                     (multiSample (mCurRasterState r))
                     (getRasterizerState (getGLState context)) in
    dxRasterState ←
      (if mCurPresentPathFastEnabled r then
         (* If prseent path fast is active then we need invert the front face
            state.  This ensures that both gl_FrontFacing is correct, and
            front/back culling is performed correctly. *)
         let modifiedRasterState :=
           if frontFace rasterState =? GL_CCW
           then with_frontFace GL_CW rasterState
           else with_frontFace GL_CCW rasterState in
         emit (GetRasterizerStateRequest modifiedRasterState (mCurScissorEnabled r));;
         try (Renderer11_getRasterizerState mRenderer modifiedRasterState
                (mCurScissorEnabled r))
       else
         emit (GetRasterizerStateRequest rasterState (mCurScissorEnabled r));;
         try (Renderer11_getRasterizerState mRenderer rasterState (mCurScissorEnabled r)));
    emit (RSSetState dxRasterState);;
    modSM (upd_rasterCache (set_mCurRasterState rasterState)).

Definition syncScissorRectangle (scissor : Rectangle.t) (enabled : bool)
      : M St unit :=
    r ← getSM rasterCache;
    offsets ← getSM (fun s => mViewportOffsets (viewportCache s));
    let modifiedScissorY :=
      if mCurPresentPathFastEnabled r
      then mCurPresentPathFastColorBufferHeight r
           - Rectangle.height scissor - Rectangle.y scissor
      else Rectangle.y scissor in
    when enabled
      (let rectangles :=
         map (fun o : Offset.t =>
                let x := Rectangle.x scissor + Offset.x o in
                let y := modifiedScissorY + Offset.y o in
                {| left := Z.max 0 x; top := Z.max 0 y;
                   right := x + Z.max 0 (Rectangle.width scissor);
                   bottom := y + Z.max 0 (Rectangle.height scissor) |})
             offsets in
       emit (RSSetScissorRects (Z.of_nat (length offsets)) rectangles));;
    modSM (upd_rasterCache (fun r =>
      set_mCurScissorEnabled enabled (set_mCurScissorRect scissor r))).

  (** what one iteration of the loop of [syncViewport] computes: the
      integer rectangle and the viewport handed to the device *)
Definition dxViewportFor (context : Context) (s : StateManager11)
      (is9_3 : bool) (actualZNear actualZFar : GLfloat) (o : Offset.t)
      : (Z * Z * Z * Z) * D3D11_VIEWPORT :=
    let glState := getGLState context in
    let framebuffer := getDrawFramebuffer glState in
    let caps := getCaps context in
    let viewport := getViewport glState in
    let dxMaxViewportBoundsX :=
      if is9_3 then Extents.width (mViewportBounds (viewportCache s))
      else maxViewportWidth caps in
    let dxMaxViewportBoundsY :=
      if is9_3 then Extents.height (mViewportBounds (viewportCache s))
      else maxViewportHeight caps in
    let dxMinViewportBoundsX := if is9_3 then 0 else - maxViewportWidth caps in
    let dxMinViewportBoundsY := if is9_3 then 0 else - maxViewportHeight caps in
    let dxViewportTopLeftX :=
      clampZ (Rectangle.x viewport + Offset.x o) dxMinViewportBoundsX dxMaxViewportBoundsX in
    let dxViewportTopLeftY :=
      clampZ (Rectangle.y viewport + Offset.y o) dxMinViewportBoundsY dxMaxViewportBoundsY in
    let dxViewportWidth :=
      clampZ (Rectangle.width viewport) 0 (dxMaxViewportBoundsX - dxViewportTopLeftX) in
    let dxViewportHeight :=
      clampZ (Rectangle.height viewport) 0 (dxMaxViewportBoundsY - dxViewportTopLeftY) in
    let noAttachmentButDefaultSize :=
      match getFirstNonNullAttachment framebuffer with
      | Some _ => false
      | None => neZ (getDefaultWidth framebuffer) 0 || neZ (getDefaultHeight framebuffer) 0
      end in
    ((dxViewportTopLeftX, dxViewportTopLeftY, dxViewportWidth, dxViewportHeight),
     {| TopLeftX := float_of_int dxViewportTopLeftX;
        TopLeftY :=
          if mCurPresentPathFastEnabled (rasterCache s)
          then float_of_int (mCurPresentPathFastColorBufferHeight (rasterCache s)
                             - dxViewportTopLeftY - dxViewportHeight)
          else float_of_int dxViewportTopLeftY;
        Width :=
          if noAttachmentButDefaultSize
          then float_of_int (Z.min (Rectangle.width viewport) (getDefaultWidth framebuffer))
          else float_of_int dxViewportWidth;
        Height :=
          if noAttachmentButDefaultSize
          then float_of_int (Z.min (Rectangle.height viewport) (getDefaultHeight framebuffer))
          else float_of_int dxViewportHeight;
        MinDepth := actualZNear;
        MaxDepth := actualZFar |}).

Definition syncViewport (context : Context) : M St unit :=
    s ← getSM id;
    let glState := getGLState context in
    let actualZNear := clamp01 (getNearPlane glState) in
    let actualZFar := clamp01 (getFarPlane glState) in
    let is9_3 := featureLevel_le_9_3 mRenderer in
    let viewport := getViewport glState in
    let offsets := mViewportOffsets (viewportCache s) in
    let perView := map (dxViewportFor context s is9_3 actualZNear actualZFar) offsets in
    emit (RSSetViewports (Z.of_nat (length offsets)) (map snd perView));;
    (* the integer rectangle of the last view, or zeros without views *)
    let '(x, y, w, h) := List.last (map fst perView) (0, 0, 0, 0) in
    let adjustViewport :=
      {| TopLeftX := float_of_int x; TopLeftY := float_of_int y;
         Width := float_of_int w; Height := float_of_int h;
         MinDepth := actualZNear; MaxDepth := actualZFar |} in
    modSM (fun s =>
      upd_mShaderConstants
        (ShaderConstants.onViewportChange viewport adjustViewport is9_3
           (mCurPresentPathFastEnabled (rasterCache s)))
        (upd_viewportCache (fun v =>
           set_mCurFar actualZFar (set_mCurNear actualZNear (set_mCurViewport viewport v)))
           s)).

Definition processFramebufferInvalidation (context : Context) (s : StateManager11)
      : StateManager11 :=
    if negb (mRenderTargetIsDirty (flags s)) then s
    else
      let s := upd_flags (set_mRenderTargetIsDirty false) s in
      let s := setDirty DIRTY_BIT_RENDER_TARGET s in
      (* The pixel shader is dependent on the output layout. *)
      let s := invalidateShaders s in
      (* The D3D11 blend state is heavily dependent on the current render
         target. *)
      let s := setDirty DIRTY_BIT_BLEND_STATE s in
      let fbo := getDrawFramebuffer (getGLState context) in
      (* Disable the depth test/depth write if we are using a stencil-only
         attachment.  This is because ANGLE emulates stencil-only with D24S8
         on D3D11 - we should neither read nor write to the unused depth
         part of this emulated texture. *)
      let disableDepth := negb (hasDepth fbo) && hasStencil fbo in
      (* Similarly we disable the stencil portion of the DS attachment if
         the app only binds depth. *)
      let disableStencil := hasDepth fbo && negb (hasStencil fbo) in
      let d := depthStencilCache s in
      let s :=
        if negb (valid (mCurDisableDepth d))
           || neB disableDepth (value_or false (mCurDisableDepth d))
           || negb (valid (mCurDisableStencil d))
           || neB disableStencil (value_or false (mCurDisableStencil d))
        then
          upd_depthStencilCache (fun d =>
            set_mCurDisableStencil (Some disableStencil)
              (set_mCurDisableDepth (Some disableDepth) d))
            (setDirty DIRTY_BIT_DEPTH_STENCIL_STATE s)
        else s in
      let multiSample_ := neZ (getCachedSamples fbo) 0 in
      let s :=
        if neB multiSample_ (multiSample (mCurRasterState (rasterCache s)))
        then
          upd_rasterCache (fun r =>
            set_mCurRasterState
              (with_drawModes (pointDrawMode (mCurRasterState r)) multiSample_
                 (mCurRasterState r)) r)
            (setDirty DIRTY_BIT_RASTERIZER_STATE s)
        else s in
      let s := checkPresentPath context s in
      if featureLevel_le_9_3 mRenderer then
        match getFirstNonNullAttachment fbo with
        | Some firstAttachment =>
            let size := att_getSize firstAttachment in
            if neZ (Extents.width (mViewportBounds (viewportCache s))) (Extents.width size)
               || neZ (Extents.height (mViewportBounds (viewportCache s)))
                      (Extents.height size)
            then
              invalidateViewport context
                (upd_viewportCache
                   (set_mViewportBounds
                      (Extents.make (Extents.width size) (Extents.height size) 1)) s)
            else s
        | None => s
        end
      else s.

Definition clearSRVs (shaderType : ShaderType) (rangeStart rangeEnd : nat)
      : M St unit :=
    if (rangeStart =? rangeEnd)%nat then ret tt
    else
      v ← getSM viewCaches;
      let currentSRVs := getSRVCache shaderType v in
      let clearRange :=
        Range.make rangeStart (Nat.min rangeEnd (ViewCache.highestUsed currentSRVs)) in
      if Range.empty clearRange then ret tt
      else
        emitSetShaderResources shaderType
          (Z.of_nat (Range.low clearRange)) (Z.of_nat (Range.length clearRange))
          (take (Range.length clearRange) (mNullSRVs v));;
        forM_ (Range.indices clearRange) (fun samplerIndex =>
          modSM (upd_viewCaches (fun v =>
            putSRVCache shaderType
              (ViewCache.update (getSRVCache shaderType v) samplerIndex None) v))).

Definition clearUAVs (shaderType : ShaderType) (rangeStart rangeEnd : nat)
      : M St unit :=
    if (rangeStart =? rangeEnd)%nat then ret tt
    else
      v ← getSM viewCaches;
      let clearRange :=
        Range.make rangeStart
          (Nat.min rangeEnd (ViewCache.highestUsed (mCurComputeUAVs v))) in
      if Range.empty clearRange then ret tt
      else
        emit (CSSetUnorderedAccessViews
                (Z.of_nat (Range.low clearRange)) (Z.of_nat (Range.length clearRange))
                (take (Range.length clearRange) (mNullUAVs v)));;
        forM_ (Range.indices clearRange) (fun index =>
          modSM (upd_viewCaches (fun v =>
            set_mCurComputeUAVs (ViewCache.update (mCurComputeUAVs v) index None) v))).

  (** the test in the loop of [unsetConflictingSRVs] *)
Definition conflictsWith (resource : Z) (index : option ImageIndex)
      (record : ViewCache.ViewRecord D3D11_SHADER_RESOURCE_VIEW_DESC) : bool :=
    neZ (ViewCache.view record) 0
    && (ViewCache.resource record =? resource)
    && match index with
       | None => true
       | Some i => ImageIndexConflictsWithSRV i (ViewCache.desc record)
       end.

  (** the loop of [unsetConflictingSRVs], over the slots still to visit *)
Fixpoint unsetConflictingSRVs_loop (shaderType : ShaderType) (resource : Z)
      (index : option ImageIndex) (slots : list nat) (foundOne : bool)
      : M St bool :=
    match slots with
    | [] => ret foundOne
    | resourceIndex :: slots' =>
        currentSRVs ← getSM (fun s => getSRVCache shaderType (viewCaches s));
        let record := ViewCache.at_ zero_SRV_DESC currentSRVs resourceIndex in
        if conflictsWith resource index record then
          setShaderResourceInternal shaderType resourceIndex None;;
          unsetConflictingSRVs_loop shaderType resource index slots' true
        else unsetConflictingSRVs_loop shaderType resource index slots' foundOne
    end.

Definition unsetConflictingSRVs (shaderType : ShaderType) (resource : Z)
      (index : option ImageIndex) : M St bool :=
    currentSRVs ← getSM (fun s => getSRVCache shaderType (viewCaches s));
    unsetConflictingSRVs_loop shaderType resource index
      (seq 0 (ViewCache.size currentSRVs)) false.

Definition unsetConflictingView (view : ID3D11View unit) : M St bool :=
    let resource := GetViewResource view in
    found ← unsetConflictingSRVs Vertex resource None;
    if (found : bool) then ret true
    else unsetConflictingSRVs Fragment resource None.

Definition setRenderTarget (rtv dsv : option (ID3D11View unit)) : M St unit :=
    a ← match rtv with Some v => unsetConflictingView v | None => ret false end;
    b ← (if (a : bool) then ret true
         else match dsv with Some v => unsetConflictingView v | None => ret false end);
    when b (modSM (setDirty DIRTY_BIT_TEXTURE_AND_SAMPLER_STATE));;
    emit (OMSetRenderTargets 1 [view_uintptr rtv] (view_uintptr dsv));;
    modSM (setDirty DIRTY_BIT_RENDER_TARGET).

Definition setRenderTargets (rtvs : list (ID3D11View unit))
      (dsv : option (ID3D11View unit)) : M St unit :=
    anyDirty ←
      (fix loop (l : list (ID3D11View unit)) (anyDirty : bool) : M St bool :=
         match l with
         | [] => ret anyDirty
         | rtv :: l' =>
             d ← (if anyDirty then ret true else unsetConflictingView rtv);
             loop l' d
         end) rtvs false;
    anyDirty ←
      match dsv with
      | Some v => if (anyDirty : bool) then ret true else unsetConflictingView v
      | None => ret anyDirty
      end;
    when anyDirty (modSM (setDirty DIRTY_BIT_TEXTURE_AND_SAMPLER_STATE));;
    emit (OMSetRenderTargets (Z.of_nat (length rtvs))
            (map (fun v => view_uintptr (Some v)) rtvs) (view_uintptr dsv));;
    modSM (setDirty DIRTY_BIT_RENDER_TARGET).

Definition unsetConflictingAttachmentResources (attachment : FramebufferAttachment)
      (resource : Z) : M St unit :=
    (* Unbind render target SRVs from the shader here to prevent D3D11
       warnings. *)
    if att_type attachment =? GL_TEXTURE then
      let index := att_getTextureImageIndex attachment in
      (* The index doesn't need to be corrected for the small compressed
         texture workaround because a rendertarget is never compressed. *)
      unsetConflictingSRVs Vertex resource (Some index);;
      unsetConflictingSRVs Fragment resource (Some index);;
      ret tt
    else if att_type attachment =? GL_FRAMEBUFFER_DEFAULT then
      unsetConflictingSRVs Vertex resource None;;
      unsetConflictingSRVs Fragment resource None;;
      ret tt
    else ret tt.

  (** [initialize(caps, extensions)]; [multiview] is [extensions.multiview],
      and the vertex data manager is taken to initialise. *)
Definition initialize (caps : Caps) (multiview : bool) (s : StateManager11)
      : StateManager11 :=
    let s := upd_viewCaches (fun _ =>
      {| mCurVertexSRVs := ViewCache.initialize zero_SRV_DESC (maxVertexTextureImageUnits caps);
         mCurPixelSRVs := ViewCache.initialize zero_SRV_DESC (maxTextureImageUnits caps);
         (* TODO(xinghua.cao@intel.com): need to add compute shader texture
            image units. *)
         mCurComputeSRVs := ViewCache.initialize zero_SRV_DESC (maxImageUnits caps);
         mCurComputeUAVs := ViewCache.initialize zero_UAV_DESC (maxImageUnits caps);
         (* Initialize cached NULL SRV block *)
         mNullSRVs := replicate (maxTextureImageUnits caps) 0;
         mNullUAVs := replicate (maxImageUnits caps) 0 |}) s in
    let s := upd_vertexCache (fun v =>
      set_mCurrentValueAttribs
        (ShaderConstants.resize empty_TranslatedAttribute (maxVertexAttributes caps)
           (mCurrentValueAttribs v)) v) s in
    let s := upd_samplerCaches (fun _ =>
      {| mForceSetVertexSamplerStates := replicate (maxVertexTextureImageUnits caps) true;
         mForceSetPixelSamplerStates := replicate (maxTextureImageUnits caps) true;
         mForceSetComputeSamplerStates := replicate (maxComputeTextureImageUnits caps) true;
         mCurVertexSamplerStates := replicate (maxVertexTextureImageUnits caps) [];
         mCurPixelSamplerStates := replicate (maxTextureImageUnits caps) [];
         mCurComputeSamplerStates := replicate (maxComputeTextureImageUnits caps) [] |}) s in
    let s := upd_mShaderConstants (ShaderConstants.init caps) s in
    let s := upd_flags (set_mIsMultiviewEnabled multiview) s in
    upd_viewportCache (set_mViewportOffsets [Offset.make 0 0 0]) s.

  (** Is this the zero-sized default framebuffer? *)
Definition isZeroSizedDefaultFramebuffer (framebuffer : Framebuffer) : bool :=
    (fb_id framebuffer =? 0)
    && match getFirstColorbuffer framebuffer with
       | Some a =>
           (Extents.width (att_getSize a) =? 0) || (Extents.height (att_getSize a) =? 0)
       | None => false  (* the default framebuffer has a colour buffer *)
       end.

  (** The loop of [syncFramebuffer] over the cached colour render targets,
      from [rtIndex] on.  [framebufferRTVs] holds the entries written so
      far, so its length is [appliedRTIndex]. *)
Fixpoint syncFramebuffer_colors (context : Context) (framebuffer : Framebuffer)
      (rtIndex : nat) (colorRTs : list (option RenderTarget11))
      (framebufferRTVs : list Z) (maxExistingRT : nat)
      : M St (list Z * nat) :=
    match colorRTs with
    | [] => ret (framebufferRTVs, maxExistingRT)
    | renderTarget :: rest =>
        let skipInactiveRTs := mrtPerfWorkaround mRenderer in
        let drawState := default GL_NONE (getDrawBufferStates framebuffer !! rtIndex) in
        let activeOutput :=
          getActiveOutputVariables (getProgram (getGLState context)) rtIndex in
        (* Skip inactive rendertargets if the workaround is enabled. *)
        if skipInactiveRTs
           && (negb (bool_decide (is_Some renderTarget))
               || (drawState =? GL_NONE) || negb activeOutput)
        then syncFramebuffer_colors context framebuffer (S rtIndex) rest
               framebufferRTVs maxExistingRT
        else
          match renderTarget with
          | Some rt =>
              (* Unset conflicting texture SRVs *)
              match getColorbuffer framebuffer rtIndex with
              | Some attachment =>
                  unsetConflictingAttachmentResources attachment (rt_getTexture rt)
              | None => ret tt   (* ASSERT(attachment) *)
              end;;
              syncFramebuffer_colors context framebuffer (S rtIndex) rest
                (framebufferRTVs ++ [getRenderTargetView rt])
                (length framebufferRTVs + 1)
          | None =>
              syncFramebuffer_colors context framebuffer (S rtIndex) rest
                (framebufferRTVs ++ [0]) maxExistingRT
          end
    end.

Definition syncFramebuffer (context : Context) (framebuffer : Framebuffer)
      : M St unit :=
    (* Check for zero-sized default framebuffer, which is a special case.
       in this case we do not wish to modify any state and just silently
       return false.  this will not report any gl error but will cause the
       calling method to return. *)
    if isZeroSizedDefaultFramebuffer framebuffer then ret tt
    else
      '(framebufferRTVs, maxExistingRT) ←
        syncFramebuffer_colors context framebuffer 0
          (getCachedColorRenderTargets framebuffer) [] 0;
      (* Get the depth stencil buffers *)
      framebufferDSV ←
        match getCachedDepthStencilRenderTarget framebuffer with
        | Some depthStencilRenderTarget =>
            (* Unset conflicting texture SRVs *)
            match getDepthOrStencilbuffer framebuffer with
            | Some attachment =>
                unsetConflictingAttachmentResources attachment
                  (rt_getTexture depthStencilRenderTarget)
            | None => ret tt   (* ASSERT(attachment) *)
            end;;
            ret (getDepthStencilView depthStencilRenderTarget)
        | None => ret 0
        end;
      (* Apply the render target and depth stencil *)
      emit (OMSetRenderTargets (Z.of_nat maxExistingRT)
              (take maxExistingRT framebufferRTVs) framebufferDSV).

Definition with_currentValue (type : Z) (attrib : VertexAttribute)
      (a : TranslatedAttribute) : TranslatedAttribute :=
    {| ta_attribute := Some attrib; ta_currentValueType := type;
       ta_binding := Some (va_bindingIndex attrib);
       ta_storage := ta_storage a; ta_vertexBuffer := ta_vertexBuffer a;
       ta_stride := ta_stride a; ta_divisor := ta_divisor a;
       ta_computeOffset := ta_computeOffset a |}.

Definition syncCurrentValueAttribs (glState : GLState) : M St unit :=
    v ← getSM vertexCache;
    let activeAttribsMask := getActiveAttribLocationsMask (getProgram glState) in
    let dirtyActiveAttribs := BitSet.and activeAttribsMask (mDirtyCurrentValueAttribs v) in
    if negb (BitSet.any dirtyActiveAttribs) then ret tt
    else
      let vertexAttributes := getVertexAttributes (getVertexArray glState) in
      modSM (upd_vertexCache (fun v =>
        set_mDirtyCurrentValueAttribs
          (BitSet.andnot (mDirtyCurrentValueAttribs v) dirtyActiveAttribs) v));;
      forM_ (BitSet.bits MAX_VERTEX_ATTRIBS dirtyActiveAttribs) (fun attribIndex =>
        match vertexAttributes !! attribIndex with
        | Some attrib =>
            if va_enabled attrib then ret tt
            else
              let currentValue := getVertexAttribCurrentValue glState attribIndex in
              modSM (upd_vertexCache (fun v =>
                set_mDirtyVertexBufferRange
                  (Range.extend (mDirtyVertexBufferRange v) attribIndex)
                  (set_mCurrentValueAttribs
                     (alter (with_currentValue (cv_Type currentValue) attrib)
                            attribIndex (mCurrentValueAttribs v)) v)));;
              try (storeCurrentValue mRenderer currentValue attribIndex)
        | None => ret tt
        end).

Definition setInputLayoutInternal (inputLayout : option Resource11) : M St bool :=
    cur ← getSM (fun s => mCurrentInputLayout (vertexCache s));
    match inputLayout with
    | None =>
        if neZ cur 0 then
          emit (IASetInputLayout 0);;
          modSM (upd_vertexCache (set_mCurrentInputLayout 0));;
          ret true
        else ret false
    | Some layout =>
        if neZ (res_getSerial layout) cur then
          emit (IASetInputLayout (res_get layout));;
          modSM (upd_vertexCache (set_mCurrentInputLayout (res_getSerial layout)));;
          ret true
        else ret false
    end.

Definition setInputLayout (inputLayout : option Resource11) : M St unit :=
    changed ← setInputLayoutInternal inputLayout;
    when changed (modSM invalidateInputLayout).

Definition queueVertexBufferChange (bufferIndex : nat) (buffer stride offset : Z)
      (v : VertexCache) : VertexCache * bool :=
    if neZ buffer (default 0 (mCurrentVertexBuffers v !! bufferIndex))
       || neZ stride (default 0 (mCurrentVertexStrides v !! bufferIndex))
       || neZ offset (default 0 (mCurrentVertexOffsets v !! bufferIndex))
    then
      (set_mCurrentVertexOffsets (<[bufferIndex := offset]> (mCurrentVertexOffsets v))
         (set_mCurrentVertexStrides (<[bufferIndex := stride]> (mCurrentVertexStrides v))
            (set_mCurrentVertexBuffers (<[bufferIndex := buffer]> (mCurrentVertexBuffers v))
               (set_mDirtyVertexBufferRange
                  (Range.extend (mDirtyVertexBufferRange v) bufferIndex) v))),
       true)
    else (v, false).

Definition applyVertexBufferChanges : M St unit :=
    v ← getSM vertexCache;
    let r := mDirtyVertexBufferRange v in
    if Range.empty r then ret tt
    else
      let start := Range.low r in
      let n := Range.length r in
      emit (IASetVertexBuffers (Z.of_nat start) (Z.of_nat n)
              (take n (drop start (mCurrentVertexBuffers v)))
              (take n (drop start (mCurrentVertexStrides v)))
              (take n (drop start (mCurrentVertexOffsets v))));;
      modSM (upd_vertexCache
               (set_mDirtyVertexBufferRange (Range.make MAX_VERTEX_ATTRIBS 0%nat))).

Definition setSingleVertexBuffer (buffer : option Resource11) (stride offset : Z)
      : M St unit :=
    let native := match buffer with Some b => res_get b | None => 0 end in
    v ← getSM vertexCache;
    let '(v', changed) := queueVertexBufferChange 0 native stride offset v in
    modSM (upd_vertexCache (fun _ => v'));;
    when changed (modSM invalidateInputLayout;; applyVertexBufferChanges).

Definition setShaderResourceShared (shaderType : ShaderType) (resourceSlot : nat)
      (srv : option SRVWrapper) : M St unit :=
    setShaderResourceInternal shaderType resourceSlot srv;;
    modSM (setDirty DIRTY_BIT_TEXTURE_AND_SAMPLER_STATE).

Definition setShaderResource (shaderType : ShaderType) (resourceSlot : nat)
      (srv : option SRVWrapper) : M St unit :=
    setShaderResourceInternal shaderType resourceSlot srv;;
    modSM (setDirty DIRTY_BIT_TEXTURE_AND_SAMPLER_STATE).

Definition setPrimitiveTopologyInternal (primitiveTopology : Z) : M St bool :=
    cur ← getSM (fun s => mCurrentPrimitiveTopology (shaderCache s));
    if neZ primitiveTopology cur then
      emit (IASetPrimitiveTopology primitiveTopology);;
      modSM (upd_shaderCache (set_mCurrentPrimitiveTopology primitiveTopology));;
      ret true
    else ret false.

Definition setPrimitiveTopology (primitiveTopology : Z) : M St unit :=
    changed ← setPrimitiveTopologyInternal primitiveTopology;
    when changed (modSM (setDirty DIRTY_BIT_PRIMITIVE_TOPOLOGY)).

Definition serialOf (shader : option Resource11) : Z :=
    match shader with Some sh => res_getSerial sh | None => 0 end.
Definition pointerOf (shader : option Resource11) : Z :=
    match shader with Some sh => res_get sh | None => 0 end.

Definition setVertexShader (shader : option Resource11) : M St unit :=
    cur ← getSM (fun s => mAppliedVertexShader (shaderCache s));
    if neZ (serialOf shader) cur then
      emit (XSSetShader Vertex (pointerOf shader));;
      modSM (upd_shaderCache (set_mAppliedVertexShader (serialOf shader)));;
      modSM invalidateShaders
    else ret tt.

Definition setGeometryShader (shader : option Resource11) : M St unit :=
    cur ← getSM (fun s => mAppliedGeometryShader (shaderCache s));
    if neZ (serialOf shader) cur then
      emit (XSSetShader Geometry (pointerOf shader));;
      modSM (upd_shaderCache (set_mAppliedGeometryShader (serialOf shader)));;
      modSM invalidateShaders
    else ret tt.

Definition setPixelShader (shader : option Resource11) : M St unit :=
    cur ← getSM (fun s => mAppliedPixelShader (shaderCache s));
    if neZ (serialOf shader) cur then
      emit (XSSetShader Fragment (pointerOf shader));;
      modSM (upd_shaderCache (set_mAppliedPixelShader (serialOf shader)));;
      modSM invalidateShaders
    else ret tt.

Definition setComputeShader (shader : option Resource11) : M St unit :=
    cur ← getSM (fun s => mAppliedComputeShader (shaderCache s));
    if neZ (serialOf shader) cur then
      emit (XSSetShader Compute (pointerOf shader));;
      modSM (upd_shaderCache (set_mAppliedComputeShader (serialOf shader)))
      (* TODO(jmadill): Dirty bits for compute. *)
    else ret tt.

Definition setDrawShaders (vertexShader geometryShader pixelShader : option Resource11)
      : M St unit :=
    setVertexShader vertexShader;;
    setGeometryShader geometryShader;;
    setPixelShader pixelShader.

  (** [memcmp(&a, &b, sizeof(gl::SamplerState)) != 0] *)
Definition samplerStates_differ (a b : SamplerState) : bool :=
    negb (bool_decide (a = b)).

Definition setSamplerState (context : Context) (type : ShaderType) (index : nat)
      (texture : Texture) (samplerState : SamplerState) : M St unit :=
    c ← getSM samplerCaches;
    let apply (force : list bool) (cur : list SamplerState)
              (setForce : list bool -> SamplerCaches -> SamplerCaches)
              (setCur : list SamplerState -> SamplerCaches -> SamplerCaches) : M St unit :=
      when (default false (force !! index)
            || samplerStates_differ samplerState (default [] (cur !! index)))
        (emit (GetSamplerStateRequest samplerState);;
         dxSamplerState ← try (Renderer11_getSamplerState mRenderer samplerState);
         emit (XSSetSamplers type (Z.of_nat index) 1 [dxSamplerState]);;
         modSM (upd_samplerCaches (setCur (<[index := samplerState]> cur))));;
      modSM (upd_samplerCaches (setForce (<[index := false]> force))) in
    match type with
    | Fragment =>
        apply (mForceSetPixelSamplerStates c) (mCurPixelSamplerStates c)
              set_mForceSetPixelSamplerStates set_mCurPixelSamplerStates
    | Vertex =>
        apply (mForceSetVertexSamplerStates c) (mCurVertexSamplerStates c)
              set_mForceSetVertexSamplerStates set_mCurVertexSamplerStates
    | Compute =>
        apply (mForceSetComputeSamplerStates c) (mCurComputeSamplerStates c)
              set_mForceSetComputeSamplerStates set_mCurComputeSamplerStates
    | Geometry => ret tt
    end;;
    (* Sampler metadata that's passed to shaders in uniforms is stored
       separately from rest of the sampler state since having it in
       contiguous memory makes it possible to memcpy to a constant buffer,
       and it doesn't affect the state set by PSSetSamplers/VSSetSamplers. *)
    modSM (upd_mShaderConstants (ShaderConstants.onSamplerChange type index texture)).

Definition setTexture (context : Context) (type : ShaderType) (index : nat)
      (texture : option Texture) : M St unit :=
    textureSRV ←
      match texture with
      | Some t =>
          texStorage ← try (getNativeTexture t);
          match texStorage with
          | Some storage11 =>
              srv ← try (getSRVForSampler storage11);
              ret (Some srv)
          | None => ret None   (* ASSERT(texStorage) *)
          end
      | None => ret None
      end;
    setShaderResourceInternal type index textureSRV.

  (** For each Direct3D sampler of either the pixel or vertex stage, looks
      up the corresponding OpenGL texture image unit and texture type, and
      sets the texture and its addressing/filtering state (or NULL when
      inactive). *)
Definition applyTextures (context : Context) (shaderType : ShaderType)
      : M St unit :=
    let glState := getGLState context in
    let caps := getCaps context in
    let programD3D := getProgram glState in
    let samplerRange := Z.to_nat (u32 (getUsedSamplerRange programD3D shaderType)) in
    forM_ (seq 0 samplerRange) (fun samplerIndex =>
      let textureUnit := getSamplerMapping programD3D shaderType samplerIndex in
      match getCompleteTextureCache glState textureUnit with
      | Some texture =>
          let samplerState :=
            match getSampler glState textureUnit with
            | Some samplerObject => samplerObject
            | None => tex_getSamplerState texture
            end in
          setSamplerState context shaderType samplerIndex texture samplerState;;
          setTexture context shaderType samplerIndex (Some texture)
      | None =>
          let textureType := getSamplerTextureType programD3D shaderType samplerIndex in
          (* Texture is not sampler complete or it is in use by the
             framebuffer.  Bind the incomplete texture. *)
          incompleteTexture ← try (getIncompleteTexture mRenderer textureType);
          setSamplerState context shaderType samplerIndex incompleteTexture
            (tex_getSamplerState incompleteTexture);;
          setTexture context shaderType samplerIndex (Some incompleteTexture)
      end);;
    (* Set all the remaining textures to NULL *)
    let samplerCount :=
      if ShaderType_eqb shaderType Fragment
      then maxTextureImageUnits caps
      else maxVertexTextureImageUnits caps in
    clearSRVs shaderType samplerRange samplerCount.

Definition syncTextures (context : Context) : M St unit :=
    applyTextures context Vertex;;
    applyTextures context Fragment.

Definition clearShaderDirtyBit (s : StateManager11) : StateManager11 :=
    upd_mInternalDirtyBits (BitSet.reset (dirtyBitIndex DIRTY_BIT_SHADERS)) s.

Definition syncProgram (context : Context) (drawMode : Z) : M St unit :=
    try (triggerDrawCallProgramRecompilation context drawMode);;
    let glState := getGLState context in
    let programD3D := getProgram glState in
    vertexExe ← try (getVertexExecutableForCachedInputLayout programD3D);
    pixelExe ← try (getPixelExecutableForCachedOutputLayout programD3D);
    geometryExe ← try (getGeometryExecutableForPrimitiveType programD3D drawMode);
    let vertexShader := getVertexShader <$> (vertexExe : option ShaderExecutable11) in
    (* Skip pixel shader if we're doing rasterizer discard. *)
    let pixelShader :=
      if negb (rasterizerDiscard (getRasterizerState glState))
      then getPixelShader <$> (pixelExe : option ShaderExecutable11)
      else None in
    let geometryShader :=
      if isTransformFeedbackActiveUnpaused glState
      then getStreamOutShader <$> (vertexExe : option ShaderExecutable11)
      else getGeometryShader <$> (geometryExe : option ShaderExecutable11) in
    setDrawShaders vertexShader geometryShader pixelShader;;
    (* Explicitly clear the shaders dirty bit. *)
    modSM clearShaderDirtyBit.

Definition FindFirstNonInstanced (currentAttributes : list (option TranslatedAttribute))
      : Optional nat :=
    (fix loop (index : nat) (l : list (option TranslatedAttribute)) : Optional nat :=
       match l with
       | [] => None
       | a :: l' =>
           if (ta_divisor (default empty_TranslatedAttribute a) =? 0)
           then Some index
           else loop (S index) l'
       end) 0%nat currentAttributes.

  (** [SortAttributesByLayout]: the sorted semantic indices and the sorted
      attributes.  The semantic indices start from the array handed in. *)
Definition SortAttributesByLayout (program : Program)
      (vertexArrayAttribs currentValueAttribs : list TranslatedAttribute)
      (sortedD3DSemantics : list Z)
      : list Z * list (option TranslatedAttribute) :=
    fold_left
      (fun (acc : list Z * list (option TranslatedAttribute)) (locationIndex : nat) =>
         let '(semantics, sortedAttributes) := acc in
         let d3dSemantic := Z.to_nat (getAttribLocationToD3DSemantics program locationIndex) in
         let sortedAttributes :=
           if (length sortedAttributes <=? d3dSemantic)%nat
           then ShaderConstants.resize None (d3dSemantic + 1) sortedAttributes
           else sortedAttributes in
         let semantics := <[d3dSemantic := Z.of_nat d3dSemantic]> semantics in
         let arrayAttrib := vertexArrayAttribs !! locationIndex in
         let useArray :=
           match arrayAttrib with
           | Some a =>
               match ta_attribute a with
               | Some attribute => va_enabled attribute
               | None => false
               end
           | None => false
           end in
         (semantics,
          <[d3dSemantic :=
              if useArray then arrayAttrib else currentValueAttribs !! locationIndex]>
            sortedAttributes))
      (BitSet.bits MAX_VERTEX_ATTRIBS (getActiveAttribLocationsMask program))
      (sortedD3DSemantics, []).

Definition GetReservedBufferCount (usesPointSpriteEmulation : bool) : nat :=
    if usesPointSpriteEmulation then 1 else 0.

Definition syncIndexBuffer (buffer indexFormat offset : Z) : M St bool :=
    i ← getSM indexCache;
    if neZ buffer (mAppliedIB i) || neZ indexFormat (mAppliedIBFormat i)
       || neZ offset (mAppliedIBOffset i)
    then
      emit (IASetIndexBuffer buffer indexFormat offset);;
      modSM (upd_indexCache (fun i =>
        set_mAppliedIBOffset offset
          (set_mAppliedIBFormat indexFormat (set_mAppliedIB buffer i))));;
      ret true
    else ret false.

Definition setIndexBuffer (buffer indexFormat offset : Z) : M St unit :=
    changed ← syncIndexBuffer buffer indexFormat offset;
    when changed (modSM invalidateIndexBuffer).

Definition empty_TranslatedIndexData : TranslatedIndexData :=
    {| tid_indexType := 0; tid_startOffset := 0; tid_storage := None;
       tid_indexBuffer := 0; tid_srcBuffer := None; tid_srcIndicesChanged := false |}.

Definition with_srcBuffer (b : option (Result Z)) (i : TranslatedIndexData)
      : TranslatedIndexData :=
    {| tid_indexType := tid_indexType i; tid_startOffset := tid_startOffset i;
       tid_storage := tid_storage i; tid_indexBuffer := tid_indexBuffer i;
       tid_srcBuffer := b; tid_srcIndicesChanged := tid_srcIndicesChanged i |}.

Definition with_srcIndicesChanged (c : bool) (i : TranslatedIndexData)
      : TranslatedIndexData :=
    {| tid_indexType := tid_indexType i; tid_startOffset := tid_startOffset i;
       tid_storage := tid_storage i; tid_indexBuffer := tid_indexBuffer i;
       tid_srcBuffer := tid_srcBuffer i; tid_srcIndicesChanged := c |}.

  (** tags of the buffers this file asks the renderer to allocate *)
Definition TAG_POINT_SPRITE_VERTEX_BUFFER : Z := 1.
Definition TAG_POINT_SPRITE_INDEX_BUFFER : Z := 2.
Definition TAG_DRIVER_CONSTANT_BUFFER (t : ShaderType) : Z :=
    3 + Z.of_nat (shaderIndex t).

Definition applyVertexBuffers (context : Context) (drawCallParams : DrawCallParams)
      : M St unit :=
    let state := getGLState context in
    let programD3D := getProgram state in
    let programUsesInstancedPointSprites :=
      usesPointSize programD3D && usesInstancedPointSpriteEmulation programD3D in
    let instancedPointSpritesActive :=
      programUsesInstancedPointSprites && (dc_mode drawCallParams =? GL_POINTS) in
    (* Note that if we use instance emulation, we reserve the first buffer
       slot. *)
    let reservedBuffers := GetReservedBufferCount programUsesInstancedPointSprites in
    forM_ (seq 0 (MAX_VERTEX_ATTRIBS - reservedBuffers)) (fun attribIndex =>
      currentAttributes ← getSM (fun s => mCurrentAttributes (vertexCache s));
      '(buffer, vertexStride, vertexOffset) ←
        match currentAttributes !! attribIndex with
        | Some entry =>
            let attrib := default empty_TranslatedAttribute entry in
            buffer ←
              match ta_storage attrib with
              | None => ret (ta_vertexBuffer attrib)
              | Some bufferStorage =>
                  if instancedPointSpritesActive && dc_isDrawElements drawCallParams
                  then
                    cached ← getWorld cachedIndexInfo;
                    let indexInfo := default empty_TranslatedIndexData cached in
                    indexInfo ←
                      match tid_srcBuffer indexInfo with
                      | Some getData =>
                          try getData;;
                          ret (with_srcBuffer None indexInfo)
                      | None => ret indexInfo
                      end;
                    buffer ← try (getEmulatedIndexedBuffer bufferStorage
                                    (dc_firstVertex drawCallParams));
                    modWorld (set_cachedIndexInfo (Some indexInfo));;
                    ret buffer
                  else try (getBuffer_VERTEX_OR_TRANSFORM_FEEDBACK bufferStorage)
              end;
            vertexOffset ← try (ta_computeOffset attrib (dc_firstVertex drawCallParams));
            ret (buffer, ta_stride attrib, vertexOffset)
        | None => ret (0, 0, 0)
        end;
      let bufferIndex := (reservedBuffers + attribIndex)%nat in
      modSM (upd_vertexCache (fun v =>
        (queueVertexBufferChange bufferIndex buffer vertexStride vertexOffset v).1)));;
    (* Instanced PointSprite emulation requires two additional
       ID3D11Buffers. *)
    when programUsesInstancedPointSprites
      (let kPointSpriteVertexStride := 4 * 5 in
       vb ← getSM (fun s => mPointSpriteVertexBuffer (indexCache s));
       when (negb (res_valid vb))
         (emit (AllocateResourceRequest TAG_POINT_SPRITE_VERTEX_BUFFER);;
          b ← try (allocateResource mRenderer TAG_POINT_SPRITE_VERTEX_BUFFER);
          modSM (upd_indexCache (set_mPointSpriteVertexBuffer b)));;
       (* Set the stride to 0 if GL_POINTS mode is not being used to instruct
          the driver to avoid indexing into the vertex buffer. *)
       let stride := if instancedPointSpritesActive then kPointSpriteVertexStride else 0 in
       vb ← getSM (fun s => mPointSpriteVertexBuffer (indexCache s));
       modSM (upd_vertexCache (fun v =>
         (queueVertexBufferChange 0 (res_get vb) stride 0 v).1));;
       ib ← getSM (fun s => mPointSpriteIndexBuffer (indexCache s));
       when (negb (res_valid ib))
         (emit (AllocateResourceRequest TAG_POINT_SPRITE_INDEX_BUFFER);;
          b ← try (allocateResource mRenderer TAG_POINT_SPRITE_INDEX_BUFFER);
          modSM (upd_indexCache (set_mPointSpriteIndexBuffer b)));;
       when instancedPointSpritesActive
         ((* The index buffer is applied here because Instanced PointSprite
             emulation uses the a non-indexed rendering path in ANGLE
             (DrawArrays). *)
          ib ← getSM (fun s => mPointSpriteIndexBuffer (indexCache s));
          syncIndexBuffer (res_get ib) DXGI_FORMAT_R16_UINT 0;;
          ret tt));;
    applyVertexBufferChanges.

Definition syncVertexBuffersAndInputLayout (context : Context)
      (drawCallParams : DrawCallParams) : M St unit :=
    let state := getGLState context in
    let vertexArrayAttribs := getTranslatedAttribs (getVertexArray state) in
    let program := getProgram state in
    v ← getSM vertexCache;
    (* Sort the attributes according to ensure we re-use similar input
       layouts. *)
    let '(sortedSemanticIndices, currentAttributes) :=
      SortAttributesByLayout program vertexArrayAttribs (mCurrentValueAttribs v)
        (replicate MAX_VERTEX_ATTRIBS 0) in
    (* If we are using FL 9_3, make sure the first attribute is not
       instanced *)
    let '(sortedSemanticIndices, currentAttributes) :=
      match currentAttributes with
      | first :: _ =>
          if featureLevel_le_9_3 mRenderer
             && (0 <? ta_divisor (default empty_TranslatedAttribute first))
          then
            match FindFirstNonInstanced currentAttributes with
            | Some index =>
                (<[index := default 0 (sortedSemanticIndices !! 0%nat)]>
                   (<[0%nat := default 0 (sortedSemanticIndices !! index)]>
                      sortedSemanticIndices),
                 <[index := first]>
                   (<[0%nat := default None (currentAttributes !! index)]>
                      currentAttributes))
            | None => (sortedSemanticIndices, currentAttributes)
            end
          else (sortedSemanticIndices, currentAttributes)
      | [] => (sortedSemanticIndices, currentAttributes)
      end in
    modSM (upd_vertexCache (set_mCurrentAttributes currentAttributes));;
    (* Update the applied input layout by querying the cache. *)
    inputLayout ← try (getInputLayout mRenderer currentAttributes sortedSemanticIndices
                         drawCallParams);
    setInputLayoutInternal inputLayout;;
    (* Update the applied vertex buffers. *)
    applyVertexBuffers context drawCallParams.

Definition applyIndexBuffer (context : Context) (params : DrawCallParams)
      : M St unit :=
    let glState := getGLState context in
    let vao := getVertexArray glState in
    dirty ← getSM (fun s => mIndexBufferIsDirty (indexCache s));
    if negb dirty then
      (* No streaming or index buffer application necessary. *)
      ret tt
    else
      let destElementType := getCachedDestinationIndexType vao in
      let elementArrayBuffer := getElementArrayBuffer vao in
      indexInfo ← try (prepareIndexData mRenderer params destElementType elementArrayBuffer);
      let bufferFormat :=
        if tid_indexType indexInfo =? GL_UNSIGNED_INT
        then DXGI_FORMAT_R32_UINT else DXGI_FORMAT_R16_UINT in
      buffer ←
        match tid_storage indexInfo with
        | Some storage => try (getBuffer_INDEX storage)
        | None => ret (tid_indexBuffer indexInfo)
        end;
      (* Track dirty indices in the index range cache. *)
      changed ← syncIndexBuffer buffer bufferFormat (tid_startOffset indexInfo);
      modSM (upd_indexCache (set_mIndexBufferIsDirty false));;
      modWorld (set_cachedIndexInfo (Some (with_srcIndicesChanged changed indexInfo))).

Definition generateSwizzle (context : Context) (texture : option Texture)
      : M St unit :=
    match texture with
    | None => ret tt
    | Some t =>
        texStorage ← try (getNativeTexture t);
        match texStorage with
        | Some storage11 => try (storage_generateSwizzles storage11)
        | None => ret tt
        end
    end.

Definition generateSwizzlesForShader (context : Context) (type : ShaderType)
      : M St unit :=
    let glState := getGLState context in
    let programD3D := getProgram glState in
    let samplerRange := Z.to_nat (u32 (getUsedSamplerRange programD3D type)) in
    forM_ (seq 0 samplerRange) (fun i =>
      let textureType := getSamplerTextureType programD3D type i in
      let textureUnit := getSamplerMapping programD3D type i in
      if neZ textureUnit (-1) then
        match getSamplerTexture glState textureUnit textureType with
        | Some texture =>
            if swizzleRequired texture
            then generateSwizzle context (Some texture)
            else ret tt
        | None => ret tt   (* ASSERT(texture) *)
        end
      else ret tt).

Definition generateSwizzles (context : Context) : M St unit :=
    generateSwizzlesForShader context Vertex;;
    generateSwizzlesForShader context Fragment.

Definition areShaderUniformsDirty (type : ShaderType) (w : World) : bool :=
    match type with
    | Vertex => uniformsDirtyVertex w
    | Fragment => uniformsDirtyFragment w
    | Compute => uniformsDirtyCompute w
    | Geometry => false
    end.

Definition anyShaderUniformsDirty (w : World) : bool :=
    uniformsDirtyVertex w || uniformsDirtyFragment w || uniformsDirtyCompute w.

Definition markUniformsClean (w : World) : World :=
    set_uniformsDirtyCompute false
      (set_uniformsDirtyFragment false (set_uniformsDirtyVertex false w)).

  (** [ProgramD3D::updateSamplerMapping() == SamplerMapping::WasDirty] *)
Definition updateSamplerMapping : M St bool :=
    wasDirty ← getWorld mDirtySamplerMapping;
    modWorld (set_mDirtySamplerMapping false);;
    ret wasDirty.

Definition applyUniforms (programD3D : Program) : M St unit :=
    let vertexUniformStorage := getVertexUniformStorage programD3D in
    let fragmentUniformStorage := getFragmentUniformStorage programD3D in
    vertexConstantBuffer ← try (us_getConstantBuffer vertexUniformStorage);
    pixelConstantBuffer ← try (us_getConstantBuffer fragmentUniformStorage);
    w ← getWorld id;
    when ((0 <? us_size vertexUniformStorage) && areShaderUniformsDirty Vertex w)
      (emit (UpdateSubresource (res_get vertexConstantBuffer)
               (us_getDataPointer vertexUniformStorage)));;
    when ((0 <? us_size fragmentUniformStorage) && areShaderUniformsDirty Fragment w)
      (emit (UpdateSubresource (res_get pixelConstantBuffer)
               (us_getDataPointer fragmentUniformStorage)));;
    let slot := RESERVED_CONSTANT_BUFFER_SLOT_DEFAULT_UNIFORM_BLOCK in
    c ← getSM constantBufferCache;
    when (neZ (default 0 (mCurrentConstantBufferVS c !! slot))
              (res_getSerial vertexConstantBuffer))
      (emit (XSSetConstantBuffers Vertex (Z.of_nat slot) 1 [res_get vertexConstantBuffer]);;
       modSM (upd_constantBufferCache (fun c =>
         set_mCurrentConstantBufferVSSize (<[slot := 0]> (mCurrentConstantBufferVSSize c))
           (set_mCurrentConstantBufferVSOffset
              (<[slot := 0]> (mCurrentConstantBufferVSOffset c))
              (set_mCurrentConstantBufferVS
                 (<[slot := res_getSerial vertexConstantBuffer]>
                    (mCurrentConstantBufferVS c)) c)))));;
    c ← getSM constantBufferCache;
    when (neZ (default 0 (mCurrentConstantBufferPS c !! slot))
              (res_getSerial pixelConstantBuffer))
      (emit (XSSetConstantBuffers Fragment (Z.of_nat slot) 1 [res_get pixelConstantBuffer]);;
       modSM (upd_constantBufferCache (fun c =>
         set_mCurrentConstantBufferPSSize (<[slot := 0]> (mCurrentConstantBufferPSSize c))
           (set_mCurrentConstantBufferPSOffset
              (<[slot := 0]> (mCurrentConstantBufferPSOffset c))
              (set_mCurrentConstantBufferPS
                 (<[slot := res_getSerial pixelConstantBuffer]>
                    (mCurrentConstantBufferPS c)) c)))));;
    modWorld markUniformsClean.

Definition applyDriverUniforms (programD3D : Program) : M St unit :=
    d ← getSM driverBuffers;
    when (negb (res_valid (mDriverConstantBufferVS d)))
      (emit (AllocateResourceRequest (TAG_DRIVER_CONSTANT_BUFFER Vertex));;
       b ← try (allocateResource mRenderer (TAG_DRIVER_CONSTANT_BUFFER Vertex));
       modSM (upd_driverBuffers (set_mDriverConstantBufferVS b));;
       emit (XSSetConstantBuffers Vertex (Z.of_nat RESERVED_CONSTANT_BUFFER_SLOT_DRIVER) 1
               [res_get b]));;
    d ← getSM driverBuffers;
    when (negb (res_valid (mDriverConstantBufferPS d)))
      (emit (AllocateResourceRequest (TAG_DRIVER_CONSTANT_BUFFER Fragment));;
       b ← try (allocateResource mRenderer (TAG_DRIVER_CONSTANT_BUFFER Fragment));
       modSM (upd_driverBuffers (set_mDriverConstantBufferPS b));;
       emit (XSSetConstantBuffers Fragment (Z.of_nat RESERVED_CONSTANT_BUFFER_SLOT_DRIVER) 1
               [res_get b]));;
    (* Sampler metadata and driver constants need to coexist in the same
       constant buffer to conserve constant buffer slots. We update both in
       the constant buffer if needed. *)
    d ← getSM driverBuffers;
    zoom (fun s => mShaderConstants (sm s))
         (fun c s => {| sm := upd_mShaderConstants (fun _ => c) (sm s); world := world s |})
         (ShaderConstants.updateBuffer mRenderer Vertex programD3D
            (mDriverConstantBufferVS d));;
    zoom (fun s => mShaderConstants (sm s))
         (fun c s => {| sm := upd_mShaderConstants (fun _ => c) (sm s); world := world s |})
         (ShaderConstants.updateBuffer mRenderer Fragment programD3D
            (mDriverConstantBufferPS d));;
    (* needed for the point sprite geometry shader.  GSSetConstantBuffers
       triggers device removal on 9_3, so we should only call it for ES3. *)
    when (isES3Capable mRenderer
          && neZ (mCurrentGeometryConstantBuffer d)
                 (res_getSerial (mDriverConstantBufferPS d)))
      (emit (XSSetConstantBuffers Geometry 0 1 [res_get (mDriverConstantBufferPS d)]);;
       modSM (upd_driverBuffers
                (set_mCurrentGeometryConstantBuffer
                   (res_getSerial (mDriverConstantBufferPS d))))).

  (** one of the two loops of [syncUniformBuffers]; the cache members of
      the stage come as their getters and setters *)
Definition syncUniformBuffers_stage (context : Context) (stage : ShaderType)
      (uniformBuffers : list Z) (reserved : nat)
      (getCur getOff getSize : ConstantBufferCache -> list Z)
      (setCur setOff setSize : list Z -> ConstantBufferCache -> ConstantBufferCache)
      (bindObserver : nat -> Z -> DriverBuffers -> DriverBuffers)
      : M St unit :=
    let glState := getGLState context in
    forM_ (imap (fun i b => (i, b)) uniformBuffers) (fun '(bufferIndex, binding) =>
      if binding =? -1 then ret tt
      else
        let uniformBuffer := getIndexedUniformBuffer glState binding in
        let uniformBufferOffset := obp_getOffset uniformBuffer in
        let uniformBufferSize := obp_getSize uniformBuffer in
        match obp_get uniformBuffer with
        | None => ret tt
        | Some bufferStorage =>
            '(constantBuffer, firstConstant, numConstants) ←
              try (getConstantBufferRange bufferStorage uniformBufferOffset
                     uniformBufferSize);
            c ← getSM constantBufferCache;
            if (default 0 (getCur c !! bufferIndex) =? res_getSerial constantBuffer)
               && (default 0 (getOff c !! bufferIndex) =? uniformBufferOffset)
               && (default 0 (getSize c !! bufferIndex) =? uniformBufferSize)
            then ret tt
            else
              let appliedIndex := (reserved + bufferIndex)%nat in
              (if neZ firstConstant 0 && neZ uniformBufferSize 0
               then emit (XSSetConstantBuffers1 stage (Z.of_nat appliedIndex) 1
                            [res_get constantBuffer] firstConstant numConstants)
               else emit (XSSetConstantBuffers stage (Z.of_nat appliedIndex) 1
                            [res_get constantBuffer]));;
              modSM (upd_constantBufferCache (fun c =>
                setSize (<[appliedIndex := uniformBufferSize]> (getSize c))
                  (setOff (<[appliedIndex := uniformBufferOffset]> (getOff c))
                     (setCur (<[appliedIndex := res_getSerial constantBuffer]> (getCur c))
                        c))));;
              modSM (upd_driverBuffers (bindObserver bufferIndex (b11_this bufferStorage)))
        end).

Definition syncUniformBuffers (context : Context) (programD3D : Program)
      : M St unit :=
    let reservedVertex := getReservedVertexUniformBuffers mRenderer in
    let reservedFragment := getReservedFragmentUniformBuffers mRenderer in
    let vertexUniformBuffers := getVertexUniformBufferCache programD3D in
    let fragmentUniformBuffers := getFragmentUniformBufferCache programD3D in
    (* mConstantBufferObserver.reset() *)
    modSM (upd_driverBuffers (fun d =>
      set_mBindingsPS (replicate (length (mBindingsPS d)) None)
        (set_mBindingsVS (replicate (length (mBindingsVS d)) None) d)));;
    syncUniformBuffers_stage context Vertex vertexUniformBuffers reservedVertex
      mCurrentConstantBufferVS mCurrentConstantBufferVSOffset mCurrentConstantBufferVSSize
      set_mCurrentConstantBufferVS set_mCurrentConstantBufferVSOffset
      set_mCurrentConstantBufferVSSize
      (fun i b d => set_mBindingsVS (<[i := Some b]> (mBindingsVS d)) d);;
    syncUniformBuffers_stage context Fragment fragmentUniformBuffers reservedFragment
      mCurrentConstantBufferPS mCurrentConstantBufferPSOffset mCurrentConstantBufferPSSize
      set_mCurrentConstantBufferPS set_mCurrentConstantBufferPSOffset
      set_mCurrentConstantBufferPSSize
      (fun i b d => set_mBindingsPS (<[i := Some b]> (mBindingsPS d)) d).

Definition syncTransformFeedbackBuffers (context : Context) : M St unit :=
    let glState := getGLState context in
    f ← getSM flags;
    (* If transform feedback is not active, unbind all buffers *)
    if negb (isTransformFeedbackActiveUnpaused glState) then
      when (neZ (mAppliedTFSerial f) (mEmptySerial f))
        (emit (SOSetTargets 0 [] []);;
         modSM (upd_flags (set_mAppliedTFSerial (mEmptySerial f))))
    else
      let tf11 := getCurrentTransformFeedback glState in
      isDirty ← getWorld tfDirty;
      if (mAppliedTFSerial f =? tf_getSerial tf11) && negb isDirty then ret tt
      else
        soBuffers ← try (getSOBuffers tf11);
        emit (SOSetTargets (getNumSOBuffers tf11) soBuffers (getSOBufferOffsets tf11));;
        modSM (upd_flags (set_mAppliedTFSerial (tf_getSerial tf11)));;
        modWorld (set_tfDirty false).

Definition CullsEverything (glState : GLState) : bool :=
    cullFace (getRasterizerState glState)
    && CullFaceMode_eqb (cullMode (getRasterizerState glState)) CullFrontAndBack.

Definition syncPrimitiveTopology (glState : GLState) (programD3D : Program)
      (currentDrawMode : Z) : M St unit :=
    let setMin (n : Z) := modSM (upd_shaderCache (set_mCurrentMinimumDrawCount n)) in
    let triangles := if CullsEverything glState then GLsizei_max else 3 in
    if currentDrawMode =? GL_POINTS then
      let usesPointSize_ := usesPointSize programD3D in
      (* ProgramBinary assumes non-point rendering if gl_PointSize isn't
         written, which affects varying interpolation. Since the value of
         gl_PointSize is undefined when not written, just skip drawing to
         avoid unexpected results. *)
      if negb usesPointSize_ && negb (isTransformFeedbackActiveUnpaused glState)
      then setMin GLsizei_max
      else
        setMin 1;;
        setPrimitiveTopologyInternal
          (if usesPointSize_ && useInstancedPointSpriteEmulation mRenderer
           then D3D_PRIMITIVE_TOPOLOGY_TRIANGLELIST
           else D3D_PRIMITIVE_TOPOLOGY_POINTLIST);;
        ret tt
    else if currentDrawMode =? GL_LINES then
      setMin 2;; setPrimitiveTopologyInternal D3D_PRIMITIVE_TOPOLOGY_LINELIST;; ret tt
    else if currentDrawMode =? GL_LINE_LOOP then
      setMin 2;; setPrimitiveTopologyInternal D3D_PRIMITIVE_TOPOLOGY_LINESTRIP;; ret tt
    else if currentDrawMode =? GL_LINE_STRIP then
      setMin 2;; setPrimitiveTopologyInternal D3D_PRIMITIVE_TOPOLOGY_LINESTRIP;; ret tt
    else if currentDrawMode =? GL_TRIANGLES then
      setMin triangles;;
      setPrimitiveTopologyInternal D3D_PRIMITIVE_TOPOLOGY_TRIANGLELIST;; ret tt
    else if currentDrawMode =? GL_TRIANGLE_STRIP then
      setMin triangles;;
      setPrimitiveTopologyInternal D3D_PRIMITIVE_TOPOLOGY_TRIANGLESTRIP;; ret tt
    else if currentDrawMode =? GL_TRIANGLE_FAN then
      (* emulate fans via rewriting index buffer *)
      setMin triangles;;
      setPrimitiveTopologyInternal D3D_PRIMITIVE_TOPOLOGY_TRIANGLELIST;; ret tt
    else
      setPrimitiveTopologyInternal D3D_PRIMITIVE_TOPOLOGY_UNDEFINED;; ret tt.

  (** the body of the [switch] in the drain loop of [updateState] *)
Definition syncDirtyBit (context : Context) (drawCallParams : DrawCallParams)
      (sampleMask : Z) (dirtyBit : DirtyBitType) : M St unit :=
    let glState := getGLState context in
    let programD3D := getProgram glState in
    let framebuffer := getDrawFramebuffer glState in
    match dirtyBit with
    | DIRTY_BIT_RENDER_TARGET => syncFramebuffer context framebuffer
    | DIRTY_BIT_VIEWPORT_STATE => syncViewport context
    | DIRTY_BIT_SCISSOR_STATE =>
        syncScissorRectangle (getScissor glState) (isScissorTestEnabled glState)
    | DIRTY_BIT_RASTERIZER_STATE => syncRasterizerState context drawCallParams
    | DIRTY_BIT_BLEND_STATE =>
        syncBlendState context framebuffer (getBlendState glState)
          (getBlendColor glState) sampleMask
    | DIRTY_BIT_DEPTH_STENCIL_STATE => syncDepthStencilState glState
    | DIRTY_BIT_TEXTURE_AND_SAMPLER_STATE =>
        (* TODO(jmadill): More fine-grained update. *)
        syncTextures context
    | DIRTY_BIT_PROGRAM_UNIFORMS => applyUniforms programD3D
    | DIRTY_BIT_DRIVER_UNIFORMS =>
        (* This must happen after viewport sync; the viewport affects builtin
           uniforms. *)
        applyDriverUniforms programD3D
    | DIRTY_BIT_PROGRAM_UNIFORM_BUFFERS => syncUniformBuffers context programD3D
    | DIRTY_BIT_SHADERS => syncProgram context (dc_mode drawCallParams)
    | DIRTY_BIT_CURRENT_VALUE_ATTRIBS => syncCurrentValueAttribs glState
    | DIRTY_BIT_TRANSFORM_FEEDBACK => syncTransformFeedbackBuffers context
    | DIRTY_BIT_VERTEX_BUFFERS_AND_INPUT_LAYOUT =>
        syncVertexBuffersAndInputLayout context drawCallParams
    | DIRTY_BIT_PRIMITIVE_TOPOLOGY =>
        syncPrimitiveTopology glState programD3D (dc_mode drawCallParams)
    end.

  (** [updateState] up to and including the snapshot of the dirty bits:
      returns the sample mask and [dirtyBitsCopy] *)
Definition updateState_prepare (context : Context) (drawCallParams : DrawCallParams)
      : M St (Z * BitSet.t) :=
    let glState := getGLState context in
    (* TODO(jmadill): Use dirty bits. *)
    modSM (processFramebufferInvalidation context);;
    (* TODO(jmadill): Use dirty bits. *)
    wasDirty ← updateSamplerMapping;
    when wasDirty (modSM invalidateTexturesAndSamplers);;
    (* TODO(jmadill): Use dirty bits. *)
    uniformsDirty ← getWorld anyShaderUniformsDirty;
    when uniformsDirty (modSM (setDirty DIRTY_BIT_PROGRAM_UNIFORMS));;
    (* Swizzling can cause internal state changes with blit shaders. *)
    dirtySwizzles ← getSM (fun s => mDirtySwizzles (flags s));
    when dirtySwizzles
      (generateSwizzles context;;
       modSM (upd_flags (set_mDirtySwizzles false)));;
    let framebuffer := getDrawFramebuffer glState in
    match markAttachmentsDirty framebuffer with
    | Some e => try (Error e)
    | None => ret tt
    end;;
    (* TODO(jiawei.shao@intel.com): This can be recomputed only on
       framebuffer or multisample mask state changes. *)
    let samples :=
      match getFirstRenderTarget framebuffer with
      | Some firstRT => rt_getSamples firstRT
      | None => 0
      end in
    let sampleMask := GetBlendSampleMask mRenderer glState samples in
    curSampleMask ← getSM (fun s => mCurSampleMask (blendCache s));
    when (neZ sampleMask curSampleMask) (modSM (setDirty DIRTY_BIT_BLEND_STATE));;
    (* Changes in the draw call can affect the vertex buffer translations. *)
    lastFirstVertex ← getSM (fun s => mLastFirstVertex (vertexCache s));
    when (negb (valid lastFirstVertex)
          || neZ (value_or 0 lastFirstVertex) (dc_firstVertex drawCallParams))
      (modSM (upd_vertexCache (set_mLastFirstVertex (Some (dc_firstVertex drawCallParams))));;
       modSM invalidateInputLayout);;
    try (syncStateForDraw (getVertexArray glState) drawCallParams);;
    when (dc_isDrawElements drawCallParams) (applyIndexBuffer context drawCallParams);;
    lastMode ← getSM (fun s => mLastAppliedDrawMode (shaderCache s));
    when (neZ lastMode (dc_mode drawCallParams))
      (modSM (upd_shaderCache (set_mLastAppliedDrawMode (dc_mode drawCallParams)));;
       modSM (setDirty DIRTY_BIT_PRIMITIVE_TOPOLOGY);;
       pointDrawMode_ ← getSM (fun s => pointDrawMode (mCurRasterState (rasterCache s)));
       when (neB (dc_mode drawCallParams =? GL_POINTS) pointDrawMode_)
         (modSM (setDirty DIRTY_BIT_RASTERIZER_STATE);;
          (* Changing from points to not points (or vice-versa) affects the
             geometry shader. *)
          modSM invalidateShaders));;
    dirtyBitsCopy ← getSM mInternalDirtyBits;
    modSM (upd_mInternalDirtyBits (fun _ => BitSet.none));;
    ret (sampleMask, dirtyBitsCopy).

Definition updateState (context : Context) (drawCallParams : DrawCallParams)
      : M St unit :=
    '(sampleMask, dirtyBitsCopy) ← updateState_prepare context drawCallParams;
    forM_ (dirtyBitsOf dirtyBitsCopy)
          (syncDirtyBit context drawCallParams sampleMask)
    (* Check that we haven't set any dirty bits in the flushing of the dirty
       bits loop.  ASSERT(mInternalDirtyBits.none()); *).
End StateManager.

(* ================================================================== *)
(** * Vocabulary of the properties, concrete inputs                    *)
(* ================================================================== *)

(** an operation that binds a view does so below slot [k] *)
Definition bindsBelow {DescType} (k : nat) (o : ViewCache.op DescType) : Prop :=
  match o with
  | ViewCache.OpUpdate slot (Some _) => slot < k
  | _ => True
  end.

Module ViewCacheExample.
Import ViewCache.

Definition viewA : ID3D11View D3D11_SHADER_RESOURCE_VIEW_DESC :=
    {| view_addr := 0x1000; view_GetResource := 0xA000; view_GetDesc := zero_SRV_DESC |}.
Definition viewB : ID3D11View D3D11_SHADER_RESOURCE_VIEW_DESC :=
    {| view_addr := 0x2000; view_GetResource := 0xB000; view_GetDesc := zero_SRV_DESC |}.

  (** bind slot 0, bind slot 1, unbind slot 1 *)
Definition bindBindUnbind : list (op D3D11_SHADER_RESOURCE_VIEW_DESC) :=
    [OpUpdate 0 (Some viewA); OpUpdate 1 (Some viewB); OpUpdate 1 None].
End ViewCacheExample.

(** A small, fully specified configuration: a renderer whose caches and
    allocators always answer, a program without samplers or attributes, and
    an 800x600 default framebuffer.  The examples below vary it. *)
Module Sample.
Local Open Scope Z_scope.

Definition MAX_VERTEX_ATTRIBS : nat := 16.
Definition SLOT_DRIVER : nat := 1.
Definition SLOT_DEFAULT_UNIFORM_BLOCK : nat := 0.
Definition MAX_UNIFORM_BUFFERS : nat := 12.

Definition caps : Caps :=
    {| maxVertexTextureImageUnits := 4; maxTextureImageUnits := 8;
       maxComputeTextureImageUnits := 4; maxImageUnits := 4;
       maxVertexAttributes := 16; maxDrawBuffers := 8;
       maxViewportWidth := 16384; maxViewportHeight := 16384 |}.

Definition incompleteTexture : Texture :=
    {| tex_getType := TT_2D; tex_getSamplerState := [];
       getEffectiveBaseLevel := 0; sizedInternalFormat := 0x8058;
       getWrapS := GL_REPEAT; getWrapT := GL_REPEAT; getWrapR := GL_REPEAT;
       swizzleRequired := false;
       getNativeTexture := NoError None |}.

Definition renderer : Renderer11 :=
    {| presentPathFastEnabled := false;
       UsePresentPathFast := fun _ => false;
       featureLevel_le_9_3 := false;
       isES3Capable := true;
       mrtPerfWorkaround := false;
       useInstancedPointSpriteEmulation := false;
       getNativeCaps := caps;
       getReservedVertexUniformBuffers := 2;
       getReservedFragmentUniformBuffers := 2;
       generateSerial := 1;
       GetBlendSampleMask := fun _ _ => 0xFFFFFFFF;
       Renderer11_getBlendState := fun _ _ => NoError 0xB000;
       Renderer11_getDepthStencilState := fun _ => NoError 0xD000;
       Renderer11_getRasterizerState := fun _ _ => NoError 0xE000;
       Renderer11_getSamplerState := fun _ => NoError 0xF000;
       getIncompleteTexture := fun _ => NoError incompleteTexture;
       allocateResource := fun tag =>
         NoError {| res_get := 0xC000 + tag; res_getSerial := 100 + tag |};
       mapResource := fun _ => NoError tt;
       storeCurrentValue := fun _ _ => NoError tt;
       prepareIndexData := fun _ _ _ =>
         NoError {| tid_indexType := 0x1403; tid_startOffset := 0;
                    tid_storage := None; tid_indexBuffer := 0x1B00;
                    tid_srcBuffer := None; tid_srcIndicesChanged := false |};
       getInputLayout := fun _ _ _ =>
         NoError (Some {| res_get := 0x1A00; res_getSerial := 7 |}) |}.

Definition executable : ShaderExecutable11 :=
    {| getVertexShader := {| res_get := 0x5100; res_getSerial := 11 |};
       getPixelShader := {| res_get := 0x5200; res_getSerial := 12 |};
       getGeometryShader := {| res_get := 0x5300; res_getSerial := 13 |};
       getStreamOutShader := {| res_get := 0x5400; res_getSerial := 14 |} |}.

Definition uniformStorage (serial : Z) : UniformStorage11 :=
    {| us_size := 0;
       us_getConstantBuffer :=
         NoError {| res_get := 0x6000 + serial; res_getSerial := serial |};
       us_getDataPointer := [] |}.

  (** a program that uses [k] samplers in every stage *)
Definition programUsing (k : Z) : Program :=
    {| getActiveOutputVariables := fun _ => true;
       getActiveAttribLocationsMask := BitSet.none;
       getAttribLocationToD3DSemantics := fun i => Z.of_nat i;
       getUsedSamplerRange := fun _ => k;
       getSamplerMapping := fun _ i => Z.of_nat i;
       getSamplerTextureType := fun _ _ => TT_2D;
       usesPointSize := false;
       usesInstancedPointSpriteEmulation := false;
       usesMultiview := false;
       getNumViews := 1;
       getVertexUniformStorage := uniformStorage 21;
       getFragmentUniformStorage := uniformStorage 22;
       getVertexUniformBufferCache := [];
       getFragmentUniformBufferCache := [];
       getVertexExecutableForCachedInputLayout := NoError (Some executable);
       getPixelExecutableForCachedOutputLayout := NoError (Some executable);
       getGeometryExecutableForPrimitiveType := fun _ => NoError None |}.

Definition program : Program := programUsing 0.

Definition vertexArray : VertexArray :=
    {| getTranslatedAttribs := [];
       getVertexAttributes := [];
       syncStateForDraw := fun _ => NoError tt;
       getCachedDestinationIndexType := 0x1403;
       getElementArrayBuffer := 0 |}.

Definition transformFeedback : TransformFeedback11 :=
    {| tf_getSerial := 5; getSOBuffers := NoError []; getSOBufferOffsets := [];
       getNumSOBuffers := 0 |}.

Definition backBuffer (width height : Z) : FramebufferAttachment :=
    {| att_type := GL_FRAMEBUFFER_DEFAULT;
       att_getSize := Extents.make width height 1;
       att_getTextureImageIndex := {| ii_type := TT_2D; mipIndex := 0; layerIndex := 0 |} |}.

Definition backBufferTarget : RenderTarget11 :=
    {| getRenderTargetView := 0x7100; getDepthStencilView := 0;
       rt_getTexture := 0x7000; rt_getSamples := 0 |}.

  (** the default framebuffer (id 0) over a back buffer of the given size *)
Definition defaultFramebuffer (width height : Z) : Framebuffer :=
    {| fb_id := 0;
       getFirstColorbuffer := Some (backBuffer width height);
       getFirstNonNullAttachment := Some (backBuffer width height);
       getColorbuffer := fun i => if (i =? 0)%nat then Some (backBuffer width height) else None;
       getDepthOrStencilbuffer := None;
       hasDepth := false; hasStencil := false;
       getCachedSamples := 0;
       getDefaultWidth := 0; getDefaultHeight := 0;
       getDrawBufferStates := [0x0405];
       getViewportOffsets := None;
       getMultiviewLayout := MultiviewLayoutNone;
       getCachedColorRenderTargets := [Some backBufferTarget];
       getCachedDepthStencilRenderTarget := None;
       getFirstRenderTarget := Some backBufferTarget;
       markAttachmentsDirty := None |}.

Definition blendStateDefault : BlendState :=
    {| blend := false; sourceBlendRGB := GL_ONE; destBlendRGB := GL_ZERO;
       sourceBlendAlpha := GL_ONE; destBlendAlpha := GL_ZERO;
       blendEquationRGB := GL_FUNC_ADD; blendEquationAlpha := GL_FUNC_ADD;
       colorMaskRed := true; colorMaskGreen := true; colorMaskBlue := true;
       colorMaskAlpha := true; sampleAlphaToCoverage := false; dither := true |}.

Definition depthStencilDefault : DepthStencilState :=
    {| depthTest := false; depthFunc := GL_LESS; depthMask := true;
       stencilTest := false; stencilFunc := GL_ALWAYS; stencilMask := UINT_MAX;
       stencilFail := GL_KEEP; stencilPassDepthFail := GL_KEEP;
       stencilPassDepthPass := GL_KEEP; stencilWritemask := UINT_MAX;
       stencilBackFunc := GL_ALWAYS; stencilBackMask := UINT_MAX;
       stencilBackFail := GL_KEEP; stencilBackPassDepthFail := GL_KEEP;
       stencilBackPassDepthPass := GL_KEEP; stencilBackWritemask := UINT_MAX |}.

Definition rasterizerDefault : RasterizerState :=
    {| cullFace := false; cullMode := CullBack; frontFace := GL_CCW;
       polygonOffsetFill := false; polygonOffsetFactor := f0;
       polygonOffsetUnits := f0; pointDrawMode := false; multiSample := false;
       rasterizerDiscard := false |}.

  (** the logical state drawing [p] into [fb] with the scissor test on *)
Definition glState (fb : Framebuffer) (p : Program) : GLState :=
    {| getBlendState := blendStateDefault;
       getBlendColor := ColorF.make f0 f0 f0 f0;
       getDepthStencilState := depthStencilDefault;
       getStencilRef := 0; getStencilBackRef := 0;
       getRasterizerState := rasterizerDefault;
       getScissor := Rectangle.make 0 0 64 64;
       isScissorTestEnabled := true;
       getNearPlane := f0; getFarPlane := f1;
       getViewport := Rectangle.make 0 0 800 600;
       getDrawFramebuffer := fb;
       getProgram := p;
       getVertexArray := vertexArray;
       getCompleteTextureCache := fun _ => None;
       getSampler := fun _ => None;
       getSamplerTexture := fun _ _ => None;
       isTransformFeedbackActiveUnpaused := false;
       getCurrentTransformFeedback := transformFeedback;
       getIndexedUniformBuffer := fun _ =>
         {| obp_get := None; obp_getOffset := 0; obp_getSize := 0 |};
       getVertexAttribCurrentValue := fun _ => {| cv_Type := 0x1406; cv_Values := [] |} |}.

Definition context (fb : Framebuffer) (p : Program) : Context :=
    {| getGLState := glState fb p; getCaps := caps;
       triggerDrawCallProgramRecompilation := fun _ => NoError tt |}.

Definition initialWorld : World :=
    {| mDirtySamplerMapping := true; uniformsDirtyVertex := true;
       uniformsDirtyFragment := true; uniformsDirtyCompute := false;
       tfDirty := false; cachedIndexInfo := None;
       dirtyCurrentValues := BitSet.none |}.

  (** a manager as [new StateManager11(renderer)] and [initialize] leave it *)
Definition manager : StateManager11 :=
    initialize caps false
      (new MAX_VERTEX_ATTRIBS MAX_UNIFORM_BUFFERS MAX_UNIFORM_BUFFERS renderer).

Definition fresh : St := {| sm := manager; world := initialWorld |}.

  (** [glDrawArrays(GL_TRIANGLES, 0, 3)] *)
Definition drawTriangles : DrawCallParams :=
    {| dc_mode := GL_TRIANGLES; dc_firstVertex := 0; dc_isDrawElements := false;
       dc_type := 0; dc_indexCount := 3; dc_indices := 0 |}.

Definition updateState (ctx : Context) (params : DrawCallParams) : M St unit :=
    updateState MAX_VERTEX_ATTRIBS SLOT_DRIVER SLOT_DEFAULT_UNIFORM_BLOCK renderer
      ctx params.
End Sample.

(** some blend factor of a blend state, colour or alpha, reads the
    constant alpha *)
Definition anyFactorConstantAlpha (b : BlendState) : bool :=
  isConstantAlphaFactor (sourceBlendRGB b) || isConstantAlphaFactor (destBlendRGB b)
  || isConstantAlphaFactor (sourceBlendAlpha b) || isConstantAlphaFactor (destBlendAlpha b).

(** one of the two colour blend factors reads the constant alpha *)
Definition rgbFactorConstantAlpha (b : BlendState) : bool :=
  isConstantAlphaFactor (sourceBlendRGB b) || isConstantAlphaFactor (destBlendRGB b).

Definition broadcastAlpha (c : ColorF.t) : list GLfloat :=
  [ColorF.alpha c; ColorF.alpha c; ColorF.alpha c; ColorF.alpha c].

Definition unchangedColor (c : ColorF.t) : list GLfloat :=
  [ColorF.red c; ColorF.green c; ColorF.blue c; ColorF.alpha c].

(** the blend factors of the [OMSetBlendState] calls of a log *)
Definition blendFactorsPassed (l : list Call) : list (option (list GLfloat)) :=
  omap (fun c => match c with
                 | OMSetBlendState _ f _ => Some f
                 | _ => None
                 end) l.

Module BlendExample.
Local Open Scope Z_scope.

  (** [glBlendFuncSeparate(GL_ONE, GL_ZERO, GL_CONSTANT_ALPHA, GL_ZERO)] *)
Definition alphaOnly : BlendState :=
    {| blend := true; sourceBlendRGB := GL_ONE; destBlendRGB := GL_ZERO;
       sourceBlendAlpha := GL_CONSTANT_ALPHA; destBlendAlpha := GL_ZERO;
       blendEquationRGB := GL_FUNC_ADD; blendEquationAlpha := GL_FUNC_ADD;
       colorMaskRed := true; colorMaskGreen := true; colorMaskBlue := true;
       colorMaskAlpha := true; sampleAlphaToCoverage := false; dither := true |}.

  (** [glBlendColor(1.0, 0.5, 0.0, 0.5)] *)
Definition color : ColorF.t := ColorF.make f1 fhalf f0 fhalf.

Definition framebuffer : Framebuffer := Sample.defaultFramebuffer 800 600.
Definition context : Context := Sample.context framebuffer Sample.program.
End BlendExample.

(** the descriptors [syncDepthStencilState] asks the renderer for *)
Definition depthStencilRequests (l : list Call) : list DepthStencilState :=
  omap (fun c => match c with
                 | GetDepthStencilStateRequest key => Some key
                 | _ => None
                 end) l.

Module DepthStencilExample.
Local Open Scope Z_scope.

  (** a framebuffer whose depth-stencil attachment has stencil only *)
Definition stencilOnly : Framebuffer :=
    let fb := Sample.defaultFramebuffer 800 600 in
    {| fb_id := 1;
       getFirstColorbuffer := getFirstColorbuffer fb;
       getFirstNonNullAttachment := getFirstNonNullAttachment fb;
       getColorbuffer := getColorbuffer fb;
       getDepthOrStencilbuffer := None;
       hasDepth := false; hasStencil := true;
       getCachedSamples := 0;
       getDefaultWidth := 0; getDefaultHeight := 0;
       getDrawBufferStates := getDrawBufferStates fb;
       getViewportOffsets := None;
       getMultiviewLayout := MultiviewLayoutNone;
       getCachedColorRenderTargets := getCachedColorRenderTargets fb;
       getCachedDepthStencilRenderTarget := None;
       getFirstRenderTarget := getFirstRenderTarget fb;
       markAttachmentsDirty := None |}.

Definition context : Context := Sample.context stencilOnly Sample.program.

  (** the fresh manager once the framebuffer change has been processed *)
Definition processed : St :=
    {| sm := processFramebufferInvalidation Sample.renderer context Sample.manager;
       world := Sample.initialWorld |}.
End DepthStencilExample.

(** the members of the manager that the cascade claim is about *)
Definition internalBit (st : St) (b : DirtyBitType) : bool :=
  BitSet.test (mInternalDirtyBits (sm st)) (dirtyBitIndex b).

Definition currentValueDirty (st : St) (i : nat) : bool :=
  BitSet.test (mDirtyCurrentValueAttribs (vertexCache (sm st))) i.

Definition indexBufferDirty (st : St) : bool :=
  mIndexBufferIsDirty (indexCache (sm st)).

(** the members of [ShaderConstants11] that belong to a stage *)
Definition numActiveSamplers (t : ShaderType) (c : ShaderConstants11) : Z :=
  match t with
  | Vertex => mNumActiveVSSamplers c
  | Fragment => mNumActivePSSamplers c
  | Compute => mNumActiveCSSamplers c
  | Geometry => 0
  end.

Definition samplerMetadataOf (t : ShaderType) (c : ShaderConstants11)
    : list SamplerMetadata :=
  match t with
  | Vertex => mSamplerMetadataVS c
  | Fragment => mSamplerMetadataPS c
  | Compute => mSamplerMetadataCS c
  | Geometry => []
  end.

Definition headerOf (t : ShaderType) (c : ShaderConstants11) : ConstantsHeader :=
  match t with
  | Vertex | Geometry => HeaderVertex (mVertex c)
  | Fragment => HeaderPixel (mPixel c)
  | Compute => HeaderCompute (mCompute c)
  end.

Definition stageDirty (t : ShaderType) (c : ShaderConstants11) : bool :=
  BitSet.test (mShaderConstantsDirty c) (shaderIndex t).

(** the condition under which [updateBuffer] uploads *)
Definition uploadNeeded (t : ShaderType) (program : Program) (c : ShaderConstants11)
    : bool :=
  stageDirty t c || (numActiveSamplers t c <? s32 (getUsedSamplerRange program t))%Z.

(** the sampler metadata written by the uploads of a log *)
Definition samplerUploads (l : list Call) : list (list SamplerMetadata) :=
  omap (fun c => match c with
                 | WriteMapped _ _ samplers => Some samplers
                 | _ => None
                 end) l.

(** C3 as stated, the previously-uploaded active-sampler count: the number
    of samplers whose metadata the latest upload of a log carried, none
    before the first upload *)
Definition previouslyUploaded (log : list Call) : Z :=
  Z.of_nat (length (List.last (samplerUploads log) [])).

(** The operations of [ShaderConstants11], to speak of what has been done
    to the constants since they were constructed. *)
Inductive ConstantsOp :=
  | OpInit (caps : Caps)
  | OpMarkDirty
  | OpSetComputeWorkGroups (numGroupsX numGroupsY numGroupsZ : Z)
  | OpSetMultiviewWriteToViewportIndex (index : GLfloat)
  | OpOnViewportChange (glViewport : Rectangle.t) (dxViewport : D3D11_VIEWPORT)
      (is9_3 presentPathFast : bool)
  | OpOnSamplerChange (shaderType : ShaderType) (samplerIndex : nat) (texture : Texture)
  | OpUpdateBuffer (renderer : Renderer11) (shaderType : ShaderType)
      (programD3D : Program) (driverConstantBuffer : Resource11).

Definition applyOp (o : ConstantsOp) (c : ShaderConstants11) : ShaderConstants11 :=
  match o with
  | OpInit caps => ShaderConstants.init caps c
  | OpMarkDirty => ShaderConstants.markDirty c
  | OpSetComputeWorkGroups x y z => ShaderConstants.setComputeWorkGroups x y z c
  | OpSetMultiviewWriteToViewportIndex index =>
      ShaderConstants.setMultiviewWriteToViewportIndex index c
  | OpOnViewportChange glViewport dxViewport is9_3 presentPathFast =>
      ShaderConstants.onViewportChange glViewport dxViewport is9_3 presentPathFast c
  | OpOnSamplerChange shaderType samplerIndex texture =>
      ShaderConstants.onSamplerChange shaderType samplerIndex texture c
  | OpUpdateBuffer renderer shaderType programD3D driverConstantBuffer =>
      state (ShaderConstants.updateBuffer renderer shaderType programD3D
               driverConstantBuffer c)
  end.

Definition runOps (history : list ConstantsOp) (c : ShaderConstants11) : ShaderConstants11 :=
  fold_left (fun c o => applyOp o c) history c.

(** C3, amended: the sampler count that a history leaves on record for a
    stage.  It is the used-sampler count of the program of the stage's
    latest [updateBuffer], whether or not that call uploaded anything, and
    it is zero when [markDirty] was called, or [onSamplerChange] changed
    the metadata of a sampler of the stage, after that [updateBuffer].
    [c] is the state the history starts from and [count] what is on record
    there. *)
Fixpoint recordedAfter (t : ShaderType) (c : ShaderConstants11) (count : Z)
    (history : list ConstantsOp) : Z :=
  match history with
  | [] => count
  | o :: rest =>
      let count' :=
        match o with
        | OpUpdateBuffer _ shaderType programD3D _ =>
            if ShaderType_eqb shaderType t
            then s32 (getUsedSamplerRange programD3D t)
            else count
        | OpMarkDirty => 0%Z
        | OpOnSamplerChange shaderType samplerIndex texture =>
            if ShaderType_eqb shaderType t
               && (ShaderConstants.updateSamplerMetadata
                     (default zero_SamplerMetadata (samplerMetadataOf t c !! samplerIndex))
                     texture).2
            then 0%Z
            else count
        | _ => count
        end in
      recordedAfter t (applyOp o c) count' rest
  end.

(** ... since the constants were constructed *)
Definition recordedCount (t : ShaderType) (history : list ConstantsOp) : Z :=
  recordedAfter t ShaderConstants.new 0 history.

Module ConstantsExample.
  (** the pixel-stage constants of a fresh renderer with eight texture units *)
Definition constants : ShaderConstants11 :=
    ShaderConstants.init Sample.caps ShaderConstants.new.
Definition driverConstantBufferPS : Resource11 :=
    {| res_get := 0xC004; res_getSerial := 104 |}.
End ConstantsExample.

Notation SRVRecord := (ViewCache.ViewRecord D3D11_SHADER_RESOURCE_VIEW_DESC).

(** the records of the SRV cache of a stage *)
Definition stageViews (t : ShaderType) (s : St) : list SRVRecord :=
  ViewCache.mCurrentViews (getSRVCache t (viewCaches (sm s))).

(** a record once its slot has been unbound *)
Definition nullRecord (r : SRVRecord) : SRVRecord :=
  {| ViewCache.view := 0; ViewCache.resource := 0; ViewCache.desc := ViewCache.desc r |}.

(** the call that unbinds one slot of a stage *)
Definition unbindCall (t : ShaderType) (slot : nat) : Call :=
  XSSetShaderResources t (Z.of_nat slot) 1 [0%Z].

(** The attachments [syncFramebuffer] binds, each with the resource of its
    render target: the colour attachments it does not skip, from [rtIndex]
    on, ... *)
Fixpoint boundColorAttachments (mRenderer : Renderer11) (context : Context)
    (framebuffer : Framebuffer) (rtIndex : nat) (colorRTs : list (option RenderTarget11))
    : list (FramebufferAttachment * Z) :=
  match colorRTs with
  | [] => []
  | renderTarget :: rest =>
      let skipped :=
        mrtPerfWorkaround mRenderer
        && (negb (bool_decide (is_Some renderTarget))
            || (default GL_NONE (getDrawBufferStates framebuffer !! rtIndex) =? GL_NONE)%Z
            || negb (getActiveOutputVariables (getProgram (getGLState context)) rtIndex)) in
      let here :=
        if skipped then []
        else match renderTarget, getColorbuffer framebuffer rtIndex with
             | Some rt, Some attachment => [(attachment, rt_getTexture rt)]
             | _, _ => []
             end in
      here ++ boundColorAttachments mRenderer context framebuffer (S rtIndex) rest
  end.

(** ... and the depth-stencil attachment *)
Definition boundAttachments (mRenderer : Renderer11) (context : Context)
    (framebuffer : Framebuffer) : list (FramebufferAttachment * Z) :=
  boundColorAttachments mRenderer context framebuffer 0
    (getCachedColorRenderTargets framebuffer)
  ++ match getCachedDepthStencilRenderTarget framebuffer,
           getDepthOrStencilbuffer framebuffer with
     | Some rt, Some attachment => [(attachment, rt_getTexture rt)]
     | _, _ => []
     end.

(** the end of the mip range of a view, exclusive: [MostDetailedMip +
    MipLevels] in unsigned 32-bit arithmetic, and [INT_MAX] for a view of
    all levels ([MipLevels] is [UINT_MAX]) *)
Definition viewEndMip (desc : D3D11_SHADER_RESOURCE_VIEW_DESC) : Z :=
  if (MipLevels desc =? 2 ^ 32 - 1)%Z then (2 ^ 31 - 1)%Z
  else ((MostDetailedMip desc + MipLevels desc) mod 2 ^ 32)%Z.

(** C2 as stated, the range of a view meets an image index: the level of
    the index is in the mip range of the view and, for an array view, its
    layer is among the slices of the view *)
Definition viewRangeHasIndex (index : ImageIndex) (desc : D3D11_SHADER_RESOURCE_VIEW_DESC)
    : bool :=
  let L := (mipIndex index mod 2 ^ 32)%Z in
  let layer := (layerIndex index mod 2 ^ 32)%Z in
  ((MostDetailedMip desc <=? L) && (L <? viewEndMip desc))%Z
  && match ViewDimension desc with
     | D3D11_SRV_DIMENSION_TEXTURE2DARRAY =>
         ((FirstArraySlice desc <=? layer)
          && (layer <? (FirstArraySlice desc + ArraySize desc) mod 2 ^ 32))%Z
     | _ => true
     end.

(** C2 as stated: a bound view conflicts with an attachment when it is a
    view of the attachment's resource and, where the attachment is a
    texture and so has an image index, the view's range meets the index *)
Definition claimedConflict (a : FramebufferAttachment * Z) (r : SRVRecord) : bool :=
  neZ (ViewCache.view r) 0
  && (ViewCache.resource r =? a.2)%Z
  && (if (att_type a.1 =? GL_TEXTURE)%Z
      then viewRangeHasIndex (att_getTextureImageIndex a.1) (ViewCache.desc r)
      else true).

(** what the code resolves: only texture and default-framebuffer
    attachments are looked at *)
Definition attachmentConflict (a : FramebufferAttachment * Z) (r : SRVRecord) : bool :=
  if (att_type a.1 =? GL_TEXTURE)%Z
  then conflictsWith a.2 (Some (att_getTextureImageIndex a.1)) r
  else if (att_type a.1 =? GL_FRAMEBUFFER_DEFAULT)%Z
  then conflictsWith a.2 None r
  else false.

Definition conflictsWithAny (atts : list (FramebufferAttachment * Z)) (r : SRVRecord)
    : bool :=
  existsb (fun a => attachmentConflict a r) atts.

(** C2, amended: the test that the image index of a texture attachment
    passes against the description of a view.  With [L] the mip level of
    the index, [M] the most detailed mip of the view and [E] the end of its
    mip range:
    - a TEXTURE2D view and a 2D index: [L <= M < INT_MAX] or [M < L < E],
      so a view that only has levels after [L] passes too;
    - a TEXTURE2DARRAY view and a 2D-array or cube-map index: [M <= L < E]
      and the layer is one of the [ArraySize] slices from [FirstArraySlice];
    - a TEXTURECUBE view and a cube-map index, a TEXTURE3D view and a 3D
      index: [M <= L < E];
    - any other pair, the multisampled views among them: never. *)
Definition indexMeetsView (index : ImageIndex) (desc : D3D11_SHADER_RESOURCE_VIEW_DESC)
    : bool :=
  let L := (mipIndex index mod 2 ^ 32)%Z in
  let layer := (layerIndex index mod 2 ^ 32)%Z in
  let M := MostDetailedMip desc in
  let E := viewEndMip desc in
  let inMips := ((M <=? L) && (L <? E))%Z in
  match ViewDimension desc, ii_type index with
  | D3D11_SRV_DIMENSION_TEXTURE2D, TT_2D =>
      ((L <=? M) && (M <? 2 ^ 31 - 1) || (M <? L) && (L <? E))%Z
  | D3D11_SRV_DIMENSION_TEXTURE2DARRAY, TT_2DArray
  | D3D11_SRV_DIMENSION_TEXTURE2DARRAY, TT_CubeMap =>
      (inMips && (FirstArraySlice desc <=? layer)
       && (layer <? (FirstArraySlice desc + ArraySize desc) mod 2 ^ 32))%Z
  | D3D11_SRV_DIMENSION_TEXTURECUBE, TT_CubeMap => inMips
  | D3D11_SRV_DIMENSION_TEXTURE3D, TT_3D => inMips
  | _, _ => false
  end.

(** C2, amended: the record holds a view of the resource of the attachment,
    and the attachment belongs to the default framebuffer or is a texture
    whose image index passes the test against the view *)
Definition amendedConflict (a : FramebufferAttachment * Z) (r : SRVRecord) : bool :=
  negb (ViewCache.view r =? 0)%Z
  && (ViewCache.resource r =? a.2)%Z
  && ((att_type a.1 =? GL_FRAMEBUFFER_DEFAULT)%Z
      || (att_type a.1 =? GL_TEXTURE)%Z
         && indexMeetsView (att_getTextureImageIndex a.1) (ViewCache.desc r)).

Definition amendedConflictAny (atts : list (FramebufferAttachment * Z)) (r : SRVRecord)
    : bool :=
  existsb (fun a => amendedConflict a r) atts.

(** [s'] and the calls [cs] are what unbinding the vertex-stage views that
    satisfy [PV] and the pixel-stage views that satisfy [PF] makes of [s] *)
Definition unbound (PV PF : SRVRecord -> bool) (s s' : St) (cs : list Call) : Prop :=
  let P (t : ShaderType) := match t with Vertex => PV | _ => PF end in
  (forall t, t = Vertex \/ t = Fragment ->
     forall j, stageViews t s' !! j
               = (fun r => if P t r then nullRecord r else r) <$> stageViews t s !! j)
  /\ (forall c, In c cs ->
        exists t S r, (t = Vertex \/ t = Fragment) /\ c = unbindCall t S
                      /\ stageViews t s !! S = Some r /\ P t r = true)
  /\ (forall t S r, t = Vertex \/ t = Fragment ->
        stageViews t s !! S = Some r -> P t r = true -> In (unbindCall t S) cs).

Module ConflictExample.
Local Open Scope Z_scope.

  (** the texture behind the views and the render target *)
Definition sharedResource : Z := 0x7000.

Definition textureView : ID3D11View D3D11_SHADER_RESOURCE_VIEW_DESC :=
    {| view_addr := 0x7200; view_GetResource := sharedResource;
       view_GetDesc :=
         {| Format := 28; ViewDimension := D3D11_SRV_DIMENSION_TEXTURE2D;
            MostDetailedMip := 0; MipLevels := 1;
            FirstArraySlice := 0; ArraySize := 0 |} |}.

Definition otherView : ID3D11View D3D11_SHADER_RESOURCE_VIEW_DESC :=
    {| view_addr := 0x8200; view_GetResource := 0x8000;
       view_GetDesc := view_GetDesc textureView |}.

  (** a view of levels 2 and 3 of the shared texture, and a multisampled
      view of it *)
Definition deeperView : ID3D11View D3D11_SHADER_RESOURCE_VIEW_DESC :=
    {| view_addr := 0x7400; view_GetResource := sharedResource;
       view_GetDesc :=
         {| Format := 28; ViewDimension := D3D11_SRV_DIMENSION_TEXTURE2D;
            MostDetailedMip := 2; MipLevels := 2;
            FirstArraySlice := 0; ArraySize := 0 |} |}.

Definition multisampledView : ID3D11View D3D11_SHADER_RESOURCE_VIEW_DESC :=
    {| view_addr := 0x7500; view_GetResource := sharedResource;
       view_GetDesc :=
         {| Format := 28; ViewDimension := D3D11_SRV_DIMENSION_TEXTURE2DMS;
            MostDetailedMip := 0; MipLevels := 0;
            FirstArraySlice := 0; ArraySize := 0 |} |}.

  (** an attachment of the given type on level 0 of the shared texture *)
Definition attachment (type : Z) : FramebufferAttachment :=
    {| att_type := type;
       att_getSize := Extents.make 256 256 1;
       att_getTextureImageIndex := {| ii_type := TT_2D; mipIndex := 0; layerIndex := 0 |} |}.

Definition renderTarget : RenderTarget11 :=
    {| getRenderTargetView := 0x7100; getDepthStencilView := 0;
       rt_getTexture := sharedResource; rt_getSamples := 0 |}.

  (** a framebuffer object with one colour attachment of the given type *)
Definition framebuffer (type : Z) : Framebuffer :=
    {| fb_id := 1;
       getFirstColorbuffer := Some (attachment type);
       getFirstNonNullAttachment := Some (attachment type);
       getColorbuffer := fun i => if (i =? 0)%nat then Some (attachment type) else None;
       getDepthOrStencilbuffer := None;
       hasDepth := false; hasStencil := false;
       getCachedSamples := 0;
       getDefaultWidth := 0; getDefaultHeight := 0;
       getDrawBufferStates := [0x8CE0];
       getViewportOffsets := None;
       getMultiviewLayout := MultiviewLayoutNone;
       getCachedColorRenderTargets := [Some renderTarget];
       getCachedDepthStencilRenderTarget := None;
       getFirstRenderTarget := Some renderTarget;
       markAttachmentsDirty := None |}.

Definition context (type : Z) : Context :=
    Sample.context (framebuffer type) Sample.program.

  (** the manager after [setShaderResource] has bound a view of the shared
      texture to pixel slot 0 and a view of another one to pixel slot 1 *)
Definition sampling : St :=
    state ((setShaderResource Fragment 0
              (Some {| srv_this := 0x7300; srv_get := Some textureView |});;
            setShaderResource Fragment 1
              (Some {| srv_this := 0x8300; srv_get := Some otherView |}))
             Sample.fresh).

  (** the manager after [setShaderResource] has bound the view of levels 2
      and 3 to pixel slot 0 and the multisampled view to pixel slot 1 *)
Definition samplingOtherViews : St :=
    state ((setShaderResource Fragment 0
              (Some {| srv_this := 0x7600; srv_get := Some deeperView |});;
            setShaderResource Fragment 1
              (Some {| srv_this := 0x7700; srv_get := Some multisampledView |}))
             Sample.fresh).
End ConflictExample.

(** a computation that cannot fail and unbinds the views satisfying [PV]
    and [PF] *)
Definition unbinds {A} (PV PF : SRVRecord -> bool) (m : M St A) : Prop :=
  forall s, exists a, result (m s) = NoError a
                      /\ unbound PV PF s (state (m s)) (calls (m s)).

Module DegenerateExample.
  (** the back buffer of a window shrunk to no width *)
Definition framebuffer : Framebuffer := Sample.defaultFramebuffer 0 600.

Definition context : Context := Sample.context framebuffer Sample.program.
End DegenerateExample.

(** The members [updateState] reads before the drain.  Between [s] and
    [s'] none of them was dirtied: the internal dirty bits are the same
    (up to [DIRTY_BIT_SHADERS] unless [strict]), the render-target, swizzle,
    sampler-mapping flags and the remembered draw parameters are the same,
    the index buffer and the uniforms were not made dirty, and the sample
    mask is the old one or [sampleMask]. *)
Record frame (strict : bool) (sampleMask : Z) (s s' : St) : Prop := {
  frame_bits :
    if strict then mInternalDirtyBits (sm s') = mInternalDirtyBits (sm s)
    else BitSet.reset (dirtyBitIndex DIRTY_BIT_SHADERS) (mInternalDirtyBits (sm s'))
         = BitSet.reset (dirtyBitIndex DIRTY_BIT_SHADERS) (mInternalDirtyBits (sm s));
  frame_renderTarget :
    mRenderTargetIsDirty (flags (sm s')) = mRenderTargetIsDirty (flags (sm s));
  frame_swizzles :
    mDirtySwizzles (flags (sm s')) = mDirtySwizzles (flags (sm s));
  frame_samplerMapping :
    mDirtySamplerMapping (world s') = mDirtySamplerMapping (world s);
  frame_firstVertex :
    mLastFirstVertex (vertexCache (sm s')) = mLastFirstVertex (vertexCache (sm s));
  frame_drawMode :
    mLastAppliedDrawMode (shaderCache (sm s')) = mLastAppliedDrawMode (shaderCache (sm s));
  frame_indexBuffer :
    mIndexBufferIsDirty (indexCache (sm s')) = true ->
    mIndexBufferIsDirty (indexCache (sm s)) = true;
  frame_uniforms :
    anyShaderUniformsDirty (world s') = true -> anyShaderUniformsDirty (world s) = true;
  frame_sampleMask :
    mCurSampleMask (blendCache (sm s')) = mCurSampleMask (blendCache (sm s))
    \/ mCurSampleMask (blendCache (sm s')) = sampleMask
}.

Definition framed {A} (strict : bool) (sampleMask : Z) (m : M St A) : Prop :=
  forall s, frame strict sampleMask s (state (m s)).

Definition wp {A} (m : M St A) (Q : A -> St -> Prop) (s : St) : Prop :=
  forall a, result (m s) = NoError a -> Q a (state (m s)).

Global Instance DirtyBitType_eq_dec : EqDecision DirtyBitType.
Proof. solve_decision. Defined.

(** the sample mask [updateState] computes for a draw *)
Definition drawSampleMask (mRenderer : Renderer11) (context : Context) : Z :=
  let glState := getGLState context in
  GetBlendSampleMask mRenderer glState
    match getFirstRenderTarget (getDrawFramebuffer glState) with
    | Some firstRT => rt_getSamples firstRT
    | None => 0%Z
    end.

(** Nothing is left to synchronise for a draw: no internal dirty bit is
    set, and the members [updateState] looks at before the drain agree with
    the draw. *)
Record quiescent (mRenderer : Renderer11) (context : Context)
    (drawCallParams : DrawCallParams) (s : St) : Prop := {
  q_bits : mInternalDirtyBits (sm s) = BitSet.none;
  q_renderTarget : mRenderTargetIsDirty (flags (sm s)) = false;
  q_samplerMapping : mDirtySamplerMapping (world s) = false;
  q_uniforms : anyShaderUniformsDirty (world s) = false;
  q_swizzles : mDirtySwizzles (flags (sm s)) = false;
  q_sampleMask : mCurSampleMask (blendCache (sm s)) = drawSampleMask mRenderer context;
  q_firstVertex :
    mLastFirstVertex (vertexCache (sm s)) = Some (dc_firstVertex drawCallParams);
  q_indexBuffer :
    dc_isDrawElements drawCallParams = true ->
    mIndexBufferIsDirty (indexCache (sm s)) = false;
  q_drawMode : mLastAppliedDrawMode (shaderCache (sm s)) = dc_mode drawCallParams
}.

Module PassExample.
  (** a draw into an 800 by 600 back buffer *)
Definition context : Context :=
    Sample.context (Sample.defaultFramebuffer 800 600) Sample.program.
End PassExample.

Module ClearExample.
  (** the pixel stage samples four textures, in slots 0 to 3 *)
Definition binds : list (ViewCache.op D3D11_SHADER_RESOURCE_VIEW_DESC) :=
    [ViewCache.OpUpdate 0 (Some ViewCacheExample.viewA);
     ViewCache.OpUpdate 1 (Some ViewCacheExample.viewB);
     ViewCache.OpUpdate 2 (Some ViewCacheExample.viewA);
     ViewCache.OpUpdate 3 (Some ViewCacheExample.viewB)].

Definition bound : St :=
    {| sm := upd_viewCaches
               (set_mCurPixelSRVs
                  (ViewCache.run zero_SRV_DESC (ViewCache.initialize zero_SRV_DESC 8) binds))
               Sample.manager;
       world := Sample.initialWorld |}.
End ClearExample.

Module CascadeExample.
  (** the logical state of the sample draw, with rasterizer discard on *)
Definition glState : GLState :=
    let g := getGLState PassExample.context in
    {| getBlendState := getBlendState g;
       getBlendColor := getBlendColor g;
       getDepthStencilState := getDepthStencilState g;
       getStencilRef := getStencilRef g; getStencilBackRef := getStencilBackRef g;
       getRasterizerState :=
         {| cullFace := false; cullMode := CullBack; frontFace := GL_CCW;
            polygonOffsetFill := false; polygonOffsetFactor := f0;
            polygonOffsetUnits := f0; pointDrawMode := false; multiSample := false;
            rasterizerDiscard := true |};
       getScissor := getScissor g;
       isScissorTestEnabled := isScissorTestEnabled g;
       getNearPlane := getNearPlane g; getFarPlane := getFarPlane g;
       getViewport := getViewport g;
       getDrawFramebuffer := getDrawFramebuffer g;
       getProgram := getProgram g;
       getVertexArray := getVertexArray g;
       getCompleteTextureCache := getCompleteTextureCache g;
       getSampler := getSampler g;
       getSamplerTexture := getSamplerTexture g;
       isTransformFeedbackActiveUnpaused := isTransformFeedbackActiveUnpaused g;
       getCurrentTransformFeedback := getCurrentTransformFeedback g;
       getIndexedUniformBuffer := getIndexedUniformBuffer g;
       getVertexAttribCurrentValue := getVertexAttribCurrentValue g |}.

Definition context : Context :=
    {| getGLState := glState; getCaps := getCaps PassExample.context;
       triggerDrawCallProgramRecompilation :=
         triggerDrawCallProgramRecompilation PassExample.context |}.

  (** the manager after a first draw, with nothing left dirty *)
Definition synced : St :=
    state (Sample.updateState PassExample.context Sample.drawTriangles Sample.fresh).

Definition notifications : list State.DirtyBit :=
    [State.DIRTY_BIT_RASTERIZER_DISCARD_ENABLED; State.DIRTY_BIT_VERTEX_ARRAY_BINDING].
End CascadeExample.

Section PrepareVocabulary.
Variable mRenderer : Renderer11.
Variable context : Context.
Variable drawCallParams : DrawCallParams.

Local Notation SM := (drawSampleMask mRenderer context).
Local Notation PU := (dirtyBitIndex DIRTY_BIT_PROGRAM_UNIFORMS).
Local Notation BLEND := (dirtyBitIndex DIRTY_BIT_BLEND_STATE).

(** what has been settled after the first [phase] steps of [updateState] *)
Record prepared (phase : nat) (s : St) : Prop := {
  pr_renderTarget : 1 <= phase -> mRenderTargetIsDirty (flags (sm s)) = false;
  pr_samplerMapping : 2 <= phase -> mDirtySamplerMapping (world s) = false;
  pr_uniforms :
    3 <= phase -> anyShaderUniformsDirty (world s) = true ->
    BitSet.test (mInternalDirtyBits (sm s)) PU = true;
  pr_swizzles : 4 <= phase -> mDirtySwizzles (flags (sm s)) = false;
  pr_sampleMask :
    5 <= phase -> mCurSampleMask (blendCache (sm s)) <> SM ->
    BitSet.test (mInternalDirtyBits (sm s)) BLEND = true;
  pr_firstVertex :
    6 <= phase ->
    mLastFirstVertex (vertexCache (sm s)) = Some (dc_firstVertex drawCallParams);
  pr_indexBuffer :
    7 <= phase -> dc_isDrawElements drawCallParams = true ->
    mIndexBufferIsDirty (indexCache (sm s)) = false;
  pr_drawMode :
    8 <= phase -> mLastAppliedDrawMode (shaderCache (sm s)) = dc_mode drawCallParams
}.

(** a step that undoes nothing of what was settled; the swizzle flag
    counts once it has been looked at *)
Record keeps (swizzles : bool) (s s' : St) : Prop := {
  k_bits :
    forall b, BitSet.test (mInternalDirtyBits (sm s)) b = true ->
              BitSet.test (mInternalDirtyBits (sm s')) b = true;
  k_renderTarget :
    mRenderTargetIsDirty (flags (sm s)) = false ->
    mRenderTargetIsDirty (flags (sm s')) = false;
  k_swizzles :
    swizzles = true -> mDirtySwizzles (flags (sm s)) = false ->
    mDirtySwizzles (flags (sm s')) = false;
  k_samplerMapping :
    mDirtySamplerMapping (world s) = false -> mDirtySamplerMapping (world s') = false;
  k_firstVertex :
    mLastFirstVertex (vertexCache (sm s)) = Some (dc_firstVertex drawCallParams) ->
    mLastFirstVertex (vertexCache (sm s')) = Some (dc_firstVertex drawCallParams);
  k_drawMode :
    mLastAppliedDrawMode (shaderCache (sm s)) = dc_mode drawCallParams ->
    mLastAppliedDrawMode (shaderCache (sm s')) = dc_mode drawCallParams;
  k_indexBuffer :
    mIndexBufferIsDirty (indexCache (sm s)) = false ->
    mIndexBufferIsDirty (indexCache (sm s')) = false;
  k_uniforms :
    anyShaderUniformsDirty (world s') = true -> anyShaderUniformsDirty (world s) = true;
  k_sampleMask :
    mCurSampleMask (blendCache (sm s')) = mCurSampleMask (blendCache (sm s))
    \/ mCurSampleMask (blendCache (sm s')) = SM
}.
End PrepareVocabulary.

(* ================================================================== *)
(** * Further vocabulary                                                 *)
(* ================================================================== *)

(** an operation that binds a view or clears the cache, as opposed to one
    that unbinds a slot *)
Definition bindOrClear {DescType} (o : ViewCache.op DescType) : Prop :=
  match o with
  | ViewCache.OpUpdate _ None => False
  | _ => True
  end.

(** the invariant of a cache that only ever saw binds and clears *)
Definition tight {DescType} (c : ViewCache.t DescType) : Prop :=
  (forall i, ViewCache.highestUsed c <= i -> ~ ViewCache.occupied c i)
  /\ (0 < ViewCache.highestUsed c -> ViewCache.occupied c (ViewCache.highestUsed c - 1)).

(** a record once its slot has been unbound *)
Definition cleared {DescType} (r : ViewCache.ViewRecord DescType)
    : ViewCache.ViewRecord DescType :=
  {| ViewCache.view := 0; ViewCache.resource := 0; ViewCache.desc := ViewCache.desc r |}.

(** the address [setShaderResourceInternal] compares with the record *)
Definition wrapperAddress (srv : option SRVWrapper) : Z :=
  match srv with Some w => Zpos (srv_this w) | None => 0%Z end.

(** the address of the view it binds *)
Definition viewAddress (srv : option SRVWrapper) : Z :=
  view_uintptr (match srv with Some w => srv_get w | None => None end).

(** a slot of the stage holds a view of the resource *)
Definition viewConflicts (t : ShaderType) (resource : Z) (s : St) : bool :=
  existsb (conflictsWith resource None) (stageViews t s).

(** whether a view of the resource of [view] is bound to a slot of the
    vertex or of the pixel stage *)
Definition sampled (view : option (ID3D11View unit)) (s : St) : bool :=
  match view with
  | Some v => viewConflicts Vertex (GetViewResource v) s
              || viewConflicts Fragment (GetViewResource v) s
  | None => false
  end.

(** the records of the cache of unordered access views *)
Definition computeUAVs (s : St) :
    list (ViewCache.ViewRecord D3D11_UNORDERED_ACCESS_VIEW_DESC) :=
  ViewCache.mCurrentViews (mCurComputeUAVs (viewCaches (sm s))).

Module RenderTargetExample.
Local Open Scope Z_scope.
  (** a shader resource view of the shared texture, in its wrapper *)
Definition wrapper : SRVWrapper :=
    {| srv_this := 0x7300; srv_get := Some ConflictExample.textureView |}.

  (** a render-target view of the same texture *)
Definition rtv : ID3D11View unit :=
    {| view_addr := 0x7100; view_GetResource := ConflictExample.sharedResource;
       view_GetDesc := tt |}.

  (** the manager after the texture has been bound to slot 0 of the vertex
      and of the pixel stage *)
Definition sampledTwice : St :=
    state ((setShaderResource Vertex 0 (Some wrapper);;
            setShaderResource Fragment 0 (Some wrapper)) Sample.fresh).
End RenderTargetExample.

(** a computation that leaves a member as it was, and one that makes no
    device call *)
Definition preserves {X A} (f : St -> X) (m : M St A) : Prop :=
  forall s, f (state (m s)) = f s.

Definition silent {A} (m : M St A) : Prop := forall s, calls (m s) = [].

(** [mDirtyCurrentValueAttribs] *)
Definition dirtyCurrentValueAttribs (s : St) : BitSet.t :=
  mDirtyCurrentValueAttribs (vertexCache (sm s)).

(** what the manager remembers of the vertex buffer bound to an index *)
Definition vertexBufferAt (v : VertexCache) (i : nat) : option Z * option Z * option Z :=
  (mCurrentVertexBuffers v !! i, mCurrentVertexStrides v !! i, mCurrentVertexOffsets v !! i).

(** a sequence of [queueVertexBufferChange(bufferIndex, buffer, stride,
    offset)] *)
Definition queueAll (ops : list (nat * Z * Z * Z)) (v : VertexCache) : VertexCache :=
  fold_left (fun v op =>
    match op with
    | (bufferIndex, buffer, stride, offset) =>
        (queueVertexBufferChange bufferIndex buffer stride offset v).1
    end) ops v.

Definition withVertexCache (v : VertexCache) (s : St) : St :=
  {| sm := upd_vertexCache (fun _ => v) (sm s); world := world s |}.

Module VertexBufferExample.
Local Open Scope Z_scope.
  (** two buffers queued at indices 1 and 3 *)
Definition ops : list (nat * Z * Z * Z) :=
    [(1%nat, 0x5100, 16, 0); (3%nat, 0x5300, 32, 64)].
End VertexBufferExample.

(** the dirty range of a vertex cache is the empty range
    [(MAX_VERTEX_ATTRIBS, 0)] or a range with [low <= high] *)
Definition rangeOk (n : nat) (r : Range.t nat) : Prop :=
  r = Range.make n 0 \/ Range.low r <= Range.high r.

(** the shaders the manager believes are on the device *)
Definition appliedShaders (s : St) : Z * Z * Z :=
  (mAppliedVertexShader (shaderCache (sm s)),
   mAppliedGeometryShader (shaderCache (sm s)),
   mAppliedPixelShader (shaderCache (sm s))).


Module FailedMapExample.
Local Open Scope Z_scope.
  (** the sample renderer on a device that is out of memory: [Map] fails
      with [E_OUTOFMEMORY] *)
Definition renderer : Renderer11 :=
    let r := Sample.renderer in
    {| presentPathFastEnabled := presentPathFastEnabled r;
       UsePresentPathFast := UsePresentPathFast r;
       featureLevel_le_9_3 := featureLevel_le_9_3 r;
       isES3Capable := isES3Capable r;
       mrtPerfWorkaround := mrtPerfWorkaround r;
       useInstancedPointSpriteEmulation := useInstancedPointSpriteEmulation r;
       getNativeCaps := getNativeCaps r;
       getReservedVertexUniformBuffers := getReservedVertexUniformBuffers r;
       getReservedFragmentUniformBuffers := getReservedFragmentUniformBuffers r;
       generateSerial := generateSerial r;
       GetBlendSampleMask := GetBlendSampleMask r;
       Renderer11_getBlendState := Renderer11_getBlendState r;
       Renderer11_getDepthStencilState := Renderer11_getDepthStencilState r;
       Renderer11_getRasterizerState := Renderer11_getRasterizerState r;
       Renderer11_getSamplerState := Renderer11_getSamplerState r;
       getIncompleteTexture := getIncompleteTexture r;
       allocateResource := allocateResource r;
       mapResource := fun _ => Error 0x8007000E;
       storeCurrentValue := storeCurrentValue r;
       prepareIndexData := prepareIndexData r;
       getInputLayout := getInputLayout r |}.
End FailedMapExample.

Module SamplerExample.
Local Open Scope Z_scope.
  (** a texture of 32-bit unsigned integers, sampled from level 2 on *)
Definition texture : Texture :=
    {| tex_getType := TT_2D; tex_getSamplerState := [];
       getEffectiveBaseLevel := 2; sizedInternalFormat := GL_RGBA32UI;
       getWrapS := GL_REPEAT; getWrapT := GL_CLAMP_TO_EDGE; getWrapR := GL_REPEAT;
       swizzleRequired := false;
       getNativeTexture := NoError None |}.
End SamplerExample.

(** the notifications that [syncState] answers by comparing the logical
    state with the cached one; the others invalidate without a test *)
Definition comparedWithCache (dirtyBit : State.DirtyBit) : bool :=
  match dirtyBit with
  | State.DIRTY_BIT_BLEND_EQUATIONS | State.DIRTY_BIT_BLEND_FUNCS
  | State.DIRTY_BIT_BLEND_ENABLED | State.DIRTY_BIT_SAMPLE_ALPHA_TO_COVERAGE_ENABLED
  | State.DIRTY_BIT_DITHER_ENABLED | State.DIRTY_BIT_COLOR_MASK
  | State.DIRTY_BIT_BLEND_COLOR
  | State.DIRTY_BIT_DEPTH_MASK | State.DIRTY_BIT_DEPTH_TEST_ENABLED
  | State.DIRTY_BIT_DEPTH_FUNC | State.DIRTY_BIT_STENCIL_TEST_ENABLED
  | State.DIRTY_BIT_STENCIL_FUNCS_FRONT | State.DIRTY_BIT_STENCIL_FUNCS_BACK
  | State.DIRTY_BIT_STENCIL_WRITEMASK_FRONT | State.DIRTY_BIT_STENCIL_WRITEMASK_BACK
  | State.DIRTY_BIT_STENCIL_OPS_FRONT | State.DIRTY_BIT_STENCIL_OPS_BACK
  | State.DIRTY_BIT_CULL_FACE_ENABLED | State.DIRTY_BIT_CULL_FACE
  | State.DIRTY_BIT_FRONT_FACE | State.DIRTY_BIT_POLYGON_OFFSET_FILL_ENABLED
  | State.DIRTY_BIT_POLYGON_OFFSET
  | State.DIRTY_BIT_RASTERIZER_DISCARD_ENABLED
  | State.DIRTY_BIT_SCISSOR | State.DIRTY_BIT_SCISSOR_TEST_ENABLED
  | State.DIRTY_BIT_DEPTH_RANGE
  | State.DIRTY_BIT_VIEWPORT => true
  | _ => false
  end.

(** the cached blend, depth-stencil, rasterizer, scissor and viewport state
    is the logical state of the context; the blend colour, the polygon
    offset and the depth range are floats, and the cached ones compare
    equal to the logical ones, which no NaN does *)
Record cacheAgrees (context : Context) (st : St) : Prop := {
  agrees_blend :
    mCurBlendState (blendCache (sm st)) = getBlendState (getGLState context);
  agrees_depthStencil :
    mCurDepthStencilState (depthStencilCache (sm st))
    = getDepthStencilState (getGLState context);
  agrees_stencilRef :
    mCurStencilRef (depthStencilCache (sm st)) = getStencilRef (getGLState context);
  agrees_stencilBackRef :
    mCurStencilBackRef (depthStencilCache (sm st)) = getStencilBackRef (getGLState context);
  agrees_cullFace :
    cullFace (mCurRasterState (rasterCache (sm st)))
    = cullFace (getRasterizerState (getGLState context));
  agrees_cullMode :
    cullMode (mCurRasterState (rasterCache (sm st)))
    = cullMode (getRasterizerState (getGLState context));
  agrees_frontFace :
    frontFace (mCurRasterState (rasterCache (sm st)))
    = frontFace (getRasterizerState (getGLState context));
  agrees_polygonOffsetFill :
    polygonOffsetFill (mCurRasterState (rasterCache (sm st)))
    = polygonOffsetFill (getRasterizerState (getGLState context));
  agrees_rasterizerDiscard :
    rasterizerDiscard (mCurRasterState (rasterCache (sm st)))
    = rasterizerDiscard (getRasterizerState (getGLState context));
  agrees_scissor :
    mCurScissorRect (rasterCache (sm st)) = getScissor (getGLState context);
  agrees_scissorEnabled :
    mCurScissorEnabled (rasterCache (sm st)) = isScissorTestEnabled (getGLState context);
  agrees_viewport :
    mCurViewport (viewportCache (sm st)) = getViewport (getGLState context);
  agrees_blendColor :
    ColorF.eqb (getBlendColor (getGLState context)) (mCurBlendColor (blendCache (sm st)))
    = true;
  agrees_polygonOffsetFactor :
    feqb (polygonOffsetFactor (getRasterizerState (getGLState context)))
         (polygonOffsetFactor (mCurRasterState (rasterCache (sm st)))) = true;
  agrees_polygonOffsetUnits :
    feqb (polygonOffsetUnits (getRasterizerState (getGLState context)))
         (polygonOffsetUnits (mCurRasterState (rasterCache (sm st)))) = true;
  agrees_nearPlane :
    feqb (getNearPlane (getGLState context)) (mCurNear (viewportCache (sm st))) = true;
  agrees_farPlane :
    feqb (getFarPlane (getGLState context)) (mCurFar (viewportCache (sm st))) = true
}.

(** no internal dirty bit set in [s] is clear in [s'] *)
Definition keepsDirt (s s' : St) : Prop :=
  forall b, internalBit s b = true -> internalBit s' b = true.

(** a computation that clears no internal dirty bit, and one that clears
    none when it fails *)
Definition dirtKept {A} (m : M St A) : Prop := forall s, keepsDirt s (state (m s)).

Definition dirtKeptOnError {A} (m : M St A) : Prop :=
  forall s e, result (m s) = Error e -> keepsDirt s (state (m s)).

Module FailedPrepareExample.
  (** the default framebuffer of the sample, on a device that fails to
      refresh its attachments *)
Definition framebuffer : Framebuffer :=
    let fb := Sample.defaultFramebuffer 800 600 in
    {| fb_id := fb_id fb;
       getFirstColorbuffer := getFirstColorbuffer fb;
       getFirstNonNullAttachment := getFirstNonNullAttachment fb;
       getColorbuffer := getColorbuffer fb;
       getDepthOrStencilbuffer := getDepthOrStencilbuffer fb;
       hasDepth := hasDepth fb; hasStencil := hasStencil fb;
       getCachedSamples := getCachedSamples fb;
       getDefaultWidth := getDefaultWidth fb; getDefaultHeight := getDefaultHeight fb;
       getDrawBufferStates := getDrawBufferStates fb;
       getViewportOffsets := getViewportOffsets fb;
       getMultiviewLayout := getMultiviewLayout fb;
       getCachedColorRenderTargets := getCachedColorRenderTargets fb;
       getCachedDepthStencilRenderTarget := getCachedDepthStencilRenderTarget fb;
       getFirstRenderTarget := getFirstRenderTarget fb;
       markAttachmentsDirty := Some 0x8007000E%Z |}.

Definition context : Context := Sample.context framebuffer Sample.program.
End FailedPrepareExample.

(** the device call that binds a uniform buffer range to a slot of the
    vertex stage *)
Definition bindVertexUniformBuffer (slot : nat) (constantBuffer : Resource11)
    (uniformBufferSize firstConstant numConstants : Z) : Call :=
  if neZ firstConstant 0 && neZ uniformBufferSize 0
  then XSSetConstantBuffers1 Vertex (Z.of_nat slot) 1 [res_get constantBuffer]
         firstConstant numConstants
  else XSSetConstantBuffers Vertex (Z.of_nat slot) 1 [res_get constantBuffer].

Module UniformBufferExample.
Local Open Scope Z_scope.
  (** a buffer object bound whole to uniform buffer binding point 0 *)
Definition bufferStorage : Buffer11 :=
    {| b11_this := 0x9000;
       getBuffer_VERTEX_OR_TRANSFORM_FEEDBACK := NoError 0x9100;
       getBuffer_INDEX := NoError 0x9200;
       getEmulatedIndexedBuffer := fun _ => NoError 0x9300;
       getConstantBufferRange := fun _ _ =>
         NoError ({| res_get := 0x9400; res_getSerial := 31 |}, 0, 0) |}.

  (** the sample program with one uniform block in the vertex shader, on
      binding point 0 *)
Definition program : Program :=
    let p := Sample.program in
    {| getActiveOutputVariables := getActiveOutputVariables p;
       getActiveAttribLocationsMask := getActiveAttribLocationsMask p;
       getAttribLocationToD3DSemantics := getAttribLocationToD3DSemantics p;
       getUsedSamplerRange := getUsedSamplerRange p;
       getSamplerMapping := getSamplerMapping p;
       getSamplerTextureType := getSamplerTextureType p;
       usesPointSize := usesPointSize p;
       usesInstancedPointSpriteEmulation := usesInstancedPointSpriteEmulation p;
       usesMultiview := usesMultiview p;
       getNumViews := getNumViews p;
       getVertexUniformStorage := getVertexUniformStorage p;
       getFragmentUniformStorage := getFragmentUniformStorage p;
       getVertexUniformBufferCache := [0];
       getFragmentUniformBufferCache := [];
       getVertexExecutableForCachedInputLayout :=
         getVertexExecutableForCachedInputLayout p;
       getPixelExecutableForCachedOutputLayout :=
         getPixelExecutableForCachedOutputLayout p;
       getGeometryExecutableForPrimitiveType :=
         getGeometryExecutableForPrimitiveType p |}.

Definition glState : GLState :=
    let g := getGLState PassExample.context in
    {| getBlendState := getBlendState g;
       getBlendColor := getBlendColor g;
       getDepthStencilState := getDepthStencilState g;
       getStencilRef := getStencilRef g; getStencilBackRef := getStencilBackRef g;
       getRasterizerState := getRasterizerState g;
       getScissor := getScissor g;
       isScissorTestEnabled := isScissorTestEnabled g;
       getNearPlane := getNearPlane g; getFarPlane := getFarPlane g;
       getViewport := getViewport g;
       getDrawFramebuffer := getDrawFramebuffer g;
       getProgram := program;
       getVertexArray := getVertexArray g;
       getCompleteTextureCache := getCompleteTextureCache g;
       getSampler := getSampler g;
       getSamplerTexture := getSamplerTexture g;
       isTransformFeedbackActiveUnpaused := isTransformFeedbackActiveUnpaused g;
       getCurrentTransformFeedback := getCurrentTransformFeedback g;
       getIndexedUniformBuffer := fun _ =>
         {| obp_get := Some bufferStorage; obp_getOffset := 0; obp_getSize := 0 |};
       getVertexAttribCurrentValue := getVertexAttribCurrentValue g |}.

Definition context : Context :=
    {| getGLState := glState; getCaps := getCaps PassExample.context;
       triggerDrawCallProgramRecompilation :=
         triggerDrawCallProgramRecompilation PassExample.context |}.
End UniformBufferExample.

(** a computation whose snapshot of the dirty bits has every bit that was
    set when it started *)
Definition snapshotComplete (m : M St (Z * BitSet.t)) : Prop :=
  forall s r, result (m s) = NoError r ->
              forall b, internalBit s b = true ->
                        BitSet.test r.2 (dirtyBitIndex b) = true.

(** [b1] is not visited after [b2] *)
Definition notAfter (b1 b2 : DirtyBitType) (l : list DirtyBitType) : Prop :=
  forall before after, l = before ++ b2 :: after -> ~ In b1 after.

(* ================================================================== *)
(** * StateManager11: the setters used outside a draw                    *)
(* ================================================================== *)

Section DirectSetters.
  (** constants of headers that are not among the sources *)
Variable RESERVED_CONSTANT_BUFFER_SLOT_DRIVER : nat.
Variable RESERVED_CONSTANT_BUFFER_SLOT_DEFAULT_UNIFORM_BLOCK : nat.

Local Open Scope Z_scope.

  (** [setVertexConstantBuffer(slot, buffer)]; the arrays are
      [std::array]s, a slot past their end is outside the C++ contract and
      is read as zero and not written here. *)
Definition setVertexConstantBuffer (slot : nat) (buffer : option Resource11)
      : M St unit :=
    modSM (upd_constantBufferCache (fun c =>
      set_mCurrentConstantBufferVSSize (<[slot := 0]> (mCurrentConstantBufferVSSize c))
        (set_mCurrentConstantBufferVSOffset
           (<[slot := 0]> (mCurrentConstantBufferVSOffset c)) c)));;
    c ← getSM constantBufferCache;
    let currentSerial := default 0 (mCurrentConstantBufferVS c !! slot) in
    match buffer with
    | Some b =>
        if neZ currentSerial (res_getSerial b) then
          emit (XSSetConstantBuffers Vertex (Z.of_nat slot) 1 [res_get b]);;
          modSM (upd_constantBufferCache (fun c =>
            set_mCurrentConstantBufferVS
              (<[slot := res_getSerial b]> (mCurrentConstantBufferVS c)) c));;
          modSM (invalidateConstantBuffer RESERVED_CONSTANT_BUFFER_SLOT_DRIVER
                   RESERVED_CONSTANT_BUFFER_SLOT_DEFAULT_UNIFORM_BLOCK slot)
        else ret tt
    | None =>
        if neZ currentSerial 0 then
          emit (XSSetConstantBuffers Vertex (Z.of_nat slot) 1 [0]);;
          modSM (upd_constantBufferCache (fun c =>
            set_mCurrentConstantBufferVS
              (<[slot := 0]> (mCurrentConstantBufferVS c)) c));;
          modSM (invalidateConstantBuffer RESERVED_CONSTANT_BUFFER_SLOT_DRIVER
                   RESERVED_CONSTANT_BUFFER_SLOT_DEFAULT_UNIFORM_BLOCK slot)
        else ret tt
    end.

  (** [setPixelConstantBuffer(slot, buffer)] *)
Definition setPixelConstantBuffer (slot : nat) (buffer : option Resource11)
      : M St unit :=
    modSM (upd_constantBufferCache (fun c =>
      set_mCurrentConstantBufferPSSize (<[slot := 0]> (mCurrentConstantBufferPSSize c))
        (set_mCurrentConstantBufferPSOffset
           (<[slot := 0]> (mCurrentConstantBufferPSOffset c)) c)));;
    c ← getSM constantBufferCache;
    let currentSerial := default 0 (mCurrentConstantBufferPS c !! slot) in
    match buffer with
    | Some b =>
        if neZ currentSerial (res_getSerial b) then
          emit (XSSetConstantBuffers Fragment (Z.of_nat slot) 1 [res_get b]);;
          modSM (upd_constantBufferCache (fun c =>
            set_mCurrentConstantBufferPS
              (<[slot := res_getSerial b]> (mCurrentConstantBufferPS c)) c));;
          modSM (invalidateConstantBuffer RESERVED_CONSTANT_BUFFER_SLOT_DRIVER
                   RESERVED_CONSTANT_BUFFER_SLOT_DEFAULT_UNIFORM_BLOCK slot)
        else ret tt
    | None =>
        if neZ currentSerial 0 then
          emit (XSSetConstantBuffers Fragment (Z.of_nat slot) 1 [0]);;
          modSM (upd_constantBufferCache (fun c =>
            set_mCurrentConstantBufferPS
              (<[slot := 0]> (mCurrentConstantBufferPS c)) c));;
          modSM (invalidateConstantBuffer RESERVED_CONSTANT_BUFFER_SLOT_DRIVER
                   RESERVED_CONSTANT_BUFFER_SLOT_DEFAULT_UNIFORM_BLOCK slot)
        else ret tt
    end.

  (** [setDepthStencilState(depthStencilState, stencilRef)] *)
Definition setDepthStencilState (depthStencilState : option Resource11)
      (stencilRef : Z) : M St unit :=
    emit (OMSetDepthStencilState (pointerOf depthStencilState) stencilRef);;
    modSM (setDirty DIRTY_BIT_DEPTH_STENCIL_STATE).

  (** [setSimpleBlendState(blendState)] *)
Definition setSimpleBlendState (blendState : option Resource11) : M St unit :=
    emit (OMSetBlendState (pointerOf blendState) None 0xFFFFFFFF);;
    modSM (setDirty DIRTY_BIT_BLEND_STATE).

  (** [setRasterizerState(rasterizerState)] *)
Definition setRasterizerState (rasterizerState : option Resource11) : M St unit :=
    emit (RSSetState (pointerOf rasterizerState));;
    modSM (setDirty DIRTY_BIT_RASTERIZER_STATE).

  (** [setSimpleViewport(width, height)] *)
Definition setSimpleViewport (width height : Z) : M St unit :=
    let viewport :=
      {| TopLeftX := f0; TopLeftY := f0;
         Width := float_of_int width; Height := float_of_int height;
         MinDepth := f0; MaxDepth := f1 |} in
    emit (RSSetViewports 1 [viewport]);;
    modSM (setDirty DIRTY_BIT_VIEWPORT_STATE).

  (** [setSimplePixelTextureAndSampler(srv, samplerState)] *)
Definition setSimplePixelTextureAndSampler (srv : SRVWrapper)
      (samplerState : Resource11) : M St unit :=
    setShaderResourceInternal Fragment 0 (Some srv);;
    emit (XSSetSamplers Fragment 0 1 [res_get samplerState]);;
    modSM (setDirty DIRTY_BIT_TEXTURE_AND_SAMPLER_STATE);;
    modSM (upd_samplerCaches (fun c =>
      set_mForceSetPixelSamplerStates
        (<[0%nat := true]> (mForceSetPixelSamplerStates c)) c)).

  (** [setScissorRectD3D(d3dRect)] *)
Definition setScissorRectD3D (d3dRect : D3D11_RECT) : M St unit :=
    emit (RSSetScissorRects 1 [d3dRect]);;
    modSM (setDirty DIRTY_BIT_SCISSOR_STATE).

  (** [setSimpleScissorRect(glRect)] *)
Definition setSimpleScissorRect (glRect : Rectangle.t) : M St unit :=
    setScissorRectD3D
      {| left := Rectangle.x glRect;
         right := Rectangle.x glRect + Rectangle.width glRect;
         top := Rectangle.y glRect;
         bottom := Rectangle.y glRect + Rectangle.height glRect |}.
End DirectSetters.

(** the group [invalidateConstantBuffer] makes dirty for a slot *)
Definition constantBufferGroup (driverSlot defaultBlockSlot slot : nat) : DirtyBitType :=
  if (slot =? driverSlot)%nat then DIRTY_BIT_DRIVER_UNIFORMS
  else if (slot =? defaultBlockSlot)%nat then DIRTY_BIT_PROGRAM_UNIFORMS
  else DIRTY_BIT_PROGRAM_UNIFORM_BUFFERS.

(** what the manager remembers of the constant buffer of a slot: serial,
    offset and size *)
Definition vertexConstantBufferAt (s : St) (slot : nat) : option Z * option Z * option Z :=
  let c := constantBufferCache (sm s) in
  (mCurrentConstantBufferVS c !! slot, mCurrentConstantBufferVSOffset c !! slot,
   mCurrentConstantBufferVSSize c !! slot).

Definition pixelConstantBufferAt (s : St) (slot : nat) : option Z * option Z * option Z :=
  let c := constantBufferCache (sm s) in
  (mCurrentConstantBufferPS c !! slot, mCurrentConstantBufferPSOffset c !! slot,
   mCurrentConstantBufferPSSize c !! slot).

Module InstancedExample.
Local Open Scope Z_scope.
  (** a device of feature level 9_3 *)
Definition renderer : Renderer11 :=
    let r := Sample.renderer in
    {| presentPathFastEnabled := presentPathFastEnabled r;
       UsePresentPathFast := UsePresentPathFast r;
       featureLevel_le_9_3 := true;
       isES3Capable := false;
       mrtPerfWorkaround := mrtPerfWorkaround r;
       useInstancedPointSpriteEmulation := useInstancedPointSpriteEmulation r;
       getNativeCaps := getNativeCaps r;
       getReservedVertexUniformBuffers := getReservedVertexUniformBuffers r;
       getReservedFragmentUniformBuffers := getReservedFragmentUniformBuffers r;
       generateSerial := generateSerial r;
       GetBlendSampleMask := GetBlendSampleMask r;
       Renderer11_getBlendState := Renderer11_getBlendState r;
       Renderer11_getDepthStencilState := Renderer11_getDepthStencilState r;
       Renderer11_getRasterizerState := Renderer11_getRasterizerState r;
       Renderer11_getSamplerState := Renderer11_getSamplerState r;
       getIncompleteTexture := getIncompleteTexture r;
       allocateResource := allocateResource r;
       mapResource := mapResource r;
       storeCurrentValue := storeCurrentValue r;
       prepareIndexData := prepareIndexData r;
       getInputLayout := getInputLayout r |}.

  (** an enabled array attribute read from the vertex buffer [buffer],
      advancing once every [divisor] instances *)
Definition attribute (binding : nat) (buffer divisor : Z) : TranslatedAttribute :=
    {| ta_attribute := Some {| va_enabled := true; va_bindingIndex := binding |};
       ta_currentValueType := 0x1406; ta_binding := Some binding;
       ta_storage := None; ta_vertexBuffer := buffer; ta_stride := 16;
       ta_divisor := divisor; ta_computeOffset := fun _ => NoError 0 |}.

  (** location 0 is instanced, location 1 is not *)
Definition perInstance : TranslatedAttribute := attribute 0 0x7100 1.
Definition perVertex : TranslatedAttribute := attribute 1 0x7200 0.

Definition vertexArray : VertexArray :=
    {| getTranslatedAttribs := [perInstance; perVertex];
       getVertexAttributes :=
         [{| va_enabled := true; va_bindingIndex := 0 |};
          {| va_enabled := true; va_bindingIndex := 1 |}];
       syncStateForDraw := fun _ => NoError tt;
       getCachedDestinationIndexType := 0x1403;
       getElementArrayBuffer := 0 |}.

  (** the sample program with attribute locations 0 and 1 active *)
Definition program : Program :=
    let p := Sample.program in
    {| getActiveOutputVariables := getActiveOutputVariables p;
       getActiveAttribLocationsMask := 3;
       getAttribLocationToD3DSemantics := getAttribLocationToD3DSemantics p;
       getUsedSamplerRange := getUsedSamplerRange p;
       getSamplerMapping := getSamplerMapping p;
       getSamplerTextureType := getSamplerTextureType p;
       usesPointSize := usesPointSize p;
       usesInstancedPointSpriteEmulation := usesInstancedPointSpriteEmulation p;
       usesMultiview := usesMultiview p;
       getNumViews := getNumViews p;
       getVertexUniformStorage := getVertexUniformStorage p;
       getFragmentUniformStorage := getFragmentUniformStorage p;
       getVertexUniformBufferCache := getVertexUniformBufferCache p;
       getFragmentUniformBufferCache := getFragmentUniformBufferCache p;
       getVertexExecutableForCachedInputLayout :=
         getVertexExecutableForCachedInputLayout p;
       getPixelExecutableForCachedOutputLayout :=
         getPixelExecutableForCachedOutputLayout p;
       getGeometryExecutableForPrimitiveType :=
         getGeometryExecutableForPrimitiveType p |}.

Definition glState : GLState :=
    let g := getGLState PassExample.context in
    {| getBlendState := getBlendState g;
       getBlendColor := getBlendColor g;
       getDepthStencilState := getDepthStencilState g;
       getStencilRef := getStencilRef g; getStencilBackRef := getStencilBackRef g;
       getRasterizerState := getRasterizerState g;
       getScissor := getScissor g;
       isScissorTestEnabled := isScissorTestEnabled g;
       getNearPlane := getNearPlane g; getFarPlane := getFarPlane g;
       getViewport := getViewport g;
       getDrawFramebuffer := getDrawFramebuffer g;
       getProgram := program;
       getVertexArray := vertexArray;
       getCompleteTextureCache := getCompleteTextureCache g;
       getSampler := getSampler g;
       getSamplerTexture := getSamplerTexture g;
       isTransformFeedbackActiveUnpaused := isTransformFeedbackActiveUnpaused g;
       getCurrentTransformFeedback := getCurrentTransformFeedback g;
       getIndexedUniformBuffer := getIndexedUniformBuffer g;
       getVertexAttribCurrentValue := getVertexAttribCurrentValue g |}.

Definition context : Context :=
    {| getGLState := glState; getCaps := getCaps PassExample.context;
       triggerDrawCallProgramRecompilation :=
         triggerDrawCallProgramRecompilation PassExample.context |}.
End InstancedExample.

(** [mCurrentAttributes] *)
Definition currentAttributes (s : St) : list (option TranslatedAttribute) :=
  mCurrentAttributes (vertexCache (sm s)).

(* ================================================================== *)
(** * Running the monad                                                  *)
(* ================================================================== *)

Section MonadLemmas.

Context {S : Type}.

Lemma run_bind {A B} (m : M S A) (k : A -> M S B) (s : S) :
    (m ≫= k) s =
    match m s with
    | (NoError a, s1, c1) => match k a s1 with (r, s2, c2) => (r, s2, c1 ++ c2) end
    | (Error e, s1, c1) => (Error e, s1, c1)
    end.
Proof. reflexivity. Qed.

Lemma run_ret {A} (a : A) (s : S) : ret a s = (NoError a, s, []).
Proof. reflexivity. Qed.

Lemma run_gets {A} (f : S -> A) (s : S) : gets f s = (NoError (f s), s, []).
Proof. reflexivity. Qed.

Lemma run_modify (f : S -> S) (s : S) : modify f s = (NoError tt, f s, []).
Proof. reflexivity. Qed.

Lemma run_emit (c : Call) (s : S) : emit c s = (NoError tt, s, [c]).
Proof. reflexivity. Qed.

Lemma run_try {A} (r : Result A) (s : S) : try r s = (r, s, []).
Proof. reflexivity. Qed.

Lemma run_when_true (m : M S unit) : when true m = m.
Proof. reflexivity. Qed.

Lemma run_when_false (m : M S unit) (s : S) : when false m s = (NoError tt, s, []).
Proof. reflexivity. Qed.

Lemma calls_mk {A} (r : Result A) (s : S) (c : list Call) : calls (r, s, c) = c.
Proof. reflexivity. Qed.

Lemma state_mk {A} (r : Result A) (s : S) (c : list Call) : state (r, s, c) = s.
Proof. reflexivity. Qed.

Lemma result_mk {A} (r : Result A) (s : S) (c : list Call) : result (r, s, c) = r.
Proof. reflexivity. Qed.

End MonadLemmas.

Lemma run_getSM {A} (f : StateManager11 -> A) (s : St) :
  getSM f s = (NoError (f (sm s)), s, []).
Proof. reflexivity. Qed.

Lemma run_getWorld {A} (f : World -> A) (s : St) :
  getWorld f s = (NoError (f (world s)), s, []).
Proof. reflexivity. Qed.

Lemma run_modSM f (s : St) :
  modSM f s = (NoError tt, {| sm := f (sm s); world := world s |}, []).
Proof. reflexivity. Qed.

Lemma run_modWorld f (s : St) :
  modWorld f s = (NoError tt, {| sm := sm s; world := f (world s) |}, []).
Proof. reflexivity. Qed.

Lemma run_emitSetShaderResources shaderType a b v (s : St) :
  emitSetShaderResources shaderType a b v s =
  (NoError tt, s,
   match shaderType with
   | Geometry => []
   | _ => [XSSetShaderResources shaderType a b v]
   end).
Proof. destruct shaderType; reflexivity. Qed.

Create Rewrite HintDb mrun.

#[export] Hint Rewrite @run_bind @run_ret @run_gets @run_modify @run_emit @run_try
  @run_when_true @run_when_false @calls_mk @state_mk @result_mk
  @run_getSM @run_getWorld run_modSM run_modWorld run_emitSetShaderResources
  @app_nil_r @app_nil_l : mrun.

(** symbolic execution of straight-line monadic code *)
Ltac mrun := repeat (progress (autorewrite with mrun; cbv beta iota zeta)).

Lemma forM_modSM {X} (l : list X) (f : X -> StateManager11 -> StateManager11) (s : St) :
  forM_ l (fun x => modSM (f x)) s =
  (NoError tt, {| sm := fold_left (fun a x => f x a) l (sm s); world := world s |}, []).
Proof.
  revert s. induction l as [|x l IH]; intros s; cbn [forM_ fold_left].
  - destruct s; reflexivity.
  - mrun. rewrite IH. reflexivity.
Qed.

(* ================================================================== *)
(** * The view cache                                                     *)
(* ================================================================== *)

Section ViewCacheFacts.

Context {DescType : Type} (zero : DescType).

Import ViewCache.

Lemma scanDown_le (views : list (ViewRecord DescType)) (h : nat) :
    scanDown views h <= h.
Proof.
    induction h as [|h IH]; cbn [scanDown]; [lia|].
    destruct (_ && _); lia.
Qed.

Lemma update_highestUsed_le (c : t DescType) slot v k :
    highestUsed c <= k -> bindsBelow k (OpUpdate slot v) ->
    highestUsed (update c slot v) <= k.
Proof.
    unfold highestUsed, update. intros Hc Hb.
    destruct (mCurrentViews c !! slot); [|assumption].
    destruct v as [live|]; cbn [mHighestUsedView bindsBelow] in *.
    - lia.
    - destruct (_ =? _)%nat; [|assumption].
      etransitivity; [apply scanDown_le|assumption].
Qed.

Lemma clear_highestUsed_le (c : t DescType) k :
    highestUsed c <= k -> highestUsed (clear zero c) <= k.
Proof.
    unfold highestUsed, clear. destruct (mCurrentViews c); cbn; lia.
Qed.

  (** however a cache has been used, [highestUsed] does not exceed a bound
      below which all binds happened *)
Lemma run_highestUsed_le (ops : list (op DescType)) (c : t DescType) k :
    highestUsed c <= k -> Forall (bindsBelow k) ops ->
    highestUsed (run zero c ops) <= k.
Proof.
    unfold run. revert c. induction ops as [|o ops IH]; intros c Hc Hops; [exact Hc|].
    inversion Hops; subst. cbn [fold_left]. apply IH; [|assumption].
    destruct o as [slot v|]; cbn [apply].
    - apply update_highestUsed_le; assumption.
    - apply clear_highestUsed_le; assumption.
Qed.

End ViewCacheFacts.

(** C10, on the code.  After binding slots 0 and 1 of a four-slot cache and
    unbinding slot 1, the scan that follows the unbind stops at index 0
    instead of one past it: [highestUsed()] is 0 although slot 0 still
    holds a view.  The invariant "no slot at or above [highestUsed()] is
    occupied" does not survive the unbind of the highest slot. *)
Theorem ViewCache_highestUsed_below_occupied_slot :
  let c := ViewCache.run zero_SRV_DESC (ViewCache.initialize zero_SRV_DESC 4)
             ViewCacheExample.bindBindUnbind in
  ViewCache.highestUsed c = 0 /\ ViewCache.occupied c 0.
Proof.
  split; [reflexivity|].
  eexists; split; [reflexivity|]. cbn. discriminate.
Qed.

(** C4.  [clearSRVs] makes no call when [[rangeStart, min(rangeEnd,
    highestUsed))] is empty and otherwise exactly one
    [*SSetShaderResources], starting at [rangeStart] and covering
    [min(rangeEnd, highestUsed) - rangeStart] slots; when all binds of the
    cache happened below slot [k] the cleared range ends at or before [k],
    whatever [rangeEnd] is. *)
Theorem clearSRVs_minimal_clear_range
    (shaderType : ShaderType) (rangeStart rangeEnd : nat) (s : St) :
  let cache := getSRVCache shaderType (viewCaches (sm s)) in
  let stop := Nat.min rangeEnd (ViewCache.highestUsed cache) in
  calls (clearSRVs shaderType rangeStart rangeEnd s) =
    (if (rangeStart <? stop)%nat
     then match shaderType with
          | Geometry => []   (* not a stage that has shader resources *)
          | _ => [XSSetShaderResources shaderType
                    (Z.of_nat rangeStart) (Z.of_nat (stop - rangeStart))
                    (take (stop - rangeStart) (mNullSRVs (viewCaches (sm s))))]
          end
     else [])
  /\ (forall n ops k,
        cache = ViewCache.run zero_SRV_DESC (ViewCache.initialize zero_SRV_DESC n) ops ->
        Forall (bindsBelow k) ops ->
        stop <= k).
Proof.
  intros cache stop. split.
  - unfold clearSRVs.
    destruct (rangeStart =? rangeEnd)%nat eqn:E.
    + apply Nat.eqb_eq in E.
      assert ((rangeStart <? stop)%nat = false) as -> by (apply Nat.ltb_ge; subst stop; lia).
      reflexivity.
    + mrun. fold cache. fold stop.
      unfold Range.empty, Range.length, Range.empty, Range.low, Range.high.
      destruct (stop <=? rangeStart)%nat eqn:E2.
      * apply Nat.leb_le in E2.
        assert ((rangeStart <? stop)%nat = false) as -> by (apply Nat.ltb_ge; lia).
        reflexivity.
      * apply Nat.leb_gt in E2.
        assert ((rangeStart <? stop)%nat = true) as -> by (apply Nat.ltb_lt; lia).
        mrun. rewrite forM_modSM. mrun. reflexivity.
  - intros n ops k Hc Hops. subst stop. rewrite Hc.
    etransitivity; [apply Nat.le_min_r|].
    apply run_highestUsed_le; [cbn; lia|assumption].
Qed.

(* ================================================================== *)
(** * Blend state                                                        *)
(* ================================================================== *)

(** what [syncBlendState] does, call by call *)
Lemma syncBlendState_calls (mRenderer : Renderer11) context framebuffer
    (blendState : BlendState) (blendColor : ColorF.t) (sampleMask : Z) (s : St) :
  calls (syncBlendState mRenderer context framebuffer blendState blendColor sampleMask s) =
  GetBlendStateRequest (fb_id framebuffer) blendState ::
  match Renderer11_getBlendState mRenderer framebuffer blendState with
  | NoError dxBlendState =>
      [OMSetBlendState dxBlendState
         (Some (if rgbFactorConstantAlpha blendState
                then broadcastAlpha blendColor
                else unchangedColor blendColor))
         sampleMask]
  | Error _ => []
  end.
Proof.
  unfold syncBlendState. mrun.
  destruct (Renderer11_getBlendState _ _ _) as [h|e]; mrun; [|reflexivity].
  unfold rgbFactorConstantAlpha, isConstantAlphaFactor, neZ.
  destruct (sourceBlendRGB blendState =? GL_CONSTANT_ALPHA)%Z,
           (sourceBlendRGB blendState =? GL_ONE_MINUS_CONSTANT_ALPHA)%Z,
           (destBlendRGB blendState =? GL_CONSTANT_ALPHA)%Z,
           (destBlendRGB blendState =? GL_ONE_MINUS_CONSTANT_ALPHA)%Z; reflexivity.
Qed.

(** C7 as stated fails on the code.  With the constant alpha read only by
    the alpha blend factor, [syncBlendState] passes the blend colour on
    unchanged, although a blend factor references constant alpha. *)
Lemma syncBlendState_alpha_factor_not_broadcast :
  anyFactorConstantAlpha BlendExample.alphaOnly = true
  /\ blendFactorsPassed
       (calls (syncBlendState Sample.renderer BlendExample.context
                 BlendExample.framebuffer BlendExample.alphaOnly
                 BlendExample.color 0xFFFFFFFF Sample.fresh))
     = [Some (unchangedColor BlendExample.color)]
  /\ unchangedColor BlendExample.color <> broadcastAlpha BlendExample.color.
Proof.
  split; [reflexivity|]. split; [reflexivity|]. discriminate.
Qed.

(** C7, amended.  When the blend state is synced and the renderer has a
    blend state object for it, the blend colour passed to the device is
    the alpha of the logical blend colour in all four channels if the
    source or the destination colour (RGB) blend factor is
    [GL_CONSTANT_ALPHA] or [GL_ONE_MINUS_CONSTANT_ALPHA], and the logical
    (red, green, blue, alpha) otherwise; the alpha blend factors play no
    part. *)
Theorem syncBlendState_blend_color (mRenderer : Renderer11) context framebuffer
    (blendState : BlendState) (blendColor : ColorF.t) (sampleMask : Z) (s : St) :
  blendFactorsPassed
    (calls (syncBlendState mRenderer context framebuffer blendState blendColor
              sampleMask s)) =
  match Renderer11_getBlendState mRenderer framebuffer blendState with
  | NoError _ =>
      [Some (if rgbFactorConstantAlpha blendState
             then broadcastAlpha blendColor
             else unchangedColor blendColor)]
  | Error _ => []
  end.
Proof.
  rewrite syncBlendState_calls.
  destruct (Renderer11_getBlendState _ _ _); reflexivity.
Qed.

(* ================================================================== *)
(** * Depth-stencil state                                                *)
(* ================================================================== *)

Lemma processFramebufferInvalidation_flags (mRenderer : Renderer11)
    (context : Context) (s : StateManager11) :
  mRenderTargetIsDirty (flags s) = true ->
  let fbo := getDrawFramebuffer (getGLState context) in
  let s' := processFramebufferInvalidation mRenderer context s in
  mCurDisableDepth (depthStencilCache s') = Some (negb (hasDepth fbo) && hasStencil fbo)
  /\ mCurDisableStencil (depthStencilCache s') = Some (hasDepth fbo && negb (hasStencil fbo)).
Proof.
  intros Hdirty fbo s'. subst s'.
  unfold processFramebufferInvalidation, checkPresentPath.
  rewrite Hdirty. cbv beta iota zeta. fold fbo.
  generalize (negb (hasDepth fbo) && hasStencil fbo) as dd.
  generalize (hasDepth fbo && negb (hasStencil fbo)) as ds.
  intros ds dd. cbn [negb].
  (* nothing but the first conditional writes the two flags *)
  repeat match goal with
         | |- context [if ?c then _ else _] => destruct c eqn:?
         | |- context [match ?c with Some _ => _ | None => _ end] => destruct c eqn:?
         end;
    cbn in *;
    repeat match goal with
           | H : context [mCurDisableDepth ?d] |- _ =>
               destruct (mCurDisableDepth d); cbn in H
           | H : context [mCurDisableStencil ?d] |- _ =>
               destruct (mCurDisableStencil d); cbn in H
           end;
    try discriminate; try (split; reflexivity);
    repeat match goal with
           | H : _ || _ = false |- _ => apply orb_false_iff in H; destruct H
           | H : neB _ _ = false |- _ =>
               apply negb_false_iff, Bool.eqb_prop in H; subst
           end;
    try discriminate; split; reflexivity.
Qed.

(** C8.  Under the asserted preconditions, the descriptor that
    [syncDepthStencilState] requests has depth test and depth writes off
    when the disable-depth flag is set, stencil test off when the
    disable-stencil flag is set, and both stencil writemasks zero when its
    stencil test is off; and processing a framebuffer change leaves
    disable-depth as (stencil but no depth) and disable-stencil as (depth
    but no stencil). *)
Theorem syncDepthStencilState_overrides (mRenderer : Renderer11)
    (glState : GLState) (s : St) :
  syncDepthStencilState_asserts glState (sm s) = true ->
  (exists key,
     depthStencilRequests (calls (syncDepthStencilState mRenderer glState s)) = [key]
     /\ (mCurDisableDepth (depthStencilCache (sm s)) = Some true ->
         depthTest key = false /\ depthMask key = false)
     /\ (mCurDisableStencil (depthStencilCache (sm s)) = Some true ->
         stencilTest key = false)
     /\ (stencilTest key = false ->
         stencilWritemask key = 0%Z /\ stencilBackWritemask key = 0%Z))
  /\ (forall (context : Context) (s0 : StateManager11),
        mRenderTargetIsDirty (flags s0) = true ->
        let fbo := getDrawFramebuffer (getGLState context) in
        let s1 := processFramebufferInvalidation mRenderer context s0 in
        mCurDisableDepth (depthStencilCache s1)
          = Some (negb (hasDepth fbo) && hasStencil fbo)
        /\ mCurDisableStencil (depthStencilCache s1)
          = Some (hasDepth fbo && negb (hasStencil fbo))).
Proof.
  intros _. split.
  - unfold syncDepthStencilState. mrun.
    match goal with
    | |- context [GetDepthStencilStateRequest ?k] => exists k
    end.
    split.
    { destruct (Renderer11_getDepthStencilState _ _); mrun; reflexivity. }
    cbn [depthTest depthMask stencilTest stencilWritemask stencilBackWritemask
         sm depthStencilCache upd_depthStencilCache mCurDisableDepth mCurDisableStencil
         set_mCurStencilBackRef set_mCurStencilRef set_mCurDepthStencilState].
    split; [intros H; rewrite H; split; reflexivity|].
    split; [intros H; rewrite H; reflexivity|].
    intros H; rewrite H; split; reflexivity.
  - intros context s0 Hd. apply processFramebufferInvalidation_flags. exact Hd.
Qed.

Lemma syncDepthStencilState_overrides_witness :
  let glState := Sample.glState DepthStencilExample.stencilOnly Sample.program in
  syncDepthStencilState_asserts glState (sm DepthStencilExample.processed) = true
  /\ mRenderTargetIsDirty (flags Sample.manager) = true
  /\ (exists key,
        depthStencilRequests
          (calls (syncDepthStencilState Sample.renderer glState
                    DepthStencilExample.processed)) = [key]
        /\ depthTest key = false /\ depthMask key = false
        /\ stencilWritemask key = 0%Z /\ stencilBackWritemask key = 0%Z)
  /\ mCurDisableDepth (depthStencilCache (sm DepthStencilExample.processed)) = Some true
  /\ mCurDisableStencil (depthStencilCache (sm DepthStencilExample.processed)) = Some false.
Proof.
  intros glState.
  pose proof (syncDepthStencilState_overrides Sample.renderer glState
                DepthStencilExample.processed eq_refl) as [[key (Hk & Hd & _ & Hs)] Hflags].
  split; [reflexivity|]. split; [reflexivity|]. split.
  - exists key. split; [exact Hk|].
    destruct (Hd eq_refl) as [H1 H2].
    assert (stencilTest key = false) as Hst.
    { vm_compute in Hk. injection Hk as <-. reflexivity. }
    destruct (Hs Hst) as [H3 H4]. repeat split; assumption.
  - exact (Hflags DepthStencilExample.context Sample.manager eq_refl).
Defined.

(* ================================================================== *)
(** * Notifications                                                      *)
(* ================================================================== *)

Arguments BitSet.set : simpl never.
Arguments BitSet.reset : simpl never.
Arguments BitSet.test : simpl never.
Arguments BitSet.all : simpl never.

Lemma BitSet_test_set_same (b : nat) (m : BitSet.t) :
  BitSet.test (BitSet.set b m) b = true.
Proof. unfold BitSet.test, BitSet.set. apply Z.setbit_eq. lia. Qed.

Lemma BitSet_test_set_mono (b b' : nat) (m : BitSet.t) :
  BitSet.test m b' = true -> BitSet.test (BitSet.set b m) b' = true.
Proof.
  unfold BitSet.test, BitSet.set. intros H.
  apply Z.setbit_iff; [lia|]. right. exact H.
Qed.

Lemma BitSet_test_all (N i : nat) : i < N -> BitSet.test (BitSet.all N) i = true.
Proof.
  unfold BitSet.test, BitSet.all. intros H.
  apply Z.ones_spec_low. lia.
Qed.

Lemma BitSet_test_none (i : nat) : BitSet.test BitSet.none i = false.
Proof. unfold BitSet.test, BitSet.none. apply Z.bits_0. Qed.

Section Notifications.
Variable MAX_VERTEX_ATTRIBS : nat.
Variable mRenderer : Renderer11.
Variable context : Context.
Local Notation step := (syncStateBit MAX_VERTEX_ATTRIBS mRenderer context).

Ltac unfold_invalidations :=
    unfold step, syncStateBit, handleMultiviewDrawFramebufferChange,
      invalidateVertexBuffer, invalidateTexturesAndSamplers,
      invalidateTransformFeedback, invalidateViewport, invalidateInputLayout,
      invalidateShaders, invalidateDriverUniforms, invalidateProgramUniforms,
      invalidateProgramUniformBuffers, invalidateSwizzles, invalidateRenderTarget,
      invalidateIndexBuffer, setDirty, internalBit, currentValueDirty,
      indexBufferDirty.

Ltac split_conditionals :=
    repeat match goal with
           | |- context [if ?c then _ else _] => destruct c
           | |- context [match getMultiviewLayout ?f with _ => _ end] =>
               destruct (getMultiviewLayout f)
           end.

Lemma invalidateCurrentValueAttribs_fold (l : list nat) (s : StateManager11) :
    let s' := fold_left (fun s i => invalidateCurrentValueAttrib i s) l s in
    (forall b, BitSet.test (mInternalDirtyBits s) b = true ->
               BitSet.test (mInternalDirtyBits s') b = true)
    /\ (forall i, BitSet.test (mDirtyCurrentValueAttribs (vertexCache s)) i = true ->
                  BitSet.test (mDirtyCurrentValueAttribs (vertexCache s')) i = true)
    /\ indexCache s' = indexCache s
    /\ rasterCache s' = rasterCache s.
Proof.
    revert s. induction l as [|a l IH]; intros s; cbn [fold_left].
    - repeat split; auto.
    - destruct (IH (invalidateCurrentValueAttrib a s)) as (H1 & H2 & H3 & H4).
      repeat split.
      + intros b Hb. apply H1. cbn. repeat apply BitSet_test_set_mono. exact Hb.
      + intros i Hi. apply H2. cbn. apply BitSet_test_set_mono. exact Hi.
      + rewrite H3. reflexivity.
      + rewrite H4. reflexivity.
Qed.

  (** a notification never clears a dirty bit, a dirty current value or
      the index buffer flag, and never touches the cached rasterizer
      state *)
Lemma syncStateBit_monotone (st : St) (x : State.DirtyBit) :
    (forall b, internalBit st b = true -> internalBit (step st x) b = true)
    /\ (forall i, i < MAX_VERTEX_ATTRIBS ->
                  currentValueDirty st i = true -> currentValueDirty (step st x) i = true)
    /\ (indexBufferDirty st = true -> indexBufferDirty (step st x) = true)
    /\ mCurRasterState (rasterCache (sm (step st x)))
       = mCurRasterState (rasterCache (sm st)).
Proof.
    destruct x;
      try (unfold_invalidations; cbv beta iota zeta; split_conditionals;
           cbn; repeat split; intros;
           repeat apply BitSet_test_set_mono; solve [assumption | reflexivity]).
    - (* vertex array binding: every current value becomes dirty *)
      unfold_invalidations; cbv beta iota zeta; cbn. repeat split; intros.
      + repeat apply BitSet_test_set_mono; assumption.
      + apply BitSet_test_all. assumption.
    - (* current values *)
      unfold step, syncStateBit, internalBit, currentValueDirty, indexBufferDirty.
      cbv beta iota zeta. cbn [sm world].
      destruct (invalidateCurrentValueAttribs_fold
                  (BitSet.bits MAX_VERTEX_ATTRIBS (dirtyCurrentValues (world st)))
                  (sm st)) as (H1 & H2 & H3 & H4).
      cbv zeta in *. repeat split; intros; [auto|auto|rewrite H3; assumption|rewrite H4; reflexivity].
Qed.

Lemma syncState_monotone (l : list State.DirtyBit) (st : St) :
    let st' := syncState MAX_VERTEX_ATTRIBS mRenderer context l st in
    (forall b, internalBit st b = true -> internalBit st' b = true)
    /\ (forall i, i < MAX_VERTEX_ATTRIBS ->
                  currentValueDirty st i = true -> currentValueDirty st' i = true)
    /\ (indexBufferDirty st = true -> indexBufferDirty st' = true)
    /\ mCurRasterState (rasterCache (sm st')) = mCurRasterState (rasterCache (sm st)).
Proof.
    unfold syncState. revert st. induction l as [|x l IH]; intros st; cbn [fold_left].
    - repeat split; auto.
    - destruct (IH (step st x)) as (H1 & H2 & H3 & H4).
      destruct (syncStateBit_monotone st x) as (G1 & G2 & G3 & G4).
      repeat split; intros; auto.
      etransitivity; [exact H4 | exact G4].
Qed.

Lemma syncStateBit_rasterizer_discard (st : St) :
    rasterizerDiscard (getRasterizerState (getGLState context))
      <> rasterizerDiscard (mCurRasterState (rasterCache (sm st))) ->
    let st' := step st State.DIRTY_BIT_RASTERIZER_DISCARD_ENABLED in
    internalBit st' DIRTY_BIT_RASTERIZER_STATE = true
    /\ internalBit st' DIRTY_BIT_SHADERS = true.
Proof.
    intros Hne. unfold_invalidations. cbv beta iota zeta.
    assert (neB (rasterizerDiscard (getRasterizerState (getGLState context)))
                (rasterizerDiscard (mCurRasterState (rasterCache (sm st)))) = true) as ->.
    { unfold neB. apply negb_true_iff. apply Bool.eqb_false_iff. exact Hne. }
    cbn. split.
    - apply BitSet_test_set_mono, BitSet_test_set_same.
    - apply BitSet_test_set_same.
Qed.

Lemma syncStateBit_vertex_array_binding (st : St) :
    let st' := step st State.DIRTY_BIT_VERTEX_ARRAY_BINDING in
    internalBit st' DIRTY_BIT_VERTEX_BUFFERS_AND_INPUT_LAYOUT = true
    /\ internalBit st' DIRTY_BIT_CURRENT_VALUE_ATTRIBS = true
    /\ (forall i, i < MAX_VERTEX_ATTRIBS -> currentValueDirty st' i = true)
    /\ indexBufferDirty st' = true.
Proof.
    unfold_invalidations. cbv beta iota zeta. cbn. repeat split.
    - do 2 apply BitSet_test_set_mono. apply BitSet_test_set_same.
    - apply BitSet_test_set_same.
    - intros i Hi. apply BitSet_test_all. exact Hi.
Qed.

  (** C6.  A pass over the notifications that contains the
      rasterizer-discard notification, with the new value different from
      the cached one, leaves the rasterizer-state and the shader groups
      dirty; one that contains the vertex-array-binding notification
      leaves the vertex-buffer/input-layout and current-value groups
      dirty, every current-value attribute slot dirty, and the index
      buffer flagged dirty. *)
Theorem syncState_dirty_cascade (dirtyBits : list State.DirtyBit) (st : St) :
    let st' := syncState MAX_VERTEX_ATTRIBS mRenderer context dirtyBits st in
    (In State.DIRTY_BIT_RASTERIZER_DISCARD_ENABLED dirtyBits ->
     rasterizerDiscard (getRasterizerState (getGLState context))
       <> rasterizerDiscard (mCurRasterState (rasterCache (sm st))) ->
     internalBit st' DIRTY_BIT_RASTERIZER_STATE = true
     /\ internalBit st' DIRTY_BIT_SHADERS = true)
    /\ (In State.DIRTY_BIT_VERTEX_ARRAY_BINDING dirtyBits ->
        internalBit st' DIRTY_BIT_VERTEX_BUFFERS_AND_INPUT_LAYOUT = true
        /\ internalBit st' DIRTY_BIT_CURRENT_VALUE_ATTRIBS = true
        /\ (forall i, i < MAX_VERTEX_ATTRIBS -> currentValueDirty st' i = true)
        /\ indexBufferDirty st' = true).
Proof.
    intros st'. subst st'. split.
    - intros Hin Hne.
      apply in_split in Hin as (l1 & l2 & ->).
      unfold syncState. rewrite fold_left_app. cbn [fold_left].
      fold (syncState MAX_VERTEX_ATTRIBS mRenderer context l1 st).
      set (st1 := syncState MAX_VERTEX_ATTRIBS mRenderer context l1 st).
      destruct (syncState_monotone l1 st) as (_ & _ & _ & Hr). fold st1 in Hr.
      destruct (syncStateBit_rasterizer_discard st1) as [Ha Hb].
      { rewrite Hr. exact Hne. }
      destruct (syncState_monotone l2 (step st1 State.DIRTY_BIT_RASTERIZER_DISCARD_ENABLED))
        as (Hm & _).
      split; apply Hm; assumption.
    - intros Hin.
      apply in_split in Hin as (l1 & l2 & ->).
      unfold syncState. rewrite fold_left_app. cbn [fold_left].
      fold (syncState MAX_VERTEX_ATTRIBS mRenderer context l1 st).
      set (st1 := syncState MAX_VERTEX_ATTRIBS mRenderer context l1 st).
      destruct (syncStateBit_vertex_array_binding st1) as (Ha & Hb & Hc & Hd).
      destruct (syncState_monotone l2 (step st1 State.DIRTY_BIT_VERTEX_ARRAY_BINDING))
        as (Hm & Hv & Hi & _).
      repeat split; auto.
Qed.

End Notifications.

(* ================================================================== *)
(** * Driver constant buffers                                            *)
(* ================================================================== *)

Lemma BitSet_test_reset_same (b : nat) (m : BitSet.t) :
  BitSet.test (BitSet.reset b m) b = false.
Proof. unfold BitSet.test, BitSet.reset. apply Z.clearbit_eq. Qed.

(** what [updateBuffer] does, call by call, and what it leaves behind *)
Lemma updateBuffer_spec (renderer : Renderer11) (shaderType : ShaderType)
    (programD3D : Program) (driverConstantBuffer : Resource11) (c : ShaderConstants11) :
  shaderType <> Geometry ->
  let numSamplers := s32 (getUsedSamplerRange programD3D shaderType) in
  let buffer := res_get driverConstantBuffer in
  let o := ShaderConstants.updateBuffer renderer shaderType programD3D
             driverConstantBuffer c in
  calls o =
    (if uploadNeeded shaderType programD3D c
     then MapWriteDiscard buffer ::
          match mapResource renderer buffer with
          | NoError _ =>
              [WriteMapped buffer (headerOf shaderType c)
                 (take (Z.to_nat numSamplers) (samplerMetadataOf shaderType c));
               Unmap buffer]
          | Error _ => []
          end
     else [])
  /\ stageDirty shaderType (state o) = false
  /\ numActiveSamplers shaderType (state o) = numSamplers
  /\ samplerMetadataOf shaderType (state o) = samplerMetadataOf shaderType c.
Proof.
  intros Hstage numSamplers buffer o. subst o.
  unfold ShaderConstants.updateBuffer, uploadNeeded, stageDirty.
  fold numSamplers. fold buffer.
  destruct shaderType; [| |congruence|]; mrun; cbn [numActiveSamplers shaderIndex];
    (destruct (BitSet.test _ _ || _); cbn [negb];
     [ mrun; destruct (mapResource renderer buffer) as [[]|e]; mrun;
       cbn; repeat split; try reflexivity; apply BitSet_test_reset_same
     | mrun; cbn; repeat split; try reflexivity; apply BitSet_test_reset_same ]).
Qed.

(** what an operation leaves on record for a stage *)
Lemma applyOp_numActiveSamplers (t : ShaderType) (o : ConstantsOp) (c : ShaderConstants11) :
  t <> Geometry ->
  numActiveSamplers t (applyOp o c)
  = recordedAfter t c (numActiveSamplers t c) [o].
Proof.
  intros Ht. destruct o as [caps| |x y z|index|gl dx a b|t' i texture|r t' p buffer];
    cbn [applyOp recordedAfter].
  - destruct t; reflexivity.
  - destruct t; reflexivity.
  - destruct t; reflexivity.
  - destruct t; reflexivity.
  - destruct t; reflexivity.
  - unfold ShaderConstants.onSamplerChange.
    destruct t, t'; try congruence; cbn [ShaderType_eqb andb samplerMetadataOf];
      try reflexivity;
      try (destruct (ShaderConstants.updateSamplerMetadata _ _) as [d [|]]; reflexivity).
  - destruct (ShaderType_eqb t' t) eqn:E.
    + assert (t' = t) as -> by (destruct t, t'; try discriminate E; reflexivity).
      destruct (updateBuffer_spec r t p buffer c Ht) as (_ & _ & Hnum & _).
      exact Hnum.
    + unfold ShaderConstants.updateBuffer.
      destruct t, t'; try discriminate E; try congruence; mrun;
        cbn [numActiveSamplers shaderIndex];
        try reflexivity;
        (destruct (BitSet.test _ _ || _); cbn [negb];
         [ mrun; destruct (mapResource r (res_get buffer)) as [[]|e]; mrun; reflexivity
         | mrun; reflexivity ]).
Qed.

Lemma runOps_numActiveSamplers (t : ShaderType) (history : list ConstantsOp) :
  t <> Geometry ->
  forall c, numActiveSamplers t (runOps history c)
            = recordedAfter t c (numActiveSamplers t c) history.
Proof.
  intros Ht. unfold runOps.
  induction history as [|o rest IH]; intros c; [reflexivity|].
  cbn [fold_left]. rewrite IH, (applyOp_numActiveSamplers t o c Ht). reflexivity.
Qed.

(** C3 as stated fails when the sampler count narrows and widens again.
    The pixel stage uploads for a program that uses three samplers; for a
    program that uses two it uploads nothing; then, with the dirty flag of
    the stage clear and the metadata of three samplers being the latest
    upload, it uploads again for a program that uses three. *)
Lemma updateBuffer_reuploads_after_narrowing :
  let update (k : Z) :=
    ShaderConstants.updateBuffer Sample.renderer Fragment (Sample.programUsing k)
      ConstantsExample.driverConstantBufferPS in
  let first := update 3%Z ConstantsExample.constants in
  let second := update 2%Z (state first) in
  let third := update 3%Z (state second) in
  let before := calls first ++ calls second in
  stageDirty Fragment (state second) = false
  /\ previouslyUploaded before = 3%Z
  /\ getUsedSamplerRange (Sample.programUsing 3) Fragment = 3%Z
  /\ calls second = []
  /\ result third = NoError tt
  /\ In (MapWriteDiscard (res_get ConstantsExample.driverConstantBufferPS)) (calls third)
  /\ exists uploaded, samplerUploads (calls third) = [uploaded] /\ length uploaded = 3.
Proof.
  vm_compute. repeat split; auto.
  eexists. split; reflexivity.
Qed.

(** C3, amended.  For a stage with driver constants, whatever has been done
    to the constants since they were constructed, [updateBuffer] asks to
    map the driver constant buffer exactly when the stage's dirty flag is
    set or the sampler count on record for the stage is less than the count
    the program uses, and with the buffer mapped it writes exactly then.
    The count on record is the one of the program of the stage's latest
    [updateBuffer], uploaded or not.  So after an [updateBuffer] for K
    samplers, a program using K-1 samplers causes no call at all and a
    program using K+1 samplers causes one upload whose sampler metadata are
    the entries 0..K of the stage's metadata array; and after the call for
    K-1 samplers, the program using K samplers causes an upload again. *)
Theorem updateBuffer_widening_only (renderer : Renderer11) (shaderType : ShaderType)
    (driverConstantBuffer : Resource11) (history : list ConstantsOp) :
  shaderType <> Geometry ->
  let c := runOps history ShaderConstants.new in
  let due (programD3D : Program) : Prop :=
    stageDirty shaderType c = true
    \/ (recordedCount shaderType history
        < s32 (getUsedSamplerRange programD3D shaderType))%Z in
  (forall programD3D,
     let o := ShaderConstants.updateBuffer renderer shaderType programD3D
                driverConstantBuffer c in
     (In (MapWriteDiscard (res_get driverConstantBuffer)) (calls o) <-> due programD3D)
     /\ (mapResource renderer (res_get driverConstantBuffer) = NoError tt ->
         (samplerUploads (calls o) <> [] <-> due programD3D)))
  /\ (forall (K : Z) (programK programLess programMore : Program),
        (1 <= K < 2 ^ 31 - 1)%Z ->
        getUsedSamplerRange programK shaderType = K ->
        getUsedSamplerRange programLess shaderType = (K - 1)%Z ->
        getUsedSamplerRange programMore shaderType = (K + 1)%Z ->
        let c1 := state (ShaderConstants.updateBuffer renderer shaderType programK
                           driverConstantBuffer c) in
        let c2 := state (ShaderConstants.updateBuffer renderer shaderType programLess
                           driverConstantBuffer c1) in
        calls (ShaderConstants.updateBuffer renderer shaderType programLess
                 driverConstantBuffer c1) = []
        /\ (mapResource renderer (res_get driverConstantBuffer) = NoError tt ->
            (Z.to_nat (K + 1) <= length (samplerMetadataOf shaderType c))%nat ->
            exists uploaded,
              samplerUploads
                (calls (ShaderConstants.updateBuffer renderer shaderType programMore
                          driverConstantBuffer c1)) = [uploaded]
              /\ length uploaded = Z.to_nat (K + 1)
              /\ forall i, (i < Z.to_nat (K + 1))%nat ->
                           uploaded !! i = samplerMetadataOf shaderType c !! i)
        /\ In (MapWriteDiscard (res_get driverConstantBuffer))
              (calls (ShaderConstants.updateBuffer renderer shaderType programK
                        driverConstantBuffer c2))).
Proof.
  intros Hstage c due.
  assert (forall programD3D, uploadNeeded shaderType programD3D c = true <-> due programD3D)
    as Hdue.
  { intros programD3D. unfold uploadNeeded, due, recordedCount.
    rewrite orb_true_iff, Z.ltb_lt.
    unfold c at 2. rewrite (runOps_numActiveSamplers shaderType history Hstage).
    assert (numActiveSamplers shaderType ShaderConstants.new = 0%Z) as ->
      by (destruct shaderType; reflexivity).
    reflexivity. }
  split.
  - intros programD3D o. subst o. rewrite <- Hdue.
    destruct (updateBuffer_spec renderer shaderType programD3D driverConstantBuffer c Hstage)
      as (Hcalls & _). cbv zeta in Hcalls. rewrite Hcalls.
    destruct (uploadNeeded shaderType programD3D c).
    + split.
      * split; [reflexivity|]. intros _. left. reflexivity.
      * intros ->. cbn. split; [reflexivity|discriminate].
    + split.
      * split; [intros []|discriminate].
      * intros _. cbn. split; [congruence|discriminate].
  - intros K programK programLess programMore HK HkK HkL HkM c1 c2.
    destruct (updateBuffer_spec renderer shaderType programK driverConstantBuffer c Hstage)
      as (_ & Hdirty & Hnum & Hmeta).
    cbv zeta in Hdirty, Hnum, Hmeta. fold c1 in Hdirty, Hnum, Hmeta.
    assert (forall z, (0 <= z < 2 ^ 31)%Z -> s32 z = z) as Hs32.
    { intros z Hz. unfold s32. rewrite Z.mod_small by lia.
      destruct (z <? 2 ^ 31)%Z eqn:E; [reflexivity|]. apply Z.ltb_ge in E. lia. }
    rewrite HkK, Hs32 in Hnum by lia.
    split; [|split].
    + destruct (updateBuffer_spec renderer shaderType programLess driverConstantBuffer c1 Hstage)
        as (Hcalls & _). cbv zeta in Hcalls. rewrite Hcalls.
      unfold uploadNeeded. rewrite Hdirty, Hnum, HkL, Hs32 by lia.
      assert ((K <? K - 1)%Z = false) as -> by (apply Z.ltb_ge; lia).
      reflexivity.
    + intros Hmap Hlen.
      destruct (updateBuffer_spec renderer shaderType programMore driverConstantBuffer c1 Hstage)
        as (Hcalls & _). cbv zeta in Hcalls. rewrite Hcalls.
      unfold uploadNeeded. rewrite Hdirty, Hnum, HkM, Hs32, Hmap, Hmeta by lia.
      assert ((K <? K + 1)%Z = true) as -> by (apply Z.ltb_lt; lia).
      cbn. eexists. split; [reflexivity|]. split.
      * rewrite length_take. lia.
      * intros i Hi. apply lookup_take_lt. exact Hi.
    + destruct (updateBuffer_spec renderer shaderType programLess driverConstantBuffer c1 Hstage)
        as (_ & _ & Hnum2 & _). cbv zeta in Hnum2. fold c2 in Hnum2.
      rewrite HkL, Hs32 in Hnum2 by lia.
      destruct (updateBuffer_spec renderer shaderType programK driverConstantBuffer c2 Hstage)
        as (Hcalls & _). cbv zeta in Hcalls. rewrite Hcalls.
      unfold uploadNeeded. rewrite Hnum2, HkK, Hs32 by lia.
      assert ((K - 1 <? K)%Z = true) as -> by (apply Z.ltb_lt; lia).
      rewrite orb_true_r. left. reflexivity.
Qed.

Lemma updateBuffer_widening_only_witness :
  Fragment <> Geometry
  /\ (1 <= 3 < 2 ^ 31 - 1)%Z
  /\ mapResource Sample.renderer (res_get ConstantsExample.driverConstantBufferPS) = NoError tt
  /\ (let update (k : Z) :=
        ShaderConstants.updateBuffer Sample.renderer Fragment (Sample.programUsing k)
          ConstantsExample.driverConstantBufferPS in
      let c1 := state (update 3%Z (runOps [OpInit Sample.caps] ShaderConstants.new)) in
      let c2 := state (update 2%Z c1) in
      calls (update 2%Z c1) = []
      /\ (exists uploaded,
            samplerUploads (calls (update 4%Z c1)) = [uploaded] /\ length uploaded = 4)
      /\ In (MapWriteDiscard (res_get ConstantsExample.driverConstantBufferPS))
            (calls (update 3%Z c2))).
Proof.
  assert (Fragment <> Geometry) as Hstage by discriminate.
  split; [exact Hstage|]. split; [lia|]. split; [reflexivity|].
  cbv zeta.
  destruct (updateBuffer_widening_only Sample.renderer Fragment
              ConstantsExample.driverConstantBufferPS [OpInit Sample.caps] Hstage)
    as [_ Hscenario].
  destruct (Hscenario 3%Z (Sample.programUsing 3) (Sample.programUsing 2)
              (Sample.programUsing 4) ltac:(lia) eq_refl eq_refl eq_refl)
    as (Hless & Hmore & Hagain).
  split; [exact Hless|]. split; [|exact Hagain].
  destruct (Hmore eq_refl ltac:(vm_compute; lia)) as (uploaded & Hu & Hl & _).
  exists uploaded. split; [exact Hu|exact Hl].
Defined.

(* ================================================================== *)
(** * Render targets against shader inputs                               *)
(* ================================================================== *)

(** binds whose first computation only reads *)
Lemma bind_ret {S A B} (a : A) (k : A -> M S B) (s : S) : (ret a ≫= k) s = k a s.
Proof. rewrite run_bind, run_ret. destruct (k a s) as [[r s'] c]. reflexivity. Qed.

Lemma bind_gets {S A B} (f : S -> A) (k : A -> M S B) (s : S) :
  (gets f ≫= k) s = k (f s) s.
Proof. rewrite run_bind, run_gets. destruct (k (f s) s) as [[r s'] c]. reflexivity. Qed.

Lemma bind_getSM {A B} (f : StateManager11 -> A) (k : A -> M St B) (s : St) :
  (getSM f ≫= k) s = k (f (sm s)) s.
Proof. apply (bind_gets (fun s => f (sm s))). Qed.

Lemma bind_getWorld {A B} (f : World -> A) (k : A -> M St B) (s : St) :
  (getWorld f ≫= k) s = k (f (world s)) s.
Proof. apply (bind_gets (fun s => f (world s))). Qed.

Ltac mread := rewrite ?bind_getSM, ?bind_getWorld, ?bind_gets, ?bind_ret.

Section ConflictResolution.
Variable mRenderer : Renderer11.

Lemma conflictsWith_nullRecord resource index (r : SRVRecord) :
  conflictsWith resource index (nullRecord r) = false.
Proof. reflexivity. Qed.

Lemma attachmentConflict_nullRecord a (r : SRVRecord) :
  attachmentConflict a (nullRecord r) = false.
Proof.
  unfold attachmentConflict.
  destruct (_ =? _)%Z; [reflexivity|]. destruct (_ =? _)%Z; reflexivity.
Qed.

Lemma conflictsWithAny_nullRecord atts (r : SRVRecord) :
  conflictsWithAny atts (nullRecord r) = false.
Proof.
  unfold conflictsWithAny. induction atts as [|a atts IH]; [reflexivity|].
  cbn [existsb]. rewrite attachmentConflict_nullRecord, IH. reflexivity.
Qed.

Lemma conflictsWithAny_app atts1 atts2 (r : SRVRecord) :
  conflictsWithAny (atts1 ++ atts2) r
  = conflictsWithAny atts1 r || conflictsWithAny atts2 r.
Proof. apply existsb_app. Qed.

(** ** The relation [unbound] *)

Lemma unbound_refl (s : St) : unbound (fun _ => false) (fun _ => false) s s [].
Proof.
  repeat split.
  - intros t _ j. destruct (stageViews t s !! j) as [r|]; cbn; [|reflexivity].
    destruct t; reflexivity.
  - intros c [].
  - intros t S r _ _ H. destruct t; discriminate.
Qed.

Lemma unbound_ext (PV PF PV' PF' : SRVRecord -> bool) s s' cs :
  (forall r, PV r = PV' r) -> (forall r, PF r = PF' r) ->
  unbound PV PF s s' cs -> unbound PV' PF' s s' cs.
Proof.
  intros HV HF (H1 & H2 & H3).
  assert (forall t r, match t with Vertex => PV | _ => PF end r
                      = match t with Vertex => PV' | _ => PF' end r) as HP.
  { intros [] r; auto. }
  repeat split.
  - intros t Ht j. rewrite H1 by assumption.
    destruct (stageViews t s !! j) as [r|]; cbn; [|reflexivity]. rewrite HP. reflexivity.
  - intros c Hc. destruct (H2 c Hc) as (t & S & r & Ht & -> & Hr & HPr).
    exists t, S, r. rewrite <- HP. auto.
  - intros t S r Ht Hr HPr. apply (H3 t S r Ht Hr). rewrite HP. exact HPr.
Qed.

Lemma unbound_trans (PV1 PF1 PV2 PF2 : SRVRecord -> bool) s s1 s2 c1 c2 :
  (forall r, PV2 (nullRecord r) = false) ->
  (forall r, PF2 (nullRecord r) = false) ->
  unbound PV1 PF1 s s1 c1 -> unbound PV2 PF2 s1 s2 c2 ->
  unbound (fun r => PV1 r || PV2 r) (fun r => PF1 r || PF2 r) s s2 (c1 ++ c2).
Proof.
  intros HnV HnF (A1 & A2 & A3) (B1 & B2 & B3).
  set (P1 := fun t : ShaderType => match t with Vertex => PV1 | _ => PF1 end).
  set (P2 := fun t : ShaderType => match t with Vertex => PV2 | _ => PF2 end).
  assert (forall t r, P2 t (nullRecord r) = false) as Hn by (intros [] r; cbn; auto).
  assert (forall t r,
            match t with
            | Vertex => fun r => PV1 r || PV2 r
            | _ => fun r => PF1 r || PF2 r
            end r = P1 t r || P2 t r) as HP by (intros [] r; reflexivity).
  repeat split.
  - intros t Ht j. rewrite B1, A1 by assumption.
    destruct (stageViews t s !! j) as [r|]; cbn; [|reflexivity].
    rewrite HP. fold (P1 t) (P2 t).
    destruct (P1 t r) eqn:E1; cbn [orb].
    + rewrite Hn. reflexivity.
    + reflexivity.
  - intros c Hc. apply in_app_or in Hc as [Hc|Hc].
    + destruct (A2 c Hc) as (t & S & r & Ht & -> & Hr & HPr).
      exists t, S, r. rewrite HP. fold (P1 t) in HPr. rewrite HPr. auto.
    + destruct (B2 c Hc) as (t & S & r1 & Ht & -> & Hr1 & HPr1).
      rewrite A1 in Hr1 by assumption.
      destruct (stageViews t s !! S) as [r|] eqn:Hr; [|discriminate].
      cbn in Hr1. injection Hr1 as <-. fold (P1 t) in HPr1. fold (P2 t) in HPr1.
      exists t, S, r. rewrite HP.
      destruct (P1 t r) eqn:E1.
      * rewrite Hn in HPr1. discriminate.
      * rewrite HPr1. auto.
  - intros t S r Ht Hr HPr. rewrite HP in HPr. apply in_or_app.
    destruct (P1 t r) eqn:E1.
    + left. apply (A3 t S r Ht Hr). exact E1.
    + right. apply (B3 t S r Ht).
      * rewrite A1, Hr by assumption. cbn. fold (P1 t). rewrite E1. reflexivity.
      * exact HPr.
Qed.

Lemma unbinds_ret {A} (a : A) : unbinds (fun _ => false) (fun _ => false) (ret a).
Proof. intros s. exists a. split; [reflexivity|]. apply unbound_refl. Qed.

Lemma unbinds_ext {A} PV PF PV' PF' (m : M St A) :
  (forall r, PV r = PV' r) -> (forall r, PF r = PF' r) ->
  unbinds PV PF m -> unbinds PV' PF' m.
Proof.
  intros HV HF H s. destruct (H s) as (a & Hr & Hu).
  exists a. split; [exact Hr|]. eapply unbound_ext; eassumption.
Qed.

Lemma unbinds_bind {A B} PV1 PF1 PV2 PF2 (m : M St A) (k : A -> M St B) :
  (forall r, PV2 (nullRecord r) = false) ->
  (forall r, PF2 (nullRecord r) = false) ->
  unbinds PV1 PF1 m -> (forall a, unbinds PV2 PF2 (k a)) ->
  unbinds (fun r => PV1 r || PV2 r) (fun r => PF1 r || PF2 r) (m ≫= k).
Proof.
  intros HnV HnF Hm Hk s. rewrite run_bind.
  destruct (Hm s) as (a & Hr & Hu).
  destruct (m s) as [[r s1] c1]. cbn in Hr, Hu. subst r.
  destruct (Hk a s1) as (b & Hr2 & Hu2).
  destruct (k a s1) as [[r2 s2] c2]. cbn in Hr2, Hu2. subst r2.
  exists b. split; [reflexivity|].
  cbn. eapply unbound_trans; eassumption.
Qed.

(** ** Unbinding one slot *)

Lemma stageViews_other (t t' : ShaderType) (g : ViewCaches -> SRVCache) (s : St) :
  (t = Vertex \/ t = Fragment) -> (t' = Vertex \/ t' = Fragment) -> t' <> t ->
  stageViews t'
    {| sm := upd_viewCaches (fun v => putSRVCache t (g v) v) (sm s);
       world := world s |}
  = stageViews t' s.
Proof. intros [-> | ->] [-> | ->] Hne; try congruence; reflexivity. Qed.

Lemma stageViews_same (t : ShaderType) (g : ViewCaches -> SRVCache) (s : St) :
  stageViews t
    {| sm := upd_viewCaches (fun v => putSRVCache t (g v) v) (sm s);
       world := world s |}
  = ViewCache.mCurrentViews (g (viewCaches (sm s))).
Proof. destruct t; reflexivity. Qed.

Lemma at_stageViews (t : ShaderType) (s : St) (slot : nat) :
  ViewCache.at_ zero_SRV_DESC (getSRVCache t (viewCaches (sm s))) slot
  = default {| ViewCache.view := 0; ViewCache.resource := 0;
                ViewCache.desc := zero_SRV_DESC |}
            (stageViews t s !! slot).
Proof. reflexivity. Qed.

Lemma setShaderResourceInternal_unbind (t : ShaderType) (slot : nat) (s : St)
    (r : SRVRecord) :
  t = Vertex \/ t = Fragment ->
  stageViews t s !! slot = Some r -> ViewCache.view r <> 0%Z ->
  let o := setShaderResourceInternal t slot None s in
  result o = NoError tt
  /\ calls o = [unbindCall t slot]
  /\ stageViews t (state o) = <[slot := nullRecord r]> (stageViews t s)
  /\ (forall t', t' = Vertex \/ t' = Fragment -> t' <> t ->
                 stageViews t' (state o) = stageViews t' s).
Proof.
  intros Ht Hr Hview o. subst o. unfold setShaderResourceInternal. mread.
  rewrite at_stageViews, Hr. cbn [default from_option id].
  assert (neZ (ViewCache.view r) 0 = true) as ->.
  { unfold neZ. apply negb_true_iff, Z.eqb_neq. exact Hview. }
  mrun. split; [reflexivity|]. split.
  { destruct Ht as [-> | ->]; reflexivity. }
  split.
  - etransitivity; [apply stageViews_same|]. unfold ViewCache.update.
    change (ViewCache.mCurrentViews (getSRVCache t (viewCaches (sm s))))
      with (stageViews t s).
    rewrite Hr. reflexivity.
  - intros t' Ht' Hne.
    exact (stageViews_other t t'
             (fun v => ViewCache.update (getSRVCache t v) slot None) s Ht Ht' Hne).
Qed.

(** ** The loop over the slots of one stage *)

Lemma unsetConflictingSRVs_loop_spec (t : ShaderType) (resource : Z)
    (index : option ImageIndex) (slots : list nat) :
  t = Vertex \/ t = Fragment -> NoDup slots ->
  forall (foundOne : bool) (s : St),
    let P := conflictsWith resource index in
    let o := unsetConflictingSRVs_loop t resource index slots foundOne s in
    (exists b, result o = NoError b)
    /\ (forall j, stageViews t (state o) !! j
                  = if bool_decide (j ∈ slots)
                    then (fun r => if P r then nullRecord r else r) <$> stageViews t s !! j
                    else stageViews t s !! j)
    /\ (forall t', t' = Vertex \/ t' = Fragment -> t' <> t ->
                   stageViews t' (state o) = stageViews t' s)
    /\ (forall c, In c (calls o) <->
                  exists S r, S ∈ slots /\ c = unbindCall t S
                              /\ stageViews t s !! S = Some r /\ P r = true).
Proof.
  intros Ht Hnd. induction Hnd as [|slot slots Hnotin Hnd IH]; intros foundOne s P o;
    subst o; cbn [unsetConflictingSRVs_loop].
  - mrun. split; [eauto|]. split; [intros j; reflexivity|]. split; [reflexivity|].
    intros c. split; [intros []|]. intros (S & r & HS & _). inversion HS.
  - mread. rewrite at_stageViews.
    destruct (stageViews t s !! slot) as [r|] eqn:Hr; cbn [default from_option id].
    + fold P. destruct (P r) eqn:HP.
      * (* the slot conflicts: it is unbound, and the loop goes on *)
        assert (ViewCache.view r <> 0%Z) as Hview.
        { unfold P, conflictsWith, neZ in HP.
          apply andb_true_iff in HP as [HP _]. apply andb_true_iff in HP as [HP _].
          apply negb_true_iff, Z.eqb_neq in HP. exact HP. }
        destruct (setShaderResourceInternal_unbind t slot s r Ht Hr Hview)
          as (Hres & Hcalls & Hviews & Hother).
        mrun.
        destruct (setShaderResourceInternal t slot None s) as [[r1 s1] c1].
        cbn in Hres, Hcalls, Hviews, Hother. subst r1 c1.
        specialize (IH true s1). cbv zeta in IH.
        destruct IH as ((b & Hb) & Hv & Ho & Hc).
        destruct (unsetConflictingSRVs_loop t resource index slots true s1)
          as [[r2 s2] c2].
        cbn in Hb, Hv, Ho, Hc. subst r2. cbn.
        split; [eauto|]. split; [|split].
        -- intros j. rewrite Hv, Hviews.
           destruct (decide (j = slot)) as [->|Hj].
           ++ rewrite (bool_decide_eq_false_2 _ Hnotin).
              rewrite bool_decide_eq_true_2 by (left).
              rewrite list_lookup_insert_eq by (eapply lookup_lt_Some; eassumption).
              rewrite Hr. cbn. fold P. rewrite HP. reflexivity.
           ++ rewrite list_lookup_insert_ne by congruence.
              destruct (decide (j ∈ slots)) as [Hin|Hin].
              ** rewrite !bool_decide_eq_true_2 by (auto; right; auto). reflexivity.
              ** rewrite !bool_decide_eq_false_2; auto.
                 intros Hx. apply elem_of_cons in Hx as [?|?]; auto.
        -- intros t' Ht' Hne. rewrite Ho, Hother by assumption. reflexivity.
        -- intros c. cbn [app In]. rewrite Hc. split.
           ++ intros [<- | (S & r' & HS & -> & Hr' & HP')].
              ** exists slot, r. split; [left|]. auto.
              ** rewrite Hviews in Hr'.
                 assert (S <> slot) by (intros ->; contradiction).
                 rewrite list_lookup_insert_ne in Hr' by congruence.
                 exists S, r'. split; [right; assumption|]. auto.
           ++ intros (S & r' & HS & -> & Hr' & HP').
              apply elem_of_cons in HS as [-> | HS]; [left; reflexivity|].
              right. exists S, r'. split; [assumption|]. split; [reflexivity|].
              assert (S <> slot) by (intros ->; contradiction).
              rewrite Hviews, list_lookup_insert_ne by congruence. auto.
      * (* no conflict at this slot *)
        specialize (IH foundOne s). cbv zeta in IH.
        destruct IH as ((b & Hb) & Hv & Ho & Hc).
        split; [eauto|]. split; [|split].
        -- intros j. rewrite Hv.
           destruct (decide (j = slot)) as [->|Hj].
           ++ rewrite (bool_decide_eq_false_2 _ Hnotin).
              rewrite bool_decide_eq_true_2 by (left).
              rewrite Hr. cbn. fold P. rewrite HP. reflexivity.
           ++ destruct (decide (j ∈ slots)) as [Hin|Hin].
              ** rewrite !bool_decide_eq_true_2 by (auto; right; auto). reflexivity.
              ** rewrite !bool_decide_eq_false_2; auto.
                 intros Hx. apply elem_of_cons in Hx as [?|?]; auto.
        -- exact Ho.
        -- intros c. rewrite Hc. split.
           ++ intros (S & r' & HS & Hrest). exists S, r'. split; [right; assumption|auto].
           ++ intros (S & r' & HS & -> & Hr' & HP').
              apply elem_of_cons in HS as [-> | HS].
              ** rewrite Hr in Hr'. injection Hr' as <-. fold P in HP'. congruence.
              ** exists S, r'. auto.
    + (* past the end of the cache: an empty record, never a conflict *)
      cbn [conflictsWith ViewCache.view neZ Z.eqb negb andb].
      specialize (IH foundOne s). cbv zeta in IH.
      destruct IH as ((b & Hb) & Hv & Ho & Hc).
      split; [eauto|]. split; [|split].
      * intros j. rewrite Hv.
        destruct (decide (j = slot)) as [->|Hj].
        -- rewrite (bool_decide_eq_false_2 _ Hnotin).
           rewrite bool_decide_eq_true_2 by (left).
           rewrite Hr. reflexivity.
        -- destruct (decide (j ∈ slots)) as [Hin|Hin].
           ++ rewrite !bool_decide_eq_true_2 by (auto; right; auto). reflexivity.
           ++ rewrite !bool_decide_eq_false_2; auto.
              intros Hx. apply elem_of_cons in Hx as [?|?]; auto.
      * exact Ho.
      * intros c. rewrite Hc. split.
        -- intros (S & r' & HS & Hrest). exists S, r'. split; [right; assumption|auto].
        -- intros (S & r' & HS & -> & Hr' & HP').
           apply elem_of_cons in HS as [-> | HS]; [congruence|].
           exists S, r'. auto.
Qed.

(** ** One stage *)

Lemma unsetConflictingSRVs_unbound (t : ShaderType) (resource : Z)
    (index : option ImageIndex) (s : St) :
  t = Vertex \/ t = Fragment ->
  let P := conflictsWith resource index in
  let o := unsetConflictingSRVs t resource index s in
  (exists b, result o = NoError b)
  /\ (forall j, stageViews t (state o) !! j
                = (fun r => if P r then nullRecord r else r) <$> stageViews t s !! j)
  /\ (forall t', t' = Vertex \/ t' = Fragment -> t' <> t ->
                 stageViews t' (state o) = stageViews t' s)
  /\ (forall c, In c (calls o) <->
                exists S r, c = unbindCall t S
                            /\ stageViews t s !! S = Some r /\ P r = true).
Proof.
  intros Ht P o. subst o. unfold unsetConflictingSRVs. mread.
  destruct (unsetConflictingSRVs_loop_spec t resource index
              (seq 0 (ViewCache.size (getSRVCache t (viewCaches (sm s)))))
              Ht (NoDup_seq _ _) false s) as (Hres & Hv & Ho & Hc).
  split; [exact Hres|]. split; [|split; [exact Ho|]].
  - intros j. rewrite Hv. destruct (bool_decide _) eqn:Hj; [reflexivity|].
    apply bool_decide_eq_false in Hj.
    assert (stageViews t s !! j = None) as ->; [|reflexivity].
    apply lookup_ge_None. apply Nat.nlt_ge. intros Hlt. apply Hj.
    apply elem_of_seq. unfold ViewCache.size. unfold stageViews in Hlt. lia.
  - intros c. rewrite Hc. split.
    + intros (S & r & _ & H). exists S, r. exact H.
    + intros (S & r & -> & Hr & HP). exists S, r. split; [|auto].
      apply elem_of_seq. apply lookup_lt_Some in Hr.
      unfold ViewCache.size. unfold stageViews in Hr. lia.
Qed.

Lemma fmap_keep {A} (x : option A) (f : A -> A) : (forall a, f a = a) -> f <$> x = x.
Proof. intros H. destruct x; cbn; [rewrite H|]; reflexivity. Qed.

Lemma unsetConflictingSRVs_unbinds_vertex (resource : Z) (index : option ImageIndex) :
  unbinds (conflictsWith resource index) (fun _ => false)
          (unsetConflictingSRVs Vertex resource index).
Proof.
  intros s.
  destruct (unsetConflictingSRVs_unbound Vertex resource index s (or_introl eq_refl))
    as ((b & Hb) & Hv & Ho & Hc).
  exists b. split; [exact Hb|]. repeat split.
  - intros t [-> | ->] j; [apply Hv|].
    rewrite Ho by (auto; discriminate). symmetry. apply fmap_keep. reflexivity.
  - intros c Hin. apply Hc in Hin as (S & r & H). exists Vertex, S, r. auto.
  - intros t S r [-> | ->] Hr HP; [|discriminate].
    apply Hc. exists S, r. auto.
Qed.

Lemma unsetConflictingSRVs_unbinds_fragment (resource : Z) (index : option ImageIndex) :
  unbinds (fun _ => false) (conflictsWith resource index)
          (unsetConflictingSRVs Fragment resource index).
Proof.
  intros s.
  destruct (unsetConflictingSRVs_unbound Fragment resource index s (or_intror eq_refl))
    as ((b & Hb) & Hv & Ho & Hc).
  exists b. split; [exact Hb|]. repeat split.
  - intros t [-> | ->] j; [|apply Hv].
    rewrite Ho by (auto; discriminate). symmetry. apply fmap_keep. reflexivity.
  - intros c Hin. apply Hc in Hin as (S & r & H). exists Fragment, S, r. auto.
  - intros t S r [-> | ->] Hr HP; [discriminate|].
    apply Hc. exists S, r. auto.
Qed.

(** ** One attachment *)

Lemma unsetConflictingSRVs_both (resource : Z) (index : option ImageIndex) :
  unbinds (conflictsWith resource index) (conflictsWith resource index)
    (unsetConflictingSRVs Vertex resource index;;
     unsetConflictingSRVs Fragment resource index;;
     ret tt).
Proof.
  set (P := conflictsWith resource index).
  assert (unbinds (fun r => P r || (false || false)) (fun r => false || (P r || false))
            (unsetConflictingSRVs Vertex resource index;;
             unsetConflictingSRVs Fragment resource index;;
             ret tt)) as H.
  { apply (unbinds_bind P (fun _ => false)
             (fun _ => false || false) (fun r => P r || false)).
    - reflexivity.
    - intros r. unfold P. rewrite conflictsWith_nullRecord. reflexivity.
    - apply unsetConflictingSRVs_unbinds_vertex.
    - intros _.
      apply (unbinds_bind (fun _ => false) P (fun _ => false) (fun _ => false)).
      + reflexivity.
      + reflexivity.
      + apply unsetConflictingSRVs_unbinds_fragment.
      + intros _. apply unbinds_ret. }
  eapply unbinds_ext; [| |exact H]; intros r; cbn; destruct (P r); reflexivity.
Qed.

Lemma unsetConflictingAttachmentResources_unbinds
    (attachment : FramebufferAttachment) (resource : Z) :
  unbinds (attachmentConflict (attachment, resource))
          (attachmentConflict (attachment, resource))
          (unsetConflictingAttachmentResources attachment resource).
Proof.
  unfold unsetConflictingAttachmentResources, attachmentConflict. cbn [fst snd].
  destruct (att_type attachment =? GL_TEXTURE)%Z.
  - apply unsetConflictingSRVs_both.
  - destruct (att_type attachment =? GL_FRAMEBUFFER_DEFAULT)%Z.
    + apply unsetConflictingSRVs_both.
    + apply unbinds_ret.
Qed.

(** ** The colour attachments *)

Lemma syncFramebuffer_colors_unbinds (context : Context) (framebuffer : Framebuffer)
    (colorRTs : list (option RenderTarget11)) :
  forall (rtIndex : nat) (framebufferRTVs : list Z) (maxExistingRT : nat),
    let conflicting :=
      conflictsWithAny (boundColorAttachments mRenderer context framebuffer
                          rtIndex colorRTs) in
    unbinds conflicting conflicting
      (syncFramebuffer_colors mRenderer context framebuffer rtIndex colorRTs
         framebufferRTVs maxExistingRT).
Proof.
  induction colorRTs as [|renderTarget rest IH]; intros rtIndex rtvs maxRT;
    cbn [syncFramebuffer_colors boundColorAttachments]; cbv zeta.
  - apply unbinds_ret.
  - destruct (mrtPerfWorkaround mRenderer && _).
    + apply IH.
    + destruct renderTarget as [rt|]; [|apply IH].
      destruct (getColorbuffer framebuffer rtIndex) as [attachment|].
      * eapply unbinds_ext;
          [| |apply (unbinds_bind
                       (attachmentConflict (attachment, rt_getTexture rt))
                       (attachmentConflict (attachment, rt_getTexture rt))
                       (conflictsWithAny
                          (boundColorAttachments mRenderer context framebuffer
                             (S rtIndex) rest))
                       (conflictsWithAny
                          (boundColorAttachments mRenderer context framebuffer
                             (S rtIndex) rest)))].
        -- intros r. rewrite conflictsWithAny_app. cbn. rewrite orb_false_r. reflexivity.
        -- intros r. rewrite conflictsWithAny_app. cbn. rewrite orb_false_r. reflexivity.
        -- apply conflictsWithAny_nullRecord.
        -- apply conflictsWithAny_nullRecord.
        -- apply unsetConflictingAttachmentResources_unbinds.
        -- intros _. apply IH.
      * intros s. rewrite bind_ret. apply IH.
Qed.

Lemma conflictsWithAny_resource atts (r : SRVRecord) :
  conflictsWithAny atts r = true ->
  exists a, In a atts /\ ViewCache.resource r = a.2.
Proof.
  unfold conflictsWithAny. intros H. apply existsb_exists in H as (a & Hin & Ha).
  exists a. split; [exact Hin|].
  unfold attachmentConflict, conflictsWith in Ha.
  destruct (_ =? GL_TEXTURE)%Z; [|destruct (_ =? GL_FRAMEBUFFER_DEFAULT)%Z];
    try discriminate;
    apply andb_true_iff in Ha as [Ha _]; apply andb_true_iff in Ha as [_ Ha];
    apply Z.eqb_eq in Ha; exact Ha.
Qed.

(** ** The whole of [syncFramebuffer] *)

Lemma syncFramebuffer_unbound (context : Context) (framebuffer : Framebuffer) (s : St) :
  isZeroSizedDefaultFramebuffer framebuffer = false ->
  let o := syncFramebuffer mRenderer context framebuffer s in
  let conflicting := conflictsWithAny (boundAttachments mRenderer context framebuffer) in
  exists unbinds n rtvs dsv,
    result o = NoError tt
    /\ calls o = unbinds ++ [OMSetRenderTargets n rtvs dsv]
    /\ unbound conflicting conflicting s (state o) unbinds.
Proof.
  intros Hsize o conflicting. subst o. unfold syncFramebuffer. rewrite Hsize.
  rewrite run_bind.
  destruct (syncFramebuffer_colors_unbinds context framebuffer
              (getCachedColorRenderTargets framebuffer) 0 [] 0 s)
    as ([rtvs maxRT] & Hr1 & Hu1).
  destruct (syncFramebuffer_colors mRenderer context framebuffer 0 _ [] 0 s)
    as [[r1 s1] c1].
  cbn in Hr1, Hu1. subst r1. rewrite run_bind.
  set (ds := match getCachedDepthStencilRenderTarget framebuffer,
                   getDepthOrStencilbuffer framebuffer with
             | Some rt, Some attachment => [(attachment, rt_getTexture rt)]
             | _, _ => []
             end).
  match goal with
  | |- context [match ?m s1 with _ => _ end] =>
      assert (unbinds (conflictsWithAny ds) (conflictsWithAny ds) m) as Hds
  end.
  { subst ds. destruct (getCachedDepthStencilRenderTarget framebuffer) as [rt|];
      [|apply unbinds_ret].
    destruct (getDepthOrStencilbuffer framebuffer) as [attachment|].
    - eapply unbinds_ext;
        [| |apply (unbinds_bind
                     (attachmentConflict (attachment, rt_getTexture rt))
                     (attachmentConflict (attachment, rt_getTexture rt))
                     (fun _ => false) (fun _ => false))].
      + intros r. cbn. reflexivity.
      + intros r. cbn. reflexivity.
      + reflexivity.
      + reflexivity.
      + apply unsetConflictingAttachmentResources_unbinds.
      + intros _. apply unbinds_ret.
    - intros s'. rewrite bind_ret. apply unbinds_ret. }
  destruct (Hds s1) as (dsv & Hr2 & Hu2).
  match goal with
  | |- context [match ?m s1 with _ => _ end] => destruct (m s1) as [[r2 s2] c2]
  end.
  cbn in Hr2, Hu2. subst r2. rewrite run_emit.
  exists (c1 ++ c2), (Z.of_nat maxRT), (take maxRT rtvs), dsv.
  split; [reflexivity|]. split.
  { cbn. rewrite app_assoc. reflexivity. }
  cbn [state fst snd].
  eapply unbound_ext;
    [| |apply (unbound_trans _ _ _ _ s s1 s2 c1 c2
                 (conflictsWithAny_nullRecord ds) (conflictsWithAny_nullRecord ds)
                 Hu1 Hu2)];
    intros r; unfold conflicting, boundAttachments; rewrite conflictsWithAny_app;
    reflexivity.
Qed.

End ConflictResolution.

(** C2 as stated fails on a renderbuffer attachment.  Pixel slot 0 holds a
    view of the texture behind the colour attachment, the view covers the
    attached level, and [syncFramebuffer] sets the render target with the
    slot still bound: no unbinding call is issued and the cache keeps the
    record. *)
Lemma syncFramebuffer_keeps_renderbuffer_view :
  let framebuffer := ConflictExample.framebuffer GL_RENDERBUFFER in
  let context := ConflictExample.context GL_RENDERBUFFER in
  let o := syncFramebuffer Sample.renderer context framebuffer ConflictExample.sampling in
  exists a r,
    In a (boundAttachments Sample.renderer context framebuffer)
    /\ stageViews Fragment ConflictExample.sampling !! 0%nat = Some r
    /\ claimedConflict a r = true
    /\ result o = NoError tt
    /\ calls o = [OMSetRenderTargets 1 [0x7100%Z] 0]
    /\ stageViews Fragment (state o) !! 0%nat = Some r.
Proof.
  eexists (_, _), _. split; [left; reflexivity|].
  split; [reflexivity|]. vm_compute. auto.
Qed.

(** The test of the code on an image index and a view description is the
    one the amended C2 spells out. *)
Lemma ImageIndexConflictsWithSRV_indexMeetsView (index : ImageIndex)
    (desc : D3D11_SHADER_RESOURCE_VIEW_DESC) :
  ImageIndexConflictsWithSRV index desc = indexMeetsView index desc.
Proof.
  unfold ImageIndexConflictsWithSRV, indexMeetsView, maxSrvMip_of, viewEndMip,
    Range.intersectsUI, u32, UINT_MAX, INT_MAX.
  cbn [Range.low Range.high].
  rewrite (Z.add_comm (MipLevels desc) (MostDetailedMip desc)).
  destruct (ViewDimension desc), (ii_type index); cbn [TextureType_eqb andb orb];
    try reflexivity.
  destruct (Z.leb_spec (mipIndex index mod 2 ^ 32) (MostDetailedMip desc)) as [Hle|Hgt].
  - cbn [andb orb].
    destruct (MostDetailedMip desc <? 2 ^ 31 - 1)%Z; [reflexivity|].
    cbn [orb]. symmetry. apply andb_false_iff. left. apply Z.ltb_ge. lia.
  - cbn [andb orb].
    assert ((MostDetailedMip desc <? mipIndex index mod 2 ^ 32)%Z = true) as ->
      by (apply Z.ltb_lt; lia).
    reflexivity.
Qed.

Lemma attachmentConflict_amended (a : FramebufferAttachment * Z) (r : SRVRecord) :
  attachmentConflict a r = amendedConflict a r.
Proof.
  unfold attachmentConflict, amendedConflict, conflictsWith, neZ.
  rewrite ImageIndexConflictsWithSRV_indexMeetsView.
  destruct (Z.eqb_spec (att_type a.1) GL_TEXTURE) as [Ht|Ht].
  - assert ((att_type a.1 =? GL_FRAMEBUFFER_DEFAULT)%Z = false) as ->
      by (rewrite Ht; reflexivity).
    reflexivity.
  - destruct (att_type a.1 =? GL_FRAMEBUFFER_DEFAULT)%Z; cbn [orb andb].
    + rewrite andb_true_r. reflexivity.
    + rewrite andb_false_r. reflexivity.
Qed.

Lemma conflictsWithAny_amended (atts : list (FramebufferAttachment * Z)) (r : SRVRecord) :
  conflictsWithAny atts r = amendedConflictAny atts r.
Proof.
  unfold conflictsWithAny, amendedConflictAny.
  induction atts as [|a atts IH]; [reflexivity|].
  cbn [existsb]. rewrite attachmentConflict_amended, IH. reflexivity.
Qed.

(** The test on the image index is not an intersection of the view's range
    with the index.  With level 0 of a texture attached, a view of levels 2
    and 3 of that texture in pixel slot 0 is unbound, and a multisampled
    view of it in pixel slot 1 stays bound. *)
Lemma syncFramebuffer_index_test_is_not_intersection :
  let framebuffer := ConflictExample.framebuffer GL_TEXTURE in
  let context := ConflictExample.context GL_TEXTURE in
  let s := ConflictExample.samplingOtherViews in
  let o := syncFramebuffer Sample.renderer context framebuffer s in
  ViewCache.view <$> stageViews Fragment s !! 0%nat = Some 0x7400%Z
  /\ ViewCache.view <$> stageViews Fragment s !! 1%nat = Some 0x7500%Z
  /\ viewRangeHasIndex (att_getTextureImageIndex (ConflictExample.attachment GL_TEXTURE))
       (view_GetDesc ConflictExample.deeperView) = false
  /\ calls o = [unbindCall Fragment 0; OMSetRenderTargets 1 [0x7100%Z] 0]
  /\ ViewCache.view <$> stageViews Fragment (state o) !! 0%nat = Some 0%Z
  /\ ViewCache.view <$> stageViews Fragment (state o) !! 1%nat = Some 0x7500%Z.
Proof. vm_compute. repeat split; reflexivity. Qed.

(** C2, amended: when the framebuffer is synced and is not the zero-sized
    default framebuffer, the calls are unbinding calls followed by the one
    [OMSetRenderTargets]; a slot of the vertex or pixel SRV cache is unbound,
    on the device and in the cache, exactly when it holds a view of the
    resource of a bound attachment that belongs to the default framebuffer,
    or that is a texture whose image index passes the test against the
    description of the view: for a TEXTURE2D view a 2D index of a level at
    or before the view's most detailed one, or inside the view's mip range;
    for a TEXTURE2DARRAY view a 2D-array or cube-map index of a level
    inside the mip range and a layer among the slices; for a TEXTURECUBE
    or TEXTURE3D view a cube-map or 3D index of a level inside the mip
    range; for no other view.  Attachments of any other type, renderbuffers
    among them, unbind nothing; every other record, so every record of a
    resource that no bound attachment has, is left as it was. *)
Theorem syncFramebuffer_unbinds_conflicting_views (mRenderer : Renderer11)
    (context : Context) (framebuffer : Framebuffer) (s : St) :
  isZeroSizedDefaultFramebuffer framebuffer = false ->
  let o := syncFramebuffer mRenderer context framebuffer s in
  let conflicting :=
    amendedConflictAny (boundAttachments mRenderer context framebuffer) in
  exists unbinds n rtvs dsv,
    result o = NoError tt
    /\ calls o = unbinds ++ [OMSetRenderTargets n rtvs dsv]
    /\ (forall c, In c unbinds <->
          exists t S r, (t = Vertex \/ t = Fragment) /\ c = unbindCall t S
                        /\ stageViews t s !! S = Some r /\ conflicting r = true)
    /\ (forall t S r, t = Vertex \/ t = Fragment -> stageViews t s !! S = Some r ->
          stageViews t (state o) !! S
          = Some (if conflicting r then nullRecord r else r))
    /\ (forall t S r, t = Vertex \/ t = Fragment -> stageViews t s !! S = Some r ->
          (forall a, In a (boundAttachments mRenderer context framebuffer) ->
                     ViewCache.resource r <> a.2) ->
          stageViews t (state o) !! S = Some r).
Proof.
  intros Hsize o conflicting.
  destruct (syncFramebuffer_unbound mRenderer context framebuffer s Hsize)
    as (unbinds & n & rtvs & dsv & Hres & Hcalls & Hv & Hc1 & Hc2).
  fold o in Hres, Hcalls, Hv.
  assert (forall (t : ShaderType) (r : SRVRecord), (t = Vertex \/ t = Fragment) ->
            match t with
            | Vertex => conflictsWithAny (boundAttachments mRenderer context framebuffer)
            | _ => conflictsWithAny (boundAttachments mRenderer context framebuffer)
            end r = conflicting r)
    as HP by (intros t r [-> | ->]; apply conflictsWithAny_amended).
  exists unbinds, n, rtvs, dsv.
  split; [exact Hres|]. split; [exact Hcalls|]. split; [|split].
  - intros c. split.
    + intros Hin. destruct (Hc1 c Hin) as (t & S & r & Ht & -> & Hr & HPr).
      exists t, S, r. rewrite (HP t r Ht) in HPr. auto.
    + intros (t & S & r & Ht & -> & Hr & HPr).
      apply (Hc2 t S r Ht Hr). rewrite (HP t r Ht). exact HPr.
  - intros t S r Ht Hr. rewrite (Hv t Ht S), Hr. cbn. rewrite (HP t r Ht). reflexivity.
  - intros t S r Ht Hr Hother. rewrite (Hv t Ht S), Hr. cbn. rewrite (HP t r Ht).
    destruct (conflicting r) eqn:E; [|reflexivity].
    unfold conflicting in E. rewrite <- conflictsWithAny_amended in E.
    apply conflictsWithAny_resource in E as (a & Hin & Ha).
    destruct (Hother a Hin Ha).
Qed.

Lemma syncFramebuffer_unbinds_conflicting_views_witness :
  let framebuffer := ConflictExample.framebuffer GL_TEXTURE in
  let context := ConflictExample.context GL_TEXTURE in
  let s := ConflictExample.sampling in
  let o := syncFramebuffer Sample.renderer context framebuffer s in
  let conflicting :=
    amendedConflictAny (boundAttachments Sample.renderer context framebuffer) in
  isZeroSizedDefaultFramebuffer framebuffer = false
  /\ exists unbinds n rtvs dsv,
    result o = NoError tt
    /\ calls o = unbinds ++ [OMSetRenderTargets n rtvs dsv]
    /\ (forall c, In c unbinds <->
          exists t S r, (t = Vertex \/ t = Fragment) /\ c = unbindCall t S
                        /\ stageViews t s !! S = Some r /\ conflicting r = true)
    /\ (forall t S r, t = Vertex \/ t = Fragment -> stageViews t s !! S = Some r ->
          stageViews t (state o) !! S
          = Some (if conflicting r then nullRecord r else r))
    /\ (forall t S r, t = Vertex \/ t = Fragment -> stageViews t s !! S = Some r ->
          (forall a, In a (boundAttachments Sample.renderer context framebuffer) ->
                     ViewCache.resource r <> a.2) ->
          stageViews t (state o) !! S = Some r).
Proof.
  split; [reflexivity|].
  apply (syncFramebuffer_unbinds_conflicting_views Sample.renderer
           (ConflictExample.context GL_TEXTURE) (ConflictExample.framebuffer GL_TEXTURE)
           ConflictExample.sampling).
  reflexivity.
Defined.

(* ================================================================== *)
(** * The zero-sized default framebuffer                                 *)
(* ================================================================== *)

Lemma syncFramebuffer_zero_sized (mRenderer : Renderer11) (context : Context)
    (framebuffer : Framebuffer) (s : St) :
  isZeroSizedDefaultFramebuffer framebuffer = true ->
  syncFramebuffer mRenderer context framebuffer s = (NoError tt, s, []).
Proof. intros H. unfold syncFramebuffer. rewrite H. reflexivity. Qed.

(** C9, on the code: with the default framebuffer 0 pixels wide,
    [syncFramebuffer] itself returns success and leaves everything as it
    was, but the pass is not cut short by it.  [updateState] goes on through
    the remaining dirty groups: on a freshly initialised manager it succeeds
    after sixteen device binding calls, the viewport and the primitive
    topology among them, and the cached viewport has changed. *)
Theorem updateState_zero_sized_default_framebuffer_goes_on :
  let framebuffer := DegenerateExample.framebuffer in
  let context := DegenerateExample.context in
  let o := Sample.updateState context Sample.drawTriangles Sample.fresh in
  isZeroSizedDefaultFramebuffer framebuffer = true
  /\ (forall s, syncFramebuffer Sample.renderer context framebuffer s
                = (NoError tt, s, []))
  /\ result o = NoError tt
  /\ length (filter (fun c => isDeviceBindingCall c = true) (calls o)) = 16
  /\ (exists viewport, In (RSSetViewports 1 [viewport]) (calls o))
  /\ In (IASetPrimitiveTopology 4) (calls o)
  /\ mCurViewport (viewportCache (sm (state o)))
     <> mCurViewport (viewportCache (sm Sample.fresh)).
Proof.
  split; [reflexivity|].
  split; [intros s; apply syncFramebuffer_zero_sized; reflexivity|].
  split; [vm_compute; reflexivity|].
  split; [vm_compute; reflexivity|].
  split; [eexists; vm_compute; left; reflexivity|].
  split; [vm_compute; tauto|].
  vm_compute. discriminate.
Qed.

(* ================================================================== *)
(** * What the synchronisers leave alone                                 *)
(* ================================================================== *)

Section Frame.

Variable sampleMask : Z.

Lemma frame_refl strict (s : St) : frame strict sampleMask s s.
Proof. constructor; auto. destruct strict; reflexivity. Qed.

Lemma frame_trans strict (s1 s2 s3 : St) :
  frame strict sampleMask s1 s2 -> frame strict sampleMask s2 s3 ->
  frame strict sampleMask s1 s3.
Proof.
  intros [A1 A2 A3 A4 A5 A6 A7 A8 A9] [B1 B2 B3 B4 B5 B6 B7 B8 B9].
  constructor; try congruence; auto.
  - destruct strict; congruence.
  - destruct B9 as [B9|B9]; [rewrite B9; exact A9|right; exact B9].
Qed.

Lemma frame_relax (s s' : St) :
  frame true sampleMask s s' -> frame false sampleMask s s'.
Proof. intros [A1 A2 A3 A4 A5 A6 A7 A8 A9]. constructor; auto. cbn in *. congruence. Qed.

Lemma framed_relax {A} (m : M St A) :
  framed true sampleMask m -> framed false sampleMask m.
Proof. intros H s. apply frame_relax, H. Qed.

Lemma framed_ret strict {A} (a : A) : framed strict sampleMask (ret a).
Proof. intros s. apply frame_refl. Qed.

Lemma framed_gets strict {A} (f : St -> A) : framed strict sampleMask (gets f).
Proof. intros s. apply frame_refl. Qed.

Lemma framed_getSM strict {A} (f : StateManager11 -> A) :
  framed strict sampleMask (getSM f).
Proof. intros s. apply frame_refl. Qed.

Lemma framed_getWorld strict {A} (f : World -> A) : framed strict sampleMask (getWorld f).
Proof. intros s. apply frame_refl. Qed.

Lemma framed_emit strict (c : Call) : framed strict sampleMask (emit c).
Proof. intros s. apply frame_refl. Qed.

Lemma framed_try strict {A} (r : Result A) : framed strict sampleMask (try r).
Proof. intros s. apply frame_refl. Qed.

Lemma framed_emitSetShaderResources strict t a b v :
  framed strict sampleMask (emitSetShaderResources t a b v).
Proof. intros s. rewrite run_emitSetShaderResources. apply frame_refl. Qed.

Lemma framed_bind strict {A B} (m : M St A) (k : A -> M St B) :
  framed strict sampleMask m -> (forall a, framed strict sampleMask (k a)) ->
  framed strict sampleMask (m ≫= k).
Proof.
  intros Hm Hk s. rewrite run_bind. specialize (Hm s).
  destruct (m s) as [[[a|e] s1] c1]; cbn in Hm.
  - specialize (Hk a s1). destruct (k a s1) as [[r s2] c2]. cbn in *.
    eapply frame_trans; eassumption.
  - exact Hm.
Qed.

Lemma framed_when strict (b : bool) (m : M St unit) :
  framed strict sampleMask m -> framed strict sampleMask (when b m).
Proof. intros H. destruct b; [exact H|apply framed_ret]. Qed.

Lemma framed_forM_ strict {X} (l : list X) (body : X -> M St unit) :
  (forall x, framed strict sampleMask (body x)) ->
  framed strict sampleMask (forM_ l body).
Proof.
  intros H. induction l as [|x l IH]; cbn [forM_].
  - apply framed_ret.
  - apply framed_bind; [apply H|intros _; exact IH].
Qed.

Lemma framed_modSM strict (f : StateManager11 -> StateManager11) :
  (forall s, frame strict sampleMask s {| sm := f (sm s); world := world s |}) ->
  framed strict sampleMask (modSM f).
Proof. intros H s. apply H. Qed.

Lemma framed_modWorld strict (f : World -> World) :
  (forall s, frame strict sampleMask s {| sm := sm s; world := f (world s) |}) ->
  framed strict sampleMask (modWorld f).
Proof. intros H s. apply H. Qed.

(** a method of the shader constants changes nothing else *)
Lemma framed_zoom_mShaderConstants strict {A} (m : M ShaderConstants11 A) :
  framed strict sampleMask
    (zoom (fun s => mShaderConstants (sm s))
          (fun c s => {| sm := upd_mShaderConstants (fun _ => c) (sm s);
                         world := world s |}) m).
Proof.
  intros s. unfold zoom. destruct (m _) as [[r c] cs]. cbn.
  constructor; auto. destruct strict; reflexivity.
Qed.

End Frame.

Create HintDb framed discriminated.

(** the state written differs from the one read in members [frame] does
    not look at *)
Create HintDb frame_pure discriminated.

Hint Unfold anyShaderUniformsDirty markUniformsClean queueVertexBufferChange : frame_pure.

Ltac frame_same :=
  intros; constructor; autounfold with frame_pure; cbn;
  repeat match goal with
         | |- context [if ?b then _ else _] => destruct b; cbn
         | |- context [match ?x with _ => _ end] => destruct x; cbn
         end;
  solve [ reflexivity | auto | intros; discriminate ].

Ltac framed_step :=
  first
    [ apply framed_ret | apply framed_getSM | apply framed_getWorld
    | apply framed_gets | apply framed_emit | apply framed_try
    | apply framed_emitSetShaderResources
    | apply framed_zoom_mShaderConstants
    | apply framed_bind; [|intros ?]
    | apply framed_when
    | apply framed_forM_; intros ?
    | solve [auto 1 with framed nocore]
    | apply framed_modSM; frame_same
    | apply framed_modWorld; frame_same
    | progress cbv zeta
    | match goal with
      | |- framed _ _ (if ?b then _ else _) => destruct b
      | |- framed _ _ (match ?x with _ => _ end) => destruct x
      end ].

Ltac framed_auto := repeat framed_step.

Section Synchronisers.
Variable sampleMask : Z.
Local Notation same := (framed true sampleMask).

Lemma framed_setShaderResourceInternal t slot srv :
  same (setShaderResourceInternal t slot srv).
Proof. unfold setShaderResourceInternal. framed_auto. Qed.

Hint Resolve framed_setShaderResourceInternal : framed.

Lemma framed_clearSRVs t a b : same (clearSRVs t a b).
Proof. unfold clearSRVs. framed_auto. Qed.

Hint Resolve framed_clearSRVs : framed.

(** *** The render target *)

Lemma framed_unsetConflictingSRVs_loop t resource index slots :
  forall foundOne, same (unsetConflictingSRVs_loop t resource index slots foundOne).
Proof.
  induction slots as [|slot slots IH]; intros foundOne; cbn [unsetConflictingSRVs_loop];
    framed_auto.
Qed.

Hint Resolve framed_unsetConflictingSRVs_loop : framed.

Lemma framed_unsetConflictingSRVs t resource index :
  same (unsetConflictingSRVs t resource index).
Proof. unfold unsetConflictingSRVs. framed_auto. Qed.

Hint Resolve framed_unsetConflictingSRVs : framed.

Lemma framed_unsetConflictingAttachmentResources attachment resource :
  same (unsetConflictingAttachmentResources attachment resource).
Proof. unfold unsetConflictingAttachmentResources. framed_auto. Qed.

Hint Resolve framed_unsetConflictingAttachmentResources : framed.

Lemma framed_syncFramebuffer_colors mRenderer context framebuffer colorRTs :
  forall rtIndex rtvs maxRT,
    same (syncFramebuffer_colors mRenderer context framebuffer rtIndex colorRTs rtvs maxRT).
Proof.
  induction colorRTs as [|rt rest IH]; intros rtIndex rtvs maxRT;
    cbn [syncFramebuffer_colors]; framed_auto.
Qed.

Hint Resolve framed_syncFramebuffer_colors : framed.

Lemma framed_syncFramebuffer mRenderer context framebuffer :
  same (syncFramebuffer mRenderer context framebuffer).
Proof. unfold syncFramebuffer. framed_auto. Qed.

(** *** Viewport, scissor, rasterizer, blend, depth and stencil *)

Lemma framed_syncViewport mRenderer context : same (syncViewport mRenderer context).
Proof. unfold syncViewport. framed_auto. Qed.

Lemma framed_syncScissorRectangle scissor enabled :
  same (syncScissorRectangle scissor enabled).
Proof. unfold syncScissorRectangle. framed_auto. Qed.

Lemma framed_syncRasterizerState mRenderer context params :
  same (syncRasterizerState mRenderer context params).
Proof. unfold syncRasterizerState. framed_auto. Qed.

Lemma framed_syncBlendState mRenderer context framebuffer blendState blendColor :
  same (syncBlendState mRenderer context framebuffer blendState blendColor sampleMask).
Proof. unfold syncBlendState. framed_auto. Qed.

Lemma framed_syncDepthStencilState mRenderer glState :
  same (syncDepthStencilState mRenderer glState).
Proof. unfold syncDepthStencilState. framed_auto. Qed.

(** *** Textures and samplers *)

Lemma framed_setSamplerState mRenderer context t index texture samplerState :
  same (setSamplerState mRenderer context t index texture samplerState).
Proof. unfold setSamplerState. framed_auto. Qed.

Hint Resolve framed_setSamplerState : framed.

Lemma framed_setTexture context t index texture :
  same (setTexture context t index texture).
Proof. unfold setTexture. framed_auto. Qed.

Hint Resolve framed_setTexture : framed.

Lemma framed_applyTextures mRenderer context t : same (applyTextures mRenderer context t).
Proof. unfold applyTextures. framed_auto. Qed.

Hint Resolve framed_applyTextures : framed.

Lemma framed_syncTextures mRenderer context : same (syncTextures mRenderer context).
Proof. unfold syncTextures. framed_auto. Qed.

(** *** Uniforms *)

Lemma framed_applyUniforms slot programD3D : same (applyUniforms slot programD3D).
Proof. unfold applyUniforms. framed_auto. Qed.

Lemma framed_applyDriverUniforms slot mRenderer programD3D :
  same (applyDriverUniforms slot mRenderer programD3D).
Proof. unfold applyDriverUniforms. framed_auto. Qed.

Lemma framed_syncUniformBuffers mRenderer context programD3D :
  same (syncUniformBuffers mRenderer context programD3D).
Proof. unfold syncUniformBuffers, syncUniformBuffers_stage. framed_auto. Qed.

(** *** Current values, transform feedback, vertex buffers, topology *)

Lemma framed_syncCurrentValueAttribs n mRenderer glState :
  same (syncCurrentValueAttribs n mRenderer glState).
Proof. unfold syncCurrentValueAttribs. framed_auto. Qed.

Lemma framed_syncTransformFeedbackBuffers context :
  same (syncTransformFeedbackBuffers context).
Proof. unfold syncTransformFeedbackBuffers. framed_auto. Qed.

Lemma framed_setInputLayoutInternal inputLayout :
  same (setInputLayoutInternal inputLayout).
Proof. unfold setInputLayoutInternal. framed_auto. Qed.

Hint Resolve framed_setInputLayoutInternal : framed.

Lemma framed_applyVertexBufferChanges n : same (applyVertexBufferChanges n).
Proof. unfold applyVertexBufferChanges. framed_auto. Qed.

Hint Resolve framed_applyVertexBufferChanges : framed.

Lemma framed_syncIndexBuffer buffer format offset :
  same (syncIndexBuffer buffer format offset).
Proof. unfold syncIndexBuffer. framed_auto. Qed.

Hint Resolve framed_syncIndexBuffer : framed.

Lemma framed_applyVertexBuffers n mRenderer context params :
  same (applyVertexBuffers n mRenderer context params).
Proof. unfold applyVertexBuffers. framed_auto. Qed.

Hint Resolve framed_applyVertexBuffers : framed.

Lemma framed_syncVertexBuffersAndInputLayout n mRenderer context params :
  same (syncVertexBuffersAndInputLayout n mRenderer context params).
Proof. unfold syncVertexBuffersAndInputLayout. framed_auto. Qed.

Lemma framed_setPrimitiveTopologyInternal topology :
  same (setPrimitiveTopologyInternal topology).
Proof. unfold setPrimitiveTopologyInternal. framed_auto. Qed.

Hint Resolve framed_setPrimitiveTopologyInternal : framed.

Lemma framed_syncPrimitiveTopology mRenderer glState programD3D mode :
  same (syncPrimitiveTopology mRenderer glState programD3D mode).
Proof. unfold syncPrimitiveTopology. framed_auto. Qed.

End Synchronisers.

(** ** The shader setters and [syncProgram] *)

Lemma BitSet_reset_set (b : nat) (m : BitSet.t) :
  BitSet.reset b (BitSet.set b m) = BitSet.reset b m.
Proof.
  unfold BitSet.reset, BitSet.set. apply Z.bits_inj'. intros k Hk.
  rewrite !Z.clearbit_eqb, Z.setbit_eqb by lia.
  destruct (Z.of_nat b =? k)%Z; cbn; [rewrite andb_false_r|]; reflexivity.
Qed.

Lemma BitSet_reset_reset (b : nat) (m : BitSet.t) :
  BitSet.reset b (BitSet.reset b m) = BitSet.reset b m.
Proof.
  unfold BitSet.reset. apply Z.bits_inj'. intros k Hk.
  rewrite !Z.clearbit_eqb. destruct (Z.of_nat b =? k)%Z; cbn;
    rewrite ?andb_false_r, ?andb_true_r; reflexivity.
Qed.

Lemma BitSet_reset_none (b : nat) : BitSet.reset b BitSet.none = BitSet.none.
Proof.
  unfold BitSet.reset, BitSet.none. apply Z.bits_inj'. intros k Hk.
  rewrite Z.clearbit_eqb, Z.bits_0. reflexivity.
Qed.

Section ShaderStage.
Variable sampleMask : Z.
Local Notation loose := (framed false sampleMask).

Lemma frame_invalidateShaders (s : St) :
  frame false sampleMask s {| sm := invalidateShaders (sm s); world := world s |}.
Proof. constructor; cbn; auto. apply BitSet_reset_set. Qed.

Lemma frame_clearShaderDirtyBit (s : St) :
  frame false sampleMask s {| sm := clearShaderDirtyBit (sm s); world := world s |}.
Proof. constructor; cbn; auto. apply BitSet_reset_reset. Qed.

Ltac shader_setter :=
  apply framed_bind; [apply framed_getSM|intros ?];
  destruct (neZ _ _); [|apply framed_ret];
  apply framed_bind; [apply framed_emit|intros _];
  apply framed_bind; [apply framed_modSM; frame_same|intros _];
  apply framed_modSM; exact frame_invalidateShaders.

Lemma framed_setVertexShader shader : loose (setVertexShader shader).
Proof. unfold setVertexShader. shader_setter. Qed.

Lemma framed_setGeometryShader shader : loose (setGeometryShader shader).
Proof. unfold setGeometryShader. shader_setter. Qed.

Lemma framed_setPixelShader shader : loose (setPixelShader shader).
Proof. unfold setPixelShader. shader_setter. Qed.

Lemma framed_setDrawShaders vs gs ps : loose (setDrawShaders vs gs ps).
Proof.
  unfold setDrawShaders.
  apply framed_bind; [apply framed_setVertexShader|intros _].
  apply framed_bind; [apply framed_setGeometryShader|intros _].
  apply framed_setPixelShader.
Qed.

Lemma framed_syncProgram context mode : loose (syncProgram context mode).
Proof.
  unfold syncProgram.
  repeat (apply framed_bind; [apply framed_try|intros ?]).
  apply framed_bind; [apply framed_setDrawShaders|intros _].
  apply framed_modSM. exact frame_clearShaderDirtyBit.
Qed.

End ShaderStage.

Lemma bind_try_ok {S A B} (a : A) (k : A -> M S B) (s : S) :
  (try (NoError a) ≫= k) s = k a s.
Proof. rewrite run_bind, run_try. destruct (k a s) as [[r s'] c]. reflexivity. Qed.

Lemma bind_try_error {S A B} (e : Z) (k : A -> M S B) (s : S) :
  (try (Error e) ≫= k) s = (Error e, s, []).
Proof. rewrite run_bind, run_try. reflexivity. Qed.

Lemma bind_modSM {B} (f : StateManager11 -> StateManager11) (k : unit -> M St B)
    (s : St) :
  (modSM f ≫= k) s = k tt {| sm := f (sm s); world := world s |}.
Proof. rewrite run_bind, run_modSM. destruct (k tt _) as [[r s'] c]. reflexivity. Qed.

Lemma bind_modWorld {B} (f : World -> World) (k : unit -> M St B) (s : St) :
  (modWorld f ≫= k) s = k tt {| sm := sm s; world := f (world s) |}.
Proof. rewrite run_bind, run_modWorld. destruct (k tt _) as [[r s'] c]. reflexivity. Qed.

(** the shader setters cannot fail *)
Lemma setDrawShaders_result vs gs ps (s : St) :
  result (setDrawShaders vs gs ps s) = NoError tt.
Proof.
  unfold setDrawShaders, setVertexShader, setGeometryShader, setPixelShader.
  repeat (rewrite ?run_bind, ?run_getSM, ?run_emit, ?run_modSM, ?run_ret;
          cbv beta iota zeta;
          try match goal with
              | |- context [if ?b then _ else _] => destruct b
              end).
  all: reflexivity.
Qed.

(** ** Postconditions of computations that succeed *)

Lemma wp_ret {A} (a : A) (Q : A -> St -> Prop) (s : St) : Q a s -> wp (ret a) Q s.
Proof. intros H b Hb. injection Hb as <-. exact H. Qed.

Lemma wp_mono {A} (m : M St A) (Q Q' : A -> St -> Prop) (s : St) :
  wp m Q s -> (forall a s', Q a s' -> Q' a s') -> wp m Q' s.
Proof. intros H HQ a Ha. apply HQ, H, Ha. Qed.

Lemma wp_bind {A B} (m : M St A) (k : A -> M St B) (Q : B -> St -> Prop) (s : St) :
  wp m (fun a s1 => wp (k a) Q s1) s -> wp (m ≫= k) Q s.
Proof.
  intros H b Hb. rewrite run_bind in Hb |- *. unfold wp in H.
  destruct (m s) as [[[a|e] s1] c1]; cbn in *; [|discriminate].
  specialize (H a eq_refl b).
  destruct (k a s1) as [[r s2] c2]. cbn in *. auto.
Qed.

(** when the postcondition does not depend on where the rest starts *)
Lemma wp_bind_any {A B} (m : M St A) (k : A -> M St B) (Q : B -> St -> Prop) (s : St) :
  (forall a s1, wp (k a) Q s1) -> wp (m ≫= k) Q s.
Proof. intros H. apply wp_bind. intros a _. apply H. Qed.

Lemma wp_modSM (f : StateManager11 -> StateManager11) (Q : unit -> St -> Prop) (s : St) :
  Q tt {| sm := f (sm s); world := world s |} -> wp (modSM f) Q s.
Proof. intros H [] _. exact H. Qed.

Lemma wp_modWorld (f : World -> World) (Q : unit -> St -> Prop) (s : St) :
  Q tt {| sm := sm s; world := f (world s) |} -> wp (modWorld f) Q s.
Proof. intros H [] _. exact H. Qed.

Lemma wp_getSM {A} (f : StateManager11 -> A) (Q : A -> St -> Prop) (s : St) :
  Q (f (sm s)) s -> wp (getSM f) Q s.
Proof. intros H a Ha. injection Ha as <-. exact H. Qed.

Lemma wp_getWorld {A} (f : World -> A) (Q : A -> St -> Prop) (s : St) :
  Q (f (world s)) s -> wp (getWorld f) Q s.
Proof. intros H a Ha. injection Ha as <-. exact H. Qed.

Lemma wp_try {A} (r : Result A) (Q : A -> St -> Prop) (s : St) :
  (forall a, r = NoError a -> Q a s) -> wp (try r) Q s.
Proof. intros H a Ha. apply H. exact Ha. Qed.

Lemma wp_when (b : bool) (m : M St unit) (Q : unit -> St -> Prop) (s : St) :
  (b = true -> wp m Q s) -> (b = false -> Q tt s) -> wp (when b m) Q s.
Proof.
  intros H1 H2. destruct b; [apply H1; reflexivity|].
  apply wp_ret, H2. reflexivity.
Qed.

Lemma wp_framed {A} strict sampleMask (m : M St A) (Q : A -> St -> Prop) (s : St) :
  framed strict sampleMask m ->
  (forall a s', frame strict sampleMask s s' -> Q a s') -> wp m Q s.
Proof. intros Hm H a Ha. apply H, Hm. Qed.

(** ** The drain *)

Section Drain.

Variables MAX_VERTEX_ATTRIBS RESERVED_CONSTANT_BUFFER_SLOT_DRIVER
          RESERVED_CONSTANT_BUFFER_SLOT_DEFAULT_UNIFORM_BLOCK : nat.

Variable mRenderer : Renderer11.
Variable context : Context.
Variable drawCallParams : DrawCallParams.
Variable sampleMask : Z.

Local Notation sync :=
  (syncDirtyBit MAX_VERTEX_ATTRIBS RESERVED_CONSTANT_BUFFER_SLOT_DRIVER
     RESERVED_CONSTANT_BUFFER_SLOT_DEFAULT_UNIFORM_BLOCK mRenderer context
     drawCallParams sampleMask).

Lemma framed_syncDirtyBit (dirtyBit : DirtyBitType) :
  dirtyBit <> DIRTY_BIT_SHADERS -> framed true sampleMask (sync dirtyBit).
Proof.
  intros Hne. destruct dirtyBit; try congruence; cbn [syncDirtyBit]; cbv zeta;
    eauto using framed_syncFramebuffer, framed_syncViewport, framed_syncScissorRectangle,
      framed_syncRasterizerState, framed_syncBlendState, framed_syncDepthStencilState,
      framed_syncTextures, framed_applyUniforms, framed_applyDriverUniforms,
      framed_syncUniformBuffers, framed_syncCurrentValueAttribs,
      framed_syncTransformFeedbackBuffers, framed_syncVertexBuffersAndInputLayout,
      framed_syncPrimitiveTopology.
Qed.

Lemma syncProgram_bits mode (s : St) :
  mInternalDirtyBits (sm s) = BitSet.none ->
  mInternalDirtyBits (sm (state (syncProgram context mode s))) = BitSet.none.
Proof.
  intros H. unfold syncProgram.
  repeat match goal with
         | |- context [try ?r ≫= _] =>
             destruct r; [rewrite bind_try_ok|rewrite bind_try_error; exact H]
         end.
  cbv zeta. rewrite run_bind.
  match goal with
  | |- context [setDrawShaders ?v ?g ?p s] =>
      pose proof (setDrawShaders_result v g p s) as Hr;
      pose proof (frame_bits _ _ _ _ (framed_setDrawShaders 0%Z v g p s)) as Hb;
      destruct (setDrawShaders v g p s) as [[r s1] c1]
  end.
  cbn in Hr, Hb. subst r. rewrite run_modSM. cbn.
  rewrite Hb, H. apply BitSet_reset_none.
Qed.

(** a synchroniser entered with no internal dirty bit set returns with
    none set *)
Lemma syncDirtyBit_drained (dirtyBit : DirtyBitType) (s : St) :
  mInternalDirtyBits (sm s) = BitSet.none ->
  frame false sampleMask s (state (sync dirtyBit s))
  /\ mInternalDirtyBits (sm (state (sync dirtyBit s))) = BitSet.none.
Proof.
  intros H. destruct (decide (dirtyBit = DIRTY_BIT_SHADERS)) as [->|Hne].
  - split; [apply framed_syncProgram|apply syncProgram_bits, H].
  - pose proof (framed_syncDirtyBit dirtyBit Hne s) as F. split.
    + apply frame_relax, F.
    + rewrite <- H. exact (frame_bits _ _ _ _ F).
Qed.

Lemma drain_drained (l : list DirtyBitType) :
  forall s, mInternalDirtyBits (sm s) = BitSet.none ->
            frame false sampleMask s (state (forM_ l sync s))
            /\ mInternalDirtyBits (sm (state (forM_ l sync s))) = BitSet.none.
Proof.
  induction l as [|dirtyBit l IH]; intros s H; cbn [forM_].
  - split; [apply frame_refl|exact H].
  - rewrite run_bind.
    destruct (syncDirtyBit_drained dirtyBit s H) as [F Hb].
    destruct (sync dirtyBit s) as [[[[]|e] s1] c1]; cbn in F, Hb.
    + destruct (IH s1 Hb) as [F' Hb'].
      destruct (forM_ l sync s1) as [[r s2] c2]. cbn in *.
      split; [eapply frame_trans; eassumption|exact Hb'].
    + split; assumption.
Qed.

End Drain.

(** ** Before the drain *)

Lemma processFramebufferInvalidation_clears_flag mRenderer context (m : StateManager11) :
  mRenderTargetIsDirty (flags (processFramebufferInvalidation mRenderer context m)) = false.
Proof.
  unfold processFramebufferInvalidation.
  destruct (mRenderTargetIsDirty (flags m)) eqn:E; cbn [negb]; [|exact E].
  unfold checkPresentPath, invalidateViewport, invalidateDriverUniforms, invalidateShaders.
  cbv zeta.
  repeat match goal with
         | |- context [if ?b then _ else _] => destruct b
         | |- context [match ?x with Some _ => _ | None => _ end] => destruct x
         end; reflexivity.
Qed.

Section Prepare.
Variable mRenderer : Renderer11.
Variable context : Context.
Variable drawCallParams : DrawCallParams.
Local Notation SM := (drawSampleMask mRenderer context).
Local Notation PU := (dirtyBitIndex DIRTY_BIT_PROGRAM_UNIFORMS).
Local Notation BLEND := (dirtyBitIndex DIRTY_BIT_BLEND_STATE).
Local Notation prepared := (prepared mRenderer context drawCallParams).
Local Notation keeps := (keeps mRenderer context drawCallParams).

Lemma keeps_refl sw (s : St) : keeps sw s s.
Proof. constructor; auto. Qed.

Lemma keeps_trans sw (s1 s2 s3 : St) : keeps sw s1 s2 -> keeps sw s2 s3 -> keeps sw s1 s3.
Proof.
  intros [A1 A2 A3 A4 A5 A6 A7 A8 A9] [B1 B2 B3 B4 B5 B6 B7 B8 B9].
  constructor; auto.
  destruct B9 as [B9|B9]; [rewrite B9; exact A9|right; exact B9].
Qed.

Lemma frame_keeps sw (s s' : St) : frame true SM s s' -> keeps sw s s'.
Proof.
  intros [A1 A2 A3 A4 A5 A6 A7 A8 A9]. cbn in A1.
  constructor; try congruence; auto.
  intros H. destruct (mIndexBufferIsDirty (indexCache (sm s'))); [|reflexivity].
  rewrite A7 in H by reflexivity. discriminate.
Qed.

Lemma prepared_keeps phase (s s' : St) :
  prepared phase s -> keeps (4 <=? phase)%nat s s' -> prepared phase s'.
Proof.
  intros [P1 P2 P3 P4 P5 P6 P7 P8] [K1 K2 K3 K4 K5 K6 K7 K8 K9].
  constructor; auto.
  - intros H. apply K3; auto. apply Nat.leb_le. lia.
  - intros H Hne. apply K1, P5; [exact H|].
    destruct K9 as [K9|K9]; congruence.
Qed.

Lemma prepared_weaken phase phase' (s : St) :
  phase' <= phase -> prepared phase s -> prepared phase' s.
Proof. intros Hle [P1 P2 P3 P4 P5 P6 P7 P8]. constructor; intros; auto with lia. Qed.

(** from what was settled before a step to what is settled after it *)
Ltac settle P :=
  let P1 := fresh in let P2 := fresh in let P3 := fresh in let P4 := fresh in
  let P5 := fresh in let P6 := fresh in let P7 := fresh in let P8 := fresh in
  destruct P as [P1 P2 P3 P4 P5 P6 P7 P8];
  constructor; autounfold with frame_pure; cbn; intros;
  try lia;
  let rec known :=
    first [ apply BitSet_test_set_same
          | apply P1; lia | apply P2; lia | apply P3; [lia|assumption]
          | apply P4; lia | apply P5; [lia|assumption] | apply P6; lia
          | apply P7; [lia|assumption] | apply P8; lia
          | reflexivity | assumption
          | apply BitSet_test_set_mono; known ] in
  try known.

Lemma framed_generateSwizzles sampleMask : framed true sampleMask (generateSwizzles context).
Proof.
  unfold generateSwizzles, generateSwizzlesForShader, generateSwizzle. framed_auto.
Qed.

Lemma framed_applyIndexBuffer sampleMask :
  framed true sampleMask (applyIndexBuffer mRenderer context drawCallParams).
Proof. unfold applyIndexBuffer. framed_auto. Qed.

Lemma applyIndexBuffer_clears_flag (s : St) :
  wp (applyIndexBuffer mRenderer context drawCallParams)
     (fun _ s' => mIndexBufferIsDirty (indexCache (sm s')) = false) s.
Proof.
  unfold applyIndexBuffer. cbv zeta.
  apply wp_bind, wp_getSM.
  destruct (mIndexBufferIsDirty (indexCache (sm s))) eqn:E; cbn [negb].
  - apply wp_bind_any. intros indexInfo s1.
    apply wp_bind_any. intros buffer s2.
    apply wp_bind_any. intros changed s3.
    apply wp_bind, wp_modSM, wp_modWorld. reflexivity.
  - apply wp_ret. exact E.
Qed.

Lemma wp_conj {A} (m : M St A) (Q1 Q2 : A -> St -> Prop) (s : St) :
  wp m Q1 s -> wp m Q2 s -> wp m (fun a s' => Q1 a s' /\ Q2 a s') s.
Proof. intros H1 H2 a Ha. split; [apply H1|apply H2]; exact Ha. Qed.

(** [updateState] up to the snapshot: the state [s0] the snapshot is
    taken in has everything settled, and the internal dirty bits are what
    is still to be synchronised *)
Lemma updateState_prepare_post (s : St) :
  wp (updateState_prepare mRenderer context drawCallParams)
     (fun r s' =>
        r.1 = SM
        /\ exists s0, prepared 8 s0
                      /\ r.2 = mInternalDirtyBits (sm s0)
                      /\ s' = {| sm := upd_mInternalDirtyBits (fun _ => BitSet.none) (sm s0);
                                 world := world s0 |})
     s.
Proof.
  unfold updateState_prepare. cbv zeta.
  (* the render target *)
  apply wp_bind. apply (wp_mono _ (fun _ s' => prepared 1 s')).
  { apply wp_modSM. constructor; try (intros; lia).
    intros _. apply processFramebufferInvalidation_clears_flag. }
  clear s. intros _ s P.
  (* the sampler mapping *)
  apply wp_bind. apply (wp_mono _ (fun _ s' => prepared 2 s')).
  { unfold updateSamplerMapping.
    apply wp_bind, wp_getWorld, wp_bind, wp_modWorld, wp_ret. settle P. }
  clear s P. intros wasDirty s P.
  apply wp_bind. apply (wp_mono _ (fun _ s' => prepared 2 s')).
  { apply wp_when; intros _; [apply wp_modSM; settle P|exact P]. }
  clear s P. intros _ s P.
  (* the uniforms *)
  apply wp_bind, wp_getWorld.
  apply wp_bind. apply (wp_mono _ (fun _ s' => prepared 3 s')).
  { apply wp_when; intros E; [apply wp_modSM|]; settle P;
      unfold anyShaderUniformsDirty in *; congruence. }
  clear s P. intros _ s P.
  (* the swizzles *)
  apply wp_bind, wp_getSM.
  apply wp_bind. apply (wp_mono _ (fun _ s' => prepared 4 s')).
  { apply wp_when; intros E.
    - apply wp_bind.
      apply (wp_framed true SM); [apply framed_generateSwizzles|].
      intros _ s' F. apply wp_modSM.
      pose proof (prepared_keeps 3 s s' P (frame_keeps _ s s' F)) as P'.
      settle P'.
    - settle P. }
  clear s P. intros _ s P.
  (* the attachments *)
  apply wp_bind. apply (wp_mono _ (fun _ s' => prepared 4 s')).
  { destruct (markAttachmentsDirty _); [apply wp_try; discriminate|apply wp_ret, P]. }
  clear s P. intros _ s P.
  (* the sample mask *)
  apply wp_bind, wp_getSM.
  apply wp_bind. apply (wp_mono _ (fun _ s' => prepared 5 s')).
  { apply wp_when; intros E; [apply wp_modSM|]; settle P.
    unfold neZ in E. apply negb_false_iff, Z.eqb_eq in E.
    unfold drawSampleMask in *. congruence. }
  clear s P. intros _ s P.
  (* the first vertex *)
  apply wp_bind, wp_getSM.
  apply wp_bind. apply (wp_mono _ (fun _ s' => prepared 6 s')).
  { apply wp_when; intros E.
    - apply wp_bind, wp_modSM, wp_modSM. settle P.
    - settle P.
      destruct (mLastFirstVertex (vertexCache (sm s))) as [v|]; [|discriminate].
      cbn in E. unfold neZ in E. apply negb_false_iff, Z.eqb_eq in E. congruence. }
  clear s P. intros _ s P.
  (* the vertex array *)
  apply wp_bind. apply (wp_mono _ (fun _ s' => prepared 6 s')).
  { apply wp_try. intros _ _. exact P. }
  clear s P. intros _ s P.
  (* the index buffer *)
  apply wp_bind. apply (wp_mono _ (fun _ s' => prepared 7 s')).
  { apply wp_when; intros E.
    - eapply wp_mono.
      + apply wp_conj; [apply applyIndexBuffer_clears_flag|].
        apply (wp_framed true SM); [apply framed_applyIndexBuffer|].
        intros a s' F. exact F.
      + cbv beta. intros _ s' [Hi F].
        pose proof (prepared_keeps 6 s s' P (frame_keeps _ s s' F)) as P'.
        settle P'.
    - settle P. congruence. }
  clear s P. intros _ s P.
  (* the draw mode *)
  apply wp_bind, wp_getSM.
  apply wp_bind. apply (wp_mono _ (fun _ s' => prepared 8 s')).
  { apply wp_when; intros E.
    - apply wp_bind, wp_modSM, wp_bind, wp_modSM, wp_bind, wp_getSM.
      apply wp_when; intros E'.
      + apply wp_bind, wp_modSM, wp_modSM. settle P.
      + settle P.
    - settle P. unfold neZ in E. apply negb_false_iff, Z.eqb_eq in E. exact E. }
  clear s P. intros _ s P.
  (* the snapshot *)
  apply wp_bind, wp_getSM, wp_bind, wp_modSM, wp_ret.
  split; [reflexivity|]. exists s. auto.
Qed.

End Prepare.

(** ** What the drain establishes *)

Lemma applyUniforms_cleans slot programD3D (s : St) :
  wp (applyUniforms slot programD3D)
     (fun _ s' => anyShaderUniformsDirty (world s') = false) s.
Proof.
  unfold applyUniforms. cbv zeta.
  repeat (apply wp_bind_any; intros).
  apply wp_modWorld. reflexivity.
Qed.

Lemma syncBlendState_sets_sampleMask mRenderer context framebuffer blendState blendColor
    sampleMask (s : St) :
  wp (syncBlendState mRenderer context framebuffer blendState blendColor sampleMask)
     (fun _ s' => mCurSampleMask (blendCache (sm s')) = sampleMask) s.
Proof.
  unfold syncBlendState. cbv zeta.
  repeat (apply wp_bind_any; intros).
  apply wp_modSM. reflexivity.
Qed.

Lemma allDirtyBits_complete (b : DirtyBitType) : b ∈ allDirtyBits.
Proof. apply list_elem_of_In. destruct b; cbn; tauto. Qed.

Lemma dirtyBitsOf_In (m : BitSet.t) (b : DirtyBitType) :
  BitSet.test m (dirtyBitIndex b) = true -> In b (dirtyBitsOf m).
Proof.
  intros H. apply list_elem_of_In. unfold dirtyBitsOf.
  apply list_elem_of_filter. split; [exact H|apply allDirtyBits_complete].
Qed.

Lemma dirtyBitsOf_none : dirtyBitsOf BitSet.none = [].
Proof. reflexivity. Qed.

Section Establish.

Variables MAX_VERTEX_ATTRIBS RESERVED_CONSTANT_BUFFER_SLOT_DRIVER
          RESERVED_CONSTANT_BUFFER_SLOT_DEFAULT_UNIFORM_BLOCK : nat.

Variable mRenderer : Renderer11.
Variable context : Context.
Variable drawCallParams : DrawCallParams.
Variable sampleMask : Z.

Local Notation sync :=
  (syncDirtyBit MAX_VERTEX_ATTRIBS RESERVED_CONSTANT_BUFFER_SLOT_DRIVER
     RESERVED_CONSTANT_BUFFER_SLOT_DEFAULT_UNIFORM_BLOCK mRenderer context
     drawCallParams sampleMask).

(** what one synchroniser establishes and the others keep holds after a
    drain that ran it *)
Lemma drain_establishes (E : St -> Prop) (dirtyBit : DirtyBitType)
    (l : list DirtyBitType) :
  (forall s s', frame false sampleMask s s' -> E s -> E s') ->
  (forall s, wp (sync dirtyBit) (fun _ s' => E s') s) ->
  In dirtyBit l ->
  forall s, mInternalDirtyBits (sm s) = BitSet.none ->
            wp (forM_ l sync) (fun _ s' => E s') s.
Proof.
  intros Hstable Hest. induction l as [|x l IH]; intros Hin s Hb [] Hres; [destruct Hin|].
  cbn [forM_] in Hres |- *. rewrite run_bind in Hres |- *.
  destruct (syncDirtyBit_drained MAX_VERTEX_ATTRIBS RESERVED_CONSTANT_BUFFER_SLOT_DRIVER
              RESERVED_CONSTANT_BUFFER_SLOT_DEFAULT_UNIFORM_BLOCK mRenderer context
              drawCallParams sampleMask x s Hb) as [_ Hb1].
  pose proof (Hest s) as Hx.
  destruct (sync x s) as [[[[]|e] s1] c1] eqn:Hrun; [|discriminate].
  cbn in Hb1.
  destruct (drain_drained MAX_VERTEX_ATTRIBS RESERVED_CONSTANT_BUFFER_SLOT_DRIVER
              RESERVED_CONSTANT_BUFFER_SLOT_DEFAULT_UNIFORM_BLOCK mRenderer context
              drawCallParams sampleMask l s1 Hb1) as [F _].
  pose proof (IH) as IH'.
  destruct (forM_ l sync s1) as [[r2 s2] c2] eqn:Hrest. cbn in Hres, F |- *. subst r2.
  destruct Hin as [<- | Hin].
  - apply (Hstable s1 s2 F).
    unfold wp in Hx. rewrite Hrun in Hx. exact (Hx tt eq_refl).
  - specialize (IH' Hin s1 Hb1 tt). rewrite Hrest in IH'. exact (IH' eq_refl).
Qed.

End Establish.

(** ** After a pass, and the pass after it *)

Section Passes.

Variables MAX_VERTEX_ATTRIBS RESERVED_CONSTANT_BUFFER_SLOT_DRIVER
          RESERVED_CONSTANT_BUFFER_SLOT_DEFAULT_UNIFORM_BLOCK : nat.

Variable mRenderer : Renderer11.
Variable context : Context.
Variable drawCallParams : DrawCallParams.

Local Notation pass :=
  (updateState MAX_VERTEX_ATTRIBS RESERVED_CONSTANT_BUFFER_SLOT_DRIVER
     RESERVED_CONSTANT_BUFFER_SLOT_DEFAULT_UNIFORM_BLOCK mRenderer context
     drawCallParams).

Local Notation sync :=
  (syncDirtyBit MAX_VERTEX_ATTRIBS RESERVED_CONSTANT_BUFFER_SLOT_DRIVER
     RESERVED_CONSTANT_BUFFER_SLOT_DEFAULT_UNIFORM_BLOCK mRenderer context
     drawCallParams).

Local Notation SM := (drawSampleMask mRenderer context).

Lemma updateState_quiescent (s : St) :
  result (pass s) = NoError tt -> quiescent mRenderer context drawCallParams (state (pass s)).
Proof.
  unfold updateState. rewrite run_bind. intros Hres.
  pose proof (updateState_prepare_post mRenderer context drawCallParams s) as Hpost.
  unfold wp in Hpost.
  destruct (updateState_prepare mRenderer context drawCallParams s)
    as [[[[mask copy]|e] s0'] c0]; [|discriminate].
  destruct (Hpost _ eq_refl) as (Hmask & s0 & P & Hcopy & Hs0). cbn in Hmask, Hcopy, Hs0.
  subst mask copy. clear Hpost.
  assert (mInternalDirtyBits (sm s0') = BitSet.none) as Hb by (subst s0'; reflexivity).
  destruct (drain_drained MAX_VERTEX_ATTRIBS RESERVED_CONSTANT_BUFFER_SLOT_DRIVER
              RESERVED_CONSTANT_BUFFER_SLOT_DEFAULT_UNIFORM_BLOCK mRenderer context
              drawCallParams SM (dirtyBitsOf (mInternalDirtyBits (sm s0))) s0' Hb)
    as [F Hb1].
  (* the uniforms *)
  assert (anyShaderUniformsDirty
            (world (state (forM_ (dirtyBitsOf (mInternalDirtyBits (sm s0))) (sync SM) s0')))
          = false) as Hu.
  { destruct (anyShaderUniformsDirty (world s0)) eqn:Hd.
    - pose proof (drain_establishes MAX_VERTEX_ATTRIBS RESERVED_CONSTANT_BUFFER_SLOT_DRIVER
                    RESERVED_CONSTANT_BUFFER_SLOT_DEFAULT_UNIFORM_BLOCK mRenderer context
                    drawCallParams SM
                    (fun s => anyShaderUniformsDirty (world s) = false)
                    DIRTY_BIT_PROGRAM_UNIFORMS
                    (dirtyBitsOf (mInternalDirtyBits (sm s0)))) as Hest.
      unfold wp in Hest.
      destruct (forM_ _ (sync SM) s0') as [[r s1] c1] eqn:Hrun. cbn in Hres.
      subst r. rewrite <- Hrun.
      apply (Hest) with (a := tt).
      + intros x y [_ _ _ _ _ _ _ Fu _] Hx.
        destruct (anyShaderUniformsDirty (world y)); [|reflexivity].
        rewrite Fu in Hx by reflexivity. discriminate.
      + intros x. apply applyUniforms_cleans.
      + apply dirtyBitsOf_In. apply (pr_uniforms _ _ _ _ _ P); [lia|exact Hd].
      + exact Hb.
      + rewrite Hrun. reflexivity.
    - destruct (anyShaderUniformsDirty (world (state _))) eqn:Hd'; [|reflexivity].
      apply (frame_uniforms _ _ _ _ F) in Hd'. subst s0'. cbn in Hd'. congruence. }
  (* the sample mask *)
  assert (mCurSampleMask
            (blendCache
               (sm (state (forM_ (dirtyBitsOf (mInternalDirtyBits (sm s0))) (sync SM) s0'))))
          = SM) as Hm.
  { destruct (decide (mCurSampleMask (blendCache (sm s0)) = SM)) as [Heq|Hne].
    - destruct (frame_sampleMask _ _ _ _ F) as [Fm|Fm]; [|exact Fm].
      rewrite Fm. subst s0'. exact Heq.
    - pose proof (drain_establishes MAX_VERTEX_ATTRIBS RESERVED_CONSTANT_BUFFER_SLOT_DRIVER
                    RESERVED_CONSTANT_BUFFER_SLOT_DEFAULT_UNIFORM_BLOCK mRenderer context
                    drawCallParams SM
                    (fun s => mCurSampleMask (blendCache (sm s)) = SM)
                    DIRTY_BIT_BLEND_STATE
                    (dirtyBitsOf (mInternalDirtyBits (sm s0)))) as Hest.
      unfold wp in Hest.
      destruct (forM_ _ (sync SM) s0') as [[r s1] c1] eqn:Hrun. cbn in Hres.
      subst r. rewrite <- Hrun.
      apply (Hest) with (a := tt).
      + intros x y [_ _ _ _ _ _ _ _ Fm] Hx.
        destruct Fm as [Fm|Fm]; congruence.
      + intros x. apply syncBlendState_sets_sampleMask.
      + apply dirtyBitsOf_In. apply (pr_sampleMask _ _ _ _ _ P); [lia|exact Hne].
      + exact Hb.
      + rewrite Hrun. reflexivity. }
  destruct (forM_ _ (sync SM) s0') as [[r s1] c1]. cbn in Hres, F, Hb1, Hu, Hm |- *.
  destruct F as [_ F2 F3 F4 F5 F6 F7 _ _]. subst s0'. cbn in F2, F3, F4, F5, F6, F7.
  destruct P as [P1 P2 _ P4 _ P6 P7 P8].
  constructor.
  - exact Hb1.
  - rewrite F2. apply P1. lia.
  - rewrite F4. apply P2. lia.
  - exact Hu.
  - rewrite F3. apply P4. lia.
  - exact Hm.
  - rewrite F5. apply P6. lia.
  - intros Hde. destruct (mIndexBufferIsDirty (indexCache (sm s1))) eqn:Hi; [|reflexivity].
    pose proof (F7 eq_refl) as Hi0. rewrite P7 in Hi0 by (lia || exact Hde). discriminate.
  - rewrite F6. apply P8. lia.
Qed.

Lemma processFramebufferInvalidation_clean (m : StateManager11) :
  mRenderTargetIsDirty (flags m) = false ->
  processFramebufferInvalidation mRenderer context m = m.
Proof. intros H. unfold processFramebufferInvalidation. rewrite H. reflexivity. Qed.

Lemma applyIndexBuffer_clean (s : St) :
  mIndexBufferIsDirty (indexCache (sm s)) = false ->
  applyIndexBuffer mRenderer context drawCallParams s = (NoError tt, s, []).
Proof. intros H. unfold applyIndexBuffer. rewrite bind_getSM, H. reflexivity. Qed.

Lemma when_applyIndexBuffer_clean (b : bool) (s : St) :
  (b = true -> mIndexBufferIsDirty (indexCache (sm s)) = false) ->
  when b (applyIndexBuffer mRenderer context drawCallParams) s = (NoError tt, s, []).
Proof.
  intros H. destruct b; [|reflexivity]. apply applyIndexBuffer_clean, H. reflexivity.
Qed.

Lemma bind_known {A B} (m : M St A) (k : A -> M St B) (s s1 : St) (a : A) :
  m s = (NoError a, s1, []) -> (m ≫= k) s = k a s1.
Proof. intros H. rewrite run_bind, H. destruct (k a s1) as [[r s2] c]. reflexivity. Qed.

(** in a quiescent state the pass finds nothing to do *)
Lemma quiescent_pass_calls (s : St) :
  quiescent mRenderer context drawCallParams s -> calls (pass s) = [].
Proof.
  intros [Q1 Q2 Q3 Q4 Q5 Q6 Q7 Q8 Q9]. destruct s as [m w]. cbn in *.
  unfold updateState, updateState_prepare. cbv zeta.
  rewrite run_bind.
  rewrite bind_modSM. cbn [sm world].
  rewrite (processFramebufferInvalidation_clean m Q2).
  rewrite (bind_known updateSamplerMapping _ _
             {| sm := m; world := set_mDirtySamplerMapping false w |} false)
    by (unfold updateSamplerMapping; rewrite bind_getWorld, bind_modWorld; cbn;
        rewrite Q3; reflexivity).
  rewrite (bind_known (when false _) _ _ _ tt) by reflexivity.
  rewrite bind_getWorld. cbn [sm world].
  assert (anyShaderUniformsDirty (set_mDirtySamplerMapping false w) = false) as ->
    by exact Q4.
  rewrite (bind_known (when false _) _ _ _ tt) by reflexivity.
  rewrite bind_getSM. cbn [sm world]. rewrite Q5.
  rewrite (bind_known (when false _) _ _ _ tt) by reflexivity.
  destruct (markAttachmentsDirty _) as [e|]; [rewrite bind_try_error; reflexivity|].
  rewrite bind_ret, bind_getSM. cbn [sm world]. rewrite Q6.
  fold (drawSampleMask mRenderer context).
  assert (neZ SM SM = false) as -> by (unfold neZ; rewrite Z.eqb_refl; reflexivity).
  rewrite (bind_known (when false _) _ _ _ tt) by reflexivity.
  rewrite bind_getSM. cbn [sm world]. rewrite Q7. cbn [valid value_or negb orb].
  assert (neZ (dc_firstVertex drawCallParams) (dc_firstVertex drawCallParams) = false)
    as -> by (unfold neZ; rewrite Z.eqb_refl; reflexivity).
  rewrite (bind_known (when false _) _ _ _ tt) by reflexivity.
  destruct (syncStateForDraw _ _) as [[]|e]; [|rewrite bind_try_error; reflexivity].
  rewrite bind_try_ok.
  rewrite (bind_known _ _ _ _ tt
             (when_applyIndexBuffer_clean (dc_isDrawElements drawCallParams)
                {| sm := m; world := set_mDirtySamplerMapping false w |} Q8)).
  rewrite bind_getSM. cbn [sm world]. rewrite Q9.
  assert (neZ (dc_mode drawCallParams) (dc_mode drawCallParams) = false)
    as -> by (unfold neZ; rewrite Z.eqb_refl; reflexivity).
  rewrite (bind_known (when false _) _ _ _ tt) by reflexivity.
  rewrite bind_getSM, bind_modSM, run_ret. cbn [sm world]. rewrite Q1.
  cbv beta iota. rewrite dirtyBitsOf_none. reflexivity.
Qed.

End Passes.

(* ================================================================== *)
(** * The drain and the second pass                                      *)
(* ================================================================== *)

(** C5: once [updateState] has taken the snapshot of the internal dirty
    bits and cleared the set, the set is empty, it is empty again after any
    number of the synchronisers of the drain, whatever they return, and it
    is empty when [updateState] returns: the assertion at the end of the
    pass holds.  ([syncProgram] is the one synchroniser that touches the set
    on the way: its shader setters set [DIRTY_BIT_SHADERS], and it clears
    that bit before it returns.) *)
Theorem updateState_drain_keeps_dirty_bits_empty
    (MAX_VERTEX_ATTRIBS RESERVED_CONSTANT_BUFFER_SLOT_DRIVER
       RESERVED_CONSTANT_BUFFER_SLOT_DEFAULT_UNIFORM_BLOCK : nat)
    (mRenderer : Renderer11) (context : Context) (drawCallParams : DrawCallParams)
    (s : St) (sampleMask : Z) (dirtyBitsCopy : BitSet.t) :
  let prepared := updateState_prepare mRenderer context drawCallParams s in
  let sync :=
    syncDirtyBit MAX_VERTEX_ATTRIBS RESERVED_CONSTANT_BUFFER_SLOT_DRIVER
      RESERVED_CONSTANT_BUFFER_SLOT_DEFAULT_UNIFORM_BLOCK mRenderer context
      drawCallParams sampleMask in
  result prepared = NoError (sampleMask, dirtyBitsCopy) ->
  mInternalDirtyBits (sm (state prepared)) = BitSet.none
  /\ (forall done,
        done `prefix_of` dirtyBitsOf dirtyBitsCopy ->
        mInternalDirtyBits (sm (state (forM_ done sync (state prepared)))) = BitSet.none)
  /\ mInternalDirtyBits
       (sm (state (updateState MAX_VERTEX_ATTRIBS RESERVED_CONSTANT_BUFFER_SLOT_DRIVER
                     RESERVED_CONSTANT_BUFFER_SLOT_DEFAULT_UNIFORM_BLOCK mRenderer
                     context drawCallParams s)))
     = BitSet.none.
Proof.
  intros prepared sync Hres. subst sync.
  assert (mInternalDirtyBits (sm (state prepared)) = BitSet.none) as Hb.
  { destruct (updateState_prepare_post mRenderer context drawCallParams s _ Hres)
      as (_ & s0 & _ & _ & Hs0). fold prepared in Hs0. rewrite Hs0. reflexivity. }
  split; [exact Hb|]. split.
  - intros done _.
    apply (drain_drained MAX_VERTEX_ATTRIBS RESERVED_CONSTANT_BUFFER_SLOT_DRIVER
             RESERVED_CONSTANT_BUFFER_SLOT_DEFAULT_UNIFORM_BLOCK mRenderer context
             drawCallParams sampleMask done _ Hb).
  - unfold updateState. rewrite run_bind. fold prepared.
    destruct prepared as [[r s0] c0]. cbn in Hres, Hb. subst r. cbv beta iota.
    pose proof (drain_drained MAX_VERTEX_ATTRIBS RESERVED_CONSTANT_BUFFER_SLOT_DRIVER
                  RESERVED_CONSTANT_BUFFER_SLOT_DEFAULT_UNIFORM_BLOCK mRenderer context
                  drawCallParams sampleMask (dirtyBitsOf dirtyBitsCopy) s0 Hb) as [_ H].
    destruct (forM_ _ _ s0) as [[r1 s1] c1]. exact H.
Qed.

Lemma updateState_drain_keeps_dirty_bits_empty_witness :
  let prepared :=
    updateState_prepare Sample.renderer PassExample.context Sample.drawTriangles
      Sample.fresh in
  let sync :=
    syncDirtyBit Sample.MAX_VERTEX_ATTRIBS Sample.SLOT_DRIVER
      Sample.SLOT_DEFAULT_UNIFORM_BLOCK Sample.renderer PassExample.context
      Sample.drawTriangles 4294967295 in
  result prepared = NoError (4294967295%Z, 32767%Z)
  /\ mInternalDirtyBits (sm (state prepared)) = BitSet.none
  /\ (forall done,
        done `prefix_of` dirtyBitsOf 32767%Z ->
        mInternalDirtyBits (sm (state (forM_ done sync (state prepared)))) = BitSet.none)
  /\ mInternalDirtyBits
       (sm (state (Sample.updateState PassExample.context Sample.drawTriangles
                     Sample.fresh)))
     = BitSet.none.
Proof.
  split; [vm_compute; reflexivity|].
  apply (updateState_drain_keeps_dirty_bits_empty Sample.MAX_VERTEX_ATTRIBS
           Sample.SLOT_DRIVER Sample.SLOT_DEFAULT_UNIFORM_BLOCK Sample.renderer
           PassExample.context Sample.drawTriangles Sample.fresh
           4294967295%Z 32767%Z).
  vm_compute. reflexivity.
Defined.

(** C1: when [updateState] has succeeded, calling it again in the state
    it left, for the same context and the same draw parameters, issues no
    call at all, so no device binding call: the first pass leaves nothing
    dirty and the cached members agree with the draw. *)
Theorem updateState_second_pass_issues_no_call
    (MAX_VERTEX_ATTRIBS RESERVED_CONSTANT_BUFFER_SLOT_DRIVER
       RESERVED_CONSTANT_BUFFER_SLOT_DEFAULT_UNIFORM_BLOCK : nat)
    (mRenderer : Renderer11) (context : Context) (drawCallParams : DrawCallParams)
    (s : St) :
  let pass :=
    updateState MAX_VERTEX_ATTRIBS RESERVED_CONSTANT_BUFFER_SLOT_DRIVER
      RESERVED_CONSTANT_BUFFER_SLOT_DEFAULT_UNIFORM_BLOCK mRenderer context
      drawCallParams in
  result (pass s) = NoError tt ->
  quiescent mRenderer context drawCallParams (state (pass s))
  /\ calls (pass (state (pass s))) = []
  /\ filter (fun c => isDeviceBindingCall c = true) (calls (pass (state (pass s)))) = [].
Proof.
  intros pass Hres.
  pose proof (updateState_quiescent MAX_VERTEX_ATTRIBS RESERVED_CONSTANT_BUFFER_SLOT_DRIVER
                RESERVED_CONSTANT_BUFFER_SLOT_DEFAULT_UNIFORM_BLOCK mRenderer context
                drawCallParams s Hres) as Hq.
  pose proof (quiescent_pass_calls MAX_VERTEX_ATTRIBS RESERVED_CONSTANT_BUFFER_SLOT_DRIVER
                RESERVED_CONSTANT_BUFFER_SLOT_DEFAULT_UNIFORM_BLOCK mRenderer context
                drawCallParams _ Hq) as Hc.
  split; [exact Hq|]. split; [exact Hc|].
  unfold pass. rewrite Hc. reflexivity.
Qed.

Lemma updateState_second_pass_issues_no_call_witness :
  let pass := Sample.updateState PassExample.context Sample.drawTriangles in
  result (pass Sample.fresh) = NoError tt
  /\ length (calls (pass Sample.fresh)) = 28
  /\ quiescent Sample.renderer PassExample.context Sample.drawTriangles
       (state (pass Sample.fresh))
  /\ calls (pass (state (pass Sample.fresh))) = []
  /\ filter (fun c => isDeviceBindingCall c = true)
       (calls (pass (state (pass Sample.fresh)))) = [].
Proof.
  split; [vm_compute; reflexivity|].
  split; [vm_compute; reflexivity|].
  apply (updateState_second_pass_issues_no_call Sample.MAX_VERTEX_ATTRIBS
           Sample.SLOT_DRIVER Sample.SLOT_DEFAULT_UNIFORM_BLOCK Sample.renderer
           PassExample.context Sample.drawTriangles Sample.fresh).
  vm_compute. reflexivity.
Defined.

Lemma clearSRVs_minimal_clear_range_witness :
  let cache := getSRVCache Fragment (viewCaches (sm ClearExample.bound)) in
  Forall (bindsBelow 4) ClearExample.binds
  /\ calls (clearSRVs Fragment 0 8 ClearExample.bound)
     = [XSSetShaderResources Fragment 0 4 [0%Z; 0%Z; 0%Z; 0%Z]]
  /\ Nat.min 8 (ViewCache.highestUsed cache) <= 4.
Proof.
  assert (Forall (bindsBelow 4) ClearExample.binds) as Hbinds
    by (repeat constructor; cbn; lia).
  split; [exact Hbinds|].
  destruct (clearSRVs_minimal_clear_range Fragment 0 8 ClearExample.bound) as [Hcalls Hstop].
  split.
  - rewrite Hcalls. vm_compute. reflexivity.
  - apply (Hstop 8 ClearExample.binds 4); [reflexivity|exact Hbinds].
Defined.

Lemma syncState_dirty_cascade_witness :
  let st' :=
    syncState Sample.MAX_VERTEX_ATTRIBS Sample.renderer CascadeExample.context
      CascadeExample.notifications CascadeExample.synced in
  (internalBit CascadeExample.synced DIRTY_BIT_RASTERIZER_STATE = false
   /\ internalBit CascadeExample.synced DIRTY_BIT_SHADERS = false
   /\ indexBufferDirty CascadeExample.synced = false)
  /\ (internalBit st' DIRTY_BIT_RASTERIZER_STATE = true
      /\ internalBit st' DIRTY_BIT_SHADERS = true)
  /\ (internalBit st' DIRTY_BIT_VERTEX_BUFFERS_AND_INPUT_LAYOUT = true
      /\ internalBit st' DIRTY_BIT_CURRENT_VALUE_ATTRIBS = true
      /\ (forall i, i < Sample.MAX_VERTEX_ATTRIBS -> currentValueDirty st' i = true)
      /\ indexBufferDirty st' = true).
Proof.
  split; [vm_compute; auto|].
  destruct (syncState_dirty_cascade Sample.MAX_VERTEX_ATTRIBS Sample.renderer
              CascadeExample.context CascadeExample.notifications CascadeExample.synced)
    as [Hdiscard Hbinding].
  split.
  - apply Hdiscard; [left; reflexivity|vm_compute; discriminate].
  - apply Hbinding. right. left. reflexivity.
Defined.

(* ================================================================== *)
(** * The view cache: bounds, binds, lookups                             *)
(* ================================================================== *)

Section ViewCacheMore.
Context {DescType : Type} (zero : DescType).
Import ViewCache.

Lemma update_size (c : t DescType) slot v : size (update c slot v) = size c.
Proof.
  unfold size, update. destruct (mCurrentViews c !! slot); [|reflexivity].
  destruct v; cbn; apply length_insert.
Qed.

Lemma clear_size (c : t DescType) : size (clear zero c) = size c.
Proof.
  unfold size, clear. destruct (mCurrentViews c) eqn:E; [rewrite E; reflexivity|].
  cbn [mCurrentViews]. apply length_replicate.
Qed.

Lemma update_highestUsed_size (c : t DescType) slot v :
  highestUsed c <= size c -> highestUsed (update c slot v) <= size c.
Proof.
  unfold highestUsed, size, update. intros H.
  destruct (mCurrentViews c !! slot) eqn:E; [|exact H].
  apply lookup_lt_Some in E.
  destruct v; cbn [mHighestUsedView].
  - lia.
  - destruct (_ =? _)%nat; [|exact H].
    etransitivity; [apply scanDown_le|exact H].
Qed.

Lemma run_size_bound (ops : list (op DescType)) :
  forall c, highestUsed c <= size c ->
            size (run zero c ops) = size c
            /\ highestUsed (run zero c ops) <= size c.
Proof.
  unfold run. induction ops as [|o ops IH]; intros c H; [split; [reflexivity|exact H]|].
  cbn [fold_left].
  assert (size (apply zero c o) = size c) as Hs
    by (destruct o; [apply update_size|apply clear_size]).
  destruct (IH (apply zero c o)) as [IH1 IH2].
  - rewrite Hs. destruct o as [slot v|]; cbn [apply].
    + apply update_highestUsed_size, H.
    + unfold highestUsed, clear. destruct (mCurrentViews c); cbn; [exact H|lia].
  - rewrite IH1, Hs in *. split; [reflexivity|exact IH2].
Qed.


Lemma initialize_tight n : tight (initialize zero n).
Proof.
  split.
  - intros i _ (r & Hr & Hv). cbn in Hr.
    apply lookup_replicate in Hr as [-> _]. apply Hv. reflexivity.
  - cbn. lia.
Qed.

Lemma clear_tight (c : t DescType) : tight (clear zero c) \/ clear zero c = c.
Proof.
  unfold clear. destruct (mCurrentViews c) eqn:E; [right; reflexivity|left].
  split.
  - intros i _ (r & Hr & Hv). cbn [mCurrentViews] in Hr.
    apply lookup_replicate in Hr as [-> _]. apply Hv. reflexivity.
  - cbn. lia.
Qed.

Lemma bind_tight (c : t DescType) slot live :
  tight c -> tight (update c slot (Some live)).
Proof.
  intros [H1 H2]. unfold update.
  destruct (mCurrentViews c !! slot) as [record|] eqn:E; [|split; assumption].
  pose proof (lookup_lt_Some _ _ _ E) as Hlt.
  unfold tight, highestUsed, occupied in *. cbn [mCurrentViews mHighestUsedView].
  split.
  - intros i Hi (r & Hr & Hv).
    rewrite list_lookup_insert_ne in Hr by lia.
    apply (H1 i); [lia|]. exists r. auto.
  - intros _.
    destruct (decide (Nat.max (slot + 1) (mHighestUsedView c) - 1 = slot)) as [Heq|Hne].
    + rewrite Heq. eexists. rewrite list_lookup_insert_eq by exact Hlt.
      split; [reflexivity|]. cbn. discriminate.
    + assert (Nat.max (slot + 1) (mHighestUsedView c) = mHighestUsedView c) as -> by lia.
      destruct H2 as (r & Hr & Hv); [lia|].
      exists r. rewrite list_lookup_insert_ne by lia. auto.
Qed.
End ViewCacheMore.

(** X1.  However a view cache has been used since [initialize(n)], it
    still has [n] slots and [highestUsed()] does not exceed [n]. *)
Theorem ViewCache_highestUsed_within_size {DescType : Type} (zero : DescType) (n : nat)
    (ops : list (ViewCache.op DescType)) :
  let c := ViewCache.run zero (ViewCache.initialize zero n) ops in
  ViewCache.size c = n /\ ViewCache.highestUsed c <= n.
Proof.
  intros c. subst c.
  destruct (run_size_bound zero ops (ViewCache.initialize zero n)) as [H1 H2].
  - cbn. lia.
  - unfold ViewCache.size in *. cbn [ViewCache.initialize ViewCache.mCurrentViews] in *.
    rewrite length_replicate in *. split; assumption.
Qed.

(** X2.  As long as no slot is unbound, that is after binds and clears
    only, no slot at or above [highestUsed()] holds a view, the slot just
    below it does, and [highestUsed()] is zero exactly when no slot holds a
    view. *)
Theorem ViewCache_binds_keep_highestUsed_tight {DescType : Type} (zero : DescType)
    (n : nat) (ops : list (ViewCache.op DescType)) :
  Forall bindOrClear ops ->
  let c := ViewCache.run zero (ViewCache.initialize zero n) ops in
  (forall i, ViewCache.highestUsed c <= i -> ~ ViewCache.occupied c i)
  /\ (0 < ViewCache.highestUsed c ->
      ViewCache.occupied c (ViewCache.highestUsed c - 1))
  /\ (ViewCache.highestUsed c = 0 <-> forall i, ~ ViewCache.occupied c i).
Proof.
  intros Hops c.
  assert (tight c) as [H1 H2].
  { subst c. unfold ViewCache.run.
    generalize (initialize_tight zero n).
    generalize (ViewCache.initialize zero n).
    induction Hops as [|o ops Ho Hops IH]; intros c0 Ht; [exact Ht|].
    cbn [fold_left]. apply IH.
    destruct o as [slot [live|]|]; cbn [ViewCache.apply bindOrClear] in *.
    - apply bind_tight, Ht.
    - destruct Ho.
    - destruct (clear_tight zero c0) as [H|H]; [exact H|rewrite H; exact Ht]. }
  split; [exact H1|]. split; [exact H2|]. split.
  - intros H0 i. apply H1. lia.
  - intros Hnone. destruct (ViewCache.highestUsed c) eqn:E; [reflexivity|].
    exfalso. apply (Hnone (S n0 - 1)). apply H2. lia.
Qed.

Lemma ViewCache_binds_keep_highestUsed_tight_witness :
  let c := ViewCache.run zero_SRV_DESC (ViewCache.initialize zero_SRV_DESC 8)
             ClearExample.binds in
  Forall bindOrClear ClearExample.binds
  /\ ViewCache.highestUsed c = 4
  /\ (forall i, ViewCache.highestUsed c <= i -> ~ ViewCache.occupied c i)
  /\ (0 < ViewCache.highestUsed c ->
      ViewCache.occupied c (ViewCache.highestUsed c - 1))
  /\ (ViewCache.highestUsed c = 0 <-> forall i, ~ ViewCache.occupied c i).
Proof.
  assert (Forall bindOrClear ClearExample.binds) as H by (repeat constructor).
  split; [exact H|]. split; [reflexivity|].
  exact (ViewCache_binds_keep_highestUsed_tight zero_SRV_DESC 8 ClearExample.binds H).
Defined.

(** X3.  [update] and [operator[]] round trip: after binding a view to a
    slot of the cache the record of the slot holds the view's address, its
    resource and its description; after unbinding, the address and the
    resource are null and the description is the stale one; the records of
    the other slots are as before. *)
Theorem ViewCache_update_lookup {DescType : Type} (zero : DescType)
    (c : ViewCache.t DescType) (slot : nat) (v : option (ID3D11View DescType)) :
  slot < ViewCache.size c ->
  ViewCache.at_ zero (ViewCache.update c slot v) slot
  = match v with
    | Some live =>
        {| ViewCache.view := Zpos (view_addr live);
           ViewCache.resource := view_GetResource live;
           ViewCache.desc := view_GetDesc live |}
    | None =>
        {| ViewCache.view := 0; ViewCache.resource := 0;
           ViewCache.desc := ViewCache.desc (ViewCache.at_ zero c slot) |}
    end
  /\ (forall other, other <> slot ->
        ViewCache.at_ zero (ViewCache.update c slot v) other = ViewCache.at_ zero c other).
Proof.
  intros Hlt. unfold ViewCache.size in Hlt.
  destruct (lookup_lt_is_Some_2 _ _ Hlt) as [record Hr].
  unfold ViewCache.at_, ViewCache.update. rewrite Hr. split.
  - destruct v; cbn [ViewCache.mCurrentViews];
      rewrite list_lookup_insert_eq by exact Hlt; reflexivity.
  - intros other Hne.
    destruct v; cbn [ViewCache.mCurrentViews];
      rewrite list_lookup_insert_ne by congruence; reflexivity.
Qed.

Lemma ViewCache_update_lookup_witness :
  let c := ViewCache.run zero_SRV_DESC (ViewCache.initialize zero_SRV_DESC 8)
             ClearExample.binds in
  2 < ViewCache.size c
  /\ ViewCache.view (ViewCache.at_ zero_SRV_DESC (ViewCache.update c 2 None) 2) = 0%Z
  /\ ViewCache.at_ zero_SRV_DESC (ViewCache.update c 2 None) 3
     = ViewCache.at_ zero_SRV_DESC c 3.
Proof.
  cbv zeta.
  assert (2 < ViewCache.size
                (ViewCache.run zero_SRV_DESC (ViewCache.initialize zero_SRV_DESC 8)
                   ClearExample.binds)) as H by (cbn; lia).
  split; [exact H|].
  destruct (ViewCache_update_lookup zero_SRV_DESC _ 2 None H) as [H1 H2].
  split; [rewrite H1; reflexivity|apply H2; discriminate].
Defined.

(* ================================================================== *)
(** * Binding shader resources and render targets                        *)
(* ================================================================== *)



Lemma setShaderResourceInternal_run (t : ShaderType) (slot : nat)
    (srv : option SRVWrapper) (s : St) :
  t <> Geometry ->
  let c := getSRVCache t (viewCaches (sm s)) in
  setShaderResourceInternal t slot srv s
  = if neZ (ViewCache.view (ViewCache.at_ zero_SRV_DESC c slot)) (wrapperAddress srv)
    then (NoError tt,
          {| sm := upd_viewCaches
                     (putSRVCache t
                        (ViewCache.update c slot
                           (match srv with Some w => srv_get w | None => None end)))
                     (sm s);
             world := world s |},
          [XSSetShaderResources t (Z.of_nat slot) 1 [viewAddress srv]])
    else (NoError tt, s, []).
Proof.
  intros Ht c. subst c. unfold setShaderResourceInternal, wrapperAddress, viewAddress. mread.
  destruct (neZ _ _); [|reflexivity].
  mrun. destruct t; try congruence; reflexivity.
Qed.

Lemma getSRVCache_put (t : ShaderType) (c : SRVCache) (v : ViewCaches) :
  getSRVCache t (putSRVCache t c v) = c.
Proof. destruct t; reflexivity. Qed.

Lemma setShaderResource_run (t : ShaderType) (slot : nat)
    (srv : option SRVWrapper) (s : St) :
  t <> Geometry ->
  let c := getSRVCache t (viewCaches (sm s)) in
  setShaderResource t slot srv s
  = if neZ (ViewCache.view (ViewCache.at_ zero_SRV_DESC c slot)) (wrapperAddress srv)
    then (NoError tt,
          {| sm := setDirty DIRTY_BIT_TEXTURE_AND_SAMPLER_STATE
                     (upd_viewCaches
                        (putSRVCache t
                           (ViewCache.update c slot
                              (match srv with Some w => srv_get w | None => None end)))
                        (sm s));
             world := world s |},
          [XSSetShaderResources t (Z.of_nat slot) 1 [viewAddress srv]])
    else (NoError tt,
          {| sm := setDirty DIRTY_BIT_TEXTURE_AND_SAMPLER_STATE (sm s);
             world := world s |}, []).
Proof.
  intros Ht c. subst c. unfold setShaderResource.
  rewrite run_bind, setShaderResourceInternal_run by exact Ht. cbv zeta.
  destruct (neZ _ _); rewrite run_modSM; reflexivity.
Qed.

(** X4.  The filter of redundant binds compares the recorded view with the
    address of the wrapper, not of the view: binding the same resource
    to a slot of the cache a second time issues the device call again,
    unless the first bind was filtered out or the wrapper lives at the
    address of its view; a null bind is never repeated. *)
Theorem setShaderResource_rebind (t : ShaderType) (slot : nat)
    (srv : option SRVWrapper) (s : St) :
  t <> Geometry ->
  slot < ViewCache.size (getSRVCache t (viewCaches (sm s))) ->
  let recorded :=
    ViewCache.view (ViewCache.at_ zero_SRV_DESC (getSRVCache t (viewCaches (sm s))) slot) in
  let once := setShaderResource t slot srv s in
  let twice := setShaderResource t slot srv (state once) in
  calls once
  = (if neZ recorded (wrapperAddress srv)
     then [XSSetShaderResources t (Z.of_nat slot) 1 [viewAddress srv]] else [])
  /\ calls twice
     = (if neZ recorded (wrapperAddress srv) && neZ (viewAddress srv) (wrapperAddress srv)
        then [XSSetShaderResources t (Z.of_nat slot) 1 [viewAddress srv]] else [])
  /\ (srv = None -> calls twice = []).
Proof.
  intros Ht Hlt recorded once twice.
  assert (calls once
          = (if neZ recorded (wrapperAddress srv)
             then [XSSetShaderResources t (Z.of_nat slot) 1 [viewAddress srv]] else [])
          /\ calls twice
             = (if neZ recorded (wrapperAddress srv)
                   && neZ (viewAddress srv) (wrapperAddress srv)
                then [XSSetShaderResources t (Z.of_nat slot) 1 [viewAddress srv]] else []))
    as [H1 H2].
  { subst twice once recorded.
    rewrite (setShaderResource_run t slot srv s Ht). cbv zeta.
    destruct (neZ (ViewCache.view _) _) eqn:E; cbn [state calls fst snd].
    - rewrite setShaderResource_run by exact Ht. cbv zeta. cbn [sm world].
      change (viewCaches (setDirty _ (upd_viewCaches ?f ?m))) with (f (viewCaches m)).
      rewrite getSRVCache_put.
      assert (ViewCache.view
                (ViewCache.at_ zero_SRV_DESC
                   (ViewCache.update (getSRVCache t (viewCaches (sm s))) slot
                      match srv with
                      | Some w => srv_get w
                      | None => None
                      end) slot)
              = viewAddress srv) as ->.
      { unfold ViewCache.size in Hlt.
        destruct (lookup_lt_is_Some_2 _ _ Hlt) as [r Hr].
        unfold ViewCache.at_, ViewCache.update. rewrite Hr.
        unfold viewAddress.
        destruct (match srv with Some w => srv_get w | None => None end);
          cbn [ViewCache.mCurrentViews];
          rewrite list_lookup_insert_eq by exact Hlt; reflexivity. }
      split; [reflexivity|]. cbn [andb].
      destruct (neZ (viewAddress srv) _); reflexivity.
    - rewrite setShaderResource_run by exact Ht. cbv zeta. cbn [sm world].
      change (viewCaches (setDirty _ ?m)) with (viewCaches m).
      rewrite E. split; reflexivity. }
  split; [exact H1|]. split; [exact H2|].
  intros ->. rewrite H2. cbn. rewrite andb_false_r. reflexivity.
Qed.

Lemma setShaderResource_rebind_witness :
  let w := Some RenderTargetExample.wrapper in
  Fragment <> Geometry
  /\ 0 < ViewCache.size (getSRVCache Fragment (viewCaches (sm Sample.fresh)))
  /\ calls (setShaderResource Fragment 0 w
              (state (setShaderResource Fragment 0 w Sample.fresh)))
     = [XSSetShaderResources Fragment 0 1 [0x7200%Z]].
Proof.
  cbv zeta.
  assert (Fragment <> Geometry) as H1 by discriminate.
  assert (0 < ViewCache.size (getSRVCache Fragment (viewCaches (sm Sample.fresh)))) as H2
    by (vm_compute; lia).
  split; [exact H1|]. split; [exact H2|].
  exact (proj1 (proj2 (setShaderResource_rebind Fragment 0
                         (Some RenderTargetExample.wrapper) Sample.fresh H1 H2))).
Defined.


Lemma conflictsWith_view resource index (r : SRVRecord) :
  conflictsWith resource index r = true -> ViewCache.view r <> 0%Z.
Proof.
  unfold conflictsWith, neZ. intros HP.
  apply andb_true_iff in HP as [HP _]. apply andb_true_iff in HP as [HP _].
  apply negb_true_iff, Z.eqb_neq in HP. exact HP.
Qed.

Lemma unsetConflictingSRVs_loop_found (t : ShaderType) (resource : Z)
    (index : option ImageIndex) (slots : list nat) :
  t = Vertex \/ t = Fragment ->
  forall (foundOne : bool) (s : St),
    result (unsetConflictingSRVs_loop t resource index slots foundOne s)
    = NoError (foundOne
               || existsb (fun S =>
                    conflictsWith resource index
                      (ViewCache.at_ zero_SRV_DESC (getSRVCache t (viewCaches (sm s))) S))
                    slots).
Proof.
  intros Ht. induction slots as [|slot slots IH]; intros foundOne s;
    cbn [unsetConflictingSRVs_loop existsb].
  - rewrite run_ret, orb_false_r. reflexivity.
  - mread.
    destruct (conflictsWith resource index _) eqn:HP.
    + rewrite run_bind.
      rewrite at_stageViews in HP.
      destruct (stageViews t s !! slot) as [r|] eqn:Hr; cbn [default from_option id] in HP;
        [|discriminate].
      destruct (setShaderResourceInternal_unbind t slot s r Ht Hr
                  (conflictsWith_view _ _ _ HP)) as (Hres & _).
      destruct (setShaderResourceInternal t slot None s) as [[r1 s1] c1].
      cbn in Hres. subst r1.
      specialize (IH true s1).
      destruct (unsetConflictingSRVs_loop t resource index slots true s1) as [[r2 s2] c2].
      cbn in IH |- *. rewrite IH. rewrite orb_true_r. reflexivity.
    + rewrite IH. reflexivity.
Qed.

Lemma existsb_slots {A} (f : A -> bool) (d : A) (l : list A) :
  f d = false ->
  existsb (fun S => f (default d (l !! S))) (seq 0 (length l)) = existsb f l.
Proof.
  intros Hd. apply Bool.eq_iff_eq_true. rewrite !existsb_exists. split.
  - intros (S & HS & Hf). apply in_seq in HS.
    destruct (l !! S) as [r|] eqn:Hr; cbn in Hf; [|congruence].
    exists r. split; [|exact Hf]. apply list_elem_of_In. eapply list_elem_of_lookup_2, Hr.
  - intros (r & Hin & Hf). apply list_elem_of_In, list_elem_of_lookup_1 in Hin as [S HS].
    exists S. split.
    + apply in_seq. apply lookup_lt_Some in HS. lia.
    + rewrite HS. exact Hf.
Qed.

Lemma unsetConflictingSRVs_found (t : ShaderType) (resource : Z) (s : St) :
  t = Vertex \/ t = Fragment ->
  result (unsetConflictingSRVs t resource None s) = NoError (viewConflicts t resource s).
Proof.
  intros Ht. unfold unsetConflictingSRVs. mread.
  rewrite unsetConflictingSRVs_loop_found by exact Ht. cbn [orb].
  unfold viewConflicts, ViewCache.at_, ViewCache.size, stageViews.
  rewrite existsb_slots; reflexivity.
Qed.

Lemma unsetConflictingSRVs_loop_none (t : ShaderType) (resource : Z)
    (index : option ImageIndex) (slots : list nat) (foundOne : bool) (s : St) :
  existsb (fun S =>
    conflictsWith resource index
      (ViewCache.at_ zero_SRV_DESC (getSRVCache t (viewCaches (sm s))) S)) slots = false ->
  unsetConflictingSRVs_loop t resource index slots foundOne s = (NoError foundOne, s, []).
Proof.
  induction slots as [|slot slots IH]; cbn [unsetConflictingSRVs_loop existsb].
  - reflexivity.
  - intros H. apply orb_false_iff in H as [H1 H2]. mread. rewrite H1. apply IH, H2.
Qed.

Lemma unsetConflictingSRVs_none (t : ShaderType) (resource : Z) (s : St) :
  viewConflicts t resource s = false ->
  unsetConflictingSRVs t resource None s = (NoError false, s, []).
Proof.
  intros H. unfold unsetConflictingSRVs. mread.
  apply unsetConflictingSRVs_loop_none.
  unfold viewConflicts, stageViews in H. unfold ViewCache.at_, ViewCache.size.
  rewrite existsb_slots; [exact H|reflexivity].
Qed.

Lemma unbound_ext_in (PV PF PV' PF' : SRVRecord -> bool) s s' cs :
  (forall r, r ∈ stageViews Vertex s -> PV r = PV' r) ->
  (forall r, r ∈ stageViews Fragment s -> PF r = PF' r) ->
  unbound PV PF s s' cs -> unbound PV' PF' s s' cs.
Proof.
  intros HV HF (H1 & H2 & H3).
  assert (forall t r, t = Vertex \/ t = Fragment -> r ∈ stageViews t s ->
                      match t with Vertex => PV | _ => PF end r
                      = match t with Vertex => PV' | _ => PF' end r) as HP.
  { intros t r [-> | ->]; auto. }
  repeat split.
  - intros t Ht j. rewrite H1 by assumption.
    destruct (stageViews t s !! j) as [r|] eqn:Hr; cbn; [|reflexivity].
    rewrite HP; [reflexivity|exact Ht|]. eapply list_elem_of_lookup_2, Hr.
  - intros c Hc. destruct (H2 c Hc) as (t & S & r & Ht & -> & Hr & HPr).
    exists t, S, r. rewrite <- HP; auto. eapply list_elem_of_lookup_2, Hr.
  - intros t S r Ht Hr HPr. apply (H3 t S r Ht Hr). rewrite HP; auto.
    eapply list_elem_of_lookup_2, Hr.
Qed.

(** what [unsetConflictingView] unbinds: the vertex-stage views of the
    resource, and the pixel-stage ones when there is no vertex-stage one *)
Lemma unsetConflictingView_spec (view : ID3D11View unit) (s : St) :
  let resource := GetViewResource view in
  let o := unsetConflictingView view s in
  result o = NoError (viewConflicts Vertex resource s || viewConflicts Fragment resource s)
  /\ unbound (conflictsWith resource None)
             (fun r => negb (viewConflicts Vertex resource s) && conflictsWith resource None r)
             s (state o) (calls o)
  /\ mInternalDirtyBits (sm (state o)) = mInternalDirtyBits (sm s).
Proof.
  intros resource o. subst o. unfold unsetConflictingView. fold resource.
  destruct (viewConflicts Vertex resource s) eqn:EV; cbn [negb andb orb].
  - rewrite run_bind.
    pose proof (unsetConflictingSRVs_found Vertex resource s (or_introl eq_refl)) as Hr.
    pose proof (unsetConflictingSRVs_unbinds_vertex resource None s) as (b & _ & Hu).
    pose proof (frame_bits _ _ _ _ (framed_unsetConflictingSRVs 0%Z Vertex resource None s))
      as Hb.
    destruct (unsetConflictingSRVs Vertex resource None s) as [[r1 s1] c1].
    cbn in Hr, Hu, Hb. rewrite Hr, EV. rewrite run_ret. cbn. rewrite app_nil_r.
    auto.
  - rewrite run_bind, (unsetConflictingSRVs_none Vertex resource s EV).
    pose proof (unsetConflictingSRVs_found Fragment resource s (or_intror eq_refl)) as Hr.
    pose proof (unsetConflictingSRVs_unbinds_fragment resource None s) as (b & _ & Hu).
    pose proof (frame_bits _ _ _ _ (framed_unsetConflictingSRVs 0%Z Fragment resource None s))
      as Hb.
    destruct (unsetConflictingSRVs Fragment resource None s) as [[r1 s1] c1].
    cbn in Hr, Hu, Hb. cbn. split; [exact Hr|]. split; [|exact Hb].
    revert Hu. apply unbound_ext_in; [|reflexivity].
    intros r Hin. symmetry. apply not_true_is_false. intros HP.
    unfold viewConflicts in EV.
    assert (existsb (conflictsWith resource None) (stageViews Vertex s) = true) as E
      by (apply existsb_exists; exists r; split; [apply list_elem_of_In, Hin|exact HP]).
    congruence.
Qed.

Lemma unsetConflictingView_none (view : ID3D11View unit) (s : St) :
  viewConflicts Vertex (GetViewResource view) s = false ->
  viewConflicts Fragment (GetViewResource view) s = false ->
  unsetConflictingView view s = (NoError false, s, []).
Proof.
  intros HV HF. unfold unsetConflictingView.
  rewrite run_bind, (unsetConflictingSRVs_none _ _ _ HV).
  rewrite (unsetConflictingSRVs_none _ _ _ HF). reflexivity.
Qed.


(** X5.  When no slot of the vertex or pixel stage holds a view of the
    resource of the render-target view or of the depth-stencil view,
    [setRenderTarget] makes one device call, [OMSetRenderTargets], and
    changes nothing but the render-target dirty bit, which it sets. *)
Theorem setRenderTarget_without_conflict (rtv dsv : option (ID3D11View unit)) (s : St) :
  sampled rtv s = false -> sampled dsv s = false ->
  setRenderTarget rtv dsv s
  = (NoError tt,
     {| sm := setDirty DIRTY_BIT_RENDER_TARGET (sm s); world := world s |},
     [OMSetRenderTargets 1 [view_uintptr rtv] (view_uintptr dsv)]).
Proof.
  intros Hr Hd. unfold setRenderTarget.
  assert (match rtv with Some v => unsetConflictingView v | None => ret false end s
          = (NoError false, s, [])) as E1.
  { destruct rtv as [v|]; [|reflexivity]. cbn in Hr. apply orb_false_iff in Hr as [? ?].
    apply unsetConflictingView_none; assumption. }
  assert (match dsv with Some v => unsetConflictingView v | None => ret false end s
          = (NoError false, s, [])) as E2.
  { destruct dsv as [v|]; [|reflexivity]. cbn in Hd. apply orb_false_iff in Hd as [? ?].
    apply unsetConflictingView_none; assumption. }
  rewrite run_bind, E1. rewrite run_bind, E2. mrun. reflexivity.
Qed.

Lemma setRenderTarget_without_conflict_witness :
  sampled (Some RenderTargetExample.rtv) Sample.fresh = false
  /\ sampled None Sample.fresh = false
  /\ calls (setRenderTarget (Some RenderTargetExample.rtv) None Sample.fresh)
     = [OMSetRenderTargets 1 [0x7100%Z] 0].
Proof.
  assert (sampled (Some RenderTargetExample.rtv) Sample.fresh = false) as H1
    by (vm_compute; reflexivity).
  assert (sampled None Sample.fresh = false) as H2 by reflexivity.
  split; [exact H1|]. split; [exact H2|].
  rewrite (setRenderTarget_without_conflict (Some RenderTargetExample.rtv) None
             Sample.fresh H1 H2).
  reflexivity.
Defined.

(** X6.  When a slot holds a view of the resource of the render-target
    view, [setRenderTarget] unbinds the vertex-stage views of that resource,
    and the pixel-stage ones only when there is no vertex-stage one; it
    leaves every other view bound, those of the depth-stencil view's
    resource too; the last call is [OMSetRenderTargets], and the texture
    and the render-target dirty bits are set. *)
Theorem setRenderTarget_resolves_first_conflict (rtv : ID3D11View unit)
    (dsv : option (ID3D11View unit)) (s : St) :
  sampled (Some rtv) s = true ->
  let resource := GetViewResource rtv in
  let o := setRenderTarget (Some rtv) dsv s in
  result o = NoError tt
  /\ (exists cs,
        calls o = cs ++ [OMSetRenderTargets 1 [view_uintptr (Some rtv)] (view_uintptr dsv)]
        /\ unbound (conflictsWith resource None)
                   (fun r => negb (viewConflicts Vertex resource s)
                             && conflictsWith resource None r)
                   s (state o) cs)
  /\ mInternalDirtyBits (sm (state o))
     = BitSet.set (dirtyBitIndex DIRTY_BIT_RENDER_TARGET)
         (BitSet.set (dirtyBitIndex DIRTY_BIT_TEXTURE_AND_SAMPLER_STATE)
            (mInternalDirtyBits (sm s))).
Proof.
  intros Hs resource o. subst o. unfold setRenderTarget. cbn [sampled] in Hs.
  destruct (unsetConflictingView_spec rtv s) as (Hr & Hu & Hb). fold resource in Hr, Hu.
  fold resource in Hs. rewrite Hs in Hr.
  rewrite run_bind.
  destruct (unsetConflictingView rtv s) as [[r1 s1] c1]. cbn in Hr, Hu, Hb. subst r1.
  mrun. cbn. split; [reflexivity|]. split.
  - exists c1. split; [reflexivity|exact Hu].
  - rewrite Hb. reflexivity.
Qed.

Lemma setRenderTarget_resolves_first_conflict_witness :
  let s := RenderTargetExample.sampledTwice in
  let o := setRenderTarget (Some RenderTargetExample.rtv) None s in
  sampled (Some RenderTargetExample.rtv) s = true
  /\ result o = NoError tt
  /\ ViewCache.view <$> stageViews Vertex (state o) !! 0 = Some 0%Z
  /\ ViewCache.view <$> stageViews Fragment (state o) !! 0 = Some 0x7200%Z.
Proof.
  cbv zeta.
  assert (sampled (Some RenderTargetExample.rtv) RenderTargetExample.sampledTwice = true)
    as H by (vm_compute; reflexivity).
  split; [exact H|].
  destruct (setRenderTarget_resolves_first_conflict RenderTargetExample.rtv None
              RenderTargetExample.sampledTwice H) as (Hres & (cs & _ & (Hv & _)) & _).
  split; [exact Hres|]. split.
  - rewrite (Hv Vertex (or_introl eq_refl) 0). vm_compute. reflexivity.
  - rewrite (Hv Fragment (or_intror eq_refl) 0). vm_compute. reflexivity.
Defined.

(* ================================================================== *)
(** * Clearing ranges of views                                           *)
(* ================================================================== *)

Section ClearRange.
Context {DescType : Type}.
Import ViewCache.

Lemma update_None_views (c : t DescType) (slot j : nat) :
  mCurrentViews (update c slot None) !! j
  = if decide (j = slot) then cleared <$> mCurrentViews c !! j else mCurrentViews c !! j.
Proof.
  unfold update. destruct (mCurrentViews c !! slot) as [r|] eqn:Hr.
  - cbn [mCurrentViews]. destruct (decide (j = slot)) as [->|Hne].
    + rewrite list_lookup_insert_eq by (eapply lookup_lt_Some, Hr). rewrite Hr. reflexivity.
    + rewrite list_lookup_insert_ne by congruence. reflexivity.
  - destruct (decide (j = slot)) as [->|Hne]; [rewrite Hr|]; reflexivity.
Qed.

Lemma cleared_idem (x : option (ViewRecord DescType)) :
  cleared <$> (cleared <$> x) = cleared <$> x.
Proof. destruct x; reflexivity. Qed.

Lemma unbind_all_views (l : list nat) : forall (c : t DescType) (j : nat),
  mCurrentViews (fold_left (fun c i => update c i None) l c) !! j
  = if bool_decide (j ∈ l) then cleared <$> mCurrentViews c !! j
    else mCurrentViews c !! j.
Proof.
  induction l as [|i l IH]; intros c j; cbn [fold_left].
  - reflexivity.
  - rewrite IH, update_None_views.
    destruct (decide (j = i)) as [->|Hne].
    + rewrite (bool_decide_eq_true_2 (i ∈ i :: l)) by left.
      destruct (bool_decide (i ∈ l)); [apply cleared_idem|reflexivity].
    + destruct (decide (j ∈ l)) as [Hin|Hin].
      * rewrite !bool_decide_eq_true_2 by (auto; right; auto). reflexivity.
      * rewrite !bool_decide_eq_false_2; auto.
        intros Hx. apply elem_of_cons in Hx as [?|?]; auto.
Qed.
End ClearRange.

Lemma Range_length_make (a b : nat) : Range.length (Range.make a b) = b - a.
Proof.
  unfold Range.length, Range.empty. cbn.
  destruct (Nat.leb_spec b a); lia.
Qed.

Lemma fold_putSRVCache (t : ShaderType) (l : list nat) : forall (m : StateManager11),
  getSRVCache t (viewCaches
    (fold_left (fun a x => upd_viewCaches (fun v =>
                   putSRVCache t (ViewCache.update (getSRVCache t v) x None) v) a) l m))
  = fold_left (fun c x => ViewCache.update c x None) l (getSRVCache t (viewCaches m)).
Proof.
  induction l as [|i l IH]; intros m; cbn [fold_left]; [reflexivity|].
  rewrite IH. f_equal. destruct t; reflexivity.
Qed.

Lemma fold_putSRVCache_other (t t' : ShaderType) (l : list nat) :
  t <> Geometry -> t' <> Geometry -> t' <> t ->
  forall (m : StateManager11),
  getSRVCache t' (viewCaches
    (fold_left (fun a x => upd_viewCaches (fun v =>
                   putSRVCache t (ViewCache.update (getSRVCache t v) x None) v) a) l m))
  = getSRVCache t' (viewCaches m).
Proof.
  intros Ht Ht' Hne. induction l as [|i l IH]; intros m; cbn [fold_left]; [reflexivity|].
  rewrite IH. destruct t, t'; try congruence; reflexivity.
Qed.

(** X7.  After [clearSRVs] the cache of the stage agrees with the device:
    the records of the slots in [[rangeStart, min(rangeEnd, highestUsed))]
    have a null view and a null resource, every other record of the stage
    and the caches of the other stages are as before. *)
Theorem clearSRVs_clears_cache_range (shaderType : ShaderType)
    (rangeStart rangeEnd : nat) (s : St) :
  shaderType <> Geometry ->
  let stop := Nat.min rangeEnd
                (ViewCache.highestUsed (getSRVCache shaderType (viewCaches (sm s)))) in
  let o := clearSRVs shaderType rangeStart rangeEnd s in
  result o = NoError tt
  /\ (forall j, stageViews shaderType (state o) !! j
                = if bool_decide (rangeStart <= j < stop)
                  then nullRecord <$> stageViews shaderType s !! j
                  else stageViews shaderType s !! j)
  /\ (forall t', t' <> Geometry -> t' <> shaderType ->
                 stageViews t' (state o) = stageViews t' s).
Proof.
  intros Ht stop o. subst o. unfold clearSRVs.
  destruct (rangeStart =? rangeEnd)%nat eqn:E.
  { apply Nat.eqb_eq in E. rewrite run_ret. cbn. split; [reflexivity|]. split; [|reflexivity].
    intros j. rewrite bool_decide_eq_false_2; [reflexivity|]. subst stop. lia. }
  mread. fold stop. rewrite Range_length_make.
  unfold Range.empty, Range.indices. cbn [Range.low Range.high].
  rewrite Range_length_make.
  destruct (stop <=? rangeStart)%nat eqn:E2.
  { apply Nat.leb_le in E2. rewrite run_ret. cbn. split; [reflexivity|].
    split; [|reflexivity].
    intros j. rewrite bool_decide_eq_false_2; [reflexivity|]. lia. }
  apply Nat.leb_gt in E2.
  rewrite run_bind, run_emitSetShaderResources, forM_modSM. cbn [result state calls fst snd].
  split; [reflexivity|]. split.
  - intros j. unfold stageViews. cbn [sm]. rewrite fold_putSRVCache, unbind_all_views.
    destruct (decide (rangeStart <= j < stop)) as [Hin|Hout].
    + rewrite !bool_decide_eq_true_2; [reflexivity|exact Hin|].
      apply elem_of_seq. lia.
    + rewrite !bool_decide_eq_false_2; [reflexivity|exact Hout|].
      rewrite elem_of_seq. lia.
  - intros t' Ht' Hne. unfold stageViews. cbn [sm].
    rewrite fold_putSRVCache_other by assumption. reflexivity.
Qed.

Lemma clearSRVs_clears_cache_range_witness :
  let o := clearSRVs Fragment 1 8 ClearExample.bound in
  Fragment <> Geometry
  /\ result o = NoError tt
  /\ ViewCache.view <$> stageViews Fragment (state o) !! 0 = Some 0x1000%Z
  /\ ViewCache.view <$> stageViews Fragment (state o) !! 3 = Some 0%Z.
Proof.
  cbv zeta.
  assert (Fragment <> Geometry) as H by discriminate.
  split; [exact H|].
  destruct (clearSRVs_clears_cache_range Fragment 1 8 ClearExample.bound H)
    as (Hres & Hv & _).
  split; [exact Hres|]. split.
  - rewrite (Hv 0). vm_compute. reflexivity.
  - rewrite (Hv 3). vm_compute. reflexivity.
Defined.


Lemma fold_set_mCurComputeUAVs (l : list nat) : forall (m : StateManager11),
  mCurComputeUAVs (viewCaches
    (fold_left (fun a x => upd_viewCaches (fun v =>
                   set_mCurComputeUAVs (ViewCache.update (mCurComputeUAVs v) x None) v) a)
       l m))
  = fold_left (fun c x => ViewCache.update c x None) l (mCurComputeUAVs (viewCaches m)).
Proof.
  induction l as [|i l IH]; intros m; cbn [fold_left]; [reflexivity|].
  rewrite IH. reflexivity.
Qed.

Lemma fold_set_mCurComputeUAVs_SRVs (t : ShaderType) (l : list nat) :
  forall (m : StateManager11),
  getSRVCache t (viewCaches
    (fold_left (fun a x => upd_viewCaches (fun v =>
                   set_mCurComputeUAVs (ViewCache.update (mCurComputeUAVs v) x None) v) a)
       l m))
  = getSRVCache t (viewCaches m).
Proof.
  induction l as [|i l IH]; intros m; cbn [fold_left]; [reflexivity|].
  rewrite IH. destruct t; reflexivity.
Qed.

(** X8.  [clearUAVs] makes no call when [[rangeStart, min(rangeEnd,
    highestUsed))] is empty and otherwise one [CSSetUnorderedAccessViews]
    of null views over exactly that range; afterwards the records of the
    range have a null view and a null resource, the other records and the
    caches of shader resource views are as before. *)
Theorem clearUAVs_minimal_clear_range (shaderType : ShaderType)
    (rangeStart rangeEnd : nat) (s : St) :
  let stop := Nat.min rangeEnd
                (ViewCache.highestUsed (mCurComputeUAVs (viewCaches (sm s)))) in
  let o := clearUAVs shaderType rangeStart rangeEnd s in
  result o = NoError tt
  /\ calls o
     = (if (rangeStart <? stop)%nat
        then [CSSetUnorderedAccessViews (Z.of_nat rangeStart) (Z.of_nat (stop - rangeStart))
                (take (stop - rangeStart) (mNullUAVs (viewCaches (sm s))))]
        else [])
  /\ (forall j, computeUAVs (state o) !! j
                = if bool_decide (rangeStart <= j < stop)
                  then cleared <$> computeUAVs s !! j
                  else computeUAVs s !! j)
  /\ (forall t, stageViews t (state o) = stageViews t s).
Proof.
  intros stop o. subst o. unfold clearUAVs.
  destruct (rangeStart =? rangeEnd)%nat eqn:E.
  { apply Nat.eqb_eq in E.
    assert ((rangeStart <? stop)%nat = false) as -> by (apply Nat.ltb_ge; subst stop; lia).
    rewrite run_ret. cbn.
    split; [reflexivity|]. split; [reflexivity|]. split; [|reflexivity].
    intros j. rewrite bool_decide_eq_false_2; [reflexivity|]. subst stop. lia. }
  mread. fold stop. rewrite Range_length_make.
  unfold Range.empty, Range.indices. cbn [Range.low Range.high].
  rewrite Range_length_make.
  destruct (stop <=? rangeStart)%nat eqn:E2.
  { apply Nat.leb_le in E2.
    assert ((rangeStart <? stop)%nat = false) as -> by (apply Nat.ltb_ge; lia).
    rewrite run_ret. cbn.
    split; [reflexivity|]. split; [reflexivity|]. split; [|reflexivity].
    intros j. rewrite bool_decide_eq_false_2; [reflexivity|]. lia. }
  apply Nat.leb_gt in E2.
  assert ((rangeStart <? stop)%nat = true) as -> by (apply Nat.ltb_lt; lia).
  rewrite run_bind, run_emit, forM_modSM. cbn [result state calls fst snd app].
  split; [reflexivity|]. split; [reflexivity|]. split.
  - intros j. unfold computeUAVs. cbn [sm].
    rewrite fold_set_mCurComputeUAVs, unbind_all_views.
    destruct (decide (rangeStart <= j < stop)) as [Hin|Hout].
    + rewrite !bool_decide_eq_true_2; [reflexivity|exact Hin|].
      apply elem_of_seq. lia.
    + rewrite !bool_decide_eq_false_2; [reflexivity|exact Hout|].
      rewrite elem_of_seq. lia.
  - intros t. unfold stageViews. cbn [sm].
    rewrite fold_set_mCurComputeUAVs_SRVs. reflexivity.
Qed.

(* ================================================================== *)
(** * Members a computation leaves alone                                 *)
(* ================================================================== *)

Section Preserves.
Context {X : Type} (f : St -> X).

Lemma preserves_ret {A} (a : A) : preserves f (ret a).
Proof. intros s. reflexivity. Qed.

Lemma preserves_gets {A} (g : St -> A) : preserves f (gets g).
Proof. intros s. reflexivity. Qed.

Lemma preserves_getSM {A} (g : StateManager11 -> A) : preserves f (getSM g).
Proof. intros s. reflexivity. Qed.

Lemma preserves_getWorld {A} (g : World -> A) : preserves f (getWorld g).
Proof. intros s. reflexivity. Qed.

Lemma preserves_emit (c : Call) : preserves f (emit c).
Proof. intros s. reflexivity. Qed.

Lemma preserves_try {A} (r : Result A) : preserves f (try r).
Proof. intros s. reflexivity. Qed.

Lemma preserves_bind {A B} (m : M St A) (k : A -> M St B) :
  preserves f m -> (forall a, preserves f (k a)) -> preserves f (m ≫= k).
Proof.
  intros Hm Hk s. rewrite run_bind. specialize (Hm s).
  destruct (m s) as [[[a|e] s1] c1]; cbn in Hm |- *; [|exact Hm].
  specialize (Hk a s1). destruct (k a s1) as [[r2 s2] c2]. cbn in Hk |- *. congruence.
Qed.

Lemma preserves_when (b : bool) (m : M St unit) : preserves f m -> preserves f (when b m).
Proof. intros H. destruct b; [exact H|apply preserves_ret]. Qed.

Lemma preserves_forM_ {Y} (l : list Y) (body : Y -> M St unit) :
  (forall y, preserves f (body y)) -> preserves f (forM_ l body).
Proof.
  intros H. induction l as [|y l IH]; cbn [forM_]; [apply preserves_ret|].
  apply preserves_bind; [apply H|intros _; exact IH].
Qed.

Lemma preserves_modSM (g : StateManager11 -> StateManager11) :
  (forall s, f {| sm := g (sm s); world := world s |} = f s) -> preserves f (modSM g).
Proof. intros H s. apply H. Qed.

Lemma preserves_modWorld (g : World -> World) :
  (forall s, f {| sm := sm s; world := g (world s) |} = f s) -> preserves f (modWorld g).
Proof. intros H s. apply H. Qed.
End Preserves.

Lemma silent_ret {A} (a : A) : silent (ret a).
Proof. intros s. reflexivity. Qed.

Lemma silent_getSM {A} (g : StateManager11 -> A) : silent (getSM g).
Proof. intros s. reflexivity. Qed.

Lemma silent_getWorld {A} (g : World -> A) : silent (getWorld g).
Proof. intros s. reflexivity. Qed.

Lemma silent_try {A} (r : Result A) : silent (try r).
Proof. intros s. reflexivity. Qed.

Lemma silent_modSM g : silent (modSM g).
Proof. intros s. reflexivity. Qed.

Lemma silent_modWorld g : silent (modWorld g).
Proof. intros s. reflexivity. Qed.

Lemma silent_bind {A B} (m : M St A) (k : A -> M St B) :
  silent m -> (forall a, silent (k a)) -> silent (m ≫= k).
Proof.
  intros Hm Hk s. rewrite run_bind. specialize (Hm s).
  destruct (m s) as [[[a|e] s1] c1]; cbn in Hm |- *; [|exact Hm].
  specialize (Hk a s1). destruct (k a s1) as [[r2 s2] c2]. cbn in Hk |- *.
  subst. reflexivity.
Qed.

Lemma silent_when (b : bool) (m : M St unit) : silent m -> silent (when b m).
Proof. intros H. destruct b; [exact H|apply silent_ret]. Qed.

Lemma silent_forM_ {Y} (l : list Y) (body : Y -> M St unit) :
  (forall y, silent (body y)) -> silent (forM_ l body).
Proof.
  intros H. induction l as [|y l IH]; cbn [forM_]; [apply silent_ret|].
  apply silent_bind; [apply H|intros _; exact IH].
Qed.

(** one step of a proof that a member is left alone, or that no call
    is made *)
Ltac quiet_step :=
  first
    [ apply preserves_ret | apply preserves_getSM | apply preserves_getWorld
    | apply preserves_gets | apply preserves_emit | apply preserves_try
    | apply preserves_bind; [|intros ?]
    | apply preserves_when
    | apply preserves_forM_; intros ?
    | apply preserves_modSM; intros ?; reflexivity
    | apply preserves_modWorld; intros ?; reflexivity
    | apply silent_ret | apply silent_getSM | apply silent_getWorld
    | apply silent_try | apply silent_modSM | apply silent_modWorld
    | apply silent_bind; [|intros ?]
    | apply silent_when
    | apply silent_forM_; intros ?
    | progress cbv zeta
    | match goal with
      | |- preserves _ (if ?b then _ else _) => destruct b
      | |- preserves _ (match ?x with _ => _ end) => destruct x
      | |- silent (if ?b then _ else _) => destruct b
      | |- silent (match ?x with _ => _ end) => destruct x
      end ].

Ltac quiet := repeat quiet_step.

(* ================================================================== *)
(** * Current values of the vertex attributes                           *)
(* ================================================================== *)

Lemma ldiff_land_same (d a : Z) : Z.ldiff d (Z.land a d) = Z.ldiff d a.
Proof.
  apply Z.bits_inj'. intros n Hn.
  rewrite !Z.ldiff_spec, Z.land_spec.
  destruct (Z.testbit d n), (Z.testbit a n); reflexivity.
Qed.

Lemma ldiff_disjoint (d a : Z) : Z.land a d = 0%Z -> Z.ldiff d a = d.
Proof. intros H. rewrite <- ldiff_land_same, H. apply Z.ldiff_0_r. Qed.

(** X9.  [syncCurrentValueAttribs] makes no device call and leaves dirty
    exactly the current values that were dirty and are not active in the
    program, whether it succeeds or storing one of the values fails. *)
Theorem syncCurrentValueAttribs_clears_active_dirty (MAX_VERTEX_ATTRIBS : nat)
    (mRenderer : Renderer11) (glState : GLState) (s : St) :
  let o := syncCurrentValueAttribs MAX_VERTEX_ATTRIBS mRenderer glState s in
  dirtyCurrentValueAttribs (state o)
  = BitSet.andnot (dirtyCurrentValueAttribs s)
      (getActiveAttribLocationsMask (getProgram glState))
  /\ calls o = [].
Proof.
  intros o. subst o. unfold syncCurrentValueAttribs. mread. split.
  - unfold dirtyCurrentValueAttribs, BitSet.andnot, BitSet.and, BitSet.any.
    destruct (Z.eqb_spec
                (Z.land (getActiveAttribLocationsMask (getProgram glState))
                   (mDirtyCurrentValueAttribs (vertexCache (sm s)))) 0) as [E|E];
      cbn [negb].
    + rewrite run_ret. cbn. symmetry. apply ldiff_disjoint, E.
    + rewrite run_bind, run_modSM.
      match goal with
      | |- context [forM_ ?l ?body ?s1] =>
          pose proof (preserves_forM_ dirtyCurrentValueAttribs l body) as HP;
          specialize (fun H => HP H s1);
          destruct (forM_ l body s1) as [[r2 s2] c2]
      end.
      cbn in HP |- *. unfold dirtyCurrentValueAttribs in HP at 1 2. rewrite HP.
      * cbn. apply ldiff_land_same.
      * intros y. quiet.
  - match goal with
    | |- calls (?m s) = [] => assert (silent m) as H; [|apply H]
    end.
    quiet.
Qed.

(* ================================================================== *)
(** * Vertex buffers                                                     *)
(* ================================================================== *)

Lemma St_eta (s : St) : {| sm := sm s; world := world s |} = s.
Proof. destruct s; reflexivity. Qed.

Lemma upd_vertexCache_same (m : StateManager11) :
  upd_vertexCache (fun _ => vertexCache m) m = m.
Proof. destruct m; reflexivity. Qed.

Lemma neZ_refl (a : Z) : neZ a a = false.
Proof. unfold neZ. rewrite Z.eqb_refl. reflexivity. Qed.

Lemma queueVertexBufferChange_again (i : nat) (buffer stride offset : Z) (v : VertexCache) :
  i < length (mCurrentVertexBuffers v) ->
  i < length (mCurrentVertexStrides v) ->
  i < length (mCurrentVertexOffsets v) ->
  let v' := (queueVertexBufferChange i buffer stride offset v).1 in
  queueVertexBufferChange i buffer stride offset v' = (v', false).
Proof.
  intros Hb Hs Ho v'. subst v'. unfold queueVertexBufferChange at 2.
  destruct (neZ buffer _ || neZ stride _ || neZ offset _) eqn:E.
  - unfold queueVertexBufferChange. rewrite E. cbn.
    rewrite !list_lookup_insert_eq by assumption. cbn.
    rewrite !neZ_refl. reflexivity.
  - unfold queueVertexBufferChange. rewrite E. cbn. rewrite E. reflexivity.
Qed.

Lemma applyVertexBufferChanges_lengths n (s : St) :
  let v := vertexCache (sm s) in
  let v' := vertexCache (sm (state (applyVertexBufferChanges n s))) in
  mCurrentVertexBuffers v' = mCurrentVertexBuffers v
  /\ mCurrentVertexStrides v' = mCurrentVertexStrides v
  /\ mCurrentVertexOffsets v' = mCurrentVertexOffsets v.
Proof.
  cbv zeta. unfold applyVertexBufferChanges. mread.
  destruct (Range.empty _); mrun; cbn; auto.
Qed.

(** X10.  [setSingleVertexBuffer] is idempotent: set a second time, the
    same buffer, stride and offset make no device call and change
    nothing. *)
Theorem setSingleVertexBuffer_twice (MAX_VERTEX_ATTRIBS : nat)
    (buffer : option Resource11) (stride offset : Z) (s : St) :
  0 < length (mCurrentVertexBuffers (vertexCache (sm s))) ->
  0 < length (mCurrentVertexStrides (vertexCache (sm s))) ->
  0 < length (mCurrentVertexOffsets (vertexCache (sm s))) ->
  let once := setSingleVertexBuffer MAX_VERTEX_ATTRIBS buffer stride offset s in
  setSingleVertexBuffer MAX_VERTEX_ATTRIBS buffer stride offset (state once)
  = (NoError tt, state once, []).
Proof.
  intros Hb Hs Ho once.
  set (native := match buffer with Some b => res_get b | None => 0%Z end).
  assert (queueVertexBufferChange 0 native stride offset (vertexCache (sm (state once)))
          = (vertexCache (sm (state once)), false)) as Hq.
  { subst once. unfold setSingleVertexBuffer. fold native. mread.
    pose proof (queueVertexBufferChange_again 0 native stride offset
                  (vertexCache (sm s)) Hb Hs Ho) as Hagain. cbv zeta in Hagain.
    destruct (queueVertexBufferChange 0 native stride offset (vertexCache (sm s)))
      as [v' changed] eqn:E. cbn [fst] in Hagain.
    destruct changed.
    - rewrite run_bind, run_modSM, run_when_true, run_bind, run_modSM.
      pose proof (applyVertexBufferChanges_lengths MAX_VERTEX_ATTRIBS
                    {| sm := invalidateInputLayout
                               (upd_vertexCache (fun _ => v') (sm s));
                       world := world s |}) as (L1 & L2 & L3).
      cbv zeta in L1, L2, L3.
      destruct (applyVertexBufferChanges MAX_VERTEX_ATTRIBS _) as [[r2 s2] c2].
      cbn in L1, L2, L3 |- *.
      unfold queueVertexBufferChange in Hagain |- *.
      rewrite L1, L2, L3.
      destruct (neZ native _ || neZ stride _ || neZ offset _); [discriminate|reflexivity].
    - mrun.
      change (vertexCache (sm {| sm := upd_vertexCache (fun _ => v') (sm s);
                                 world := world s |})) with v'.
      exact Hagain. }
  unfold setSingleVertexBuffer at 1. fold native. mread. rewrite Hq.
  mrun. rewrite upd_vertexCache_same, St_eta. reflexivity.
Qed.

Lemma setSingleVertexBuffer_twice_witness :
  let buffer := Some {| res_get := 0x5100; res_getSerial := 7 |} in
  let once :=
    setSingleVertexBuffer Sample.MAX_VERTEX_ATTRIBS buffer 16 0 Sample.fresh in
  calls once = [IASetVertexBuffers 0 1 [0x5100%Z] [16%Z] [0%Z]]
  /\ calls (setSingleVertexBuffer Sample.MAX_VERTEX_ATTRIBS buffer 16 0 (state once)) = [].
Proof.
  cbv zeta. split; [vm_compute; reflexivity|].
  rewrite (setSingleVertexBuffer_twice Sample.MAX_VERTEX_ATTRIBS
             (Some {| res_get := 0x5100; res_getSerial := 7 |}) 16 0 Sample.fresh);
    [reflexivity|vm_compute; lia..].
Defined.

Lemma Range_extend_keeps (r : Range.t nat) (v i : nat) :
  Range.low r <= i < Range.high r ->
  Range.low (Range.extend r v) <= i < Range.high (Range.extend r v).
Proof.
  unfold Range.extend. cbn [Range.low Range.high].
  destruct (Nat.ltb_spec v (Range.low r)), (Nat.leb_spec (Range.high r) v); lia.
Qed.

Lemma Range_extend_covers (r : Range.t nat) (v : nat) :
  Range.low r <= Range.high r \/ v < Range.low r ->
  Range.low (Range.extend r v) <= v < Range.high (Range.extend r v).
Proof.
  unfold Range.extend. cbn [Range.low Range.high].
  destruct (Nat.ltb_spec v (Range.low r)), (Nat.leb_spec (Range.high r) v); lia.
Qed.

Lemma queueVertexBufferChange_range (k : nat) (buffer stride offset : Z)
    (v : VertexCache) (i : nat) :
  let v' := (queueVertexBufferChange k buffer stride offset v).1 in
  let r := mDirtyVertexBufferRange v in
  let r' := mDirtyVertexBufferRange v' in
  (Range.low r <= i < Range.high r -> Range.low r' <= i < Range.high r')
  /\ (vertexBufferAt v' i <> vertexBufferAt v i -> i = k /\ r' = Range.extend r k)
  /\ (r' = r \/ r' = Range.extend r k).
Proof.
  cbv zeta. unfold queueVertexBufferChange.
  destruct (neZ buffer _ || neZ stride _ || neZ offset _); cbn [fst].
  - split; [|split].
    + cbn. apply Range_extend_keeps.
    + intros Hne. split; [|reflexivity].
      destruct (decide (i = k)) as [->|Hik]; [reflexivity|].
      exfalso. apply Hne. unfold vertexBufferAt. cbn.
      rewrite !list_lookup_insert_ne by congruence. reflexivity.
    + right. reflexivity.
  - split; [auto|]. split; [congruence|]. left. reflexivity.
Qed.

Lemma rangeOk_extend (n : nat) (r : Range.t nat) (k : nat) :
  k < n -> rangeOk n r ->
  Range.low (Range.extend r k) <= Range.high (Range.extend r k).
Proof.
  intros Hk [-> | H]; unfold Range.extend; cbn [Range.low Range.high].
  - destruct (Nat.ltb_spec k n), (Nat.leb_spec 0 k); lia.
  - destruct (Nat.ltb_spec k (Range.low r)), (Nat.leb_spec (Range.high r) k); lia.
Qed.

Lemma queueAll_covers (n : nat) (ops : list (nat * Z * Z * Z)) :
  Forall (fun op => op.1.1.1 < n) ops ->
  forall (v : VertexCache) (i : nat),
    rangeOk n (mDirtyVertexBufferRange v) ->
    let r' := mDirtyVertexBufferRange (queueAll ops v) in
    rangeOk n r'
    /\ (Range.low (mDirtyVertexBufferRange v) <= i < Range.high (mDirtyVertexBufferRange v)
        -> Range.low r' <= i < Range.high r')
    /\ (vertexBufferAt (queueAll ops v) i <> vertexBufferAt v i ->
        Range.low r' <= i < Range.high r').
Proof.
  intros Hops. induction Hops as [|[[[k buffer] stride] offset] ops Hk Hops IH];
    intros v i Hok; cbn [queueAll fold_left].
  - cbv zeta. split; [exact Hok|]. split; [auto|]. intros H. congruence.
  - cbn [fst] in Hk.
    destruct (queueVertexBufferChange_range k buffer stride offset v i) as (K1 & K2 & K3).
    cbv zeta in K1, K2, K3.
    set (v1 := (queueVertexBufferChange k buffer stride offset v).1) in *.
    assert (rangeOk n (mDirtyVertexBufferRange v1)) as Hok1.
    { destruct K3 as [-> | ->]; [exact Hok|]. right.
      apply (rangeOk_extend n); assumption. }
    destruct (IH v1 i Hok1) as (I1 & I2 & I3). fold (queueAll ops v1) in *.
    cbv zeta in I1, I2, I3 |- *.
    split; [exact I1|]. split; [auto|].
    intros Hne.
    destruct (decide (vertexBufferAt (queueAll ops v1) i = vertexBufferAt v1 i)) as [E|E].
    + rewrite E in Hne. destruct (K2 Hne) as [-> Hr]. apply I2. rewrite Hr.
      apply Range_extend_covers.
      destruct Hok as [-> | Hok]; cbn [Range.low Range.high]; [right; exact Hk|left; exact Hok].
    + apply I3, E.
Qed.

(** X11.  Whatever changes [queueVertexBufferChange] has queued since the
    dirty range was last emptied, [applyVertexBufferChanges] transmits
    them in one [IASetVertexBuffers]: every index whose buffer, stride or
    offset is not what it was lies in the range of the call, with its
    new buffer, stride and offset. *)
Theorem applyVertexBufferChanges_covers_queued (MAX_VERTEX_ATTRIBS : nat)
    (ops : list (nat * Z * Z * Z)) (s : St) (i : nat) :
  Forall (fun op => op.1.1.1 < MAX_VERTEX_ATTRIBS) ops ->
  mDirtyVertexBufferRange (vertexCache (sm s)) = Range.make MAX_VERTEX_ATTRIBS 0 ->
  let v' := queueAll ops (vertexCache (sm s)) in
  vertexBufferAt v' i <> vertexBufferAt (vertexCache (sm s)) i ->
  exists start n buffers strides offsets,
    calls (applyVertexBufferChanges MAX_VERTEX_ATTRIBS (withVertexCache v' s))
    = [IASetVertexBuffers (Z.of_nat start) (Z.of_nat n) buffers strides offsets]
    /\ start <= i < start + n
    /\ vertexBufferAt v' i
       = (buffers !! (i - start), strides !! (i - start), offsets !! (i - start)).
Proof.
  intros Hops Hr v' Hne.
  destruct (queueAll_covers MAX_VERTEX_ATTRIBS ops Hops (vertexCache (sm s)) i)
    as (Hok & _ & Hin); [left; exact Hr|].
  cbv zeta in Hok, Hin. fold v' in Hok, Hin. specialize (Hin Hne).
  unfold applyVertexBufferChanges, withVertexCache. mread. cbn [sm vertexCache upd_vertexCache].
  set (r := mDirtyVertexBufferRange v') in *.
  assert (Range.empty r = false) as Hne' by (unfold Range.empty; apply Nat.leb_gt; lia).
  assert (Range.length r = Range.high r - Range.low r) as Hlen
    by (unfold Range.length; rewrite Hne'; reflexivity).
  rewrite Hne'. mrun. rewrite Hlen.
  eexists _, _, _, _, _. split; [reflexivity|]. split; [lia|].
  unfold vertexBufferAt.
  rewrite !lookup_take_lt, !lookup_drop by lia.
  replace (Range.low r + (i - Range.low r)) with i by lia. reflexivity.
Qed.

Lemma applyVertexBufferChanges_covers_queued_witness :
  let s := state (applyVertexBufferChanges Sample.MAX_VERTEX_ATTRIBS Sample.fresh) in
  exists start n buffers strides offsets,
    calls (applyVertexBufferChanges Sample.MAX_VERTEX_ATTRIBS
             (withVertexCache (queueAll VertexBufferExample.ops (vertexCache (sm s))) s))
    = [IASetVertexBuffers (Z.of_nat start) (Z.of_nat n) buffers strides offsets]
    /\ start <= 3 < start + n
    /\ vertexBufferAt (queueAll VertexBufferExample.ops (vertexCache (sm s))) 3
       = (buffers !! (3 - start), strides !! (3 - start), offsets !! (3 - start)).
Proof.
  cbv zeta.
  apply (applyVertexBufferChanges_covers_queued Sample.MAX_VERTEX_ATTRIBS
           VertexBufferExample.ops
           (state (applyVertexBufferChanges Sample.MAX_VERTEX_ATTRIBS Sample.fresh)) 3).
  - repeat constructor; cbn; unfold Sample.MAX_VERTEX_ATTRIBS; lia.
  - vm_compute. reflexivity.
  - vm_compute. discriminate.
Defined.

(* ================================================================== *)
(** * Setters that filter redundant state                                *)
(* ================================================================== *)

Lemma neZ_false (a b : Z) : neZ a b = false -> a = b.
Proof. unfold neZ. intros H. apply negb_false_iff, Z.eqb_eq in H. exact H. Qed.

Lemma BitSet_set_set (b : nat) (m : BitSet.t) :
  BitSet.set b (BitSet.set b m) = BitSet.set b m.
Proof.
  unfold BitSet.set. apply Z.bits_inj'. intros n Hn.
  rewrite !Z.setbit_eqb by lia. destruct (Z.of_nat b =? n)%Z; reflexivity.
Qed.

Lemma setVertexShader_again shader (s : St) :
  mAppliedVertexShader (shaderCache (sm s)) = serialOf shader ->
  setVertexShader shader s = (NoError tt, s, []).
Proof.
  intros H. unfold setVertexShader. mread. rewrite H, neZ_refl. reflexivity.
Qed.

Lemma setGeometryShader_again shader (s : St) :
  mAppliedGeometryShader (shaderCache (sm s)) = serialOf shader ->
  setGeometryShader shader s = (NoError tt, s, []).
Proof.
  intros H. unfold setGeometryShader. mread. rewrite H, neZ_refl. reflexivity.
Qed.

Lemma setPixelShader_again shader (s : St) :
  mAppliedPixelShader (shaderCache (sm s)) = serialOf shader ->
  setPixelShader shader s = (NoError tt, s, []).
Proof.
  intros H. unfold setPixelShader. mread. rewrite H, neZ_refl. reflexivity.
Qed.

Lemma setVertexShader_run shader (s : St) :
  setVertexShader shader s
  = if neZ (serialOf shader) (mAppliedVertexShader (shaderCache (sm s)))
    then (NoError tt,
          {| sm := invalidateShaders
                     (upd_shaderCache (set_mAppliedVertexShader (serialOf shader)) (sm s));
             world := world s |},
          [XSSetShader Vertex (pointerOf shader)])
    else (NoError tt, s, []).
Proof. unfold setVertexShader. mread. destruct (neZ _ _); reflexivity. Qed.

Lemma setGeometryShader_run shader (s : St) :
  setGeometryShader shader s
  = if neZ (serialOf shader) (mAppliedGeometryShader (shaderCache (sm s)))
    then (NoError tt,
          {| sm := invalidateShaders
                     (upd_shaderCache (set_mAppliedGeometryShader (serialOf shader)) (sm s));
             world := world s |},
          [XSSetShader Geometry (pointerOf shader)])
    else (NoError tt, s, []).
Proof. unfold setGeometryShader. mread. destruct (neZ _ _); reflexivity. Qed.

Lemma setPixelShader_run shader (s : St) :
  setPixelShader shader s
  = if neZ (serialOf shader) (mAppliedPixelShader (shaderCache (sm s)))
    then (NoError tt,
          {| sm := invalidateShaders
                     (upd_shaderCache (set_mAppliedPixelShader (serialOf shader)) (sm s));
             world := world s |},
          [XSSetShader Fragment (pointerOf shader)])
    else (NoError tt, s, []).
Proof. unfold setPixelShader. mread. destruct (neZ _ _); reflexivity. Qed.

Lemma setDrawShaders_run vs gs ps (s : St) :
  let o := setDrawShaders vs gs ps s in
  let changedV := neZ (serialOf vs) (mAppliedVertexShader (shaderCache (sm s))) in
  let changedG := neZ (serialOf gs) (mAppliedGeometryShader (shaderCache (sm s))) in
  let changedP := neZ (serialOf ps) (mAppliedPixelShader (shaderCache (sm s))) in
  result o = NoError tt
  /\ calls o
     = (if changedV then [XSSetShader Vertex (pointerOf vs)] else [])
       ++ (if changedG then [XSSetShader Geometry (pointerOf gs)] else [])
       ++ (if changedP then [XSSetShader Fragment (pointerOf ps)] else [])
  /\ appliedShaders (state o) = (serialOf vs, serialOf gs, serialOf ps)
  /\ mInternalDirtyBits (sm (state o))
     = (if changedV || changedG || changedP
        then BitSet.set (dirtyBitIndex DIRTY_BIT_SHADERS) (mInternalDirtyBits (sm s))
        else mInternalDirtyBits (sm s)).
Proof.
  cbv zeta. unfold setDrawShaders, appliedShaders.
  rewrite run_bind, setVertexShader_run.
  destruct (neZ (serialOf vs) _) eqn:EV;
    rewrite run_bind, setGeometryShader_run; cbn [sm shaderCache];
    change (mAppliedGeometryShader
              (shaderCache (invalidateShaders (upd_shaderCache ?f (sm s)))))
      with (mAppliedGeometryShader (shaderCache (sm s)));
    (destruct (neZ (serialOf gs) _) eqn:EG;
     rewrite setPixelShader_run; cbn [sm shaderCache];
     repeat change (mAppliedPixelShader
               (shaderCache (invalidateShaders (upd_shaderCache ?f ?m))))
       with (mAppliedPixelShader (shaderCache m));
     destruct (neZ (serialOf ps) _) eqn:EP).
  all: cbn [result state calls fst snd app orb].
  all: try (apply neZ_false in EV); try (apply neZ_false in EG); try (apply neZ_false in EP).
  all: repeat split; try reflexivity.
  all: try (cbn; congruence).
  all: unfold invalidateShaders, setDirty; cbn -[BitSet.set dirtyBitIndex].
  all: rewrite ?BitSet_set_set; reflexivity.
Qed.

(** X12.  [setDrawShaders] sets on the device the shaders whose serial is
    not the applied one, in the order vertex, geometry, pixel, and sets
    the shader dirty bit when it set one; called again with the same
    shaders it makes no call and changes nothing. *)
Theorem setDrawShaders_filters_by_serial (vs gs ps : option Resource11) (s : St) :
  let o := setDrawShaders vs gs ps s in
  let changedV := neZ (serialOf vs) (mAppliedVertexShader (shaderCache (sm s))) in
  let changedG := neZ (serialOf gs) (mAppliedGeometryShader (shaderCache (sm s))) in
  let changedP := neZ (serialOf ps) (mAppliedPixelShader (shaderCache (sm s))) in
  calls o
  = (if changedV then [XSSetShader Vertex (pointerOf vs)] else [])
    ++ (if changedG then [XSSetShader Geometry (pointerOf gs)] else [])
    ++ (if changedP then [XSSetShader Fragment (pointerOf ps)] else [])
  /\ mInternalDirtyBits (sm (state o))
     = (if changedV || changedG || changedP
        then BitSet.set (dirtyBitIndex DIRTY_BIT_SHADERS) (mInternalDirtyBits (sm s))
        else mInternalDirtyBits (sm s))
  /\ setDrawShaders vs gs ps (state o) = (NoError tt, state o, []).
Proof.
  cbv zeta. destruct (setDrawShaders_run vs gs ps s) as (_ & Hc & Ha & Hb).
  cbv zeta in Hc, Ha, Hb. split; [exact Hc|]. split; [exact Hb|].
  unfold appliedShaders in Ha. injection Ha as HV HG HP.
  unfold setDrawShaders at 1.
  rewrite run_bind, setVertexShader_again by exact HV.
  rewrite run_bind, setGeometryShader_again by exact HG.
  rewrite setPixelShader_again by exact HP. reflexivity.
Qed.

Lemma syncIndexBuffer_run buffer indexFormat offset (s : St) :
  let i := indexCache (sm s) in
  syncIndexBuffer buffer indexFormat offset s
  = if neZ buffer (mAppliedIB i) || neZ indexFormat (mAppliedIBFormat i)
       || neZ offset (mAppliedIBOffset i)
    then (NoError true,
          {| sm := upd_indexCache (fun i =>
                     set_mAppliedIBOffset offset
                       (set_mAppliedIBFormat indexFormat (set_mAppliedIB buffer i))) (sm s);
             world := world s |},
          [IASetIndexBuffer buffer indexFormat offset])
    else (NoError false, s, []).
Proof. cbv zeta. unfold syncIndexBuffer. mread. destruct (_ || _); reflexivity. Qed.

Lemma setInputLayoutInternal_run inputLayout (s : St) :
  setInputLayoutInternal inputLayout s
  = if neZ (serialOf inputLayout) (mCurrentInputLayout (vertexCache (sm s)))
    then (NoError true,
          {| sm := upd_vertexCache (set_mCurrentInputLayout (serialOf inputLayout)) (sm s);
             world := world s |},
          [IASetInputLayout (pointerOf inputLayout)])
    else (NoError false, s, []).
Proof.
  unfold setInputLayoutInternal. mread.
  destruct inputLayout as [layout|]; cbn [serialOf pointerOf].
  - destruct (neZ _ _); reflexivity.
  - unfold neZ. rewrite (Z.eqb_sym 0). destruct (negb _); reflexivity.
Qed.

Lemma setPrimitiveTopologyInternal_run primitiveTopology (s : St) :
  setPrimitiveTopologyInternal primitiveTopology s
  = if neZ primitiveTopology (mCurrentPrimitiveTopology (shaderCache (sm s)))
    then (NoError true,
          {| sm := upd_shaderCache (set_mCurrentPrimitiveTopology primitiveTopology) (sm s);
             world := world s |},
          [IASetPrimitiveTopology primitiveTopology])
    else (NoError false, s, []).
Proof. unfold setPrimitiveTopologyInternal. mread. destruct (neZ _ _); reflexivity. Qed.

(** X13.  [setIndexBuffer], [setInputLayout] and [setPrimitiveTopology]
    make their device call, and invalidate what depends on it, exactly
    when the value is not the applied one; called again with the same
    value they make no call and change nothing. *)
Theorem filtered_setters_are_idempotent (s : St) :
  (forall buffer indexFormat offset,
     let o := setIndexBuffer buffer indexFormat offset s in
     let i := indexCache (sm s) in
     let changed := neZ buffer (mAppliedIB i) || neZ indexFormat (mAppliedIBFormat i)
                    || neZ offset (mAppliedIBOffset i) in
     calls o = (if changed then [IASetIndexBuffer buffer indexFormat offset] else [])
     /\ mIndexBufferIsDirty (indexCache (sm (state o)))
        = (changed || mIndexBufferIsDirty i)
     /\ setIndexBuffer buffer indexFormat offset (state o) = (NoError tt, state o, []))
  /\ (forall inputLayout,
        let o := setInputLayout inputLayout s in
        let changed :=
          neZ (serialOf inputLayout) (mCurrentInputLayout (vertexCache (sm s))) in
        calls o = (if changed then [IASetInputLayout (pointerOf inputLayout)] else [])
        /\ mInternalDirtyBits (sm (state o))
           = (if changed
              then BitSet.set (dirtyBitIndex DIRTY_BIT_VERTEX_BUFFERS_AND_INPUT_LAYOUT)
                     (mInternalDirtyBits (sm s))
              else mInternalDirtyBits (sm s))
        /\ setInputLayout inputLayout (state o) = (NoError tt, state o, []))
  /\ (forall primitiveTopology,
        let o := setPrimitiveTopology primitiveTopology s in
        let changed :=
          neZ primitiveTopology (mCurrentPrimitiveTopology (shaderCache (sm s))) in
        calls o = (if changed then [IASetPrimitiveTopology primitiveTopology] else [])
        /\ mInternalDirtyBits (sm (state o))
           = (if changed
              then BitSet.set (dirtyBitIndex DIRTY_BIT_PRIMITIVE_TOPOLOGY)
                     (mInternalDirtyBits (sm s))
              else mInternalDirtyBits (sm s))
        /\ setPrimitiveTopology primitiveTopology (state o) = (NoError tt, state o, [])).
Proof.
  split; [|split].
  - intros buffer indexFormat offset. cbv zeta. unfold setIndexBuffer.
    rewrite run_bind, syncIndexBuffer_run. cbv zeta.
    destruct (neZ buffer _ || neZ indexFormat _ || neZ offset _) eqn:E.
    + rewrite run_when_true, run_modSM. cbn [state calls fst snd app orb].
      split; [reflexivity|]. split; [reflexivity|].
      rewrite run_bind, syncIndexBuffer_run. cbn. rewrite !neZ_refl. reflexivity.
    + rewrite run_when_false. cbn [state calls fst snd app orb].
      split; [reflexivity|]. split; [reflexivity|].
      rewrite run_bind, syncIndexBuffer_run. cbv zeta. rewrite E. reflexivity.
  - intros inputLayout. cbv zeta. unfold setInputLayout.
    rewrite run_bind, setInputLayoutInternal_run.
    destruct (neZ (serialOf inputLayout) _) eqn:E.
    + rewrite run_when_true, run_modSM. cbn [state calls fst snd app].
      split; [reflexivity|]. split; [reflexivity|].
      rewrite run_bind, setInputLayoutInternal_run. cbn. rewrite neZ_refl. reflexivity.
    + rewrite run_when_false. cbn [state calls fst snd app].
      split; [reflexivity|]. split; [reflexivity|].
      rewrite run_bind, setInputLayoutInternal_run, E. reflexivity.
  - intros primitiveTopology. cbv zeta. unfold setPrimitiveTopology.
    rewrite run_bind, setPrimitiveTopologyInternal_run.
    destruct (neZ primitiveTopology _) eqn:E.
    + rewrite run_when_true, run_modSM. cbn [state calls fst snd app].
      split; [reflexivity|]. split; [reflexivity|].
      rewrite run_bind, setPrimitiveTopologyInternal_run. cbn. rewrite neZ_refl. reflexivity.
    + rewrite run_when_false. cbn [state calls fst snd app].
      split; [reflexivity|]. split; [reflexivity|].
      rewrite run_bind, setPrimitiveTopologyInternal_run, E. reflexivity.
Qed.

(* ================================================================== *)
(** * Driver constants: failures and sampler metadata                    *)
(* ================================================================== *)

Lemma updateBuffer_result (renderer : Renderer11) (shaderType : ShaderType)
    (programD3D : Program) (driverConstantBuffer : Resource11) (c : ShaderConstants11) :
  shaderType <> Geometry ->
  result (ShaderConstants.updateBuffer renderer shaderType programD3D
            driverConstantBuffer c)
  = if uploadNeeded shaderType programD3D c
    then mapResource renderer (res_get driverConstantBuffer)
    else NoError tt.
Proof.
  intros Hstage. unfold ShaderConstants.updateBuffer, uploadNeeded, stageDirty.
  destruct shaderType; [| |congruence|]; mrun; cbn [numActiveSamplers shaderIndex];
    (destruct (BitSet.test _ _ || _); cbn [negb];
     [ mrun; destruct (mapResource renderer _) as [[]|e]; mrun; reflexivity
     | mrun; reflexivity ]).
Qed.

(** X14.  When mapping the driver constant buffer fails, [updateBuffer]
    returns the error with nothing written, yet it has already cleared the
    dirty flag of the stage and recorded the sampler count: asked again for
    the same program it makes no call and reports success, so the constants
    that were due are not uploaded. *)
Theorem updateBuffer_failed_map_not_retried (renderer : Renderer11)
    (shaderType : ShaderType) (programD3D : Program) (driverConstantBuffer : Resource11)
    (c : ShaderConstants11) (code : Z) :
  shaderType <> Geometry ->
  uploadNeeded shaderType programD3D c = true ->
  mapResource renderer (res_get driverConstantBuffer) = Error code ->
  let o := ShaderConstants.updateBuffer renderer shaderType programD3D
             driverConstantBuffer c in
  let again := ShaderConstants.updateBuffer renderer shaderType programD3D
                 driverConstantBuffer (state o) in
  result o = Error code
  /\ calls o = [MapWriteDiscard (res_get driverConstantBuffer)]
  /\ result again = NoError tt
  /\ calls again = [].
Proof.
  intros Hstage Hneed Hmap o again.
  destruct (updateBuffer_spec renderer shaderType programD3D driverConstantBuffer c Hstage)
    as (Hcalls & Hdirty & Hnum & _).
  cbv zeta in Hcalls, Hdirty, Hnum. fold o in Hcalls, Hdirty, Hnum.
  assert (uploadNeeded shaderType programD3D (state o) = false) as Hno.
  { unfold uploadNeeded. rewrite Hdirty, Hnum, Z.ltb_irrefl. reflexivity. }
  split; [|split; [|split]].
  - subst o. rewrite updateBuffer_result, Hneed by exact Hstage. exact Hmap.
  - rewrite Hcalls, Hneed, Hmap. reflexivity.
  - subst again. rewrite updateBuffer_result, Hno by exact Hstage. reflexivity.
  - subst again.
    destruct (updateBuffer_spec renderer shaderType programD3D driverConstantBuffer
                (state o) Hstage) as (Hcalls2 & _).
    cbv zeta in Hcalls2. rewrite Hcalls2, Hno. reflexivity.
Qed.

Lemma updateBuffer_failed_map_not_retried_witness :
  let update :=
    ShaderConstants.updateBuffer FailedMapExample.renderer Fragment Sample.program
      ConstantsExample.driverConstantBufferPS in
  result (update ConstantsExample.constants) = Error 0x8007000E%Z
  /\ calls (update ConstantsExample.constants) = [MapWriteDiscard 0xC004%Z]
  /\ result (update (state (update ConstantsExample.constants))) = NoError tt
  /\ calls (update (state (update ConstantsExample.constants))) = [].
Proof.
  cbv zeta.
  apply (updateBuffer_failed_map_not_retried FailedMapExample.renderer Fragment
           Sample.program ConstantsExample.driverConstantBufferPS
           ConstantsExample.constants 0x8007000E%Z).
  - discriminate.
  - vm_compute. reflexivity.
  - reflexivity.
Defined.

(** the case analysis of [updateSamplerMetadata]: the base level, the
    format tests and the comparisons with the metadata held *)
Ltac metadata_cases :=
  cbn [baseLevel internalFormatBits wrapModes];
  match goal with
  | |- context [(?bl =? s32 (u32 (getEffectiveBaseLevel ?texture)))%Z] =>
      destruct (Z.eqb_spec bl (s32 (u32 (getEffectiveBaseLevel texture))))
  end;
  cbn [negb baseLevel internalFormatBits wrapModes];
  rewrite ?Z.eqb_refl; cbn [negb];
  (repeat match goal with
          | |- context [if ShaderConstants.isOneOf ?x ?l then _ else _] =>
              destruct (ShaderConstants.isOneOf x l)
          end);
  cbn [baseLevel internalFormatBits wrapModes];
  repeat match goal with
         | |- context [(?a =? ?b)%Z] =>
             lazymatch a with
             | b => rewrite (Z.eqb_refl a)
             | _ => destruct (Z.eqb_spec a b)
             end; cbn [negb baseLevel internalFormatBits wrapModes fst snd]
         end.

Lemma updateSamplerMetadata_unchanged (data : SamplerMetadata) (texture : Texture) :
  (ShaderConstants.updateSamplerMetadata data texture).2 = false ->
  (ShaderConstants.updateSamplerMetadata data texture).1 = data.
Proof.
  unfold ShaderConstants.updateSamplerMetadata.
  destruct data as [bl fb wm]. set (W := Z.lor _ _).
  metadata_cases; try discriminate; try congruence; try reflexivity;
    try (exfalso; cbn [fst snd baseLevel internalFormatBits wrapModes] in *; congruence).
Qed.

(** X15.  [updateSamplerMetadata] reports a change exactly when it changed
    the metadata, and it is idempotent: applied to its own result for the
    same texture it changes nothing and reports no change. *)
Theorem updateSamplerMetadata_idempotent (data : SamplerMetadata) (texture : Texture) :
  let o := ShaderConstants.updateSamplerMetadata data texture in
  (o.2 = false -> o.1 = data)
  /\ (o.2 = true -> o.1 <> data)
  /\ ShaderConstants.updateSamplerMetadata o.1 texture = (o.1, false).
Proof.
  cbv zeta. unfold ShaderConstants.updateSamplerMetadata.
  destruct data as [bl fb wm]. set (W := Z.lor _ _).
  metadata_cases;
    repeat split; try discriminate; try congruence; try reflexivity;
    try (intros _ H; injection H; congruence);
    try (exfalso; cbn [fst snd baseLevel internalFormatBits wrapModes] in *; congruence).
Qed.

Lemma onSamplerChange_spec (t : ShaderType) (samplerIndex : nat) (texture : Texture)
    (c : ShaderConstants11) :
  t <> Geometry ->
  let old := default zero_SamplerMetadata (samplerMetadataOf t c !! samplerIndex) in
  let o := ShaderConstants.updateSamplerMetadata old texture in
  let c' := ShaderConstants.onSamplerChange t samplerIndex texture c in
  samplerMetadataOf t c' = <[samplerIndex := o.1]> (samplerMetadataOf t c)
  /\ numActiveSamplers t c' = (if o.2 then 0%Z else numActiveSamplers t c)
  /\ stageDirty t c' = stageDirty t c
  /\ headerOf t c' = headerOf t c.
Proof.
  intros Ht. cbv zeta. unfold ShaderConstants.onSamplerChange.
  destruct t; try congruence; cbn [samplerMetadataOf numActiveSamplers];
    destruct (ShaderConstants.updateSamplerMetadata _ texture) as [d []];
    repeat split; reflexivity.
Qed.

Lemma ShaderConstants11_eta_VS (c : ShaderConstants11) :
  set_mSamplerMetadataVS (mSamplerMetadataVS c) c = c.
Proof. destruct c; reflexivity. Qed.

Lemma ShaderConstants11_eta_PS (c : ShaderConstants11) :
  set_mSamplerMetadataPS (mSamplerMetadataPS c) c = c.
Proof. destruct c; reflexivity. Qed.

Lemma ShaderConstants11_eta_CS (c : ShaderConstants11) :
  set_mSamplerMetadataCS (mSamplerMetadataCS c) c = c.
Proof. destruct c; reflexivity. Qed.

(** X16.  [onSamplerChange] followed by [updateBuffer]: when the texture
    changes the metadata of a sampler of the stage, the next
    [updateBuffer] for a program that uses a sampler uploads, and the
    upload carries the new metadata of that sampler if it is in the
    program's range; when the texture changes nothing, [onSamplerChange]
    leaves the constants as they were. *)
Theorem onSamplerChange_reaches_buffer (renderer : Renderer11) (t : ShaderType)
    (samplerIndex : nat) (texture : Texture) (programD3D : Program)
    (driverConstantBuffer : Resource11) (c : ShaderConstants11) :
  t <> Geometry ->
  samplerIndex < length (samplerMetadataOf t c) ->
  let old := default zero_SamplerMetadata (samplerMetadataOf t c !! samplerIndex) in
  let o := ShaderConstants.updateSamplerMetadata old texture in
  let c' := ShaderConstants.onSamplerChange t samplerIndex texture c in
  let numSamplers := s32 (getUsedSamplerRange programD3D t) in
  (o.2 = false -> c' = c)
  /\ (o.2 = true -> (0 < numSamplers)%Z ->
      mapResource renderer (res_get driverConstantBuffer) = NoError tt ->
      exists uploaded,
        samplerUploads
          (calls (ShaderConstants.updateBuffer renderer t programD3D
                    driverConstantBuffer c')) = [uploaded]
        /\ (samplerIndex < Z.to_nat numSamplers -> uploaded !! samplerIndex = Some o.1)).
Proof.
  intros Ht Hlt old o c' numSamplers. split.
  - intros Hsame.
    pose proof (updateSamplerMetadata_unchanged old texture) as Hid. fold o in Hid.
    specialize (Hid Hsame).
    subst c'. unfold ShaderConstants.onSamplerChange.
    destruct (lookup_lt_is_Some_2 _ _ Hlt) as [d Hd].
    assert (old = d) as Hold by (subst old; rewrite Hd; reflexivity).
    destruct t; try congruence; cbn [samplerMetadataOf] in *;
      fold old; fold o; destruct o as [d' b]; cbn [fst snd] in *; subst b d';
      rewrite Hold, list_insert_id by exact Hd.
    + apply ShaderConstants11_eta_VS.
    + apply ShaderConstants11_eta_PS.
    + apply ShaderConstants11_eta_CS.
  - intros Hchanged Hn Hmap.
    destruct (onSamplerChange_spec t samplerIndex texture c Ht) as (Hm & Hnum & _ & _).
    cbv zeta in Hm, Hnum. fold old in Hm, Hnum. fold o in Hm, Hnum. fold c' in Hm, Hnum.
    rewrite Hchanged in Hnum.
    destruct (updateBuffer_spec renderer t programD3D driverConstantBuffer c' Ht)
      as (Hcalls & _). cbv zeta in Hcalls. fold numSamplers in Hcalls.
    assert (uploadNeeded t programD3D c' = true) as Hneed.
    { unfold uploadNeeded. fold numSamplers. rewrite Hnum.
      apply orb_true_iff. right. apply Z.ltb_lt. exact Hn. }
    rewrite Hcalls, Hneed, Hmap. cbn [samplerUploads omap].
    eexists. split; [reflexivity|].
    intros Hin. rewrite lookup_take_lt by exact Hin.
    rewrite Hm. apply list_lookup_insert_eq. exact Hlt.
Qed.

Lemma onSamplerChange_reaches_buffer_witness :
  let c' := ShaderConstants.onSamplerChange Fragment 1 SamplerExample.texture
              ConstantsExample.constants in
  exists uploaded,
    samplerUploads
      (calls (ShaderConstants.updateBuffer Sample.renderer Fragment (Sample.programUsing 2)
                ConstantsExample.driverConstantBufferPS c')) = [uploaded]
    /\ uploaded !! 1 = Some {| baseLevel := 2; internalFormatBits := 0; wrapModes := 38 |}.
Proof.
  cbv zeta.
  assert (Fragment <> Geometry) as H1 by discriminate.
  assert (1 < length (samplerMetadataOf Fragment ConstantsExample.constants)) as H2
    by (vm_compute; lia).
  destruct (onSamplerChange_reaches_buffer Sample.renderer Fragment 1 SamplerExample.texture
              (Sample.programUsing 2) ConstantsExample.driverConstantBufferPS
              ConstantsExample.constants H1 H2) as (_ & H).
  destruct H as (uploaded & Hu & Hi);
    [vm_compute; reflexivity|vm_compute; reflexivity|reflexivity|].
  exists uploaded. split; [exact Hu|].
  rewrite Hi by (vm_compute; lia). vm_compute. reflexivity.
Defined.

(* ================================================================== *)
(** * Notifications that change nothing                                  *)
(* ================================================================== *)

Lemma neB_refl (a : bool) : neB a a = false.
Proof. destruct a; reflexivity. Qed.

Lemma Rectangle_eqb_refl (r : Rectangle.t) : Rectangle.eqb r r = true.
Proof. unfold Rectangle.eqb. rewrite !Z.eqb_refl. reflexivity. Qed.

Lemma CullFaceMode_eqb_refl (m : CullFaceMode) : CullFaceMode_eqb m m = true.
Proof. destruct m; reflexivity. Qed.

Lemma syncStateBit_redundant (MAX_VERTEX_ATTRIBS : nat) (mRenderer : Renderer11)
    (context : Context) (st : St) (dirtyBit : State.DirtyBit) :
  cacheAgrees context st -> comparedWithCache dirtyBit = true ->
  syncStateBit MAX_VERTEX_ATTRIBS mRenderer context st dirtyBit = st.
Proof.
  intros [A1 A2 A3 A4 A5 A6 A7 A8 A9 A10 A11 A12 F1 F2 F3 F4 F5] Hc.
  destruct st as [m w]. cbn [sm world] in *.
  destruct dirtyBit; try discriminate Hc; cbn [syncStateBit]; cbv zeta; cbn [sm world];
    unfold neF;
    rewrite ?F1, ?F2, ?F3, ?F4, ?F5,
      ?A1, ?A2, ?A3, ?A4, ?A5, ?A6, ?A7, ?A8, ?A9, ?A10, ?A11, ?A12,
      ?neZ_refl, ?neB_refl, ?Rectangle_eqb_refl, ?CullFaceMode_eqb_refl;
    reflexivity.
Qed.

(** X17.  Notifications about state that did not change are ignored: when
    the cached blend, depth-stencil, rasterizer, scissor and viewport state
    is the logical state (for the blend colour, the polygon offset and the
    depth range, which are floats: compares equal to it), [syncState] over
    any notifications of the kinds that it answers by a comparison with
    the cache leaves the manager exactly as it was, with no group made
    dirty. *)
Theorem syncState_ignores_redundant_notifications (MAX_VERTEX_ATTRIBS : nat)
    (mRenderer : Renderer11) (context : Context) (dirtyBits : list State.DirtyBit)
    (st : St) :
  cacheAgrees context st ->
  Forall (fun dirtyBit => comparedWithCache dirtyBit = true) dirtyBits ->
  syncState MAX_VERTEX_ATTRIBS mRenderer context dirtyBits st = st.
Proof.
  intros Ha Hl. unfold syncState.
  induction Hl as [|dirtyBit l Hb Hl IH]; cbn [fold_left]; [reflexivity|].
  rewrite syncStateBit_redundant by assumption. exact IH.
Qed.

Lemma syncState_ignores_redundant_notifications_witness :
  let st := state (Sample.updateState PassExample.context Sample.drawTriangles
                     Sample.fresh) in
  syncState Sample.MAX_VERTEX_ATTRIBS Sample.renderer PassExample.context
    [State.DIRTY_BIT_BLEND_FUNCS; State.DIRTY_BIT_BLEND_COLOR; State.DIRTY_BIT_SCISSOR;
     State.DIRTY_BIT_POLYGON_OFFSET; State.DIRTY_BIT_DEPTH_RANGE;
     State.DIRTY_BIT_VIEWPORT; State.DIRTY_BIT_CULL_FACE] st
  = st.
Proof.
  cbv zeta.
  apply syncState_ignores_redundant_notifications.
  - constructor; vm_compute; reflexivity.
  - repeat constructor.
Defined.

(** X18.  [syncState] only ever adds dirt: whatever the notifications, an
    internal dirty bit, a dirty current value or the index-buffer flag
    that was set before the call is still set after it. *)
Theorem syncState_only_adds_dirt (MAX_VERTEX_ATTRIBS : nat) (mRenderer : Renderer11)
    (context : Context) (dirtyBits : list State.DirtyBit) (st : St) :
  let st' := syncState MAX_VERTEX_ATTRIBS mRenderer context dirtyBits st in
  (forall b, internalBit st b = true -> internalBit st' b = true)
  /\ (forall i, i < MAX_VERTEX_ATTRIBS ->
                currentValueDirty st i = true -> currentValueDirty st' i = true)
  /\ (indexBufferDirty st = true -> indexBufferDirty st' = true).
Proof.
  intros st'.
  destruct (syncState_monotone MAX_VERTEX_ATTRIBS mRenderer context dirtyBits st)
    as (H1 & H2 & H3 & _).
  auto.
Qed.

(* ================================================================== *)
(** * Framebuffer invalidation                                           *)
(* ================================================================== *)

Lemma setDirty_test (b b' : DirtyBitType) (m : StateManager11) :
  BitSet.test (mInternalDirtyBits m) (dirtyBitIndex b') = true ->
  BitSet.test (mInternalDirtyBits (setDirty b m)) (dirtyBitIndex b') = true.
Proof. intros H. cbn. apply BitSet_test_set_mono, H. Qed.

Lemma processFramebufferInvalidation_off mRenderer context (m : StateManager11) :
  mRenderTargetIsDirty (flags m) = false ->
  processFramebufferInvalidation mRenderer context m = m.
Proof. intros H. unfold processFramebufferInvalidation. rewrite H. reflexivity. Qed.

Lemma processFramebufferInvalidation_bits mRenderer context (m : StateManager11) :
  let m' := processFramebufferInvalidation mRenderer context m in
  (forall b, BitSet.test (mInternalDirtyBits m) (dirtyBitIndex b) = true ->
             BitSet.test (mInternalDirtyBits m') (dirtyBitIndex b) = true)
  /\ (mRenderTargetIsDirty (flags m) = true ->
      BitSet.test (mInternalDirtyBits m') (dirtyBitIndex DIRTY_BIT_RENDER_TARGET) = true
      /\ BitSet.test (mInternalDirtyBits m') (dirtyBitIndex DIRTY_BIT_SHADERS) = true
      /\ BitSet.test (mInternalDirtyBits m') (dirtyBitIndex DIRTY_BIT_BLEND_STATE) = true).
Proof.
  cbv zeta. unfold processFramebufferInvalidation.
  destruct (mRenderTargetIsDirty (flags m)) eqn:E; cbn [negb];
    [|split; [auto|discriminate]].
  unfold checkPresentPath, invalidateViewport, invalidateDriverUniforms, invalidateShaders.
  cbv zeta.
  repeat match goal with
         | |- context [if ?b then _ else _] => destruct b
         | |- context [match ?x with Some _ => _ | None => _ end] => destruct x
         end.
  all: cbn -[BitSet.set BitSet.test dirtyBitIndex].
  all: split; [intros b Hb|intros _; repeat split].
  all: repeat first [ apply BitSet_test_set_same | exact Hb | apply BitSet_test_set_mono ].
Qed.

(** X19.  [processFramebufferInvalidation] does nothing unless the render
    target was invalidated; when it was, the flag is consumed, the
    render-target, shader and blend-state groups are made dirty and no
    group that was dirty is made clean; run a second time it does
    nothing. *)
Theorem processFramebufferInvalidation_consumes_flag (mRenderer : Renderer11)
    (context : Context) (m : StateManager11) :
  let m' := processFramebufferInvalidation mRenderer context m in
  (mRenderTargetIsDirty (flags m) = false -> m' = m)
  /\ mRenderTargetIsDirty (flags m') = false
  /\ (mRenderTargetIsDirty (flags m) = true ->
      BitSet.test (mInternalDirtyBits m') (dirtyBitIndex DIRTY_BIT_RENDER_TARGET) = true
      /\ BitSet.test (mInternalDirtyBits m') (dirtyBitIndex DIRTY_BIT_SHADERS) = true
      /\ BitSet.test (mInternalDirtyBits m') (dirtyBitIndex DIRTY_BIT_BLEND_STATE) = true)
  /\ (forall b, BitSet.test (mInternalDirtyBits m) (dirtyBitIndex b) = true ->
                BitSet.test (mInternalDirtyBits m') (dirtyBitIndex b) = true)
  /\ processFramebufferInvalidation mRenderer context m' = m'.
Proof.
  intros m'.
  pose proof (processFramebufferInvalidation_clears_flag mRenderer context m) as Hc.
  destruct (processFramebufferInvalidation_bits mRenderer context m) as [Hm Hs].
  split; [apply processFramebufferInvalidation_off|].
  split; [exact Hc|]. split; [exact Hs|]. split; [exact Hm|].
  apply processFramebufferInvalidation_off, Hc.
Qed.

(* ================================================================== *)
(** * A pass that fails before the drain                                 *)
(* ================================================================== *)

Lemma keepsDirt_refl (s : St) : keepsDirt s s.
Proof. intros b H. exact H. Qed.

Lemma keepsDirt_trans (s1 s2 s3 : St) : keepsDirt s1 s2 -> keepsDirt s2 s3 -> keepsDirt s1 s3.
Proof. intros H1 H2 b H. apply H2, H1, H. Qed.

Lemma dirtKept_preserves {A} (m : M St A) :
  preserves (fun s => mInternalDirtyBits (sm s)) m -> dirtKept m.
Proof. intros H s b Hb. unfold internalBit in *. rewrite (H s). exact Hb. Qed.

Lemma dirtKept_framed {A} sampleMask (m : M St A) : framed true sampleMask m -> dirtKept m.
Proof.
  intros H s b Hb. unfold internalBit in *.
  rewrite (frame_bits _ _ _ _ (H s)). exact Hb.
Qed.

Lemma dirtKept_modSM (f : StateManager11 -> StateManager11) :
  (forall m b, BitSet.test (mInternalDirtyBits m) (dirtyBitIndex b) = true ->
               BitSet.test (mInternalDirtyBits (f m)) (dirtyBitIndex b) = true) ->
  dirtKept (modSM f).
Proof. intros H s b Hb. apply H, Hb. Qed.

Lemma dirtKept_bind {A B} (m : M St A) (k : A -> M St B) :
  dirtKept m -> (forall a, dirtKept (k a)) -> dirtKept (m ≫= k).
Proof.
  intros Hm Hk s. rewrite run_bind. specialize (Hm s).
  destruct (m s) as [[[a|e] s1] c1]; cbn in Hm |- *; [|exact Hm].
  specialize (Hk a s1). destruct (k a s1) as [[r2 s2] c2]. cbn in Hk |- *.
  eapply keepsDirt_trans; eassumption.
Qed.

Lemma dirtKept_when (b : bool) (m : M St unit) : dirtKept m -> dirtKept (when b m).
Proof. intros H. destruct b; [exact H|]. intros s. apply keepsDirt_refl. Qed.

Lemma dirtKeptOnError_bind {A B} (m : M St A) (k : A -> M St B) :
  dirtKept m -> (forall a, dirtKeptOnError (k a)) -> dirtKeptOnError (m ≫= k).
Proof.
  intros Hm Hk s e. rewrite run_bind. specialize (Hm s).
  destruct (m s) as [[[a|e1] s1] c1]; cbn in Hm |- *; [|intros _; exact Hm].
  specialize (Hk a s1 e). destruct (k a s1) as [[r2 s2] c2]. cbn in Hk |- *.
  intros Hr. eapply keepsDirt_trans; [exact Hm|apply Hk, Hr].
Qed.

Lemma updateState_prepare_keeps_dirt_on_error mRenderer context drawCallParams :
  dirtKeptOnError (updateState_prepare mRenderer context drawCallParams).
Proof.
  unfold updateState_prepare. cbv zeta.
  repeat (lazymatch goal with
          | |- dirtKeptOnError (getSM mInternalDirtyBits ≫= _) => fail
          | _ => apply dirtKeptOnError_bind; [|intros ?]
          end).
  all: try (intros s e; mrun; discriminate).
  all: repeat first
         [ apply dirtKept_when
         | apply dirtKept_bind; [|intros ?] ].
  all: try (apply dirtKept_preserves; unfold updateSamplerMapping; quiet; fail).
  all: try (apply (dirtKept_framed 0%Z); first [ apply framed_generateSwizzles
                                                | apply framed_applyIndexBuffer ]; fail).
  all: try (apply dirtKept_modSM; intros m b Hb;
            first [ apply processFramebufferInvalidation_bits, Hb
                  | unfold invalidateTexturesAndSamplers, invalidateSwizzles,
                      invalidateDriverUniforms, invalidateInputLayout, invalidateShaders;
                    cbn -[BitSet.set BitSet.test dirtyBitIndex];
                    repeat first [ exact Hb | apply BitSet_test_set_mono ] ]; fail).
Qed.

(** X20.  When [updateState] fails before it takes the snapshot of the
    dirty bits (generating swizzles, refreshing the attachments, syncing
    the vertex array or applying the index buffer), it returns that error
    without running a synchroniser, and every internal dirty bit that was
    set is still set: the groups are synchronised by a later pass. *)
Theorem updateState_failure_before_drain_keeps_dirt
    (MAX_VERTEX_ATTRIBS RESERVED_CONSTANT_BUFFER_SLOT_DRIVER
       RESERVED_CONSTANT_BUFFER_SLOT_DEFAULT_UNIFORM_BLOCK : nat)
    (mRenderer : Renderer11) (context : Context) (drawCallParams : DrawCallParams)
    (s : St) (e : Z) :
  let prepared := updateState_prepare mRenderer context drawCallParams s in
  let o := updateState MAX_VERTEX_ATTRIBS RESERVED_CONSTANT_BUFFER_SLOT_DRIVER
             RESERVED_CONSTANT_BUFFER_SLOT_DEFAULT_UNIFORM_BLOCK mRenderer context
             drawCallParams s in
  result prepared = Error e ->
  o = (Error e, state prepared, calls prepared)
  /\ forall b, internalBit s b = true -> internalBit (state o) b = true.
Proof.
  intros prepared o Hres.
  pose proof (updateState_prepare_keeps_dirt_on_error mRenderer context drawCallParams
                s e Hres) as Hk.
  fold prepared in Hk.
  assert (o = (Error e, state prepared, calls prepared)) as Ho.
  { subst o. unfold updateState. rewrite run_bind. fold prepared.
    destruct prepared as [[r s1] c1]. cbn in Hres. subst r. reflexivity. }
  split; [exact Ho|]. rewrite Ho. exact Hk.
Qed.

Lemma updateState_failure_before_drain_keeps_dirt_witness :
  let o := Sample.updateState FailedPrepareExample.context Sample.drawTriangles
             Sample.fresh in
  result o = Error 0x8007000E%Z
  /\ calls o = []
  /\ forall b, internalBit Sample.fresh b = true -> internalBit (state o) b = true.
Proof.
  cbv zeta.
  assert (result (updateState_prepare Sample.renderer FailedPrepareExample.context
                    Sample.drawTriangles Sample.fresh) = Error 0x8007000E%Z) as H
    by (vm_compute; reflexivity).
  destruct (updateState_failure_before_drain_keeps_dirt Sample.MAX_VERTEX_ATTRIBS
              Sample.SLOT_DRIVER Sample.SLOT_DEFAULT_UNIFORM_BLOCK Sample.renderer
              FailedPrepareExample.context Sample.drawTriangles Sample.fresh _ H)
    as [Ho Hk].
  split; [|split].
  - unfold Sample.updateState. rewrite Ho. reflexivity.
  - unfold Sample.updateState. rewrite Ho. vm_compute. reflexivity.
  - exact Hk.
Defined.

(* ================================================================== *)
(** * Uniform buffers                                                    *)
(* ================================================================== *)

Lemma syncUniformBuffers_one_vertex_buffer (mRenderer : Renderer11) (context : Context)
    (programD3D : Program) (s : St) (binding : Z) (bufferStorage : Buffer11)
    (constantBuffer : Resource11) (firstConstant numConstants : Z) :
  getVertexUniformBufferCache programD3D = [binding] ->
  getFragmentUniformBufferCache programD3D = [] ->
  binding <> (-1)%Z ->
  let uniformBuffer := getIndexedUniformBuffer (getGLState context) binding in
  obp_get uniformBuffer = Some bufferStorage ->
  getConstantBufferRange bufferStorage (obp_getOffset uniformBuffer)
    (obp_getSize uniformBuffer) = NoError (constantBuffer, firstConstant, numConstants) ->
  let reserved := getReservedVertexUniformBuffers mRenderer in
  let c := constantBufferCache (sm s) in
  negb ((default 0%Z (mCurrentConstantBufferVS c !! 0%nat) =? res_getSerial constantBuffer)%Z
        && (default 0%Z (mCurrentConstantBufferVSOffset c !! 0%nat)
            =? obp_getOffset uniformBuffer)%Z
        && (default 0%Z (mCurrentConstantBufferVSSize c !! 0%nat)
            =? obp_getSize uniformBuffer)%Z) = true ->
  let o := syncUniformBuffers mRenderer context programD3D s in
  result o = NoError tt
  /\ calls o = [bindVertexUniformBuffer reserved constantBuffer (obp_getSize uniformBuffer)
                  firstConstant numConstants]
  /\ mCurrentConstantBufferVS (constantBufferCache (sm (state o)))
     = <[reserved := res_getSerial constantBuffer]> (mCurrentConstantBufferVS c)
  /\ mCurrentConstantBufferVSOffset (constantBufferCache (sm (state o)))
     = <[reserved := obp_getOffset uniformBuffer]> (mCurrentConstantBufferVSOffset c)
  /\ mCurrentConstantBufferVSSize (constantBufferCache (sm (state o)))
     = <[reserved := obp_getSize uniformBuffer]> (mCurrentConstantBufferVSSize c).
Proof.
  intros HV HF Hb uniformBuffer Hget Hrange reserved c Hdiff o. subst o.
  unfold syncUniformBuffers, syncUniformBuffers_stage. cbv zeta.
  rewrite HV, HF. cbn [imap forM_].
  assert ((binding =? -1)%Z = false) as -> by (apply Z.eqb_neq; exact Hb).
  fold uniformBuffer. rewrite Hget, Hrange.
  rewrite bind_modSM, run_bind, run_bind, bind_try_ok. cbv beta iota zeta.
  rewrite bind_getSM.
  cbn [sm constantBufferCache upd_driverBuffers world]. fold c.
  apply negb_true_iff in Hdiff. rewrite Hdiff.
  unfold bindVertexUniformBuffer. rewrite Nat.add_0_r. fold reserved.
  destruct (neZ firstConstant 0 && neZ (obp_getSize uniformBuffer) 0); mrun; cbn;
    repeat split; reflexivity.
Qed.

(** X21.  [syncUniformBuffers] looks for a uniform buffer in its cache at
    the index the buffer has in the program, and records a buffer it binds
    at that index plus the number of reserved slots.  So with reserved
    slots, when the record at the program's index is not the buffer, a
    sync binds the buffer and records it, and a second sync with nothing
    changed makes the same device call again. *)
Theorem syncUniformBuffers_filter_reads_program_index (mRenderer : Renderer11)
    (context : Context) (programD3D : Program) (s : St) (binding : Z)
    (bufferStorage : Buffer11) (constantBuffer : Resource11)
    (firstConstant numConstants : Z) :
  getVertexUniformBufferCache programD3D = [binding] ->
  getFragmentUniformBufferCache programD3D = [] ->
  binding <> (-1)%Z ->
  let uniformBuffer := getIndexedUniformBuffer (getGLState context) binding in
  obp_get uniformBuffer = Some bufferStorage ->
  getConstantBufferRange bufferStorage (obp_getOffset uniformBuffer)
    (obp_getSize uniformBuffer) = NoError (constantBuffer, firstConstant, numConstants) ->
  let reserved := getReservedVertexUniformBuffers mRenderer in
  let c := constantBufferCache (sm s) in
  0 < reserved < length (mCurrentConstantBufferVS c) ->
  default 0%Z (mCurrentConstantBufferVS c !! 0%nat) <> res_getSerial constantBuffer ->
  let once := syncUniformBuffers mRenderer context programD3D s in
  let twice := syncUniformBuffers mRenderer context programD3D (state once) in
  calls once = [bindVertexUniformBuffer reserved constantBuffer (obp_getSize uniformBuffer)
                  firstConstant numConstants]
  /\ mCurrentConstantBufferVS (constantBufferCache (sm (state once))) !! reserved
     = Some (res_getSerial constantBuffer)
  /\ calls twice = calls once.
Proof.
  intros HV HF Hb uniformBuffer Hget Hrange reserved c Hres Hne once twice.
  assert (forall x y,
            negb ((default 0%Z (mCurrentConstantBufferVS c !! 0%nat)
                   =? res_getSerial constantBuffer)%Z && x && y) = true) as Hdiff.
  { intros x y. apply Z.eqb_neq in Hne. rewrite Hne. reflexivity. }
  destruct (syncUniformBuffers_one_vertex_buffer mRenderer context programD3D s binding
              bufferStorage constantBuffer firstConstant numConstants HV HF Hb Hget Hrange
              (Hdiff _ _)) as (_ & Hc1 & Hs1 & _).
  fold once in Hc1, Hs1. fold c in Hs1. fold reserved in Hc1, Hs1. fold uniformBuffer in Hc1.
  assert (default 0%Z (mCurrentConstantBufferVS (constantBufferCache (sm (state once)))
                         !! 0%nat) <> res_getSerial constantBuffer) as Hne2.
  { rewrite Hs1, list_lookup_insert_ne by lia. exact Hne. }
  assert (forall x y,
            negb ((default 0%Z (mCurrentConstantBufferVS
                                  (constantBufferCache (sm (state once))) !! 0%nat)
                   =? res_getSerial constantBuffer)%Z && x && y) = true) as Hdiff2.
  { intros x y. apply Z.eqb_neq in Hne2. rewrite Hne2. reflexivity. }
  destruct (syncUniformBuffers_one_vertex_buffer mRenderer context programD3D (state once)
              binding bufferStorage constantBuffer firstConstant numConstants HV HF Hb Hget
              Hrange (Hdiff2 _ _)) as (_ & Hc2 & _).
  fold twice in Hc2. fold reserved in Hc2. fold uniformBuffer in Hc2.
  split; [exact Hc1|]. split.
  - rewrite Hs1. apply list_lookup_insert_eq. lia.
  - rewrite Hc2, Hc1. reflexivity.
Qed.

Lemma syncUniformBuffers_filter_reads_program_index_witness :
  let sync :=
    syncUniformBuffers Sample.renderer UniformBufferExample.context
      UniformBufferExample.program in
  calls (sync Sample.fresh) = [XSSetConstantBuffers Vertex 2 1 [0x9400%Z]]
  /\ calls (sync (state (sync Sample.fresh))) = [XSSetConstantBuffers Vertex 2 1 [0x9400%Z]].
Proof.
  cbv zeta.
  destruct (syncUniformBuffers_filter_reads_program_index Sample.renderer
              UniformBufferExample.context UniformBufferExample.program Sample.fresh 0%Z
              UniformBufferExample.bufferStorage
              {| res_get := 0x9400; res_getSerial := 31 |} 0%Z 0%Z)
    as (H1 & _ & H2);
    [reflexivity|reflexivity|discriminate|reflexivity|reflexivity
    |vm_compute; lia|vm_compute; discriminate|].
  split; [exact H1|]. rewrite H2. exact H1.
Defined.

(* ================================================================== *)
(** * What the drain visits                                              *)
(* ================================================================== *)

Lemma snapshotComplete_bind {A} (m : M St A) (k : A -> M St (Z * BitSet.t)) :
  dirtKept m -> (forall a, snapshotComplete (k a)) -> snapshotComplete (m ≫= k).
Proof.
  intros Hm Hk s r. rewrite run_bind. specialize (Hm s).
  destruct (m s) as [[[a|e] s1] c1]; cbn in Hm |- *; [|discriminate].
  specialize (Hk a s1 r). destruct (k a s1) as [[r2 s2] c2]. cbn in Hk |- *.
  intros Hr b Hb. apply Hk; [exact Hr|]. apply Hm, Hb.
Qed.

Lemma updateState_prepare_snapshot mRenderer context drawCallParams :
  snapshotComplete (updateState_prepare mRenderer context drawCallParams).
Proof.
  unfold updateState_prepare. cbv zeta.
  repeat (lazymatch goal with
          | |- snapshotComplete (getSM mInternalDirtyBits ≫= _) => fail
          | _ => apply snapshotComplete_bind; [|intros ?]
          end).
  all: try (intros s r; mrun; intros Hr; injection Hr as <-; intros b Hb; exact Hb).
  all: repeat first
         [ apply dirtKept_when
         | apply dirtKept_bind; [|intros ?] ].
  all: try (apply dirtKept_preserves; unfold updateSamplerMapping; quiet; fail).
  all: try (apply (dirtKept_framed 0%Z); first [ apply framed_generateSwizzles
                                                | apply framed_applyIndexBuffer ]; fail).
  all: try (apply dirtKept_modSM; intros m b Hb;
            first [ apply processFramebufferInvalidation_bits, Hb
                  | unfold invalidateTexturesAndSamplers, invalidateSwizzles,
                      invalidateDriverUniforms, invalidateInputLayout, invalidateShaders;
                    cbn -[BitSet.set BitSet.test dirtyBitIndex];
                    repeat first [ exact Hb | apply BitSet_test_set_mono ] ]; fail).
Qed.

Lemma updateState_prepare_after_invalidation mRenderer context drawCallParams (s : St) :
  updateState_prepare mRenderer context drawCallParams
    {| sm := processFramebufferInvalidation mRenderer context (sm s); world := world s |}
  = updateState_prepare mRenderer context drawCallParams s.
Proof.
  unfold updateState_prepare. cbv zeta. rewrite !bind_modSM. cbn [sm world].
  rewrite (processFramebufferInvalidation_off mRenderer context
             (processFramebufferInvalidation mRenderer context (sm s)))
    by apply processFramebufferInvalidation_clears_flag.
  reflexivity.
Qed.

Lemma filter_app_cons_inv {A} (P : A -> Prop) `{forall x, Decision (P x)} (l : list A) :
  forall before x after,
    filter P l = before ++ x :: after ->
    exists l1 l2, l = l1 ++ x :: l2 /\ after = filter P l2.
Proof.
  induction l as [|a l IH]; intros before x after Heq.
  - destruct before; discriminate.
  - rewrite filter_cons in Heq. destruct (decide (P a)).
    + destruct before as [|b before]; cbn in Heq.
      * injection Heq as -> <-. exists [], l. split; reflexivity.
      * injection Heq as -> Heq. destruct (IH _ _ _ Heq) as (l1 & l2 & -> & ->).
        exists (b :: l1), l2. split; reflexivity.
    + destruct (IH _ _ _ Heq) as (l1 & l2 & -> & ->).
      exists (a :: l1), l2. split; reflexivity.
Qed.

Lemma allDirtyBits_index (i : nat) (b : DirtyBitType) :
  allDirtyBits !! i = Some b -> dirtyBitIndex b = i.
Proof.
  unfold allDirtyBits.
  do 15 (destruct i as [|i]; [cbn; intros [= <-]; reflexivity|]).
  cbn. discriminate.
Qed.

Lemma dirtyBitsOf_order (m : BitSet.t) (b1 b2 : DirtyBitType) :
  dirtyBitIndex b1 < dirtyBitIndex b2 -> notAfter b1 b2 (dirtyBitsOf m).
Proof.
  intros Hlt before after Heq Hin. unfold dirtyBitsOf in Heq.
  apply filter_app_cons_inv in Heq as (l1 & l2 & Hall & ->).
  apply list_elem_of_In, list_elem_of_filter in Hin as [_ Hin].
  apply list_elem_of_lookup_1 in Hin as [j Hj].
  assert (allDirtyBits !! length l1 = Some b2) as H2.
  { rewrite Hall. apply list_lookup_middle. reflexivity. }
  assert (allDirtyBits !! (length l1 + S j) = Some b1) as H1.
  { rewrite Hall, lookup_app_r by lia.
    replace (length l1 + S j - length l1) with (S j) by lia. exact Hj. }
  apply allDirtyBits_index in H1, H2. lia.
Qed.

(** X22.  The snapshot that the drain of [updateState] walks is complete
    and ordered: it has every group that was dirty when [updateState] was
    called; when the render target had been invalidated it has the
    render-target, shader and blend-state groups; and it is walked in the
    order of the enumeration, so the viewport is never synchronised after
    the driver uniforms, which depend on it. *)
Theorem updateState_snapshot_complete (mRenderer : Renderer11) (context : Context)
    (drawCallParams : DrawCallParams) (s : St) (sampleMask : Z) (dirtyBitsCopy : BitSet.t) :
  result (updateState_prepare mRenderer context drawCallParams s)
  = NoError (sampleMask, dirtyBitsCopy) ->
  (forall b, internalBit s b = true -> In b (dirtyBitsOf dirtyBitsCopy))
  /\ (mRenderTargetIsDirty (flags (sm s)) = true ->
      In DIRTY_BIT_RENDER_TARGET (dirtyBitsOf dirtyBitsCopy)
      /\ In DIRTY_BIT_SHADERS (dirtyBitsOf dirtyBitsCopy)
      /\ In DIRTY_BIT_BLEND_STATE (dirtyBitsOf dirtyBitsCopy))
  /\ notAfter DIRTY_BIT_VIEWPORT_STATE DIRTY_BIT_DRIVER_UNIFORMS
       (dirtyBitsOf dirtyBitsCopy).
Proof.
  intros Hres. split; [|split].
  - intros b Hb. apply dirtyBitsOf_In.
    exact (updateState_prepare_snapshot mRenderer context drawCallParams s _ Hres b Hb).
  - intros Hflag.
    destruct (processFramebufferInvalidation_bits mRenderer context (sm s)) as [_ Hset].
    destruct (Hset Hflag) as (H1 & H2 & H3).
    rewrite <- updateState_prepare_after_invalidation in Hres.
    pose proof (updateState_prepare_snapshot mRenderer context drawCallParams _ _ Hres)
      as Hsnap. cbn [snd] in Hsnap.
    repeat split; apply dirtyBitsOf_In, Hsnap; assumption.
  - apply dirtyBitsOf_order. cbn. lia.
Qed.

Lemma updateState_snapshot_complete_witness :
  exists dirtyBitsCopy,
    result (updateState_prepare Sample.renderer PassExample.context Sample.drawTriangles
              Sample.fresh) = NoError (4294967295%Z, dirtyBitsCopy)
    /\ In DIRTY_BIT_TEXTURE_AND_SAMPLER_STATE (dirtyBitsOf dirtyBitsCopy).
Proof.
  exists 32767%Z.
  assert (result (updateState_prepare Sample.renderer PassExample.context
                    Sample.drawTriangles Sample.fresh)
          = NoError (4294967295%Z, 32767%Z)) as H by (vm_compute; reflexivity).
  split; [exact H|].
  apply (proj1 (updateState_snapshot_complete Sample.renderer PassExample.context
                  Sample.drawTriangles Sample.fresh _ _ H)).
  vm_compute. reflexivity.
Defined.

(* ================================================================== *)
(** * Constant buffers set outside a draw                                *)
(* ================================================================== *)

Lemma invalidateConstantBuffer_group (driverSlot defaultBlockSlot slot : nat)
    (m : StateManager11) :
  invalidateConstantBuffer driverSlot defaultBlockSlot slot m
  = setDirty (constantBufferGroup driverSlot defaultBlockSlot slot) m.
Proof.
  unfold invalidateConstantBuffer, constantBufferGroup.
  destruct (slot =? driverSlot)%nat; [reflexivity|].
  destruct (slot =? defaultBlockSlot)%nat; reflexivity.
Qed.

Lemma upd_constantBufferCache_same (m : StateManager11) (f : ConstantBufferCache -> ConstantBufferCache) :
  f (constantBufferCache m) = constantBufferCache m -> upd_constantBufferCache f m = m.
Proof. intros H. destruct m. unfold upd_constantBufferCache. cbn in *. rewrite H. reflexivity. Qed.

Section ConstantBufferSetters.
Variables driverSlot defaultBlockSlot : nat.

Local Notation setVS := (setVertexConstantBuffer driverSlot defaultBlockSlot).
Local Notation setPS := (setPixelConstantBuffer driverSlot defaultBlockSlot).
Local Notation group := (constantBufferGroup driverSlot defaultBlockSlot).

Lemma setVertexConstantBuffer_spec (slot : nat) (buffer : option Resource11) (s : St) :
  let c := constantBufferCache (sm s) in
  slot < length (mCurrentConstantBufferVS c) ->
  slot < length (mCurrentConstantBufferVSOffset c) ->
  slot < length (mCurrentConstantBufferVSSize c) ->
  let changed := neZ (default 0%Z (mCurrentConstantBufferVS c !! slot)) (serialOf buffer) in
  let o := setVS slot buffer s in
  result o = NoError tt
  /\ calls o = (if changed
                then [XSSetConstantBuffers Vertex (Z.of_nat slot) 1 [pointerOf buffer]]
                else [])
  /\ vertexConstantBufferAt (state o) slot = (Some (serialOf buffer), Some 0%Z, Some 0%Z)
  /\ mInternalDirtyBits (sm (state o))
     = (if changed
        then BitSet.set (dirtyBitIndex (group slot)) (mInternalDirtyBits (sm s))
        else mInternalDirtyBits (sm s))
  /\ (vertexConstantBufferAt s slot = (Some (serialOf buffer), Some 0%Z, Some 0%Z) ->
      o = (NoError tt, s, [])).
Proof.
  intros c H1 H2 H3 changed o. subst o changed. unfold setVertexConstantBuffer.
  rewrite bind_modSM, bind_getSM. cbn [sm world].
  change (mCurrentConstantBufferVS (constantBufferCache (upd_constantBufferCache ?f (sm s))))
    with (mCurrentConstantBufferVS c).
  destruct (lookup_lt_is_Some_2 _ _ H1) as [cur Hcur].
  unfold vertexConstantBufferAt.
  assert (neZ (default 0%Z (mCurrentConstantBufferVS c !! slot)) (serialOf buffer)
          = match buffer with
            | Some b => neZ (default 0%Z (mCurrentConstantBufferVS c !! slot))
                          (res_getSerial b)
            | None => neZ (default 0%Z (mCurrentConstantBufferVS c !! slot)) 0
            end) as Hch by (destruct buffer; reflexivity).
  destruct (neZ (default 0%Z (mCurrentConstantBufferVS c !! slot)) (serialOf buffer)) eqn:E.
  - destruct buffer as [b|]; rewrite <- Hch; mrun; rewrite invalidateConstantBuffer_group;
      cbn -[BitSet.set dirtyBitIndex constantBufferGroup]; fold c;
      rewrite !list_lookup_insert_eq by assumption;
      (repeat split; try reflexivity);
      intros [= Hs _ _]; rewrite Hs in E; unfold neZ in E; cbn in E;
      rewrite ?Z.eqb_refl in E; discriminate.
  - assert (mCurrentConstantBufferVS c !! slot = Some (serialOf buffer)) as Hser.
    { rewrite Hcur in E |- *. cbn in E. apply neZ_false in E. congruence. }
    destruct buffer as [b|]; rewrite <- Hch; mrun;
      cbn -[BitSet.set dirtyBitIndex constantBufferGroup]; fold c;
      rewrite !list_lookup_insert_eq by assumption; rewrite Hser;
      (repeat split; try reflexivity);
      intros [= Ho Hz]; destruct s as [m w]; cbn [sm world] in *; do 3 f_equal;
      apply upd_constantBufferCache_same; subst c;
      rewrite !list_insert_id by assumption;
      destruct (constantBufferCache m); reflexivity.
Qed.

Lemma setPixelConstantBuffer_spec (slot : nat) (buffer : option Resource11) (s : St) :
  let c := constantBufferCache (sm s) in
  slot < length (mCurrentConstantBufferPS c) ->
  slot < length (mCurrentConstantBufferPSOffset c) ->
  slot < length (mCurrentConstantBufferPSSize c) ->
  let changed := neZ (default 0%Z (mCurrentConstantBufferPS c !! slot)) (serialOf buffer) in
  let o := setPS slot buffer s in
  result o = NoError tt
  /\ calls o = (if changed
                then [XSSetConstantBuffers Fragment (Z.of_nat slot) 1 [pointerOf buffer]]
                else [])
  /\ pixelConstantBufferAt (state o) slot = (Some (serialOf buffer), Some 0%Z, Some 0%Z)
  /\ mInternalDirtyBits (sm (state o))
     = (if changed
        then BitSet.set (dirtyBitIndex (group slot)) (mInternalDirtyBits (sm s))
        else mInternalDirtyBits (sm s))
  /\ (pixelConstantBufferAt s slot = (Some (serialOf buffer), Some 0%Z, Some 0%Z) ->
      o = (NoError tt, s, [])).
Proof.
  intros c H1 H2 H3 changed o. subst o changed. unfold setPixelConstantBuffer.
  rewrite bind_modSM, bind_getSM. cbn [sm world].
  change (mCurrentConstantBufferPS (constantBufferCache (upd_constantBufferCache ?f (sm s))))
    with (mCurrentConstantBufferPS c).
  destruct (lookup_lt_is_Some_2 _ _ H1) as [cur Hcur].
  unfold pixelConstantBufferAt.
  assert (neZ (default 0%Z (mCurrentConstantBufferPS c !! slot)) (serialOf buffer)
          = match buffer with
            | Some b => neZ (default 0%Z (mCurrentConstantBufferPS c !! slot))
                          (res_getSerial b)
            | None => neZ (default 0%Z (mCurrentConstantBufferPS c !! slot)) 0
            end) as Hch by (destruct buffer; reflexivity).
  destruct (neZ (default 0%Z (mCurrentConstantBufferPS c !! slot)) (serialOf buffer)) eqn:E.
  - destruct buffer as [b|]; rewrite <- Hch; mrun; rewrite invalidateConstantBuffer_group;
      cbn -[BitSet.set dirtyBitIndex constantBufferGroup]; fold c;
      rewrite !list_lookup_insert_eq by assumption;
      (repeat split; try reflexivity);
      intros [= Hs _ _]; rewrite Hs in E; unfold neZ in E; cbn in E;
      rewrite ?Z.eqb_refl in E; discriminate.
  - assert (mCurrentConstantBufferPS c !! slot = Some (serialOf buffer)) as Hser.
    { rewrite Hcur in E |- *. cbn in E. apply neZ_false in E. congruence. }
    destruct buffer as [b|]; rewrite <- Hch; mrun;
      cbn -[BitSet.set dirtyBitIndex constantBufferGroup]; fold c;
      rewrite !list_lookup_insert_eq by assumption; rewrite Hser;
      (repeat split; try reflexivity);
      intros [= Ho Hz]; destruct s as [m w]; cbn [sm world] in *; do 3 f_equal;
      apply upd_constantBufferCache_same; subst c;
      rewrite !list_insert_id by assumption;
      destruct (constantBufferCache m); reflexivity.
Qed.
End ConstantBufferSetters.

(** X23.  [setVertexConstantBuffer] and [setPixelConstantBuffer] always
    reset the recorded offset and size of the slot; they make their device
    call exactly when the serial of the buffer (the empty serial for a null
    buffer) is not the recorded one, record it and make dirty the group
    that owns the slot: driver uniforms, program uniforms or program
    uniform buffers.  Called again with the same buffer they make no call
    and change nothing. *)
Theorem setConstantBuffer_filters_by_serial (driverSlot defaultBlockSlot slot : nat)
    (buffer : option Resource11) (s : St) :
  let c := constantBufferCache (sm s) in
  slot < length (mCurrentConstantBufferVS c) ->
  slot < length (mCurrentConstantBufferVSOffset c) ->
  slot < length (mCurrentConstantBufferVSSize c) ->
  slot < length (mCurrentConstantBufferPS c) ->
  slot < length (mCurrentConstantBufferPSOffset c) ->
  slot < length (mCurrentConstantBufferPSSize c) ->
  let group := constantBufferGroup driverSlot defaultBlockSlot slot in
  let dirtied (changed : bool) :=
    if changed then BitSet.set (dirtyBitIndex group) (mInternalDirtyBits (sm s))
    else mInternalDirtyBits (sm s) in
  (let changed := neZ (default 0%Z (mCurrentConstantBufferVS c !! slot)) (serialOf buffer) in
   let o := setVertexConstantBuffer driverSlot defaultBlockSlot slot buffer s in
   calls o = (if changed
              then [XSSetConstantBuffers Vertex (Z.of_nat slot) 1 [pointerOf buffer]]
              else [])
   /\ vertexConstantBufferAt (state o) slot = (Some (serialOf buffer), Some 0%Z, Some 0%Z)
   /\ mInternalDirtyBits (sm (state o)) = dirtied changed
   /\ setVertexConstantBuffer driverSlot defaultBlockSlot slot buffer (state o)
      = (NoError tt, state o, []))
  /\ (let changed :=
        neZ (default 0%Z (mCurrentConstantBufferPS c !! slot)) (serialOf buffer) in
      let o := setPixelConstantBuffer driverSlot defaultBlockSlot slot buffer s in
      calls o = (if changed
                 then [XSSetConstantBuffers Fragment (Z.of_nat slot) 1 [pointerOf buffer]]
                 else [])
      /\ pixelConstantBufferAt (state o) slot = (Some (serialOf buffer), Some 0%Z, Some 0%Z)
      /\ mInternalDirtyBits (sm (state o)) = dirtied changed
      /\ setPixelConstantBuffer driverSlot defaultBlockSlot slot buffer (state o)
         = (NoError tt, state o, [])).
Proof.
  intros c V1 V2 V3 P1 P2 P3 group dirtied. split.
  - intros changed o.
    destruct (setVertexConstantBuffer_spec driverSlot defaultBlockSlot slot buffer s
                V1 V2 V3) as (_ & Hc & Ha & Hb & _).
    fold o in Hc, Ha, Hb. split; [exact Hc|]. split; [exact Ha|]. split; [exact Hb|].
    pose proof Ha as Ha'. unfold vertexConstantBufferAt in Ha'. injection Ha' as L1 L2 L3.
    apply lookup_lt_Some in L1, L2, L3.
    exact (proj2 (proj2 (proj2 (proj2
             (setVertexConstantBuffer_spec driverSlot defaultBlockSlot slot buffer
                (state o) L1 L2 L3)))) Ha).
  - intros changed o.
    destruct (setPixelConstantBuffer_spec driverSlot defaultBlockSlot slot buffer s
                P1 P2 P3) as (_ & Hc & Ha & Hb & _).
    fold o in Hc, Ha, Hb. split; [exact Hc|]. split; [exact Ha|]. split; [exact Hb|].
    pose proof Ha as Ha'. unfold pixelConstantBufferAt in Ha'. injection Ha' as L1 L2 L3.
    apply lookup_lt_Some in L1, L2, L3.
    exact (proj2 (proj2 (proj2 (proj2
             (setPixelConstantBuffer_spec driverSlot defaultBlockSlot slot buffer
                (state o) L1 L2 L3)))) Ha).
Qed.

Lemma setConstantBuffer_filters_by_serial_witness :
  let buffer := Some {| res_get := 0x9400; res_getSerial := 31 |} in
  let set := setVertexConstantBuffer Sample.SLOT_DRIVER Sample.SLOT_DEFAULT_UNIFORM_BLOCK
               3 buffer in
  calls (set Sample.fresh) = [XSSetConstantBuffers Vertex 3 1 [0x9400%Z]]
  /\ internalBit (state (set Sample.fresh)) DIRTY_BIT_PROGRAM_UNIFORM_BUFFERS = true
  /\ calls (set (state (set Sample.fresh))) = [].
Proof.
  cbv zeta.
  destruct (setConstantBuffer_filters_by_serial Sample.SLOT_DRIVER
              Sample.SLOT_DEFAULT_UNIFORM_BLOCK 3
              (Some {| res_get := 0x9400; res_getSerial := 31 |}) Sample.fresh)
    as ((Hc & _ & Hb & Hi) & _); [vm_compute; lia..|].
  split; [rewrite Hc; vm_compute; reflexivity|]. split.
  - unfold internalBit. rewrite Hb. vm_compute. reflexivity.
  - rewrite Hi. reflexivity.
Defined.

(* ================================================================== *)
(** * State set outside a draw is synchronised again                     *)
(* ================================================================== *)

Lemma forM_success_In {X} (l : list X) (f : X -> M St unit) :
  forall s, result (forM_ l f s) = NoError tt ->
  forall b, In b l ->
  exists s1, result (f b s1) = NoError tt
             /\ forall c, In c (calls (f b s1)) -> In c (calls (forM_ l f s)).
Proof.
  induction l as [|x l IH]; intros s Hres b Hin; [destruct Hin|].
  cbn [forM_] in Hres |- *. rewrite run_bind in Hres |- *.
  destruct (f x s) as [[[[]|e] s1] c1] eqn:Ex; cbn in Hres; [|discriminate].
  destruct Hin as [<- | Hin].
  - exists s. rewrite Ex. split; [reflexivity|].
    destruct (forM_ l f s1) as [[r2 s2] c2]. cbn. intros c Hc. apply in_or_app. auto.
  - specialize (IH s1).
    destruct (forM_ l f s1) as [[r2 s2] c2]. cbn in Hres, IH |- *.
    destruct (IH Hres b Hin) as (s' & Hr & Hc). exists s'. split; [exact Hr|].
    intros c Hc'. apply in_or_app. right. apply Hc, Hc'.
Qed.

Section Resynchronised.
Variables MAX_VERTEX_ATTRIBS RESERVED_CONSTANT_BUFFER_SLOT_DRIVER
          RESERVED_CONSTANT_BUFFER_SLOT_DEFAULT_UNIFORM_BLOCK : nat.
Variable mRenderer : Renderer11.
Variable context : Context.
Variable drawCallParams : DrawCallParams.

Local Notation pass :=
  (updateState MAX_VERTEX_ATTRIBS RESERVED_CONSTANT_BUFFER_SLOT_DRIVER
     RESERVED_CONSTANT_BUFFER_SLOT_DEFAULT_UNIFORM_BLOCK mRenderer context drawCallParams).

(** a successful pass entered with a group dirty runs the synchroniser of
    the group, successfully, and the calls of the synchroniser are calls
    of the pass *)
Lemma updateState_runs_dirty_group (s : St) (b : DirtyBitType) :
  internalBit s b = true ->
  result (pass s) = NoError tt ->
  exists sampleMask s1,
    let sync :=
      syncDirtyBit MAX_VERTEX_ATTRIBS RESERVED_CONSTANT_BUFFER_SLOT_DRIVER
        RESERVED_CONSTANT_BUFFER_SLOT_DEFAULT_UNIFORM_BLOCK mRenderer context
        drawCallParams sampleMask b in
    result (sync s1) = NoError tt
    /\ forall c, In c (calls (sync s1)) -> In c (calls (pass s)).
Proof.
  intros Hb Hres. unfold updateState in Hres |- *. rewrite run_bind in Hres |- *.
  pose proof (updateState_prepare_snapshot mRenderer context drawCallParams s) as Hsnap.
  destruct (updateState_prepare mRenderer context drawCallParams s)
    as [[[[sampleMask copy]|e] s0] c0]; [|discriminate Hres].
  specialize (Hsnap _ eq_refl b Hb). cbn [snd] in Hsnap.
  apply dirtyBitsOf_In in Hsnap.
  cbv beta iota in Hres |- *.
  match goal with
  | |- context [forM_ ?l ?f s0] =>
      pose proof (forM_success_In l f s0) as HF;
      destruct (forM_ l f s0) as [[r2 s2] c2]
  end.
  change (r2 = NoError tt) in Hres.
  change (calls (r2, s2, c0 ++ c2)) with (c0 ++ c2).
  destruct (HF Hres b Hsnap) as (s1 & Hr & Hc).
  exists sampleMask, s1. split; [exact Hr|].
  intros c Hin. apply in_or_app. right. apply Hc, Hin.
Qed.

Lemma syncBlendState_sets framebuffer blendState blendColor sampleMask (s : St) :
  result (syncBlendState mRenderer context framebuffer blendState blendColor sampleMask s)
  = NoError tt ->
  exists state blendFactor,
    In (OMSetBlendState state (Some blendFactor) sampleMask)
       (calls (syncBlendState mRenderer context framebuffer blendState blendColor
                 sampleMask s)).
Proof.
  unfold syncBlendState. rewrite !run_bind, run_emit.
  destruct (Renderer11_getBlendState mRenderer framebuffer blendState) as [dx|e];
    [rewrite bind_try_ok|rewrite bind_try_error; cbn; discriminate].
  cbv zeta. mrun. intros _. eexists _, _. cbn. right. left. reflexivity.
Qed.

Lemma syncDepthStencilState_sets glState (s : St) :
  result (syncDepthStencilState mRenderer glState s) = NoError tt ->
  exists state stencilRef,
    In (OMSetDepthStencilState state stencilRef)
       (calls (syncDepthStencilState mRenderer glState s)).
Proof.
  unfold syncDepthStencilState. rewrite bind_modSM, bind_getSM. cbv zeta.
  rewrite !run_bind, run_emit.
  match goal with
  | |- context [try ?r ≫= _] =>
      destruct r as [dx|e]; [rewrite bind_try_ok|rewrite bind_try_error; cbn; discriminate]
  end.
  mrun. intros _. eexists _, _. cbn. right. left. reflexivity.
Qed.

Lemma syncRasterizerState_sets (s : St) :
  result (syncRasterizerState mRenderer context drawCallParams s) = NoError tt ->
  exists state,
    In (RSSetState state) (calls (syncRasterizerState mRenderer context drawCallParams s)).
Proof.
  unfold syncRasterizerState. rewrite bind_getSM. cbv zeta.
  destruct (mCurPresentPathFastEnabled (rasterCache (sm s)));
    rewrite !run_bind, run_emit;
    match goal with
    | |- context [try ?r ?s0] =>
        rewrite (run_try r s0); destruct r as [dx|e]; [|cbn; discriminate]
    end;
    mrun; intros _; eexists; cbn; right; left; reflexivity.
Qed.

Lemma syncViewport_sets (s : St) :
  exists n viewports,
    In (RSSetViewports n viewports) (calls (syncViewport mRenderer context s)).
Proof.
  unfold syncViewport. rewrite bind_getSM. cbv zeta. rewrite run_bind, run_emit.
  destruct (List.last _ _) as [[[x y] w] h]. rewrite run_modSM. cbn.
  eexists _, _. left. reflexivity.
Qed.

(** X24.  State set on the device outside a draw does not outlive the next
    draw: a pass of [updateState] that succeeds after
    [setSimpleBlendState], [setDepthStencilState], [setRasterizerState] or
    [setSimpleViewport] sets the blend state (with a blend factor), the
    depth-stencil state, the rasterizer state or the viewports on the
    device again. *)
Theorem state_set_outside_a_draw_is_synchronised_again (s : St) :
  (forall blendState,
     let after := state (setSimpleBlendState blendState s) in
     result (pass after) = NoError tt ->
     exists state blendFactor sampleMask,
       In (OMSetBlendState state (Some blendFactor) sampleMask) (calls (pass after)))
  /\ (forall depthStencilState stencilRef,
        let after := state (setDepthStencilState depthStencilState stencilRef s) in
        result (pass after) = NoError tt ->
        exists state ref, In (OMSetDepthStencilState state ref) (calls (pass after)))
  /\ (forall rasterizerState,
        let after := state (setRasterizerState rasterizerState s) in
        result (pass after) = NoError tt ->
        exists state, In (RSSetState state) (calls (pass after)))
  /\ (forall width height,
        let after := state (setSimpleViewport width height s) in
        result (pass after) = NoError tt ->
        exists n viewports, In (RSSetViewports n viewports) (calls (pass after))).
Proof.
  split; [|split; [|split]].
  - intros blendState after Hres.
    destruct (updateState_runs_dirty_group after DIRTY_BIT_BLEND_STATE)
      as (sampleMask & s1 & Hr & Hc); [apply BitSet_test_set_same|exact Hres|].
    cbv zeta in Hr, Hc. cbn [syncDirtyBit] in Hr, Hc.
    destruct (syncBlendState_sets _ _ _ _ _ Hr) as (st & bf & Hin).
    exists st, bf, sampleMask. apply Hc, Hin.
  - intros depthStencilState stencilRef after Hres.
    destruct (updateState_runs_dirty_group after DIRTY_BIT_DEPTH_STENCIL_STATE)
      as (sampleMask & s1 & Hr & Hc); [apply BitSet_test_set_same|exact Hres|].
    cbv zeta in Hr, Hc. cbn [syncDirtyBit] in Hr, Hc.
    destruct (syncDepthStencilState_sets _ _ Hr) as (st & ref & Hin).
    exists st, ref. apply Hc, Hin.
  - intros rasterizerState after Hres.
    destruct (updateState_runs_dirty_group after DIRTY_BIT_RASTERIZER_STATE)
      as (sampleMask & s1 & Hr & Hc); [apply BitSet_test_set_same|exact Hres|].
    cbv zeta in Hr, Hc. cbn [syncDirtyBit] in Hr, Hc.
    destruct (syncRasterizerState_sets _ Hr) as (st & Hin).
    exists st. apply Hc, Hin.
  - intros width height after Hres.
    destruct (updateState_runs_dirty_group after DIRTY_BIT_VIEWPORT_STATE)
      as (sampleMask & s1 & Hr & Hc); [apply BitSet_test_set_same|exact Hres|].
    cbv zeta in Hr, Hc. cbn [syncDirtyBit] in Hr, Hc.
    destruct (syncViewport_sets s1) as (n & vps & Hin).
    exists n, vps. apply Hc, Hin.
Qed.
End Resynchronised.

(* ================================================================== *)
(** * Sampler states                                                     *)
(* ================================================================== *)

Lemma samplerStates_differ_refl (a : SamplerState) : samplerStates_differ a a = false.
Proof. unfold samplerStates_differ. rewrite bool_decide_eq_true_2; reflexivity. Qed.

Lemma setSamplerState_pixel (mRenderer : Renderer11) (context : Context) (index : nat)
    (texture : Texture) (samplerState : SamplerState) (dxSamplerState : Z) (s : St) :
  let c := samplerCaches (sm s) in
  index < length (mForceSetPixelSamplerStates c) ->
  index < length (mCurPixelSamplerStates c) ->
  Renderer11_getSamplerState mRenderer samplerState = NoError dxSamplerState ->
  let needed :=
    default false (mForceSetPixelSamplerStates c !! index)
    || samplerStates_differ samplerState (default [] (mCurPixelSamplerStates c !! index)) in
  let o := setSamplerState mRenderer context Fragment index texture samplerState s in
  result o = NoError tt
  /\ calls o = (if needed
                then [GetSamplerStateRequest samplerState;
                      XSSetSamplers Fragment (Z.of_nat index) 1 [dxSamplerState]]
                else [])
  /\ mForceSetPixelSamplerStates (samplerCaches (sm (state o)))
     = <[index := false]> (mForceSetPixelSamplerStates c)
  /\ mCurPixelSamplerStates (samplerCaches (sm (state o))) !! index = Some samplerState.
Proof.
  intros c Hf Hc Hdx needed o. subst o needed c. unfold setSamplerState.
  rewrite bind_getSM. cbv zeta.
  destruct (lookup_lt_is_Some_2 _ _ Hc) as [cur Hcur].
  destruct (default false (mForceSetPixelSamplerStates (samplerCaches (sm s)) !! index)
            || samplerStates_differ samplerState
                 (default [] (mCurPixelSamplerStates (samplerCaches (sm s)) !! index)))
    eqn:E.
  - rewrite Hdx. mrun. cbn. repeat split.
    apply list_lookup_insert_eq. exact Hc.
  - mrun. cbn. repeat split.
    apply orb_false_iff in E as [_ E].
    unfold samplerStates_differ in E. apply negb_false_iff, bool_decide_eq_true in E.
    etransitivity; [exact Hcur|]. f_equal. rewrite E. symmetry.
    exact (f_equal (default []) Hcur).
Qed.

(** X25.  [setSimplePixelTextureAndSampler] makes the manager forget the
    sampler of pixel slot 0: the next [setSamplerState] for that slot sets
    the sampler state on the device whether or not it is the cached one;
    after that the filter works again, and the same sampler state set once
    more makes no call. *)
Theorem setSimplePixelTextureAndSampler_forces_sampler (mRenderer : Renderer11)
    (context : Context) (srv : SRVWrapper) (simpleSampler : Resource11)
    (texture : Texture) (samplerState : SamplerState) (dxSamplerState : Z) (s : St) :
  0 < length (mForceSetPixelSamplerStates (samplerCaches (sm s))) ->
  0 < length (mCurPixelSamplerStates (samplerCaches (sm s))) ->
  Renderer11_getSamplerState mRenderer samplerState = NoError dxSamplerState ->
  let after := state (setSimplePixelTextureAndSampler srv simpleSampler s) in
  let set := setSamplerState mRenderer context Fragment 0 texture samplerState in
  calls (set after)
  = [GetSamplerStateRequest samplerState; XSSetSamplers Fragment 0 1 [dxSamplerState]]
  /\ calls (set (state (set after))) = [].
Proof.
  intros Hf Hc Hdx after set.
  assert (mForceSetPixelSamplerStates (samplerCaches (sm after))
          = <[0 := true]> (mForceSetPixelSamplerStates (samplerCaches (sm s)))
          /\ mCurPixelSamplerStates (samplerCaches (sm after))
             = mCurPixelSamplerStates (samplerCaches (sm s))) as [Hforce Hcur].
  { subst after. unfold setSimplePixelTextureAndSampler.
    rewrite run_bind.
    assert (samplerCaches (sm (state (setShaderResourceInternal Fragment 0 (Some srv) s)))
            = samplerCaches (sm s)) as Hsame.
    { rewrite setShaderResourceInternal_run by discriminate. cbv zeta.
      destruct (neZ _ _); reflexivity. }
    assert (result (setShaderResourceInternal Fragment 0 (Some srv) s) = NoError tt) as Hr.
    { rewrite setShaderResourceInternal_run by discriminate. cbv zeta.
      destruct (neZ _ _); reflexivity. }
    destruct (setShaderResourceInternal Fragment 0 (Some srv) s) as [[r1 s1] c1].
    cbn in Hsame, Hr. subst r1. mrun. cbn. rewrite Hsame. split; reflexivity. }
  assert (0 < length (mForceSetPixelSamplerStates (samplerCaches (sm after)))) as Hf1
    by (rewrite Hforce, length_insert; exact Hf).
  assert (0 < length (mCurPixelSamplerStates (samplerCaches (sm after)))) as Hc1
    by (rewrite Hcur; exact Hc).
  destruct (setSamplerState_pixel mRenderer context 0 texture samplerState dxSamplerState
              after Hf1 Hc1 Hdx) as (_ & Hcalls & Hforce2 & Hcur2).
  cbv zeta in Hcalls, Hforce2, Hcur2. fold set in Hcalls, Hforce2, Hcur2.
  split.
  - rewrite Hcalls, Hforce, list_lookup_insert_eq by exact Hf. reflexivity.
  - assert (0 < length (mForceSetPixelSamplerStates (samplerCaches (sm (state (set after))))))
      as Hf2 by (rewrite Hforce2, length_insert; exact Hf1).
    assert (0 < length (mCurPixelSamplerStates (samplerCaches (sm (state (set after))))))
      as Hc2 by (eapply lookup_lt_Some; exact Hcur2).
    destruct (setSamplerState_pixel mRenderer context 0 texture samplerState dxSamplerState
                (state (set after)) Hf2 Hc2 Hdx) as (_ & Hcalls3 & _).
    cbv zeta in Hcalls3. fold set in Hcalls3.
    rewrite Hcalls3, Hforce2, list_lookup_insert_eq by exact Hf1.
    match goal with
    | |- context [samplerStates_differ ?a ?b] =>
        replace b with a by (symmetry; exact (f_equal (default []) Hcur2))
    end.
    cbn. rewrite samplerStates_differ_refl. reflexivity.
Qed.

Lemma setSimplePixelTextureAndSampler_forces_sampler_witness :
  let after :=
    state (setSimplePixelTextureAndSampler RenderTargetExample.wrapper
             {| res_get := 0xF100; res_getSerial := 41 |} Sample.fresh) in
  let set :=
    setSamplerState Sample.renderer PassExample.context Fragment 0 SamplerExample.texture
      [] in
  calls (set after) = [GetSamplerStateRequest []; XSSetSamplers Fragment 0 1 [0xF000%Z]]
  /\ calls (set (state (set after))) = [].
Proof.
  cbv zeta.
  apply (setSimplePixelTextureAndSampler_forces_sampler Sample.renderer
           PassExample.context RenderTargetExample.wrapper
           {| res_get := 0xF100; res_getSerial := 41 |} SamplerExample.texture []
           0xF000%Z Sample.fresh).
  - vm_compute. lia.
  - vm_compute. lia.
  - reflexivity.
Defined.

(** X26. [syncTransformFeedbackBuffers]: a synchronisation that succeeds
    makes the next one, for the same context, a no-op (no [SOSetTargets],
    no state change: the applied serial and the cleared dirty flag filter
    it out); one that fails, because the stream-output buffers cannot be
    obtained, has issued no call and changed nothing, so it is tried again. *)
Theorem syncTransformFeedbackBuffers_settles (context : Context) (s : St) :
  let first := syncTransformFeedbackBuffers context s in
  match result first with
  | NoError _ =>
      let second := syncTransformFeedbackBuffers context (state first) in
      result second = NoError tt /\ calls second = [] /\ state second = state first
  | Error _ => calls first = [] /\ state first = s
  end.
Proof.
  cbv zeta. unfold syncTransformFeedbackBuffers.
  destruct s as [m w]. mrun. cbn.
  destruct (isTransformFeedbackActiveUnpaused (getGLState context)); cbn.
  - mrun. cbn.
    destruct ((mAppliedTFSerial (flags m)
               =? tf_getSerial (getCurrentTransformFeedback (getGLState context)))%Z
              && negb (tfDirty w)) eqn:Hsame.
    + mrun. cbn. rewrite Hsame. mrun. cbn. auto.
    + destruct (getSOBuffers (getCurrentTransformFeedback (getGLState context)))
        as [buffers | e] eqn:Hso.
      * rewrite bind_try_ok. mrun. cbn. rewrite Z.eqb_refl. cbn. mrun. cbn. auto.
      * rewrite bind_try_error. cbn. auto.
  - unfold when. destruct (neZ (mAppliedTFSerial (flags m)) (mEmptySerial (flags m))) eqn:Hne.
    + mrun. cbn. rewrite neZ_refl. mrun. cbn. auto.
    + mrun. cbn. rewrite Hne. mrun. cbn. auto.
Qed.

Lemma initialize_viewCaches (caps : Caps) (multiview : bool) (m : StateManager11) :
  viewCaches (initialize caps multiview m)
  = {| mCurVertexSRVs := ViewCache.initialize zero_SRV_DESC (maxVertexTextureImageUnits caps);
       mCurPixelSRVs := ViewCache.initialize zero_SRV_DESC (maxTextureImageUnits caps);
       mCurComputeSRVs := ViewCache.initialize zero_SRV_DESC (maxImageUnits caps);
       mCurComputeUAVs := ViewCache.initialize zero_UAV_DESC (maxImageUnits caps);
       mNullSRVs := replicate (maxTextureImageUnits caps) 0%Z;
       mNullUAVs := replicate (maxImageUnits caps) 0%Z |}.
Proof. destruct m. reflexivity. Qed.

(** X27. [clearSRVs] takes the null views it passes to the device from the
    block [mNullSRVs], which [initialize] sizes by the number of pixel
    texture units.  For a stage whose cache has no more slots than that
    (the pixel stage always), however the cache has been used since
    [initialize], the call made passes exactly [NumViews] null views:
    it is never asked for more views than the block holds. *)
Theorem clearSRVs_reads_within_null_block (caps : Caps) (multiview : bool)
    (m0 : StateManager11) (shaderType : ShaderType)
    (ops : list (ViewCache.op D3D11_SHADER_RESOURCE_VIEW_DESC))
    (rangeStart rangeEnd : nat) (s : St) :
  let init := viewCaches (initialize caps multiview m0) in
  getSRVCache shaderType (viewCaches (sm s))
    = ViewCache.run zero_SRV_DESC (getSRVCache shaderType init) ops ->
  mNullSRVs (viewCaches (sm s)) = mNullSRVs init ->
  shaderType = Fragment
  \/ ViewCache.size (getSRVCache shaderType init) <= maxTextureImageUnits caps ->
  forall c, In c (calls (clearSRVs shaderType rangeStart rangeEnd s)) ->
    exists count,
      c = XSSetShaderResources shaderType (Z.of_nat rangeStart) (Z.of_nat count)
            (replicate count 0%Z)
      /\ 0 < count <= maxTextureImageUnits caps.
Proof.
  intros init Hcache Hnull Hsize c Hc.
  assert (ViewCache.size (getSRVCache shaderType init) <= maxTextureImageUnits caps) as Hle.
  { destruct Hsize as [-> | H]; [|exact H].
    subst init. rewrite initialize_viewCaches. cbn.
    unfold ViewCache.size. cbn. rewrite length_replicate. lia. }
  assert (ViewCache.highestUsed (getSRVCache shaderType (viewCaches (sm s)))
          <= maxTextureImageUnits caps) as Hhigh.
  { rewrite Hcache.
    destruct (run_size_bound zero_SRV_DESC ops (getSRVCache shaderType init)) as [_ H].
    - subst init. rewrite initialize_viewCaches.
      destruct shaderType; cbn; lia.
    - lia. }
  assert (mNullSRVs (viewCaches (sm s)) = replicate (maxTextureImageUnits caps) 0%Z) as Hblock.
  { rewrite Hnull. subst init. rewrite initialize_viewCaches. reflexivity. }
  revert Hc. unfold clearSRVs.
  destruct (rangeStart =? rangeEnd)%nat; [rewrite run_ret; cbn; tauto|].
  mread.
  set (stop := Nat.min rangeEnd
                 (ViewCache.highestUsed (getSRVCache shaderType (viewCaches (sm s))))).
  rewrite Range_length_make.
  unfold Range.empty, Range.indices. cbn [Range.low Range.high].
  destruct (stop <=? rangeStart)%nat eqn:E; [rewrite run_ret; cbn; tauto|].
  apply Nat.leb_gt in E.
  rewrite run_bind, run_emitSetShaderResources, forM_modSM. cbn [result state calls fst snd].
  rewrite app_nil_r, Hblock, take_replicate.
  assert (Nat.min (stop - rangeStart) (maxTextureImageUnits caps) = stop - rangeStart) as ->
    by lia.
  intros Hc. exists (stop - rangeStart).
  destruct shaderType; cbn in Hc; try tauto;
    (destruct Hc as [<- | []]; split; [reflexivity|lia]).
Qed.

Lemma clearSRVs_reads_within_null_block_witness :
  exists count,
    XSSetShaderResources Fragment 1 3 [0; 0; 0]%Z
    = XSSetShaderResources Fragment (Z.of_nat 1) (Z.of_nat count) (replicate count 0%Z)
    /\ 0 < count <= 8.
Proof.
  apply (clearSRVs_reads_within_null_block Sample.caps false
           (new Sample.MAX_VERTEX_ATTRIBS Sample.MAX_UNIFORM_BUFFERS
              Sample.MAX_UNIFORM_BUFFERS Sample.renderer)
           Fragment ClearExample.binds 1 8 ClearExample.bound).
  - reflexivity.
  - reflexivity.
  - left. reflexivity.
  - vm_compute. left. reflexivity.
Defined.

Lemma FindFirstNonInstanced_loop (l : list (option TranslatedAttribute)) : forall k : nat,
  match
    (fix loop (index : nat) (l : list (option TranslatedAttribute)) : Optional nat :=
       match l with
       | [] => None
       | a :: l' =>
           if (ta_divisor (default empty_TranslatedAttribute a) =? 0)%Z
           then Some index
           else loop (S index) l'
       end) k l
  with
  | Some i =>
      k <= i
      /\ (exists a, l !! (i - k) = Some a
                    /\ ta_divisor (default empty_TranslatedAttribute a) = 0%Z)
      /\ (forall j a, j < i - k -> l !! j = Some a ->
                      ta_divisor (default empty_TranslatedAttribute a) <> 0%Z)
  | None =>
      forall j a, l !! j = Some a ->
                  ta_divisor (default empty_TranslatedAttribute a) <> 0%Z
  end.
Proof.
  induction l as [|a l IH]; intros k.
  - intros j b H. destruct j; discriminate H.
  - destruct (ta_divisor (default empty_TranslatedAttribute a) =? 0)%Z eqn:E.
    + apply Z.eqb_eq in E. split; [lia|]. split.
      * exists a. rewrite Nat.sub_diag. split; [reflexivity|exact E].
      * intros j b Hj. lia.
    + apply Z.eqb_neq in E. specialize (IH (S k)).
      destruct ((fix loop (index : nat) (l : list (option TranslatedAttribute))
                   : Optional nat :=
                   match l with
                   | [] => None
                   | a :: l' =>
                       if (ta_divisor (default empty_TranslatedAttribute a) =? 0)%Z
                       then Some index
                       else loop (S index) l'
                   end) (S k) l) as [i|].
      * destruct IH as (Hk & (b & Hb & Hd) & Hbefore). split; [lia|]. split.
        -- exists b. replace (i - k) with (S (i - S k)) by lia. split; assumption.
        -- intros j c Hj Hc. destruct j as [|j].
           ++ cbn in Hc. injection Hc as <-. exact E.
           ++ apply (Hbefore j c); [lia|exact Hc].
      * intros j c Hc. destruct j as [|j].
        -- cbn in Hc. injection Hc as <-. exact E.
        -- apply (IH j c Hc).
Qed.

(** X28. [FindFirstNonInstanced] returns the index of the first attribute
    whose divisor is zero: the attribute at that index is not instanced and
    every attribute before it is; it returns nothing exactly when every
    attribute of the list is instanced. *)
Theorem FindFirstNonInstanced_is_first
    (currentAttributes : list (option TranslatedAttribute)) :
  match FindFirstNonInstanced currentAttributes with
  | Some index =>
      (exists a, currentAttributes !! index = Some a
                 /\ ta_divisor (default empty_TranslatedAttribute a) = 0%Z)
      /\ (forall j a, j < index -> currentAttributes !! j = Some a ->
                      ta_divisor (default empty_TranslatedAttribute a) <> 0%Z)
  | None =>
      forall j a, currentAttributes !! j = Some a ->
                  ta_divisor (default empty_TranslatedAttribute a) <> 0%Z
  end.
Proof.
  pose proof (FindFirstNonInstanced_loop currentAttributes 0) as H.
  unfold FindFirstNonInstanced.
  destruct ((fix loop (index : nat) (l : list (option TranslatedAttribute))
               : Optional nat :=
               match l with
               | [] => None
               | a :: l' =>
                   if (ta_divisor (default empty_TranslatedAttribute a) =? 0)%Z
                   then Some index
                   else loop (S index) l'
               end) 0 currentAttributes) as [i|].
  - rewrite Nat.sub_0_r in H. destruct H as (_ & H1 & H2). split; assumption.
  - exact H.
Qed.


Lemma queueVertexBufferChange_attributes i b st o v :
  mCurrentAttributes (queueVertexBufferChange i b st o v).1 = mCurrentAttributes v.
Proof. unfold queueVertexBufferChange. destruct (_ || _); reflexivity. Qed.

Ltac attrs_step :=
  first
    [ quiet_step
    | apply preserves_modSM; intros ?; unfold currentAttributes; cbn;
      first [ reflexivity | apply queueVertexBufferChange_attributes ] ].

Lemma applyVertexBuffers_attributes n r context params :
  preserves currentAttributes (applyVertexBuffers n r context params).
Proof.
  unfold applyVertexBuffers, applyVertexBufferChanges, syncIndexBuffer.
  repeat attrs_step.
Qed.

Lemma set_mCurrentAttributes_then (cur : list (option TranslatedAttribute))
    (rest : M St unit) (s : St) :
  preserves currentAttributes rest ->
  currentAttributes
    (state ((modSM (upd_vertexCache (set_mCurrentAttributes cur));; rest) s)) = cur.
Proof.
  intros H. rewrite run_bind, run_modSM. cbn [result state fst snd].
  specialize (H {| sm := upd_vertexCache (set_mCurrentAttributes cur) (sm s);
                   world := world s |}).
  destruct (rest _) as [[r2 s2] c2]. cbn in H |- *. rewrite H.
  unfold currentAttributes. destruct s as [[] ?]. reflexivity.
Qed.

(** X29. On feature level 9_3 [syncVertexBuffersAndInputLayout] makes the
    first attribute a non-instanced one whenever there is one: with no
    null entry among the sorted attributes, [mCurrentAttributes] is left
    as the sorted attributes with entry 0 and the first entry [k] of
    divisor zero exchanged (nothing moves when entry 0 is that entry),
    whether or not the input layout and the vertex buffers can then be
    applied. *)
Theorem syncVertexBuffersAndInputLayout_first_not_instanced (MAX_VERTEX_ATTRIBS : nat)
    (mRenderer : Renderer11) (context : Context) (drawCallParams : DrawCallParams)
    (s : St) :
  let glState := getGLState context in
  let sorted :=
    (SortAttributesByLayout MAX_VERTEX_ATTRIBS (getProgram glState)
       (getTranslatedAttribs (getVertexArray glState))
       (mCurrentValueAttribs (vertexCache (sm s)))
       (replicate MAX_VERTEX_ATTRIBS 0%Z)).2 in
  let after :=
    currentAttributes
      (state (syncVertexBuffersAndInputLayout MAX_VERTEX_ATTRIBS mRenderer context
                drawCallParams s)) in
  featureLevel_le_9_3 mRenderer = true ->
  (forall j, sorted !! j <> Some None) ->
  forall first, sorted !! 0 = Some (Some first) -> (0 <= ta_divisor first)%Z ->
  forall i a, sorted !! i = Some (Some a) -> ta_divisor a = 0%Z ->
  exists k b,
    k <= i /\ sorted !! k = Some (Some b) /\ ta_divisor b = 0%Z
    /\ after !! 0 = Some (Some b) /\ after !! k = Some (Some first)
    /\ forall j, j <> 0 -> j <> k -> after !! j = sorted !! j.
Proof.
  intros glState sorted after Hfl Hnonnull first Hfirst Hdiv i a Hi Ha.
  subst after. unfold syncVertexBuffersAndInputLayout. mread. fold glState.
  revert sorted Hnonnull Hfirst Hi.
  destruct (SortAttributesByLayout MAX_VERTEX_ATTRIBS (getProgram glState)
              (getTranslatedAttribs (getVertexArray glState))
              (mCurrentValueAttribs (vertexCache (sm s)))
              (replicate MAX_VERTEX_ATTRIBS 0%Z)) as [sem cur].
  cbn [snd]. intros Hnonnull Hfirst Hi.
  assert (forall l sem',
            preserves currentAttributes
              (inputLayout ← try (getInputLayout mRenderer l sem' drawCallParams);
               setInputLayoutInternal inputLayout;;
               applyVertexBuffers MAX_VERTEX_ATTRIBS mRenderer context drawCallParams))
    as Hrest.
  { intros l sem'. unfold setInputLayoutInternal.
    repeat attrs_step. }
  destruct cur as [|f0 rest]; [discriminate Hfirst|].
  cbn in Hfirst. injection Hfirst as ->.
  rewrite Hfl. cbn [andb].
  change (default empty_TranslatedAttribute (Some first)) with first.
  destruct (0 <? ta_divisor first)%Z eqn:Hpos.
  - apply Z.ltb_lt in Hpos.
    pose proof (FindFirstNonInstanced_loop (Some first :: rest) 0) as Hfind.
    unfold FindFirstNonInstanced.
    destruct ((fix loop (index : nat) (l : list (option TranslatedAttribute))
                 : Optional nat :=
                 match l with
                 | [] => None
                 | a :: l' =>
                     if (ta_divisor (default empty_TranslatedAttribute a) =? 0)%Z
                     then Some index
                     else loop (S index) l'
                 end) 0 (Some first :: rest)) as [index|].
    + rewrite Nat.sub_0_r in Hfind.
      destruct Hfind as (_ & (e & He & Hd) & Hbefore).
      destruct e as [b|]; [|exfalso; exact (Hnonnull index He)].
      cbn in Hd.
      assert (index <> 0) as Hne.
      { intros ->. cbn in He. injection He as <-. lia. }
      assert (index < length (Some first :: rest)) as Hlen
        by (eapply lookup_lt_Some; exact He).
      cbv beta iota. rewrite set_mCurrentAttributes_then by apply Hrest.
      exists index, b. rewrite He. cbn [default].
      split; [|split; [reflexivity|split; [exact Hd|split; [|split]]]].
      * destruct (Nat.le_gt_cases index i) as [H|H]; [exact H|].
        exfalso. apply (Hbefore i (Some a) H Hi). exact Ha.
      * rewrite list_lookup_insert_ne by lia.
        apply list_lookup_insert_eq. cbn. lia.
      * apply list_lookup_insert_eq. rewrite length_insert. exact Hlen.
      * intros j Hj0 Hjk.
        rewrite list_lookup_insert_ne by lia.
        apply list_lookup_insert_ne. lia.
    + exfalso. apply (Hfind i (Some a) Hi). exact Ha.
  - apply Z.ltb_ge in Hpos.
    cbv beta iota. rewrite set_mCurrentAttributes_then by apply Hrest.
    exists 0, first. repeat split; try reflexivity; lia.
Qed.

Lemma syncVertexBuffersAndInputLayout_first_not_instanced_witness :
  let after :=
    currentAttributes
      (state (syncVertexBuffersAndInputLayout Sample.MAX_VERTEX_ATTRIBS
                InstancedExample.renderer InstancedExample.context Sample.drawTriangles
                Sample.fresh)) in
  exists k b,
    k <= 1
    /\ [Some InstancedExample.perInstance; Some InstancedExample.perVertex] !! k
       = Some (Some b)
    /\ ta_divisor b = 0%Z
    /\ after !! 0 = Some (Some b)
    /\ after !! k = Some (Some InstancedExample.perInstance)
    /\ forall j, j <> 0 -> j <> k ->
                 after !! j
                 = [Some InstancedExample.perInstance; Some InstancedExample.perVertex] !! j.
Proof.
  cbv zeta.
  apply (syncVertexBuffersAndInputLayout_first_not_instanced Sample.MAX_VERTEX_ATTRIBS
           InstancedExample.renderer InstancedExample.context Sample.drawTriangles
           Sample.fresh eq_refl)
    with (first := InstancedExample.perInstance) (i := 1) (a := InstancedExample.perVertex).
  - intros [|[|j]]; vm_compute; discriminate.
  - reflexivity.
  - vm_compute. discriminate.
  - reflexivity.
  - reflexivity.
Defined.

Lemma filter_all {A} (P : A -> Prop) `{!forall x, Decision (P x)} (l : list A) :
  (forall x, In x l -> P x) -> filter P l = l.
Proof.
  induction l as [|x l IH]; intros Hall; [reflexivity|].
  rewrite filter_cons_True by (apply Hall; left; reflexivity).
  f_equal. apply IH. intros y Hy. apply Hall. right. exact Hy.
Qed.

Lemma initialize_mInternalDirtyBits (caps : Caps) (multiview : bool) (m : StateManager11) :
  mInternalDirtyBits (initialize caps multiview m) = mInternalDirtyBits m.
Proof. destruct m. reflexivity. Qed.

(** X30. A manager is constructed with every internal dirty bit set and
    [initialize] leaves them set, so the first [updateState] of a manager
    walks every group, in the order of the enumeration, whatever the
    context and the draw are. *)
Theorem first_updateState_walks_every_group (MAX_VERTEX_ATTRIBS : nat)
    (IMPLEMENTATION_MAX_VERTEX_SHADER_UNIFORM_BUFFERS
       IMPLEMENTATION_MAX_FRAGMENT_SHADER_UNIFORM_BUFFERS : nat)
    (mRenderer : Renderer11) (caps : Caps) (multiview : bool) (w : World)
    (context : Context) (drawCallParams : DrawCallParams)
    (sampleMask : Z) (dirtyBitsCopy : BitSet.t) :
  let fresh :=
    {| sm := initialize caps multiview
               (new MAX_VERTEX_ATTRIBS IMPLEMENTATION_MAX_VERTEX_SHADER_UNIFORM_BUFFERS
                  IMPLEMENTATION_MAX_FRAGMENT_SHADER_UNIFORM_BUFFERS mRenderer);
       world := w |} in
  result (updateState_prepare mRenderer context drawCallParams fresh)
  = NoError (sampleMask, dirtyBitsCopy) ->
  dirtyBitsOf dirtyBitsCopy = allDirtyBits.
Proof.
  intros fresh Hres. unfold dirtyBitsOf. apply filter_all. intros b _.
  apply (updateState_prepare_snapshot mRenderer context drawCallParams fresh _ Hres b).
  unfold internalBit, fresh. cbn [sm]. rewrite initialize_mInternalDirtyBits.
  destruct b; reflexivity.
Qed.

Lemma first_updateState_walks_every_group_witness :
  dirtyBitsOf 32767%Z = allDirtyBits.
Proof.
  apply (first_updateState_walks_every_group Sample.MAX_VERTEX_ATTRIBS
           Sample.MAX_UNIFORM_BUFFERS Sample.MAX_UNIFORM_BUFFERS Sample.renderer
           Sample.caps false Sample.initialWorld PassExample.context Sample.drawTriangles
           4294967295%Z 32767%Z).
  vm_compute. reflexivity.
Defined.
